(** * ical-planner: the day schedule, its gestures and its history

    A shallow embedding of the schedule logic of [src/ical.py]: the day
    view ([DayView]) with its blocks ([EventWidget]), the placement search,
    grid snapping, smart-scale resizing, group moves, and the undo history
    kept by the main window ([MainWindow]).

    Conventions of the embedding.
    - Python [int] is [Z].  Python [float] values that arise from pointer
      coordinates and from [minute / step] are idealised as exact rationals
      ([Q]); [round] is Python 3's round-half-to-even and [int] truncates
      toward zero.
    - A widget is a mutable object; it is identified by [wid] and lives in
      [event_widgets].  Sets of widgets (the box selection) are sets of
      identities, so a change made through the list is seen through the set.
    - [DayView.owner] is the main window, which is always set once the
      application is built; the operations therefore act on [MainWindow],
      which contains the day view.
    - Painting, cursors, timers, notifications, file output, the dialogs
      and the hit-testing of the day view's own mouse handlers are left out;
      messages shown on the status bar are collected in [status]. *)

From Stdlib Require Import ZArith QArith Qround Qabs Lia Lqa Bool.
From stdpp Require Import base gmap list strings pretty.

Local Open Scope Z_scope.

(** ** Python and Qt primitives *)

(** [round(x)] of Python 3: nearest integer, ties to the even one. *)
Definition py_round (x : Q) : Z :=
  let f := Qfloor x in
  match Qcompare (x - inject_Z f) (1 # 2) with
  | Lt => f
  | Gt => f + 1
  | Eq => if Z.even f then f else f + 1
  end.

(** [int(x)] on a float: truncation toward zero. *)
Definition py_int (x : Q) : Z :=
  if Qle_bool 0 x then Qfloor x else Qceiling x.

(** [a / b] on two ints: true division. *)
Definition py_truediv (a b : Z) : Q := (inject_Z a / inject_Z b)%Q.

(** [l[:k]] and [del l[:k]] with Python's reading of a negative bound. *)
Definition py_slice_to {A} (l : list A) (k : Z) : list A :=
  if k <? 0 then firstn (Z.to_nat (Z.of_nat (length l) + k)) l
  else firstn (Z.to_nat k) l.

Definition py_del_to {A} (l : list A) (k : Z) : list A :=
  if k <? 0 then skipn (Z.to_nat (Z.of_nat (length l) + k)) l
  else skipn (Z.to_nat k) l.

(** [l[i]] for [0 <= i]; the callers guard the index. *)
Definition py_index {A} (l : list A) (i : Z) : option A :=
  if i <? 0 then l !! Z.to_nat (Z.of_nat (length l) + i)
  else l !! Z.to_nat i.

(** [c.isspace()].  A character of a string stands for a code point below
    256; there Python's white space is 9 to 13, 28 to 32, 133 and 160. *)
Definition is_space (c : Ascii.ascii) : bool :=
  let n := Ascii.nat_of_ascii c in
  ((9 <=? n)%nat && (n <=? 13)%nat) || ((28 <=? n)%nat && (n <=? 32)%nat)
  || (n =? 133)%nat || (n =? 160)%nat.

Fixpoint lstrip (s : string) : string :=
  match s with
  | String c s' => if is_space c then lstrip s' else s
  | EmptyString => EmptyString
  end.

Fixpoint rstrip (s : string) : string :=
  match s with
  | String c s' =>
      match rstrip s' with
      | EmptyString => if is_space c then EmptyString else String c EmptyString
      | r => String c r
      end
  | EmptyString => EmptyString
  end.

(** [s.strip()] *)
Definition py_strip (s : string) : string := rstrip (lstrip s).

(** [sorted(l, key=...)] and [list.sort()]: a stable insertion sort. *)
Section Sorting.
Context {A : Type} (leb : A -> A -> bool).

Fixpoint insert_sorted (x : A) (l : list A) : list A :=
  match l with
  | [] => [x]
  | y :: l' => if leb y x then y :: insert_sorted x l' else x :: l
  end.

Definition py_sorted (l : list A) : list A :=
  foldl (fun acc x => insert_sorted x acc) [] l.

End Sorting.

(** Order of Python tuples [(int, int)]. *)
Definition tuple_leb (a b : Z * Z) : bool :=
  (a.1 <? b.1) || ((a.1 =? b.1) && (a.2 <=? b.2)).

(** ** The data model *)

Definition MINUTES_PER_DAY : Z := 24 * 60.
Definition BASE_PX_PER_MIN : Q := 3.

Inductive DragMode := resize_top | resize_bottom | move.

#[global] Instance DragMode_eq_dec : EqDecision DragMode.
Proof. solve_decision. Defined.

Inductive MouseButton := LeftButton | RightButton | MiddleButton.

#[global] Instance MouseButton_eq_dec : EqDecision MouseButton.
Proof. solve_decision. Defined.

(** What the handlers read from a [QMouseEvent]: the button, the position
    inside the receiving widget, the global position, and the position
    mapped into the day view ([mapFromGlobal(...).y()]). *)
Record MouseEvent := {
  button : MouseButton;
  position_y : Q;
  global_y : Q;
  day_y : Z
}.

(** [EventWidget]: one block of the day.  [wid] stands for the identity
    of the Python object. *)
Record EventWidget := {
  wid : nat;
  start_min : Z;
  end_min : Z;
  title : string;
  tag : string;
  color : string;
  from_rule : bool;
  rule_id : option string;
  locked : bool;
  image_rel : option string;
  notify_offset : Z;
  _box_selected : bool;
  _group_dragging : bool;
  _drag_mode : option DragMode;
  _press_global_y : Q;
  _orig_start : Z;
  _orig_end : Z;
  _orig_duration : Z
}.

(** A stored event of [events_by_date] (a dict in the source). *)
Record EventItem := {
  it_start_min : Z;
  it_end_min : Z;
  it_title : string;
  it_tag : string;
  it_color : string;
  it_locked : Z;
  it_image : string;
  it_notify_offset : Z
}.

#[global] Instance option_string_eq_dec : EqDecision (option string).
Proof. solve_decision. Defined.

#[global] Instance EventItem_eq_dec : EqDecision EventItem.
Proof. solve_decision. Defined.

(** A repeat rule of [repeat_rules]. *)
Record Rule := {
  r_id : string;
  r_type : string;
  r_start_min : Z;
  r_end_min : Z;
  r_title : string;
  r_tag : string;
  r_color : string;
  r_locked : Z;
  r_image : string;
  r_notify_offset : Z
}.

(** An entry of [_history]. *)
Record HistoryEntry := {
  h_date : string;
  h_events : list EventItem;
  h_action : string;
  h_timestamp : string
}.

(** [DayView].  Besides the attributes of the source there are
    [next_wid], the identity the next block will get, and
    [current_time_minute], the reading of [QTime.currentTime()] in minutes
    of the day; [event_default] is the one preference the schedule reads. *)
Record DayView := {
  event_default : string;
  px_per_min : Q;
  time_size_minutes : Z;
  snap_enabled : bool;
  smart_scale_enabled : bool;
  magnetic_mode : bool;
  event_widgets : list EventWidget;
  show_now_line : bool;
  box_select_mode : bool;
  _box_selecting : bool;
  _box_selected_widgets : gset nat;
  _group_move_active : bool;
  _group_move_start_global : Q;
  _group_move_last_delta : Z;
  _group_move_refs : list (nat * Z * Z);
  _group_move_selected : gset nat;
  next_wid : nat;
  current_time_minute : Z
}.

(** [MainWindow].  A [QDate] is modelled by its key "yyyy-MM-dd";
    [status] collects the messages of the status bar and
    [current_date_time] is the reading of [QDateTime.currentDateTime()]. *)
Record MainWindow := {
  day_view : DayView;
  events_by_date : gmap string (list EventItem);
  repeat_rules : list Rule;
  current_date : string;
  _history : list HistoryEntry;
  _history_index : Z;
  _history_freeze : bool;
  _history_max : Z;
  _pending_history_action : option string;
  status : list string;
  current_date_time : string
}.

(** ** Field updates (Python attribute assignment) *)

Definition with_range (s e : Z) (w : EventWidget) : EventWidget :=
  {| wid := wid w; start_min := s; end_min := e; title := title w; tag := tag w;
     color := color w; from_rule := from_rule w; rule_id := rule_id w;
     locked := locked w; image_rel := image_rel w; notify_offset := notify_offset w;
     _box_selected := _box_selected w; _group_dragging := _group_dragging w;
     _drag_mode := _drag_mode w; _press_global_y := _press_global_y w;
     _orig_start := _orig_start w; _orig_end := _orig_end w;
     _orig_duration := _orig_duration w |}.

Definition with_drag_mode (m : option DragMode) (w : EventWidget) : EventWidget :=
  {| wid := wid w; start_min := start_min w; end_min := end_min w; title := title w;
     tag := tag w; color := color w; from_rule := from_rule w; rule_id := rule_id w;
     locked := locked w; image_rel := image_rel w; notify_offset := notify_offset w;
     _box_selected := _box_selected w; _group_dragging := _group_dragging w;
     _drag_mode := m; _press_global_y := _press_global_y w;
     _orig_start := _orig_start w; _orig_end := _orig_end w;
     _orig_duration := _orig_duration w |}.

Definition with_press_global_y (y : Q) (w : EventWidget) : EventWidget :=
  {| wid := wid w; start_min := start_min w; end_min := end_min w; title := title w;
     tag := tag w; color := color w; from_rule := from_rule w; rule_id := rule_id w;
     locked := locked w; image_rel := image_rel w; notify_offset := notify_offset w;
     _box_selected := _box_selected w; _group_dragging := _group_dragging w;
     _drag_mode := _drag_mode w; _press_global_y := y;
     _orig_start := _orig_start w; _orig_end := _orig_end w;
     _orig_duration := _orig_duration w |}.

Definition with_orig (s e : Z) (w : EventWidget) : EventWidget :=
  {| wid := wid w; start_min := start_min w; end_min := end_min w; title := title w;
     tag := tag w; color := color w; from_rule := from_rule w; rule_id := rule_id w;
     locked := locked w; image_rel := image_rel w; notify_offset := notify_offset w;
     _box_selected := _box_selected w; _group_dragging := _group_dragging w;
     _drag_mode := _drag_mode w; _press_global_y := _press_global_y w;
     _orig_start := s; _orig_end := e;
     _orig_duration := _orig_duration w |}.

Definition with_orig_duration (d : Z) (w : EventWidget) : EventWidget :=
  {| wid := wid w; start_min := start_min w; end_min := end_min w; title := title w;
     tag := tag w; color := color w; from_rule := from_rule w; rule_id := rule_id w;
     locked := locked w; image_rel := image_rel w; notify_offset := notify_offset w;
     _box_selected := _box_selected w; _group_dragging := _group_dragging w;
     _drag_mode := _drag_mode w; _press_global_y := _press_global_y w;
     _orig_start := _orig_start w; _orig_end := _orig_end w;
     _orig_duration := d |}.

Definition with_box_selected (b : bool) (w : EventWidget) : EventWidget :=
  {| wid := wid w; start_min := start_min w; end_min := end_min w; title := title w;
     tag := tag w; color := color w; from_rule := from_rule w; rule_id := rule_id w;
     locked := locked w; image_rel := image_rel w; notify_offset := notify_offset w;
     _box_selected := b; _group_dragging := _group_dragging w;
     _drag_mode := _drag_mode w; _press_global_y := _press_global_y w;
     _orig_start := _orig_start w; _orig_end := _orig_end w;
     _orig_duration := _orig_duration w |}.

Definition with_group_dragging (b : bool) (w : EventWidget) : EventWidget :=
  {| wid := wid w; start_min := start_min w; end_min := end_min w; title := title w;
     tag := tag w; color := color w; from_rule := from_rule w; rule_id := rule_id w;
     locked := locked w; image_rel := image_rel w; notify_offset := notify_offset w;
     _box_selected := _box_selected w; _group_dragging := b;
     _drag_mode := _drag_mode w; _press_global_y := _press_global_y w;
     _orig_start := _orig_start w; _orig_end := _orig_end w;
     _orig_duration := _orig_duration w |}.

Definition with_event_widgets (ws : list EventWidget) (dv : DayView) : DayView :=
  {| event_default := event_default dv; px_per_min := px_per_min dv;
     time_size_minutes := time_size_minutes dv; snap_enabled := snap_enabled dv;
     smart_scale_enabled := smart_scale_enabled dv; magnetic_mode := magnetic_mode dv;
     event_widgets := ws; show_now_line := show_now_line dv;
     box_select_mode := box_select_mode dv; _box_selecting := _box_selecting dv;
     _box_selected_widgets := _box_selected_widgets dv;
     _group_move_active := _group_move_active dv;
     _group_move_start_global := _group_move_start_global dv;
     _group_move_last_delta := _group_move_last_delta dv;
     _group_move_refs := _group_move_refs dv;
     _group_move_selected := _group_move_selected dv;
     next_wid := next_wid dv; current_time_minute := current_time_minute dv |}.

Definition with_next_wid (n : nat) (dv : DayView) : DayView :=
  {| event_default := event_default dv; px_per_min := px_per_min dv;
     time_size_minutes := time_size_minutes dv; snap_enabled := snap_enabled dv;
     smart_scale_enabled := smart_scale_enabled dv; magnetic_mode := magnetic_mode dv;
     event_widgets := event_widgets dv; show_now_line := show_now_line dv;
     box_select_mode := box_select_mode dv; _box_selecting := _box_selecting dv;
     _box_selected_widgets := _box_selected_widgets dv;
     _group_move_active := _group_move_active dv;
     _group_move_start_global := _group_move_start_global dv;
     _group_move_last_delta := _group_move_last_delta dv;
     _group_move_refs := _group_move_refs dv;
     _group_move_selected := _group_move_selected dv;
     next_wid := n; current_time_minute := current_time_minute dv |}.

Definition with_box_selected_widgets (s : gset nat) (dv : DayView) : DayView :=
  {| event_default := event_default dv; px_per_min := px_per_min dv;
     time_size_minutes := time_size_minutes dv; snap_enabled := snap_enabled dv;
     smart_scale_enabled := smart_scale_enabled dv; magnetic_mode := magnetic_mode dv;
     event_widgets := event_widgets dv; show_now_line := show_now_line dv;
     box_select_mode := box_select_mode dv; _box_selecting := _box_selecting dv;
     _box_selected_widgets := s;
     _group_move_active := _group_move_active dv;
     _group_move_start_global := _group_move_start_global dv;
     _group_move_last_delta := _group_move_last_delta dv;
     _group_move_refs := _group_move_refs dv;
     _group_move_selected := _group_move_selected dv;
     next_wid := next_wid dv; current_time_minute := current_time_minute dv |}.

Definition with_box_selecting (b : bool) (dv : DayView) : DayView :=
  {| event_default := event_default dv; px_per_min := px_per_min dv;
     time_size_minutes := time_size_minutes dv; snap_enabled := snap_enabled dv;
     smart_scale_enabled := smart_scale_enabled dv; magnetic_mode := magnetic_mode dv;
     event_widgets := event_widgets dv; show_now_line := show_now_line dv;
     box_select_mode := box_select_mode dv; _box_selecting := b;
     _box_selected_widgets := _box_selected_widgets dv;
     _group_move_active := _group_move_active dv;
     _group_move_start_global := _group_move_start_global dv;
     _group_move_last_delta := _group_move_last_delta dv;
     _group_move_refs := _group_move_refs dv;
     _group_move_selected := _group_move_selected dv;
     next_wid := next_wid dv; current_time_minute := current_time_minute dv |}.

(** The five fields that [_start_group_move], [_finish_group_move] and
    [_cancel_group_move] assign together. *)
Definition with_group_move (active : bool) (start_global : Q) (last_delta : Z)
    (refs : list (nat * Z * Z)) (selected : gset nat) (dv : DayView) : DayView :=
  {| event_default := event_default dv; px_per_min := px_per_min dv;
     time_size_minutes := time_size_minutes dv; snap_enabled := snap_enabled dv;
     smart_scale_enabled := smart_scale_enabled dv; magnetic_mode := magnetic_mode dv;
     event_widgets := event_widgets dv; show_now_line := show_now_line dv;
     box_select_mode := box_select_mode dv; _box_selecting := _box_selecting dv;
     _box_selected_widgets := _box_selected_widgets dv;
     _group_move_active := active;
     _group_move_start_global := start_global;
     _group_move_last_delta := last_delta;
     _group_move_refs := refs;
     _group_move_selected := selected;
     next_wid := next_wid dv; current_time_minute := current_time_minute dv |}.

Definition with_day_view (dv : DayView) (mw : MainWindow) : MainWindow :=
  {| day_view := dv; events_by_date := events_by_date mw;
     repeat_rules := repeat_rules mw; current_date := current_date mw;
     _history := _history mw; _history_index := _history_index mw;
     _history_freeze := _history_freeze mw; _history_max := _history_max mw;
     _pending_history_action := _pending_history_action mw;
     status := status mw; current_date_time := current_date_time mw |}.

Definition with_events_by_date (m : gmap string (list EventItem)) (mw : MainWindow)
    : MainWindow :=
  {| day_view := day_view mw; events_by_date := m;
     repeat_rules := repeat_rules mw; current_date := current_date mw;
     _history := _history mw; _history_index := _history_index mw;
     _history_freeze := _history_freeze mw; _history_max := _history_max mw;
     _pending_history_action := _pending_history_action mw;
     status := status mw; current_date_time := current_date_time mw |}.

Definition with_repeat_rules (rs : list Rule) (mw : MainWindow) : MainWindow :=
  {| day_view := day_view mw; events_by_date := events_by_date mw;
     repeat_rules := rs; current_date := current_date mw;
     _history := _history mw; _history_index := _history_index mw;
     _history_freeze := _history_freeze mw; _history_max := _history_max mw;
     _pending_history_action := _pending_history_action mw;
     status := status mw; current_date_time := current_date_time mw |}.

Definition with_current_date (d : string) (mw : MainWindow) : MainWindow :=
  {| day_view := day_view mw; events_by_date := events_by_date mw;
     repeat_rules := repeat_rules mw; current_date := d;
     _history := _history mw; _history_index := _history_index mw;
     _history_freeze := _history_freeze mw; _history_max := _history_max mw;
     _pending_history_action := _pending_history_action mw;
     status := status mw; current_date_time := current_date_time mw |}.

Definition with_history (h : list HistoryEntry) (i : Z) (mw : MainWindow) : MainWindow :=
  {| day_view := day_view mw; events_by_date := events_by_date mw;
     repeat_rules := repeat_rules mw; current_date := current_date mw;
     _history := h; _history_index := i;
     _history_freeze := _history_freeze mw; _history_max := _history_max mw;
     _pending_history_action := _pending_history_action mw;
     status := status mw; current_date_time := current_date_time mw |}.

Definition with_history_freeze (b : bool) (mw : MainWindow) : MainWindow :=
  {| day_view := day_view mw; events_by_date := events_by_date mw;
     repeat_rules := repeat_rules mw; current_date := current_date mw;
     _history := _history mw; _history_index := _history_index mw;
     _history_freeze := b; _history_max := _history_max mw;
     _pending_history_action := _pending_history_action mw;
     status := status mw; current_date_time := current_date_time mw |}.

Definition with_pending_history_action (a : option string) (mw : MainWindow)
    : MainWindow :=
  {| day_view := day_view mw; events_by_date := events_by_date mw;
     repeat_rules := repeat_rules mw; current_date := current_date mw;
     _history := _history mw; _history_index := _history_index mw;
     _history_freeze := _history_freeze mw; _history_max := _history_max mw;
     _pending_history_action := a;
     status := status mw; current_date_time := current_date_time mw |}.

Definition with_status (s : list string) (mw : MainWindow) : MainWindow :=
  {| day_view := day_view mw; events_by_date := events_by_date mw;
     repeat_rules := repeat_rules mw; current_date := current_date mw;
     _history := _history mw; _history_index := _history_index mw;
     _history_freeze := _history_freeze mw; _history_max := _history_max mw;
     _pending_history_action := _pending_history_action mw;
     status := s; current_date_time := current_date_time mw |}.

(** Assignments through a reference to a widget: every holder of the
    reference sees the change, because holders keep the identity only. *)
Definition update_widget (i : nat) (f : EventWidget -> EventWidget)
    (ws : list EventWidget) : list EventWidget :=
  map (fun w => if Nat.eqb (wid w) i then f w else w) ws.

Fixpoint widget_by_id (i : nat) (ws : list EventWidget) : option EventWidget :=
  match ws with
  | [] => None
  | w :: ws' => if Nat.eqb (wid w) i then Some w else widget_by_id i ws'
  end.

Definition modify_widget (i : nat) (f : EventWidget -> EventWidget)
    (mw : MainWindow) : MainWindow :=
  with_day_view
    (with_event_widgets (update_widget i f (event_widgets (day_view mw))) (day_view mw))
    mw.

(** ** The main window: status bar, saving the day, recording history *)

Definition showMessage (msg : string) (mw : MainWindow) : MainWindow :=
  with_status (status mw ++ [msg]) mw.

(** [flash_status(msg, warn)]: [warn] only picks the colour of the text. *)
Definition flash_status (msg : string) (warn : bool) (mw : MainWindow) : MainWindow :=
  showMessage msg mw.

Definition note_history_action (action : string) (mw : MainWindow) : MainWindow :=
  if bool_decide (action = "") then mw
  else with_pending_history_action (Some action) mw.

Definition item_of_widget (ev : EventWidget) : EventItem :=
  {| it_start_min := start_min ev; it_end_min := end_min ev; it_title := title ev;
     it_tag := tag ev; it_color := color ev;
     it_locked := if locked ev then 1 else 0;
     it_image := default "" (image_rel ev);
     it_notify_offset := notify_offset ev |}.

(** [save_day(qdate)]: the blocks that do not come from a rule are written
    to [events_by_date] under the day's key.  A [QDate] is modelled by its
    key ([date_key]). *)
Definition save_day (qdate : string) (mw : MainWindow) : MainWindow :=
  let data :=
    map item_of_widget
        (List.filter (fun ev => negb (from_rule ev)) (event_widgets (day_view mw))) in
  with_events_by_date (<[qdate := data]> (events_by_date mw)) mw.

(** [_history_snapshot(qdate)]: the date key and a deep copy of the stored
    events of that day. *)
Definition _history_snapshot (qdate : option string) (mw : MainWindow)
    : string * list EventItem :=
  let key := default (current_date mw) qdate in
  (key, default [] (events_by_date mw !! key)).

Definition _record_history (mw : MainWindow) : MainWindow :=
  if _history_freeze mw then mw
  else
    let snap := _history_snapshot None mw in
    let action :=
      match _pending_history_action mw with
      | Some a => if bool_decide (a = "") then "Change" else a
      | None => "Change"
      end in
    let mw := with_pending_history_action None mw in
    let entry :=
      {| h_date := snap.1; h_events := snap.2; h_action := action;
         h_timestamp := current_date_time mw |} in
    let same :=
      (0 <=? _history_index mw) && negb (bool_decide (_history mw = [])) &&
      match py_index (_history mw) (_history_index mw) with
      | Some e => bool_decide (snap.2 = h_events e)
      | None => false (* IndexError: the cursor never leaves the log *)
      end in
    if same then mw
    else
      let h :=
        if _history_index mw <? Z.of_nat (length (_history mw)) - 1
        then py_slice_to (_history mw) (_history_index mw + 1)
        else _history mw in
      let h := h ++ [entry] in
      let i := _history_index mw + 1 in
      if _history_max mw <? Z.of_nat (length h)
      then
        let excess := Z.of_nat (length h) - _history_max mw in
        with_history (py_del_to h excess) (Z.max 0 (i - excess)) mw
      else with_history h i mw.

Definition on_day_changed (mw : MainWindow) : MainWindow :=
  _record_history (save_day (current_date mw) mw).

Definition _reset_history (qdate : option string) (mw : MainWindow) : MainWindow :=
  let snap := _history_snapshot qdate mw in
  let entry :=
    {| h_date := snap.1; h_events := snap.2; h_action := "Initial load";
       h_timestamp := current_date_time mw |} in
  with_pending_history_action None (with_history [entry] 0 mw).

(** ** The day view: coordinates and snapping *)

Definition gutter : Z := 64.
Definition top_pad : Z := 16.
Definition bottom_pad : Z := 16.
Definition HANDLE : Z := 6.

Definition minute_to_y (dv : DayView) (minute : Z) : Z :=
  py_int (inject_Z minute * px_per_min dv) + top_pad.

Definition y_to_minute (dv : DayView) (y : Z) : Z :=
  let m := py_round (inject_Z (y - top_pad) / px_per_min dv) in
  Z.max 0 (Z.min (24 * 60) m).

Definition snap_step (dv : DayView) : Z :=
  if snap_enabled dv then time_size_minutes dv else 1.

Definition snap_minute (dv : DayView) (minute : Z) : Z :=
  let step := snap_step dv in
  if step <=? 1 then Z.max 0 (Z.min (24 * 60) minute)
  else
    let snapped := py_round (py_truediv minute step) * step in
    Z.max 0 (Z.min (24 * 60) snapped).

Definition snap_delta (dv : DayView) (raw_minutes : Q) : Z :=
  let step := snap_step dv in
  if step <=? 1 then py_round raw_minutes
  else py_round (raw_minutes / inject_Z step) * step.

Definition _minutes_from_pixels (dv : DayView) (pixels : Q) : Z :=
  let px := if Qle_bool (1 # 10) (px_per_min dv) then px_per_min dv else 1 # 10 in
  Z.max 1 (py_round (pixels / px)).

Definition _snap_threshold_minutes (dv : DayView) : Z :=
  _minutes_from_pixels dv 30.

(** [QTime.currentTime()] is read from [current_time_minute]. *)
Definition _current_time_minute (dv : DayView) : option Z :=
  if negb (show_now_line dv) then None else Some (current_time_minute dv).

(** The height of a block on screen, as [update_geometry] sets it. *)
Definition height (dv : DayView) (w : EventWidget) : Z :=
  Z.max 10 (minute_to_y dv (end_min w) - minute_to_y dv (start_min w)).

(** ** The day view: overlap and placement *)

(** [ev is exclude] *)
Definition is_widget (ev : EventWidget) (exclude : option nat) : bool :=
  match exclude with
  | Some i => Nat.eqb (wid ev) i
  | None => false
  end.

(** [exclude_set and ev in exclude_set] *)
Definition in_exclude_set (ev : EventWidget) (exclude_set : option (gset nat)) : bool :=
  match exclude_set with
  | Some s => bool_decide (wid ev ∈ s)
  | None => false
  end.

Definition ranges_overlap (s1 e1 s2 e2 : Z) : bool :=
  Z.max s1 s2 <? Z.min e1 e2.

Fixpoint overlaps_in (evs : list EventWidget) (start_min' end_min' : Z)
    (exclude : option nat) (exclude_set : option (gset nat)) : bool :=
  match evs with
  | [] => false
  | ev :: rest =>
      if is_widget ev exclude then overlaps_in rest start_min' end_min' exclude exclude_set
      else if in_exclude_set ev exclude_set
      then overlaps_in rest start_min' end_min' exclude exclude_set
      else if ranges_overlap start_min' end_min' (start_min ev) (end_min ev) then true
      else overlaps_in rest start_min' end_min' exclude exclude_set
  end.

Definition overlaps_range (dv : DayView) (start_min' end_min' : Z)
    (exclude : option nat) (exclude_set : option (gset nat)) : bool :=
  overlaps_in (event_widgets dv) start_min' end_min' exclude exclude_set.

(** The inner loop of [clamp_start_to_available]: the first block, not
    excluded, that meets [start, start + duration). *)
Fixpoint first_conflict (evs : list EventWidget) (excluded : gset nat)
    (start duration : Z) : option EventWidget :=
  match evs with
  | [] => None
  | ev :: rest =>
      if bool_decide (wid ev ∈ excluded) then first_conflict rest excluded start duration
      else if ranges_overlap start (start + duration) (start_min ev) (end_min ev)
      then Some ev
      else first_conflict rest excluded start duration
  end.

(** The candidates of the undirected search, as the source builds, sorts
    and reads them. *)
Definition nearest_candidates (conflict : EventWidget) (start duration : Z)
    : list (Z * Z) :=
  let down := end_min conflict in
  let up := start_min conflict - duration in
  (if (0 <=? down) && (down <=? 24 * 60 - duration)
   then [(Z.abs (down - start), down)] else [])
  ++
  (if (0 <=? up) && (up <=? 24 * 60 - duration)
   then [(Z.abs (up - start), up)] else []).

Definition next_start (conflict : EventWidget) (start duration direction : Z)
    : option Z :=
  if 0 <? direction then Some (end_min conflict)
  else if direction <? 0 then Some (start_min conflict - duration)
  else
    match py_sorted tuple_leb (nearest_candidates conflict start duration) with
    | c :: _ => Some c.2
    | [] => None
    end.

Fixpoint clamp_loop (iters : nat) (evs : list EventWidget) (excluded : gset nat)
    (duration direction start : Z) : option Z :=
  match iters with
  | O => None
  | S iters' =>
      match first_conflict evs excluded start duration with
      | None => Some start
      | Some conflict =>
          match next_start conflict start duration direction with
          | None => None
          | Some start' =>
              clamp_loop iters' evs excluded duration direction
                (Z.max 0 (Z.min start' (24 * 60 - duration)))
          end
      end
  end.

(** [excluded = set(exclude_set or [])], with [exclude] added when given. *)
Definition excluded_of (exclude : option nat) (exclude_set : option (gset nat))
    : gset nat :=
  default ∅ exclude_set ∪ (match exclude with Some i => {[ i ]} | None => ∅ end).

Definition clamp_start_to_available (dv : DayView) (start duration : Z)
    (exclude : option nat) (exclude_set : option (gset nat)) (direction : Z)
    : option Z :=
  let duration := Z.max 1 duration in
  let start := Z.max 0 (Z.min start (24 * 60 - duration)) in
  let excluded := excluded_of exclude exclude_set in
  let max_iters := S (length (event_widgets dv)) in
  clamp_loop max_iters (event_widgets dv) excluded duration direction start.

(** ** The day view: selection, creation and deletion of blocks *)

Definition set_box_selected (value : bool) (w : EventWidget) : EventWidget :=
  with_box_selected value w.

Definition set_mouse_transparent (enabled : bool) (w : EventWidget) : EventWidget :=
  if enabled then with_group_dragging false w else w.

Definition _refresh_widget_transparency (dv : DayView) : DayView :=
  if negb (box_select_mode dv)
  then with_event_widgets (map (set_mouse_transparent false) (event_widgets dv)) dv
  else
    let selected := _box_selected_widgets dv in
    with_event_widgets
      (map (fun ev => set_mouse_transparent (negb (bool_decide (wid ev ∈ selected))) ev)
           (event_widgets dv))
      dv.

(** The widgets of a set of identities; a Python set has no order of
    its own, the store's order is used. *)
Definition widgets_of (s : gset nat) (ws : list EventWidget) : list EventWidget :=
  List.filter (fun w => bool_decide (wid w ∈ s)) ws.

Definition _format_remaining_minutes (total_min : Z) : string :=
  let total_min := Z.max 0 total_min in
  let h := total_min / 60 in
  let m := total_min mod 60 in
  let parts :=
    (if h =? 0 then [] else [pretty h +:+ "h"]) ++
    (if m =? 0 then [] else [pretty m +:+ "m"]) in
  match parts with
  | [] => "0m"
  | [p] => p
  | p :: q :: _ => p +:+ " " +:+ q
  end.

(** The tool button of the box selection is checked exactly when the day
    view is in box selection mode. *)
Definition on_box_selection_changed (count total_minutes : Z) (mw : MainWindow)
    : MainWindow :=
  if 0 <? count then
    let label := if count =? 1 then "event" else "events" in
    let total_text := _format_remaining_minutes total_minutes in
    showMessage (pretty count +:+ " " +:+ label +:+ " selected • " +:+ total_text
                 +:+ " total") mw
  else if box_select_mode (day_view mw) then showMessage "No events selected" mw
  else mw.

Definition _notify_box_selection_changed (mw : MainWindow) : MainWindow :=
  let dv := day_view mw in
  let total_minutes :=
    foldl (fun acc w => acc + Z.max 1 (end_min w - start_min w)) 0
          (widgets_of (_box_selected_widgets dv) (event_widgets dv)) in
  let mw :=
    on_box_selection_changed (Z.of_nat (size (_box_selected_widgets dv)))
                             total_minutes mw in
  with_day_view (_refresh_widget_transparency (day_view mw)) mw.

Definition _update_box_selection (new_selection : gset nat) (mw : MainWindow)
    : MainWindow :=
  let dv := day_view mw in
  if bool_decide (new_selection = _box_selected_widgets dv) then mw
  else
    let remove := _box_selected_widgets dv ∖ new_selection in
    let add := new_selection ∖ _box_selected_widgets dv in
    let ws :=
      map (fun w =>
             if bool_decide (wid w ∈ remove) then set_box_selected false w
             else if bool_decide (wid w ∈ add) then set_box_selected true w
             else w)
          (event_widgets dv) in
    let dv := with_box_selected_widgets new_selection (with_event_widgets ws dv) in
    _notify_box_selection_changed (with_day_view dv mw).

Definition clear_blocks (mw : MainWindow) : MainWindow :=
  let mw := _update_box_selection ∅ mw in
  with_day_view (with_event_widgets [] (day_view mw)) mw.

(** [EventWidget.__init__]; [i] is the identity of the new object. *)
Definition EventWidget_init (dv : DayView) (i : nat) (start_min' end_min' : Z)
    (title' : string) (color' : option string) (from_rule' : bool)
    (rule_id' : option string) (locked' : bool) (image_rel' : option string)
    (tag' : option string) (notify_offset' : Z) : EventWidget :=
  let s := Z.max 0 (Z.min start_min' (24 * 60 - 1)) in
  let e := Z.max (s + 1) (Z.min end_min' (24 * 60)) in
  {| wid := i; start_min := s; end_min := e; title := title';
     tag := py_strip (default "" tag');
     color := default (event_default dv) color';
     from_rule := from_rule'; rule_id := rule_id'; locked := locked';
     image_rel := image_rel'; notify_offset := Z.max 0 notify_offset';
     _box_selected := false; _group_dragging := false; _drag_mode := None;
     _press_global_y := 0;
     _orig_start := s; _orig_end := e; _orig_duration := Z.max 1 (e - s) |}.

Definition add_block (start_min' duration_min : Z) (title' : string)
    (color' : option string) (from_rule' : bool) (rule_id' : option string)
    (locked' : bool) (image_rel' : option string) (tag' : option string)
    (notify_offset' : Z) (record_history : bool) (mw : MainWindow)
    : MainWindow * option nat :=
  let dv := day_view mw in
  let duration_min := Z.max 1 duration_min in
  match clamp_start_to_available dv start_min' duration_min None None 0 with
  | None => (flash_status "No room for new event here" true mw, None)
  | Some start_candidate =>
      let start_min' := start_candidate in
      let end_min' := start_min' + duration_min in
      if overlaps_range dv start_min' end_min' None None
      then (flash_status "Time occupied — cannot create here" true mw, None)
      else
        let block :=
          EventWidget_init dv (next_wid dv) start_min' end_min' title' color'
            from_rule' rule_id' locked' image_rel' tag' notify_offset' in
        let block := set_box_selected false block in
        let block :=
          set_mouse_transparent
            (box_select_mode dv
             && negb (bool_decide (wid block ∈ _box_selected_widgets dv))) block in
        let dv :=
          with_next_wid (S (next_wid dv))
            (with_event_widgets (event_widgets dv ++ [block]) dv) in
        let mw := with_day_view (_refresh_widget_transparency dv) mw in
        let mw := if record_history then note_history_action "Add block" mw else mw in
        (mw, Some (wid block))
  end.

(** ** The main window: loading a day, repeat rules *)

(** The two calls of [add_block] in [load_day].  A colour is kept as the
    name it is stored under: the passage through [QColor] that
    [hex_to_qcolor] and [qcolor_to_hex] make (lower case for a valid name,
    the default for an invalid one) is not part of the model, and no
    statement below compares the colour of a loaded block with a stored
    string that did not come from the screen. *)
Definition add_item (mw : MainWindow) (item : EventItem) : MainWindow :=
  (add_block (it_start_min item) (it_end_min item - it_start_min item)
     (it_title item) (Some (it_color item)) false None
     (negb (it_locked item =? 0))
     (if bool_decide (it_image item = "") then None else Some (it_image item))
     (Some (it_tag item)) (it_notify_offset item) false mw).1.

Definition add_rule (mw : MainWindow) (r : Rule) : MainWindow :=
  if bool_decide (r_type r = "DAILY") then
    (add_block (r_start_min r) (r_end_min r - r_start_min r)
       (r_title r) (Some (r_color r)) true (Some (r_id r))
       (negb (r_locked r =? 0))
       (if bool_decide (r_image r = "") then None else Some (r_image r))
       (Some (r_tag r)) (r_notify_offset r) false mw).1
  else mw.

(** [key=lambda x: x["start_min"]] *)
Definition by_start (a b : EventItem) : bool := it_start_min a <=? it_start_min b.

Definition load_day (qdate : string) (reset_history : bool) (mw : MainWindow)
    : MainWindow :=
  let mw := clear_blocks mw in
  let items := py_sorted by_start (default [] (events_by_date mw !! qdate)) in
  let mw := foldl add_item mw items in
  let mw := foldl add_rule mw (repeat_rules mw) in
  if reset_history then _reset_history (Some qdate) mw else mw.

Fixpoint delete_rule_in (rid : string) (rs : list Rule) : list Rule :=
  match rs with
  | [] => []
  | r :: rs' =>
      if bool_decide (r_id r = rid)
      then (if r_locked r =? 1 then rs else rs')
      else r :: delete_rule_in rid rs'
  end.

(** [delete_daily_rule_with_cleanup]: the rule goes, unless it is locked;
    the removal of an image file nobody refers to is file output. *)
Definition delete_daily_rule_with_cleanup (rid : option string) (mw : MainWindow)
    : MainWindow :=
  match rid with
  | None => mw
  | Some rid => with_repeat_rules (delete_rule_in rid (repeat_rules mw)) mw
  end.

(** ** The day view: committing, deleting, group moves *)

Definition on_block_changed (mw : MainWindow) : MainWindow := on_day_changed mw.

Fixpoint remove_widget (i : nat) (ws : list EventWidget) : list EventWidget :=
  match ws with
  | [] => []
  | w :: ws' => if Nat.eqb (wid w) i then ws' else w :: remove_widget i ws'
  end.

Definition delete_block (block : nat) (mw : MainWindow) : MainWindow :=
  match widget_by_id block (event_widgets (day_view mw)) with
  | None => mw
  | Some b =>
      if locked b then flash_status "Event is locked" true mw
      else
        let mw := note_history_action "Delete block" mw in
        let mw :=
          if bool_decide (block ∈ _box_selected_widgets (day_view mw))
          then _update_box_selection (_box_selected_widgets (day_view mw) ∖ {[ block ]}) mw
          else mw in
        let dv := day_view mw in
        let mw :=
          with_day_view (with_event_widgets (remove_widget block (event_widgets dv)) dv) mw in
        let mw := on_block_changed mw in
        with_day_view (_refresh_widget_transparency (day_view mw)) mw
  end.

Definition _cancel_group_move (dv : DayView) : DayView :=
  if negb (_group_move_active dv) then dv
  else _refresh_widget_transparency (with_group_move false 0 0 [] ∅ dv).

Definition delete_selected_blocks (mw : MainWindow) : MainWindow :=
  let selected := _box_selected_widgets (day_view mw) in
  if bool_decide (selected = ∅) then mw
  else
    let mw := note_history_action "Delete selection" mw in
    let members := widgets_of selected (event_widgets (day_view mw)) in
    if existsb locked members
    then flash_status "Locked events cannot be deleted" true mw
    else
      let mw := with_day_view (_cancel_group_move (day_view mw)) mw in
      let from_rules := List.filter from_rule members in
      let regulars := List.filter (fun w => negb (from_rule w)) members in
      let mw := foldl (fun mw w => delete_block (wid w) mw) mw regulars in
      let mw :=
        match from_rules with
        | [] => mw
        | _ =>
            let mw :=
              foldl (fun mw w => delete_daily_rule_with_cleanup (rule_id w) mw)
                    mw from_rules in
            load_day (current_date mw) true mw
        end in
      let total_deleted := Z.of_nat (length regulars + length from_rules) in
      let mw := _update_box_selection ∅ mw in
      if total_deleted =? 0 then mw
      else
        flash_status
          ("Deleted " +:+ pretty total_deleted +:+ " event"
           +:+ (if total_deleted =? 1 then "" else "s")) false mw.

Definition _start_group_move (start_global_y : Q) (mw : MainWindow)
    : MainWindow * bool :=
  let dv := day_view mw in
  let selected := _box_selected_widgets dv in
  if bool_decide (selected = ∅) then (mw, false)
  else
    let members := widgets_of selected (event_widgets dv) in
    if existsb locked members
    then (flash_status "Locked events cannot move" true mw, false)
    else
      let refs := map (fun w => (wid w, start_min w, end_min w)) members in
      let dv := with_group_move true start_global_y 0 refs selected dv in
      (with_day_view (with_box_selecting false dv) mw, true).

Definition start_group_move_by_widget (widget : nat) (start_global_y : Q)
    (mw : MainWindow) : MainWindow * bool :=
  if negb (bool_decide (widget ∈ _box_selected_widgets (day_view mw))) then (mw, false)
  else _start_group_move start_global_y mw.

(** The first loop of [_update_group_move]: the shifted positions, or
    nothing when one of them leaves the day. *)
Fixpoint shifted_positions (refs : list (nat * Z * Z)) (delta_minutes : Z)
    : option (list (nat * Z * Z)) :=
  match refs with
  | [] => Some []
  | (w, start, end') :: rest =>
      let new_start := start + delta_minutes in
      let new_end := end' + delta_minutes in
      if (new_start <? 0) || (24 * 60 <? new_end) then None
      else
        match shifted_positions rest delta_minutes with
        | None => None
        | Some ps => Some ((w, new_start, new_end) :: ps)
        end
  end.

(** The second loop: does a shifted member meet a block outside the group? *)
Fixpoint any_overlap (dv : DayView) (new_positions : list (nat * Z * Z))
    (excludes : gset nat) : bool :=
  match new_positions with
  | [] => false
  | (w, new_start, new_end) :: rest =>
      if overlaps_range dv new_start new_end None (Some excludes) then true
      else any_overlap dv rest excludes
  end.

(** The third loop: the members take their new positions. *)
Definition apply_positions (new_positions : list (nat * Z * Z))
    (ws : list EventWidget) : list EventWidget :=
  foldl (fun ws p => update_widget p.1.1 (with_range p.1.2 p.2) ws) ws new_positions.

Definition _update_group_move (current_global_y : Q) (dv : DayView) : DayView :=
  if negb (_group_move_active dv) then dv
  else
    let delta_px := (current_global_y - _group_move_start_global dv)%Q in
    let raw_minutes := (delta_px / px_per_min dv)%Q in
    let delta_minutes := snap_delta dv raw_minutes in
    if delta_minutes =? _group_move_last_delta dv then dv
    else
      match shifted_positions (_group_move_refs dv) delta_minutes with
      | None => dv
      | Some new_positions =>
          let excludes := _group_move_selected dv in
          if any_overlap dv new_positions excludes then dv
          else
            let dv :=
              with_event_widgets (apply_positions new_positions (event_widgets dv)) dv in
            with_group_move (_group_move_active dv) (_group_move_start_global dv)
              delta_minutes (_group_move_refs dv) (_group_move_selected dv) dv
      end.

Definition _finish_group_move (mw : MainWindow) : MainWindow :=
  let dv := day_view mw in
  if negb (_group_move_active dv) then mw
  else
    let moved := negb (_group_move_last_delta dv =? 0) in
    let dv := _refresh_widget_transparency (with_group_move false 0 0 [] ∅ dv) in
    let mw := with_day_view dv mw in
    if moved then on_block_changed mw else mw.

Definition finalize_single_move (widget : nat) (orig_start orig_end : Z)
    (mw : MainWindow) : MainWindow :=
  match widget_by_id widget (event_widgets (day_view mw)) with
  | None => mw
  | Some w =>
      let duration := Z.max 1 (end_min w - start_min w) in
      if (start_min w =? orig_start) && (end_min w =? orig_end)
      then on_block_changed mw
      else
        let direction :=
          if orig_start <? start_min w then 1
          else if start_min w <? orig_start then -1 else 0 in
        match clamp_start_to_available (day_view mw) (start_min w) duration
                (Some widget) None direction with
        | None =>
            let mw := modify_widget widget (with_range orig_start orig_end) mw in
            let mw := flash_status "Time occupied — cannot place here" true mw in
            on_block_changed mw
        | Some clamped =>
            let mw := modify_widget widget (with_range clamped (clamped + duration)) mw in
            on_block_changed mw
        end
  end.

(** ** The day view: magnetic alignment *)

Definition _now_line_snap_candidate (dv : DayView) (start_min' duration : Z)
    (exclude : option nat) : option (Z * Z * Z) :=
  if negb (magnetic_mode dv && show_now_line dv) then None
  else
    match _current_time_minute dv with
    | None => None
    | Some now_min =>
        let diff := Z.abs (start_min' - now_min) in
        let threshold := _minutes_from_pixels dv 40 in
        if threshold <? diff then None
        else
          let candidate_start := now_min in
          let candidate_end := candidate_start + duration in
          if 24 * 60 <? candidate_end then None
          else if overlaps_range dv candidate_start candidate_end exclude None then None
          else Some (candidate_start, candidate_end, diff)
    end.

(** [if best is None or diff < best[2]: best = candidate] *)
Definition keep_best (best : option (Z * Z * Z)) (candidate : Z * Z * Z)
    : option (Z * Z * Z) :=
  match best with
  | None => Some candidate
  | Some b => if candidate.2 <? b.2 then Some candidate else best
  end.

(** The body of the loop of [snap_block_to_neighbors] for one neighbour:
    the [if allow_start:] block, then the [if allow_end:] block. *)
Definition neighbor_start (dv : DayView) (block : EventWidget)
    (allow_start lock_start lock_end : bool) (threshold duration : Z)
    (best : option (Z * Z * Z)) (ev : EventWidget) : option (Z * Z * Z) :=
  let original_start := start_min block in
  let original_end := end_min block in
  if allow_start then
    let target_start := end_min ev in
    let diff := Z.abs (start_min block - target_start) in
    if diff <=? threshold then
      let candidate_start := target_start in
      let candidate_end := candidate_start + duration in
      if lock_start && negb (candidate_start =? original_start) then best
      else if (candidate_end <=? 24 * 60)
              && negb (overlaps_range dv candidate_start candidate_end
                         (Some (wid block)) None)
      then
        if negb lock_end || (candidate_end =? original_end)
        then keep_best best (candidate_start, candidate_end, diff)
        else best
      else best
    else best
  else best.

Definition neighbor_end (dv : DayView) (block : EventWidget)
    (allow_end lock_start lock_end : bool) (threshold duration : Z)
    (best : option (Z * Z * Z)) (ev : EventWidget) : option (Z * Z * Z) :=
  let original_start := start_min block in
  let original_end := end_min block in
  if allow_end then
    let target_end := start_min ev in
    let diff := Z.abs (end_min block - target_end) in
    if diff <=? threshold then
      let candidate_end := target_end in
      let candidate_start := candidate_end - duration in
      if lock_end && negb (candidate_end =? original_end) then best
      else if (0 <=? candidate_start)
              && negb (overlaps_range dv candidate_start candidate_end
                         (Some (wid block)) None)
      then
        if negb lock_start || (candidate_start =? original_start)
        then keep_best best (candidate_start, candidate_end, diff)
        else best
      else best
    else best
  else best.

Definition neighbor_step (dv : DayView) (block : EventWidget)
    (allow_start allow_end lock_start lock_end : bool) (threshold duration : Z)
    (best : option (Z * Z * Z)) (ev : EventWidget) : option (Z * Z * Z) :=
  if Nat.eqb (wid ev) (wid block) then best
  else
    let best :=
      neighbor_start dv block allow_start lock_start lock_end threshold duration best ev in
    neighbor_end dv block allow_end lock_start lock_end threshold duration best ev.

Definition snap_block_to_neighbors (block : option nat)
    (allow_start allow_end lock_start lock_end : bool) (dv : DayView)
    : DayView * bool :=
  match block with
  | None => (dv, false)
  | Some b =>
      if negb (magnetic_mode dv) then (dv, false)
      else
        match widget_by_id b (event_widgets dv) with
        | None => (dv, false)
        | Some blk =>
            let threshold := _snap_threshold_minutes dv in
            let duration := Z.max 1 (end_min blk - start_min blk) in
            let original_start := start_min blk in
            let original_end := end_min blk in
            let best :=
              foldl (neighbor_step dv blk allow_start allow_end lock_start lock_end
                       threshold duration)
                    None (event_widgets dv) in
            let best :=
              if allow_start then
                match _now_line_snap_candidate dv (start_min blk) duration (Some b) with
                | Some now_candidate =>
                    if lock_start && negb (now_candidate.1.1 =? original_start) then best
                    else if lock_end && negb (now_candidate.1.2 =? original_end) then best
                    else keep_best best now_candidate
                | None => best
                end
              else best in
            match best with
            | None => (dv, false)
            | Some c =>
                (with_event_widgets
                   (update_widget b (with_range c.1.1 c.1.2) (event_widgets dv)) dv,
                 true)
            end
        end
  end.

(** ** The block: smart-scale resizing *)

Definition _base_chunk (dv : DayView) : Z := Z.max 1 (time_size_minutes dv).

(** The [while attempts < 1000] loop of [_smart_scale_resize_bottom];
    [fuel] is [1000 - attempts], the result is the duration the loop is
    left with. *)
Fixpoint smart_scale_bottom_loop (fuel : nat) (dv : DayView) (self : nat)
    (orig_start chunk max_duration direction duration : Z) : Z :=
  match fuel with
  | O => duration
  | S fuel' =>
      let duration := Z.max chunk (Z.min duration max_duration) in
      let new_end := orig_start + duration in
      if 24 * 60 <? new_end
      then smart_scale_bottom_loop fuel' dv self orig_start chunk max_duration direction
             (duration - chunk)
      else if negb (overlaps_range dv orig_start new_end (Some self) None) then duration
      else
        let duration := duration - (if 0 <=? direction then chunk else - chunk) in
        if duration <? chunk then chunk
        else smart_scale_bottom_loop fuel' dv self orig_start chunk max_duration direction
               duration
  end.

Definition _smart_scale_resize_bottom (self : nat) (minute_at_cursor : Z)
    (dv : DayView) : DayView :=
  match widget_by_id self (event_widgets dv) with
  | None => dv
  | Some w =>
      let chunk := _base_chunk dv in
      let minute_at_cursor :=
        Z.max (_orig_start w + chunk) (Z.min minute_at_cursor (24 * 60)) in
      let delta := minute_at_cursor - _orig_end w in
      let steps := delta / chunk in
      let target_duration := Z.max chunk (_orig_duration w + steps * chunk) in
      let whole := ((24 * 60 - _orig_start w) / chunk) * chunk in
      let max_duration := Z.max chunk (if whole =? 0 then chunk else whole) in
      let target_duration := Z.max chunk (Z.min target_duration max_duration) in
      let direction := if _orig_duration w <=? target_duration then 1 else -1 in
      let duration :=
        smart_scale_bottom_loop 1000 dv self (_orig_start w) chunk max_duration
          direction target_duration in
      with_event_widgets
        (update_widget self
           (with_range (_orig_start w) (Z.min (24 * 60) (_orig_start w + duration)))
           (event_widgets dv))
        dv
  end.

Fixpoint smart_scale_top_loop (fuel : nat) (dv : DayView) (self : nat)
    (orig_end chunk max_duration direction duration : Z) : Z :=
  match fuel with
  | O => duration
  | S fuel' =>
      let duration := Z.max chunk (Z.min duration max_duration) in
      let new_start := orig_end - duration in
      if new_start <? 0
      then smart_scale_top_loop fuel' dv self orig_end chunk max_duration direction
             (duration - chunk)
      else if negb (overlaps_range dv new_start orig_end (Some self) None) then duration
      else
        let duration := duration - (if 0 <=? direction then chunk else - chunk) in
        if duration <? chunk then chunk
        else smart_scale_top_loop fuel' dv self orig_end chunk max_duration direction
               duration
  end.

Definition _smart_scale_resize_top (self : nat) (minute_at_cursor : Z)
    (dv : DayView) : DayView :=
  match widget_by_id self (event_widgets dv) with
  | None => dv
  | Some w =>
      let chunk := _base_chunk dv in
      let minute_at_cursor := Z.max 0 (Z.min minute_at_cursor (_orig_end w - chunk)) in
      let delta := _orig_start w - minute_at_cursor in
      let steps := delta / chunk in
      let target_duration := Z.max chunk (_orig_duration w + steps * chunk) in
      let whole := (_orig_end w / chunk) * chunk in
      let max_duration := Z.max chunk (if whole =? 0 then chunk else whole) in
      let target_duration := Z.max chunk (Z.min target_duration max_duration) in
      let direction := if _orig_duration w <=? target_duration then 1 else -1 in
      let duration :=
        smart_scale_top_loop 1000 dv self (_orig_end w) chunk max_duration
          direction target_duration in
      with_event_widgets
        (update_widget self
           (with_range (Z.max 0 (_orig_end w - duration)) (_orig_end w))
           (event_widgets dv))
        dv
  end.

(** ** The block: pointer gestures *)

Definition press_region (dv : DayView) (w : EventWidget) (y : Q) : DragMode :=
  if Qle_bool y (inject_Z HANDLE) then resize_top
  else if Qle_bool (inject_Z (height dv w - HANDLE)) y then resize_bottom
  else move.

Definition EventWidget_mousePressEvent (self : nat) (e : MouseEvent) (mw : MainWindow)
    : MainWindow :=
  match widget_by_id self (event_widgets (day_view mw)) with
  | None => mw
  | Some w =>
      let dv := day_view mw in
      let magnetic := magnetic_mode dv in
      let smart_scale := smart_scale_enabled dv in
      if box_select_mode dv then
        if bool_decide (button e = LeftButton) then
          if bool_decide (self ∈ _box_selected_widgets dv) then
            let r := start_group_move_by_widget self (global_y e) mw in
            if r.2 then modify_widget self (with_group_dragging true) r.1 else r.1
          else mw
        else mw
      else if locked w && bool_decide (button e = LeftButton) then
        let mw :=
          flash_status "Event is locked" true mw in
        modify_widget self
          (fun w => with_orig (start_min w) (end_min w) (with_drag_mode None w)) mw
      else if bool_decide (button e = LeftButton) then
        let y := position_y e in
        let region := press_region dv w y in
        if smart_scale && bool_decide (region = move) then
          showMessage "Smart scale: use handles to resize"
            (modify_widget self (with_drag_mode None) mw)
        else
          let mode := if smart_scale then region else if magnetic then move else region in
          modify_widget self
            (fun w =>
               with_orig_duration (Z.max 1 (end_min w - start_min w))
                 (with_orig (start_min w) (end_min w)
                    (with_press_global_y (global_y e) (with_drag_mode (Some mode) w))))
            mw
      else mw
  end.

(** The [move] branch of [mouseMoveEvent]. *)
Definition drag_move (self : nat) (w : EventWidget) (e : MouseEvent) (dv : DayView)
    : DayView :=
  let block_size := _base_chunk dv in
  let snap_active := magnetic_mode dv in
  let delta_px := (global_y e - _press_global_y w)%Q in
  let raw_minutes := (delta_px / px_per_min dv)%Q in
  let delta_min := snap_delta dv raw_minutes in
  let duration := if snap_active then Z.max 1 (_orig_duration w) else block_size in
  let new_start := _orig_start w + delta_min in
  let direction := if 0 <=? delta_min then 1 else -1 in
  match clamp_start_to_available dv new_start duration (Some self) None direction with
  | None => dv
  | Some clamped =>
      let dv :=
        with_event_widgets
          (update_widget self (with_range clamped (clamped + duration)) (event_widgets dv))
          dv in
      if snap_active then
        let r :=
          if 0 <=? direction
          then snap_block_to_neighbors (Some self) true false false false dv
          else snap_block_to_neighbors (Some self) false true false false dv in
        if r.2 then r.1
        else (snap_block_to_neighbors (Some self) true true false false r.1).1
      else dv
  end.

(** The resize branches of [mouseMoveEvent] when smart scale is off. *)
Definition drag_resize_top (self : nat) (w : EventWidget) (minute_at_cursor : Z)
    (dv : DayView) : DayView :=
  let block_size := _base_chunk dv in
  let snapped := snap_minute dv minute_at_cursor in
  let new_start :=
    if magnetic_mode dv then
      match _now_line_snap_candidate dv snapped block_size (Some self) with
      | Some now_candidate => now_candidate.1.1
      | None => snapped
      end
    else snapped in
  let direction :=
    if new_start <? start_min w then -1 else if start_min w <? new_start then 1 else 0 in
  match clamp_start_to_available dv new_start block_size (Some self) None direction with
  | None => dv
  | Some clamped =>
      with_event_widgets
        (update_widget self (with_range clamped (clamped + block_size)) (event_widgets dv))
        dv
  end.

Definition drag_resize_bottom (self : nat) (w : EventWidget) (minute_at_cursor : Z)
    (dv : DayView) : DayView :=
  let block_size := _base_chunk dv in
  let snapped_end := snap_minute dv minute_at_cursor in
  let new_end := snapped_end in
  let new_start := new_end - block_size in
  let direction :=
    if end_min w <? new_end then 1 else if new_end <? end_min w then -1 else 0 in
  match clamp_start_to_available dv new_start block_size (Some self) None direction with
  | None => dv
  | Some clamped =>
      with_event_widgets
        (update_widget self (with_range clamped (clamped + block_size)) (event_widgets dv))
        dv
  end.

Definition EventWidget_mouseMoveEvent (self : nat) (e : MouseEvent) (mw : MainWindow)
    : MainWindow :=
  match widget_by_id self (event_widgets (day_view mw)) with
  | None => mw
  | Some w =>
      let dv := day_view mw in
      let smart_scale := smart_scale_enabled dv in
      if box_select_mode dv then
        if _group_dragging w
        then with_day_view (_update_group_move (global_y e) dv) mw
        else mw
      else
        match _drag_mode w with
        | None => mw
        | Some mode =>
            if locked w then modify_widget self (with_drag_mode None) mw
            else
              match mode with
              | move =>
                  if smart_scale then mw
                  else with_day_view (drag_move self w e dv) mw
              | resize_top =>
                  let minute_at_cursor := y_to_minute dv (day_y e) in
                  if smart_scale
                  then with_day_view (_smart_scale_resize_top self minute_at_cursor dv) mw
                  else with_day_view (drag_resize_top self w minute_at_cursor dv) mw
              | resize_bottom =>
                  let minute_at_cursor := y_to_minute dv (day_y e) in
                  if smart_scale
                  then with_day_view (_smart_scale_resize_bottom self minute_at_cursor dv) mw
                  else with_day_view (drag_resize_bottom self w minute_at_cursor dv) mw
              end
        end
  end.

Definition EventWidget_mouseReleaseEvent (self : nat) (e : MouseEvent) (mw : MainWindow)
    : MainWindow :=
  match widget_by_id self (event_widgets (day_view mw)) with
  | None => mw
  | Some w =>
      let dv := day_view mw in
      if box_select_mode dv then
        if _group_dragging w && bool_decide (button e = LeftButton)
        then modify_widget self (with_group_dragging false) (_finish_group_move mw)
        else mw
      else if locked w && bool_decide (button e = LeftButton)
      then modify_widget self (with_drag_mode None) mw
      else if bool_decide (button e = LeftButton) then
        let changed :=
          negb (start_min w =? _orig_start w) || negb (end_min w =? _orig_end w) in
        let mw :=
          if bool_decide (_drag_mode w = Some move) then
            let mw := if changed then note_history_action "Move block" mw else mw in
            finalize_single_move self (_orig_start w) (_orig_end w) mw
          else
            let mw := if changed then note_history_action "Resize block" mw else mw in
            on_block_changed mw in
        modify_widget self (with_drag_mode None) mw
      else mw
  end.

(** ** The main window: undo, redo and the jump to an entry *)

Definition digit_of (c : Ascii.ascii) : option Z :=
  let n := Z.of_nat (Ascii.nat_of_ascii c) in
  if (48 <=? n) && (n <=? 57) then Some (n - 48) else None.

Definition is_dash (c : Ascii.ascii) : bool := Nat.eqb (Ascii.nat_of_ascii c) 45.

Definition days_in_month (y m : Z) : Z :=
  if m =? 2 then
    (if (y mod 4 =? 0) && (negb (y mod 100 =? 0) || (y mod 400 =? 0)) then 29 else 28)
  else if (m =? 4) || (m =? 6) || (m =? 9) || (m =? 11) then 30
  else 31.

(** [QDate.fromString(key, "yyyy-MM-dd").isValid()] *)
Definition date_key_is_valid (key : string) : bool :=
  match key with
  | String y1 (String y2 (String y3 (String y4 (String s1 (String m1 (String m2
      (String s2 (String d1 (String d2 EmptyString))))))))) =>
      match digit_of y1, digit_of y2, digit_of y3, digit_of y4,
            digit_of m1, digit_of m2, digit_of d1, digit_of d2 with
      | Some a, Some b, Some c, Some d, Some m1', Some m2', Some d1', Some d2' =>
          let y := 1000 * a + 100 * b + 10 * c + d in
          let m := 10 * m1' + m2' in
          let dd := 10 * d1' + d2' in
          is_dash s1 && is_dash s2 && (1 <=? y) && (1 <=? m) && (m <=? 12)
          && (1 <=? dd) && (dd <=? days_in_month y m)
      | _, _, _, _, _, _, _, _ => false
      end
  | _ => false
  end.

Definition _apply_history_snapshot (snapshot : HistoryEntry) (mw : MainWindow)
    : MainWindow :=
  let key := h_date snapshot in
  if bool_decide (key = "") then mw
  else
    let mw := with_events_by_date (<[key := h_events snapshot]> (events_by_date mw)) mw in
    if date_key_is_valid key
    then load_day key false (with_current_date key mw)
    else load_day (current_date mw) false mw.

Definition restore_history_entry (index : Z) (mw : MainWindow) : MainWindow :=
  if negb ((0 <=? index) && (index <? Z.of_nat (length (_history mw))))
  then showMessage "History entry unavailable" mw
  else
    match py_index (_history mw) index with
    | None => mw
    | Some snapshot =>
        let mw := with_history (_history mw) index mw in
        let mw := with_history_freeze true mw in
        let mw := _apply_history_snapshot snapshot mw in
        let mw := with_history_freeze false mw in
        let mw := with_pending_history_action None mw in
        showMessage ("Restored: " +:+ h_action snapshot) mw
    end.

Definition perform_undo (mw : MainWindow) : MainWindow :=
  if (_history_index mw <=? 0) || bool_decide (_history mw = [])
  then showMessage "Nothing to undo" mw
  else
    let mw := with_history (_history mw) (_history_index mw - 1) mw in
    let mw := with_history_freeze true mw in
    match py_index (_history mw) (_history_index mw) with
    | None => with_history_freeze false mw (* IndexError, after [finally] *)
    | Some snapshot =>
        let mw := _apply_history_snapshot snapshot mw in
        let mw := with_history_freeze false mw in
        let mw := with_pending_history_action None mw in
        showMessage "Undo complete" mw
    end.

Definition perform_redo (mw : MainWindow) : MainWindow :=
  if bool_decide (_history mw = [])
     || (Z.of_nat (length (_history mw)) - 1 <=? _history_index mw)
  then showMessage "Nothing to redo" mw
  else
    let mw := with_history (_history mw) (_history_index mw + 1) mw in
    let mw := with_history_freeze true mw in
    match py_index (_history mw) (_history_index mw) with
    | None => with_history_freeze false mw (* IndexError, after [finally] *)
    | Some snapshot =>
        let mw := _apply_history_snapshot snapshot mw in
        let mw := with_history_freeze false mw in
        let mw := with_pending_history_action None mw in
        showMessage "Redo complete" mw
    end.

Definition clear_history_entries (mw : MainWindow) : MainWindow :=
  let mw := with_history [] (-1) mw in
  let mw := with_pending_history_action None mw in
  let mw := with_history_freeze false mw in
  let mw := _reset_history (Some (current_date mw)) mw in
  showMessage "History cleared" mw.

(** ** Predicates of the schedule *)

(** The visible part of a block: who it is, where it lies, whether it is
    locked. *)
Definition interval_of (w : EventWidget) : nat * Z * Z * bool :=
  (wid w, start_min w, end_min w, locked w).

Definition intervals (mw : MainWindow) : list (nat * Z * Z * bool) :=
  map interval_of (event_widgets (day_view mw)).

Definition range_of (w : EventWidget) : Z * Z := (start_min w, end_min w).

Definition ref_of (w : EventWidget) : nat * Z * Z := (wid w, start_min w, end_min w).

Definition item_range (it : EventItem) : Z * Z := (it_start_min it, it_end_min it).

(** The invariant of the store: every block is a non-empty range, and
    two blocks at different places of the list never meet. *)
Definition store_ok (ws : list EventWidget) : Prop :=
  (forall w, w ∈ ws -> start_min w < end_min w) /\
  (forall (i j : nat) a b, i <> j -> ws !! i = Some a -> ws !! j = Some b ->
     ranges_overlap (start_min a) (end_min a) (start_min b) (end_min b) = false).

Fixpoint store_okb (ws : list EventWidget) : bool :=
  match ws with
  | [] => true
  | w :: rest =>
      (start_min w <? end_min w)
      && forallb (fun v => negb (ranges_overlap (start_min w) (end_min w)
                                   (start_min v) (end_min v))) rest
      && store_okb rest
  end.

(** Stored events that fit the day and do not meet each other. *)
Fixpoint items_ok (l : list EventItem) : Prop :=
  match l with
  | [] => True
  | it :: rest =>
      (0 <= it_start_min it /\ it_start_min it < it_end_min it
       /\ it_end_min it <= 24 * 60) /\
      Forall (fun v => ranges_overlap (it_start_min it) (it_end_min it)
                         (it_start_min v) (it_end_min v) = false) rest /\
      items_ok rest
  end.

(** A magnetic candidate is kept only if it is a free, non-empty range. *)
Definition good_candidate (dv : DayView) (b : nat) (c : option (Z * Z * Z)) : Prop :=
  match c with
  | Some x => x.1.1 < x.1.2 /\ overlaps_range dv x.1.1 x.1.2 (Some b) None = false
  | None => True
  end.

(** Nearest multiple with ties to the even quotient, on integers. *)
Definition half_even_div (m s : Z) : Z :=
  let q := m / s in
  match Z.compare (2 * (m mod s)) s with
  | Lt => q
  | Gt => q + 1
  | Eq => if Z.even q then q else q + 1
  end.

(** ** Predicates of the history *)

(** The stored events of the day on screen: what a snapshot copies and
    what applying a snapshot writes. *)
Definition stored_events (mw : MainWindow) : list EventItem :=
  default [] (events_by_date mw !! current_date mw).

(** The cursor is inside the log, or the log is empty and the cursor is -1
    (the state before the first day is loaded). *)
Definition history_wf (mw : MainWindow) : Prop :=
  (_history mw = [] /\ _history_index mw = -1) \/
  (0 <= _history_index mw < Z.of_nat (length (_history mw))).

(** The entry under the cursor. *)
Definition cursor_entry (mw : MainWindow) : option HistoryEntry :=
  py_index (_history mw) (_history_index mw).

(** The label a recording takes: the pending action, or "Change". *)
Definition pending_label (mw : MainWindow) : string :=
  match _pending_history_action mw with
  | Some a => if bool_decide (a = "") then "Change" else a
  | None => "Change"
  end.

(** The entry a recording would write now. *)
Definition snapshot_entry (mw : MainWindow) : HistoryEntry :=
  {| h_date := current_date mw; h_events := stored_events mw;
     h_action := pending_label mw; h_timestamp := current_date_time mw |}.

(** Every entry of the log belongs to the day on screen: the log starts
    anew whenever another day is loaded. *)
Definition history_of_day (mw : MainWindow) : Prop :=
  Forall (fun e => h_date e = current_date mw) (_history mw).

(** What the operations of the day view leave alone in the main window. *)
Definition same_ledger (a b : MainWindow) : Prop :=
  events_by_date a = events_by_date b /\ repeat_rules a = repeat_rules b /\
  current_date a = current_date b /\ _history a = _history b /\
  _history_index a = _history_index b /\ _history_freeze a = _history_freeze b /\
  _history_max a = _history_max b /\ current_date_time a = current_date_time b.

(** ** Predicates of a group move *)

(** The range the third loop of [_update_group_move] leaves a widget
    with: the one of the last position that names it. *)
Fixpoint final_position (i : nat) (ps : list (nat * Z * Z)) : option (Z * Z) :=
  match ps with
  | [] => None
  | p :: ps' =>
      match final_position i ps' with
      | Some x => Some x
      | None => if Nat.eqb p.1.1 i then Some (p.1.2, p.2) else None
      end
  end.

Definition shift_ref (delta : Z) (r : nat * Z * Z) : nat * Z * Z :=
  (r.1.1, r.1.2 + delta, r.2 + delta).

(** The pointer's delta of a group move, in minutes on the grid. *)
Definition group_delta (y : Q) (dv : DayView) : Z :=
  snap_delta dv ((y - _group_move_start_global dv) / px_per_min dv).

(** A member that cannot take the delta. *)
Definition member_fails (dv : DayView) (delta : Z) (r : nat * Z * Z) : Prop :=
  r.1.2 + delta < 0 \/ 24 * 60 < r.2 + delta \/
  overlaps_range dv (r.1.2 + delta) (r.2 + delta) None (Some (_group_move_selected dv))
  = true.

(** The position of a widget once the group has moved by [delta]. *)
Definition shift_selected (sel : gset nat) (delta : Z) (w : EventWidget) : EventWidget :=
  if bool_decide (wid w ∈ sel)
  then with_range (start_min w + delta) (end_min w + delta) w
  else w.

(** The state of a group move in progress: every widget of the store is
    where it was when the gesture started, moved by the last accepted delta
    if it is selected. *)
Definition group_move_inv (ws0 : list EventWidget) (sel : gset nat) (dv : DayView) : Prop :=
  _group_move_active dv = true /\
  _group_move_refs dv = map ref_of (widgets_of sel ws0) /\
  _group_move_selected dv = sel /\
  event_widgets dv = map (shift_selected sel (_group_move_last_delta dv)) ws0.

(** ** The specification's wording, for comparison *)

(** Rounding with ties away from zero. *)
Definition round_half_away (x : Q) : Z :=
  if Qle_bool 0 x then Qfloor (x + (1 # 2)) else Qceiling (x - (1 # 2)).

(** [gridSnap] as the specification words it: the nearest multiple of
    [step], ties away from zero, clamped to the day. *)
Definition gridSnap_spec (minute step : Z) : Z :=
  Z.max 0 (Z.min (24 * 60) (round_half_away (py_truediv minute step) * step)).

(** The two rules of the undirected search as the specification words
    them.  A tie between the forward and the backward candidate goes to the
    forward one: *)
Definition nearest_ties_favor_forward : Prop :=
  forall (dv : DayView) (start duration : Z) (c : EventWidget),
    1 <= duration -> 0 <= start <= 24 * 60 - duration ->
    first_conflict (event_widgets dv) ∅ start duration = Some c ->
    let fwd := end_min c in
    let bwd := start_min c - duration in
    0 <= bwd -> fwd <= 24 * 60 - duration ->
    overlaps_range dv fwd (fwd + duration) None None = false ->
    overlaps_range dv bwd (bwd + duration) None None = false ->
    Z.abs (fwd - start) = Z.abs (bwd - start) ->
    clamp_start_to_available dv start duration None None 0 = Some fwd.

(** A candidate that still overlaps is discarded, so the other one, free
    and inside the day, is taken: *)
Definition nearest_discards_overlapping : Prop :=
  forall (dv : DayView) (start duration : Z) (c : EventWidget),
    1 <= duration -> 0 <= start <= 24 * 60 - duration ->
    first_conflict (event_widgets dv) ∅ start duration = Some c ->
    let fwd := end_min c in
    let bwd := start_min c - duration in
    0 <= bwd -> fwd <= 24 * 60 - duration ->
    overlaps_range dv fwd (fwd + duration) None None = true ->
    overlaps_range dv bwd (bwd + duration) None None = false ->
    clamp_start_to_available dv start duration None None 0 = Some bwd.

(** ** Example states *)

Definition example_widget (i : nat) (s e : Z) (l : bool) : EventWidget :=
  {| wid := i; start_min := s; end_min := e; title := ""; tag := "";
     color := "#4879C5"; from_rule := false; rule_id := None; locked := l;
     image_rel := None; notify_offset := 0; _box_selected := false;
     _group_dragging := false; _drag_mode := None; _press_global_y := 0;
     _orig_start := s; _orig_end := e; _orig_duration := Z.max 1 (e - s) |}.

Definition example_view (time_size : Z) (ws : list EventWidget) : DayView :=
  {| event_default := "#4879C5"; px_per_min := BASE_PX_PER_MIN;
     time_size_minutes := time_size; snap_enabled := true;
     smart_scale_enabled := false; magnetic_mode := false; event_widgets := ws;
     show_now_line := false; box_select_mode := false; _box_selecting := false;
     _box_selected_widgets := ∅; _group_move_active := false;
     _group_move_start_global := 0; _group_move_last_delta := 0;
     _group_move_refs := []; _group_move_selected := ∅;
     next_wid := length ws; current_time_minute := 0 |}.

Definition example_day : string := "2026-01-05".

Definition example_window (dv : DayView) : MainWindow :=
  {| day_view := dv; events_by_date := ∅; repeat_rules := [];
     current_date := example_day; _history := []; _history_index := -1;
     _history_freeze := false; _history_max := 11;
     _pending_history_action := None; status := [];
     current_date_time := "2026-01-05T09:00:00" |}.

Definition left_click (y : Q) (gy : Q) (dy : Z) : MouseEvent :=
  {| button := LeftButton; position_y := y; global_y := gy; day_y := dy |}.

(** A window whose log holds the initial entry and one recorded change. *)
Definition example_recorded : MainWindow :=
  on_day_changed
    (with_day_view (example_view 30 [example_widget 0 480 510 false])
       (on_day_changed (_reset_history None (example_window (example_view 30 []))))).

(** Scenario 4: A (480,510) and B (540,570) are selected, (555,585) is
    not, and a group move has started on a 15-minute grid. *)
Definition example_scenario4 : MainWindow :=
  let ws := [example_widget 0 480 510 false; example_widget 1 540 570 false;
             example_widget 2 555 585 false] in
  let dv := with_box_selected_widgets {[ 0%nat; 1%nat ]} (example_view 15 ws) in
  (_start_group_move 0 (example_window dv)).1.

(** A day with A (480,510) and B (540,570) selected and a third block,
    (700,730), left out of the selection. *)
Definition example_group : MainWindow :=
  let ws := [example_widget 0 480 510 false; example_widget 1 540 570 false;
             example_widget 2 700 730 false] in
  example_window (with_box_selected_widgets {[ 0%nat; 1%nat ]} (example_view 15 ws)).

(** A day with a locked block, 0, selected together with block 1. *)
Definition example_locked : MainWindow :=
  let ws := [example_widget 0 480 510 true; example_widget 1 540 570 false] in
  example_window (with_box_selected_widgets {[ 0%nat; 1%nat ]} (example_view 30 ws)).

(** Blocks A (480,490) and B (490,500), made while the time size was 10
    minutes; the time size is now 30 minutes and smart scale is on. *)
Definition example_smart_scale : MainWindow :=
  let ws := [example_widget 0 480 490 false; example_widget 1 490 500 false] in
  let dv :=
    {| event_default := "#4879C5"; px_per_min := BASE_PX_PER_MIN;
       time_size_minutes := 30; snap_enabled := true;
       smart_scale_enabled := true; magnetic_mode := false; event_widgets := ws;
       show_now_line := false; box_select_mode := false; _box_selecting := false;
       _box_selected_widgets := ∅; _group_move_active := false;
       _group_move_start_global := 0; _group_move_last_delta := 0;
       _group_move_refs := []; _group_move_selected := ∅;
       next_wid := 2; current_time_minute := 0 |} in
  _reset_history None (save_day example_day (example_window dv)).

(** The pointer goes down on the bottom handle of A, moves two pixels
    down (minute 500 of the day), and is released. *)
Definition example_smart_scale_gesture (mw : MainWindow) : MainWindow :=
  let mw := EventWidget_mousePressEvent 0 (left_click 28 1000 1514) mw in
  let mw := EventWidget_mouseMoveEvent 0 (left_click 30 1002 1516) mw in
  EventWidget_mouseReleaseEvent 0 (left_click 30 1002 1516) mw.
(** ** Further operations of the day view *)

Definition with_magnetic_mode (b : bool) (dv : DayView) : DayView :=
  {| event_default := event_default dv; px_per_min := px_per_min dv;
     time_size_minutes := time_size_minutes dv; snap_enabled := snap_enabled dv;
     smart_scale_enabled := smart_scale_enabled dv; magnetic_mode := b;
     event_widgets := event_widgets dv; show_now_line := show_now_line dv;
     box_select_mode := box_select_mode dv; _box_selecting := _box_selecting dv;
     _box_selected_widgets := _box_selected_widgets dv;
     _group_move_active := _group_move_active dv;
     _group_move_start_global := _group_move_start_global dv;
     _group_move_last_delta := _group_move_last_delta dv;
     _group_move_refs := _group_move_refs dv;
     _group_move_selected := _group_move_selected dv;
     next_wid := next_wid dv; current_time_minute := current_time_minute dv |}.

Definition with_smart_scale_enabled (b : bool) (dv : DayView) : DayView :=
  {| event_default := event_default dv; px_per_min := px_per_min dv;
     time_size_minutes := time_size_minutes dv; snap_enabled := snap_enabled dv;
     smart_scale_enabled := b; magnetic_mode := magnetic_mode dv;
     event_widgets := event_widgets dv; show_now_line := show_now_line dv;
     box_select_mode := box_select_mode dv; _box_selecting := _box_selecting dv;
     _box_selected_widgets := _box_selected_widgets dv;
     _group_move_active := _group_move_active dv;
     _group_move_start_global := _group_move_start_global dv;
     _group_move_last_delta := _group_move_last_delta dv;
     _group_move_refs := _group_move_refs dv;
     _group_move_selected := _group_move_selected dv;
     next_wid := next_wid dv; current_time_minute := current_time_minute dv |}.

Definition with_box_select_mode (b : bool) (dv : DayView) : DayView :=
  {| event_default := event_default dv; px_per_min := px_per_min dv;
     time_size_minutes := time_size_minutes dv; snap_enabled := snap_enabled dv;
     smart_scale_enabled := smart_scale_enabled dv; magnetic_mode := magnetic_mode dv;
     event_widgets := event_widgets dv; show_now_line := show_now_line dv;
     box_select_mode := b; _box_selecting := _box_selecting dv;
     _box_selected_widgets := _box_selected_widgets dv;
     _group_move_active := _group_move_active dv;
     _group_move_start_global := _group_move_start_global dv;
     _group_move_last_delta := _group_move_last_delta dv;
     _group_move_refs := _group_move_refs dv;
     _group_move_selected := _group_move_selected dv;
     next_wid := next_wid dv; current_time_minute := current_time_minute dv |}.

Definition with_show_now_line (b : bool) (dv : DayView) : DayView :=
  {| event_default := event_default dv; px_per_min := px_per_min dv;
     time_size_minutes := time_size_minutes dv; snap_enabled := snap_enabled dv;
     smart_scale_enabled := smart_scale_enabled dv; magnetic_mode := magnetic_mode dv;
     event_widgets := event_widgets dv; show_now_line := b;
     box_select_mode := box_select_mode dv; _box_selecting := _box_selecting dv;
     _box_selected_widgets := _box_selected_widgets dv;
     _group_move_active := _group_move_active dv;
     _group_move_start_global := _group_move_start_global dv;
     _group_move_last_delta := _group_move_last_delta dv;
     _group_move_refs := _group_move_refs dv;
     _group_move_selected := _group_move_selected dv;
     next_wid := next_wid dv; current_time_minute := current_time_minute dv |}.

(** [_next_upcoming_start(current_min)] *)
Definition _next_upcoming_start (dv : DayView) (current_min : Z) : option Z :=
  foldl (fun next_start ev =>
           if current_min <? start_min ev then
             match next_start with
             | None => Some (start_min ev)
             | Some n => if start_min ev <? n then Some (start_min ev) else next_start
             end
           else next_start)
        None (event_widgets dv).

(** [if best_diff is None or diff < best_diff: best_start, best_diff = ...] *)
Definition keep_closer (st : Z * option Z) (candidate_start diff : Z) : Z * option Z :=
  match st.2 with
  | None => (candidate_start, Some diff)
  | Some best_diff => if diff <? best_diff then (candidate_start, Some diff) else st
  end.

(** The body of the loop of [_suggest_start_for_creation]: the place just
    below the neighbour, then the place just above it. *)
Definition suggest_step (dv : DayView) (start_min' duration threshold : Z)
    (st : Z * option Z) (ev : EventWidget) : Z * option Z :=
  let st :=
    let candidate_start := end_min ev in
    let diff := Z.abs (start_min' - candidate_start) in
    if (candidate_start <=? start_min') && (diff <=? threshold) then
      let candidate_end := candidate_start + duration in
      if (candidate_end <=? 24 * 60)
         && negb (overlaps_range dv candidate_start candidate_end None None)
      then keep_closer st candidate_start diff
      else st
    else st in
  let candidate_start := start_min ev - duration in
  let diff := Z.abs (start_min' - candidate_start) in
  if (0 <=? candidate_start) && (diff <=? threshold) then
    let candidate_end := candidate_start + duration in
    if (candidate_end <=? start_min ev)
       && negb (overlaps_range dv candidate_start candidate_end None None)
    then keep_closer st candidate_start diff
    else st
  else st.

Definition _suggest_start_for_creation (dv : DayView) (start_min' duration : Z) : Z :=
  if negb (magnetic_mode dv) then start_min'
  else
    let threshold := _snap_threshold_minutes dv in
    (foldl (suggest_step dv start_min' duration threshold) (start_min', None)
           (event_widgets dv)).1.

Definition set_magnetic_mode (enabled : bool) (dv : DayView) : DayView :=
  if bool_decide (magnetic_mode dv = enabled) then dv
  else with_magnetic_mode enabled dv.

Definition set_smart_scale_enabled (enabled : bool) (dv : DayView) : DayView :=
  if bool_decide (smart_scale_enabled dv = enabled) then dv
  else with_smart_scale_enabled enabled dv.

Definition _cancel_box_selection (dv : DayView) : DayView :=
  _cancel_group_move (with_box_selecting false dv).

Definition set_box_select_mode (enabled : bool) (mw : MainWindow) : MainWindow :=
  let dv := day_view mw in
  if bool_decide (box_select_mode dv = enabled) then mw
  else
    let dv := with_box_select_mode enabled dv in
    let dv := if negb enabled then _cancel_group_move dv else dv in
    let mw := with_day_view dv mw in
    let mw :=
      if enabled then mw
      else
        _update_box_selection ∅
          (with_day_view (_cancel_box_selection (day_view mw)) mw) in
    with_day_view (_refresh_widget_transparency (day_view mw)) mw.

(** [DayView.mousePressEvent].  The two hit tests of Qt are inputs:
    [hit] says that the pointer is on a block of the box selection,
    [child] that [childAt] finds a block under the pointer. *)
Definition DayView_mousePressEvent (e : MouseEvent) (hit child : bool)
    (mw : MainWindow) : MainWindow :=
  let dv := day_view mw in
  if box_select_mode dv then
    if bool_decide (button e = LeftButton) then
      let r := if hit then _start_group_move (global_y e) mw else (mw, false) in
      if r.2 then r.1
      else with_day_view (with_box_selecting true (day_view r.1)) r.1
    else mw
  else if bool_decide (button e = LeftButton) then
    if child then mw
    else
      let base_min := y_to_minute dv (py_int (position_y e)) in
      let start_min' := snap_minute dv base_min in
      let duration := Z.max 1 (time_size_minutes dv) in
      let max_start := Z.max 0 (24 * 60 - duration) in
      let start_min' := Z.max 0 (Z.min start_min' max_start) in
      let start_min' :=
        if magnetic_mode dv then _suggest_start_for_creation dv start_min' duration
        else start_min' in
      let r := add_block start_min' duration "" None false None false None None 0 true mw in
      match r.2 with
      | None => r.1
      | Some created =>
          let mw := r.1 in
          let dv :=
            if magnetic_mode (day_view mw) then
              let s1 := snap_block_to_neighbors (Some created) true false false false
                          (day_view mw) in
              if s1.2 then s1.1
              else
                let s2 := snap_block_to_neighbors (Some created) false true false false
                            s1.1 in
                if s2.2 then s2.1
                else (snap_block_to_neighbors (Some created) true true false false s2.1).1
            else day_view mw in
          on_block_changed (with_day_view dv mw)
      end
  else mw.

(** ** Further operations of the main window *)

Definition on_smart_scale_toggled (checked : bool) (mw : MainWindow) : MainWindow :=
  let dv := day_view mw in
  let dv := if checked then set_magnetic_mode false dv else dv in
  let dv := set_smart_scale_enabled checked dv in
  showMessage (if checked then "Smart scale on" else "Smart scale off")
    (with_day_view dv mw).

Definition on_magnetic_toggled (checked : bool) (mw : MainWindow) : MainWindow :=
  let dv := day_view mw in
  let dv := if checked then set_smart_scale_enabled false dv else dv in
  let dv := set_magnetic_mode checked dv in
  showMessage (if checked then "Magnetic mode on" else "Magnetic mode off")
    (with_day_view dv mw).

Definition on_box_select_toggled (checked : bool) (mw : MainWindow) : MainWindow :=
  showMessage (if checked then "Box select enabled" else "Box select disabled")
    (set_box_select_mode checked mw).

(** [enumerate(self._history)] from [idx] on, without the entries of the
    initial load; each entry carries its place in the log
    ([_history_index]). *)
Fixpoint dialog_entries_from (idx : Z) (h : list HistoryEntry)
    : list (Z * HistoryEntry) :=
  match h with
  | [] => []
  | entry :: rest =>
      if bool_decide (h_action entry = "Initial load")
      then dialog_entries_from (idx + 1) rest
      else (idx, entry) :: dialog_entries_from (idx + 1) rest
  end.

Definition _history_entries_for_dialog (mw : MainWindow) : list (Z * HistoryEntry) :=
  dialog_entries_from 0 (_history mw).

(** [update_now_line]; [today] is the reading of [QDate.currentDate()]. *)
Definition update_now_line (today : string) (mw : MainWindow) : MainWindow :=
  with_day_view
    (with_show_now_line (bool_decide (current_date mw = today)) (day_view mw)) mw.

(** [on_calendar_changed]; [selected] is [calendar.selectedDate()]. *)
Definition on_calendar_changed (selected today : string) (mw : MainWindow)
    : MainWindow :=
  let mw := save_day (current_date mw) mw in
  let mw := with_current_date selected mw in
  let mw := load_day (current_date mw) true mw in
  update_now_line today mw.

Fixpoint rule_locked_in (rid : string) (rs : list Rule) : bool :=
  match rs with
  | [] => false
  | r :: rs' =>
      if bool_decide (r_id r = rid) then r_locked r =? 1 else rule_locked_in rid rs'
  end.

Definition rule_locked (rid : option string) (mw : MainWindow) : bool :=
  match rid with
  | None => false
  | Some rid => rule_locked_in rid (repeat_rules mw)
  end.

Definition with_r_locked (l : Z) (r : Rule) : Rule :=
  {| r_id := r_id r; r_type := r_type r; r_start_min := r_start_min r;
     r_end_min := r_end_min r; r_title := r_title r; r_tag := r_tag r;
     r_color := r_color r; r_locked := l; r_image := r_image r;
     r_notify_offset := r_notify_offset r |}.

Fixpoint set_rule_locked_in (rid : string) (locked' : bool) (rs : list Rule)
    : list Rule :=
  match rs with
  | [] => []
  | r :: rs' =>
      if bool_decide (r_id r = rid)
      then with_r_locked (if locked' then 1 else 0) r :: rs'
      else r :: set_rule_locked_in rid locked' rs'
  end.

Definition set_rule_locked (rid : option string) (locked' : bool) (mw : MainWindow)
    : MainWindow :=
  match rid with
  | None => mw
  | Some rid => with_repeat_rules (set_rule_locked_in rid locked' (repeat_rules mw)) mw
  end.

Fixpoint update_rule_in (rid : string) (start_min' end_min' : Z)
    (title' color_hex : string) (image_rel' : option string) (notify_offset' : Z)
    (tag' : string) (rs : list Rule) : list Rule * bool :=
  match rs with
  | [] => ([], false)
  | r :: rs' =>
      if bool_decide (r_id r = rid) then
        if r_locked r =? 1 then (rs, false)
        else
          ({| r_id := r_id r; r_type := r_type r; r_start_min := start_min';
              r_end_min := end_min'; r_title := title'; r_tag := tag';
              r_color := color_hex; r_locked := r_locked r;
              r_image := default "" image_rel';
              r_notify_offset := notify_offset' |} :: rs', true)
      else
        let p := update_rule_in rid start_min' end_min' title' color_hex image_rel'
                   notify_offset' tag' rs' in
        (r :: p.1, p.2)
  end.

Definition update_daily_rule (rid : option string) (start_min' end_min' : Z)
    (title' color_hex : string) (image_rel' : option string) (notify_offset' : Z)
    (tag' : string) (mw : MainWindow) : MainWindow * bool :=
  match rid with
  | None => (mw, false)
  | Some rid =>
      let p := update_rule_in rid start_min' end_min' title' color_hex image_rel'
                 notify_offset' tag' (repeat_rules mw) in
      (with_repeat_rules p.1 mw, p.2)
  end.

Definition add_event_to_date (qdate : string) (start_min' end_min' : Z)
    (title' color_hex : string) (locked' : bool) (image_rel' : option string)
    (notify_offset' : Z) (tag' : option string) (mw : MainWindow)
    : MainWindow * bool :=
  let key := qdate in
  let items := default [] (events_by_date mw !! key) in
  if existsb (fun it => ranges_overlap start_min' end_min'
                          (it_start_min it) (it_end_min it)) items
  then (mw, false)
  else
    let item :=
      {| it_start_min := start_min'; it_end_min := end_min'; it_title := title';
         it_tag := default "" tag'; it_color := color_hex;
         it_locked := if locked' then 1 else 0;
         it_image := default "" image_rel';
         it_notify_offset := notify_offset' |} in
    let mw := with_events_by_date (<[key := items ++ [item]]> (events_by_date mw)) mw in
    let mw :=
      if bool_decide (qdate = current_date mw) then
        (add_block start_min' (end_min' - start_min') title' (Some color_hex) false None
           locked' image_rel' (Some (default "" tag')) notify_offset' false mw).1
      else mw in
    (mw, true).

(** ** Predicates and scripts for the further properties *)

(** A block lies inside the day. *)
Definition in_day (w : EventWidget) : Prop :=
  0 <= start_min w /\ end_min w <= 24 * 60.

(** The identities of the store are distinct and older than the next one. *)
Definition ids_ok (dv : DayView) : Prop :=
  NoDup (map wid (event_widgets dv)) /\
  forall w, w ∈ event_widgets dv -> (wid w < next_wid dv)%nat.

(** A block without the two flags of the box selection. *)
Definition forget_flags (w : EventWidget) : EventWidget :=
  with_group_dragging false (with_box_selected false w).

(** What [save_day] writes for a store. *)
Definition items_of_store (ws : list EventWidget) : list EventItem :=
  map item_of_widget (List.filter (fun ev => negb (from_rule ev)) ws).

(** The store keeps its identities, and every block but [i] is as it was. *)
Definition others_kept (i : nat) (ws ws' : list EventWidget) : Prop :=
  map wid ws' = map wid ws /\
  forall (k : nat) v, ws !! k = Some v -> wid v <> i -> ws' !! k = Some v.

(** A stored event as [load_day] reads it: the tag stripped, the lock as a
    truth value, a negative notification offset as none. *)
Definition item_as_loaded (it : EventItem) : EventItem :=
  {| it_start_min := it_start_min it; it_end_min := it_end_min it;
     it_title := it_title it; it_tag := py_strip (it_tag it);
     it_color := it_color it;
     it_locked := if it_locked it =? 0 then 0 else 1;
     it_image := it_image it;
     it_notify_offset := Z.max 0 (it_notify_offset it) |}.

(** What an event carries apart from its colour and its tag, which
    [load_day] takes through [QColor] and [strip]: the range, the title, the
    lock as a truth value, the image, and the notification offset with a
    negative one read as none. *)
Definition item_core (it : EventItem) : Z * Z * string * bool * string * Z :=
  (it_start_min it, it_end_min it, it_title it, negb (it_locked it =? 0),
   it_image it, Z.max 0 (it_notify_offset it)).

(** A block whose stored form is read back as it is. *)
Definition plain_block (w : EventWidget) : Prop :=
  py_strip (tag w) = tag w /\ 0 <= notify_offset w.

(** A valid schedule on screen: non-empty ranges that do not meet, inside
    the day, with distinct identities. *)
Definition schedule_ok (dv : DayView) : Prop :=
  store_ok (event_widgets dv) /\ ids_ok dv /\ Forall in_day (event_widgets dv).

(** Where magnetic alignment may put a block [blk] of the day view: on a
    free range of the block's duration that begins where a neighbour ends,
    ends where a neighbour begins, or begins at the now line, within the
    snap threshold of where the block is, and with a locked edge kept. *)
Definition snap_target (dv : DayView) (blk : EventWidget) (lock_start lock_end : bool)
    (c : Z * Z * Z) : Prop :=
  let duration := Z.max 1 (end_min blk - start_min blk) in
  c.1.2 = c.1.1 + duration /\
  overlaps_range dv c.1.1 c.1.2 (Some (wid blk)) None = false /\
  (lock_start = true -> c.1.1 = start_min blk) /\
  (lock_end = true -> c.1.2 = end_min blk) /\
  ((exists ev, ev ∈ event_widgets dv /\ wid ev <> wid blk /\ c.1.1 = end_min ev /\
      Z.abs (start_min blk - c.1.1) <= _snap_threshold_minutes dv /\ c.1.2 <= 24 * 60) \/
   (exists ev, ev ∈ event_widgets dv /\ wid ev <> wid blk /\ c.1.2 = start_min ev /\
      Z.abs (end_min blk - c.1.2) <= _snap_threshold_minutes dv /\ 0 <= c.1.1) \/
   (show_now_line dv = true /\ c.1.1 = current_time_minute dv /\
    Z.abs (start_min blk - c.1.1) <= _minutes_from_pixels dv 40 /\ c.1.2 <= 24 * 60)).

(** The flag of every block agrees with the box selection. *)
Definition selection_flags_ok (dv : DayView) : Prop :=
  forall w, w ∈ event_widgets dv ->
    _box_selected w = bool_decide (wid w ∈ _box_selected_widgets dv).

(** The state of the log between two operations. *)
Definition history_ok (mw : MainWindow) : Prop :=
  0 <= _history_index mw < Z.of_nat (length (_history mw)) /\
  (length (_history mw) <= 11)%nat /\
  _history_freeze mw = false /\ _history_max mw = 11 /\
  history_of_day mw.

(** What the user can do to the log: commit an edit of the day view, undo,
    redo, jump to an entry, clear the log, switch to another day. *)
Inductive HistoryOp :=
  | op_edit (dv' : DayView)
  | op_undo
  | op_redo
  | op_restore (index : Z)
  | op_clear
  | op_switch_day (selected today : string).

Definition run_history_op (mw : MainWindow) (op : HistoryOp) : MainWindow :=
  match op with
  | op_edit dv' => on_day_changed (with_day_view dv' mw)
  | op_undo => perform_undo mw
  | op_redo => perform_redo mw
  | op_restore index => restore_history_entry index mw
  | op_clear => clear_history_entries mw
  | op_switch_day selected today => on_calendar_changed selected today mw
  end.

(** The two toggles of the tool bar. *)
Inductive ToggleOp :=
  | toggle_smart_scale (checked : bool)
  | toggle_magnetic (checked : bool).

Definition run_toggle (mw : MainWindow) (op : ToggleOp) : MainWindow :=
  match op with
  | toggle_smart_scale checked => on_smart_scale_toggled checked mw
  | toggle_magnetic checked => on_magnetic_toggled checked mw
  end.

(** The stored events of a day. *)
Definition events_of (key : string) (mw : MainWindow) : list EventItem :=
  default [] (events_by_date mw !! key).

(** No two stored events at different places meet. *)
Definition items_disjoint (l : list EventItem) : Prop :=
  forall (i j : nat) a b, i <> j -> l !! i = Some a -> l !! j = Some b ->
    ranges_overlap (it_start_min a) (it_end_min a) (it_start_min b) (it_end_min b)
    = false.

(** ** Further example states *)

Definition example_rule (rid : string) (s e l : Z) : Rule :=
  {| r_id := rid; r_type := "DAILY"; r_start_min := s; r_end_min := e;
     r_title := "Lunch"; r_tag := ""; r_color := "#4879C5"; r_locked := l;
     r_image := ""; r_notify_offset := 0 |}.

(** A day with two blocks, (480,510) and (540,570), its log just reset. *)
Definition example_two_blocks : MainWindow :=
  let ws := [example_widget 0 480 510 false; example_widget 1 540 570 false] in
  _reset_history None (save_day example_day (example_window (example_view 30 ws))).

(** A window whose log holds the empty day and one recorded change: the
    blocks (540,570) and (480,510), made in this order. *)
Definition example_unsorted : MainWindow :=
  on_day_changed
    (with_day_view
       (example_view 30 [example_widget 0 540 570 false; example_widget 1 480 510 false])
       (on_day_changed (_reset_history None (example_window (example_view 30 []))))).

(** The same day in magnetic mode. *)
Definition example_magnetic : MainWindow :=
  with_day_view (with_magnetic_mode true (day_view example_two_blocks))
    example_two_blocks.

(** * Properties *)

(** ** Rounding and grid snapping *)

Lemma compare_eq_of_sign (a b c d : Z) :
  (a < b <-> c < d) -> (a = b <-> c = d) -> (a ?= b) = (c ?= d).
Proof.
  intros H1 H2.
  destruct (Z.compare_spec a b), (Z.compare_spec c d); try reflexivity; lia.
Qed.

(** Python's [round(m / s)] on two ints is the half-even quotient. *)
Lemma py_round_truediv (m s : Z) :
  0 < s -> py_round (py_truediv m s) = half_even_div m s.
Proof.
  intros Hs. unfold py_round, py_truediv, half_even_div.
  rewrite <- Zdiv_Qdiv.
  set (q := m / s).
  assert (Hc : Qcompare (inject_Z m / inject_Z s - inject_Z q) (1 # 2)
               = Z.compare (2 * (m mod s)) s).
  { destruct s as [|p|p]; try lia.
    unfold Qcompare, Qminus, Qplus, Qdiv, Qmult, Qinv, Qopp, inject_Z.
    simpl Qnum. simpl Qden.
    pose proof (Z.div_mod m (Z.pos p)) as Hdm.
    fold q in Hdm.
    assert (Hm : m mod Z.pos p = m - Z.pos p * q) by lia.
    rewrite Hm.
    apply compare_eq_of_sign; rewrite ?Pos2Z.inj_mul; lia. }
  rewrite Hc. reflexivity.
Qed.

Lemma half_even_div_spec (m s : Z) :
  0 < s ->
  2 * Z.abs (half_even_div m s * s - m) <= s /\
  (2 * Z.abs (half_even_div m s * s - m) = s -> Z.even (half_even_div m s) = true).
Proof.
  intros Hs. unfold half_even_div.
  pose proof (Z.div_mod m s) as Hdm.
  pose proof (Z.mod_pos_bound m s Hs) as Hb.
  set (q := m / s) in *. set (r := m mod s) in *.
  assert (Hm : m = s * q + r) by lia. clearbody q r.
  destruct (Z.compare_spec (2 * r) s) as [He|Hl|Hg].
  - destruct (Z.even q) eqn:Hev.
    + split; [nia|auto].
    + split; [nia|]. intros _. rewrite Z.even_add, Hev. reflexivity.
  - split; nia.
  - split; nia.
Qed.

Lemma half_even_div_multiple (k s : Z) : 0 < s -> half_even_div (k * s) s = k.
Proof.
  intros Hs. unfold half_even_div.
  rewrite Z.div_mul by lia. rewrite Z.mod_mul by lia.
  replace (2 * 0) with 0 by lia.
  destruct (Z.compare_spec 0 s); try lia; reflexivity.
Qed.

Lemma half_even_div_mono (m1 m2 s : Z) :
  0 < s -> m1 <= m2 -> half_even_div m1 s <= half_even_div m2 s.
Proof.
  intros Hs Hle.
  destruct (Z.eq_dec m1 m2) as [->|Hne]; [lia|].
  destruct (half_even_div_spec m1 s Hs) as [H1 _].
  destruct (half_even_div_spec m2 s Hs) as [H2 _].
  nia.
Qed.

(** C7, as the specification states it, fails twice.  A tie is not
    rounded away from zero: minute 15 on a 30-minute grid snaps to 0, where
    the specification's rule gives 30.  And snapping is not idempotent for
    every integer minute: on a 22-minute grid 1445 snaps to 1440 (by the
    clamp), and 1440 snaps to 1430. *)
Lemma snap_minute_ties_and_idempotence_counterexample :
  snap_minute (example_view 30 []) 15 = 0 /\
  gridSnap_spec 15 30 = 30 /\
  snap_minute (example_view 22 []) 1445 = 1440 /\
  snap_minute (example_view 22 []) (snap_minute (example_view 22 []) 1445) = 1430.
Proof. repeat split; vm_compute; reflexivity. Qed.

(** C7, amended: for a positive step, [snap_minute] returns a multiple of
    the step nearest to the minute, a tie going to the even multiple
    (Python's [round]), clamped to [0, 1440]; with snapping off the result
    is the minute clamped to [0, 1440]; and snapping is idempotent on every
    minute up to 1440, which covers every minute the pointer yields. *)
Theorem snap_minute_nearest_even (dv : DayView) (minute : Z) :
  0 < snap_step dv ->
  let step := snap_step dv in
  let r := snap_minute dv minute in
  0 <= r <= 24 * 60 /\
  (exists k, r = Z.max 0 (Z.min (24 * 60) (k * step)) /\
             2 * Z.abs (k * step - minute) <= step /\
             (2 * Z.abs (k * step - minute) = step -> Z.even k = true)) /\
  (snap_enabled dv = false -> r = Z.max 0 (Z.min (24 * 60) minute)) /\
  (minute <= 24 * 60 -> snap_minute dv r = r).
Proof.
  intros Hs step r. subst r. unfold snap_minute. fold step.
  destruct (Z.leb_spec step 1) as [H1|H1].
  - assert (H : step = 1) by (unfold step in *; lia).
    split; [lia|]. split.
    { exists minute. rewrite H. split; [f_equal; f_equal; lia|]. split; lia. }
    split; [auto|]. intros _. lia.
  - rewrite !py_round_truediv by lia.
    destruct (half_even_div_spec minute step Hs) as [Hn He].
    set (k := half_even_div minute step) in *.
    split; [lia|]. split.
    { exists k. auto. }
    split.
    { intros Hd. unfold step, snap_step in H1. rewrite Hd in H1. lia. }
    intros Hm.
    destruct (Z.le_gt_cases (k * step) 0) as [Hlo|Hlo].
    + replace (Z.max 0 (Z.min (24 * 60) (k * step))) with (0 * step) by lia.
      rewrite half_even_div_multiple by lia. lia.
    + destruct (Z.le_gt_cases (k * step) (24 * 60)) as [Hhi|Hhi].
      * replace (Z.max 0 (Z.min (24 * 60) (k * step))) with (k * step) by lia.
        rewrite half_even_div_multiple by lia. lia.
      * replace (Z.max 0 (Z.min (24 * 60) (k * step))) with (24 * 60) by lia.
        pose proof (half_even_div_mono minute (24 * 60) step Hs Hm) as Hmono.
        fold k in Hmono. nia.
Qed.

Lemma snap_minute_nearest_even_witness :
  0 < snap_step (example_view 30 []) /\
  0 <= snap_minute (example_view 30 []) 75 <= 24 * 60.
Proof.
  split; [reflexivity|].
  exact (proj1 (snap_minute_nearest_even (example_view 30 []) 75 eq_refl)).
Defined.

(** ** The block constructor *)

(** C9: whatever integers the constructor receives, the block it builds
    has its start clamped into [0, 1439] and its end into
    [start + 1, 1440], hence 0 <= start < end <= 1440. *)
Theorem EventWidget_init_well_formed (dv : DayView) (i : nat) (s e : Z) (t : string)
    (c : option string) (fr : bool) (rid : option string) (l : bool)
    (img tg : option string) (n : Z) :
  let w := EventWidget_init dv i s e t c fr rid l img tg n in
  start_min w = Z.max 0 (Z.min s (24 * 60 - 1)) /\
  end_min w = Z.max (start_min w + 1) (Z.min e (24 * 60)) /\
  (0 <= start_min w /\ start_min w <= 1439) /\
  (start_min w + 1 <= end_min w /\ end_min w <= 1440) /\
  (0 <= start_min w /\ start_min w < end_min w /\ end_min w <= 24 * 60).
Proof. simpl. lia. Qed.

(** ** The history log *)

Lemma py_index_nonneg {A} (l : list A) (i : Z) :
  0 <= i -> py_index l i = l !! Z.to_nat i.
Proof. intros H. unfold py_index. destruct (Z.ltb_spec i 0); [lia|reflexivity]. Qed.

Lemma py_slice_to_nonneg {A} (l : list A) (k : Z) :
  0 <= k -> py_slice_to l k = take (Z.to_nat k) l.
Proof. intros H. unfold py_slice_to. destruct (Z.ltb_spec k 0); [lia|reflexivity]. Qed.

Lemma py_del_to_nonneg {A} (l : list A) (k : Z) :
  0 <= k -> py_del_to l k = drop (Z.to_nat k) l.
Proof. intros H. unfold py_del_to. destruct (Z.ltb_spec k 0); [lia|reflexivity]. Qed.

Lemma cursor_entry_some (mw : MainWindow) :
  0 <= _history_index mw < Z.of_nat (length (_history mw)) ->
  exists e, cursor_entry mw = Some e /\ _history mw !! Z.to_nat (_history_index mw) = Some e.
Proof.
  intros H. unfold cursor_entry. rewrite py_index_nonneg by lia.
  destruct (lookup_lt_is_Some_2 (_history mw) (Z.to_nat (_history_index mw))) as [e He];
    [lia|].
  exists e. auto.
Qed.

(** A recording that finds the stored events under the cursor only clears
    the pending label. *)
Lemma _record_history_same (mw : MainWindow) (e : HistoryEntry) :
  _history_freeze mw = false ->
  0 <= _history_index mw -> cursor_entry mw = Some e ->
  h_events e = stored_events mw ->
  _record_history mw = with_pending_history_action None mw.
Proof.
  intros Hf Hi He Hev. unfold _record_history. rewrite Hf.
  unfold cursor_entry in He. cbn [_history _history_index with_pending_history_action].
  rewrite He.
  assert (Hnn : bool_decide (_history mw = []) = false).
  { apply bool_decide_eq_false_2. intros Hnil. rewrite Hnil in He.
    unfold py_index in He. destruct (_ <? 0); rewrite lookup_nil in He; discriminate. }
  rewrite Hnn. cbn [_history_snapshot default snd fst].
  fold (stored_events mw). rewrite <- Hev.
  rewrite bool_decide_eq_true_2 by reflexivity.
  destruct (Z.leb_spec 0 (_history_index mw)); [|lia].
  reflexivity.
Qed.

(** A recording that finds other events under the cursor, or no entry at
    all, drops the entries after the cursor, appends the new entry, and
    trims the front when the log has grown past its maximum. *)
Lemma _record_history_new (mw : MainWindow) :
  _history_freeze mw = false -> history_wf mw -> 1 <= _history_max mw ->
  (forall e, cursor_entry mw = Some e -> h_events e <> stored_events mw) ->
  let kept := take (Z.to_nat (_history_index mw + 1)) (_history mw) ++ [snapshot_entry mw] in
  let excess := (length kept - Z.to_nat (_history_max mw))%nat in
  _record_history mw =
    with_history (drop excess kept) (_history_index mw + 1 - Z.of_nat excess)
      (with_pending_history_action None mw).
Proof.
  intros Hf Hwf Hmax Hne kept excess. unfold _record_history. rewrite Hf.
  cbn [_history _history_index _history_max with_pending_history_action
       current_date_time _history_snapshot default snd fst].
  fold (stored_events mw). fold (pending_label mw).
  change {| h_date := current_date mw; h_events := stored_events mw;
            h_action := pending_label mw; h_timestamp := current_date_time mw |}
    with (snapshot_entry mw).
  assert (Hsame :
    (0 <=? _history_index mw) && negb (bool_decide (_history mw = [])) &&
    match py_index (_history mw) (_history_index mw) with
    | Some e => bool_decide (stored_events mw = h_events e)
    | None => false
    end = false).
  { destruct (py_index (_history mw) (_history_index mw)) as [e|] eqn:He.
    - rewrite (bool_decide_eq_false_2 (stored_events mw = h_events e));
        [apply andb_false_r|].
      intros Heq. apply (Hne e He). auto.
    - apply andb_false_r. }
  rewrite Hsame.
  assert (Hkept :
    (if _history_index mw <? Z.of_nat (length (_history mw)) - 1
     then py_slice_to (_history mw) (_history_index mw + 1)
     else _history mw) ++ [snapshot_entry mw] = kept).
  { unfold kept. f_equal.
    destruct Hwf as [[Hnil Hidx]|Hin].
    - rewrite Hnil, Hidx. reflexivity.
    - destruct (Z.ltb_spec (_history_index mw) (Z.of_nat (length (_history mw)) - 1)).
      + apply py_slice_to_nonneg. lia.
      + rewrite take_ge; [reflexivity|lia]. }
  rewrite Hkept.
  assert (Hlen : Z.of_nat (length kept) = _history_index mw + 2).
  { unfold kept. rewrite length_app, length_take. cbn [length].
    destruct Hwf as [[Hnil Hidx]|Hin].
    - rewrite Hnil, Hidx. reflexivity.
    - lia. }
  destruct (Z.ltb_spec (_history_max mw) (Z.of_nat (length kept))) as [Hlt|Hge].
  - rewrite py_del_to_nonneg by lia.
    replace (Z.to_nat (Z.of_nat (length kept) - _history_max mw)) with excess
      by (unfold excess; lia).
    replace (Z.max 0 (_history_index mw + 1 - (Z.of_nat (length kept) - _history_max mw)))
      with (_history_index mw + 1 - Z.of_nat excess) by (unfold excess; lia).
    reflexivity.
  - replace excess with 0%nat by (unfold excess; lia).
    rewrite drop_0. replace (_history_index mw + 1 - Z.of_nat 0) with (_history_index mw + 1)
      by lia.
    reflexivity.
Qed.

(** After such a recording the cursor is on the new entry and the log
    holds at most [_history_max] entries. *)
Lemma _record_history_new_cursor (mw : MainWindow) :
  _history_freeze mw = false -> history_wf mw -> 1 <= _history_max mw ->
  (forall e, cursor_entry mw = Some e -> h_events e <> stored_events mw) ->
  cursor_entry (_record_history mw) = Some (snapshot_entry mw) /\
  Z.of_nat (length (_history (_record_history mw))) <= _history_max mw /\
  0 <= _history_index (_record_history mw)
    < Z.of_nat (length (_history (_record_history mw))).
Proof.
  intros Hf Hwf Hmax Hne. rewrite _record_history_new by assumption.
  cbn [_history _history_index with_history cursor_entry].
  set (kept := take (Z.to_nat (_history_index mw + 1)) (_history mw) ++ [snapshot_entry mw]).
  set (excess := (length kept - Z.to_nat (_history_max mw))%nat).
  assert (Hidx : -1 <= _history_index mw) by (destruct Hwf as [[_ H]|H]; lia).
  assert (Htake : length (take (Z.to_nat (_history_index mw + 1)) (_history mw))
                  = Z.to_nat (_history_index mw + 1)).
  { rewrite length_take. destruct Hwf as [[Hnil Hi]|Hin]; [rewrite Hnil, Hi; reflexivity|lia]. }
  assert (Hlen : length kept = S (Z.to_nat (_history_index mw + 1))).
  { unfold kept. rewrite length_app, Htake. cbn [length]. lia. }
  assert (Hex : (excess <= Z.to_nat (_history_index mw + 1))%nat) by (unfold excess; lia).
  unfold cursor_entry. cbn [_history _history_index with_history].
  rewrite py_index_nonneg by lia.
  rewrite lookup_drop.
  replace (excess + Z.to_nat (_history_index mw + 1 - Z.of_nat excess))%nat
    with (Z.to_nat (_history_index mw + 1)) by lia.
  split.
  - unfold kept. rewrite lookup_app_r by lia. rewrite Htake, Nat.sub_diag. reflexivity.
  - rewrite length_drop, Hlen. unfold excess. rewrite Hlen. lia.
Qed.

(** The entry that was under the cursor is the one just before the new
    entry, also after the trim, as long as the log may hold two entries. *)
Lemma _record_history_new_previous (mw : MainWindow) (e : HistoryEntry) :
  _history_freeze mw = false -> history_wf mw -> 2 <= _history_max mw ->
  (forall e, cursor_entry mw = Some e -> h_events e <> stored_events mw) ->
  0 <= _history_index mw -> cursor_entry mw = Some e ->
  let mw' := _record_history mw in
  1 <= _history_index mw' /\
  _history mw' !! Z.to_nat (_history_index mw' - 1) = Some e /\
  Z.of_nat (length (_history mw')) = _history_index mw' + 1.
Proof.
  intros Hf Hwf Hmax Hne Hi He mw'. subst mw'.
  rewrite _record_history_new by (assumption || lia).
  cbn [_history _history_index with_history].
  set (kept := take (Z.to_nat (_history_index mw + 1)) (_history mw) ++ [snapshot_entry mw]).
  set (excess := (length kept - Z.to_nat (_history_max mw))%nat).
  unfold cursor_entry in He. rewrite py_index_nonneg in He by lia.
  assert (Hlt : (Z.to_nat (_history_index mw) < length (_history mw))%nat)
    by (eapply lookup_lt_Some; eauto).
  assert (Htake : length (take (Z.to_nat (_history_index mw + 1)) (_history mw))
                  = Z.to_nat (_history_index mw + 1)) by (rewrite length_take; lia).
  assert (Hlen : length kept = S (Z.to_nat (_history_index mw + 1))).
  { unfold kept. rewrite length_app, Htake. cbn [length]. lia. }
  assert (Hex : (excess <= Z.to_nat (_history_index mw))%nat) by (unfold excess; lia).
  split; [lia|]. split.
  - rewrite lookup_drop.
    replace (excess + Z.to_nat (_history_index mw + 1 - Z.of_nat excess - 1))%nat
      with (Z.to_nat (_history_index mw)) by lia.
    unfold kept. rewrite lookup_app_l by lia.
    rewrite lookup_take_lt by lia. exact He.
  - rewrite length_drop, Hlen. lia.
Qed.

(** C4: with the log in order and not frozen, a recording whose snapshot
    equals the entry under the cursor changes neither the log nor the
    cursor; any other recording drops the entries after the cursor, appends
    the snapshot, puts the cursor on it, and, when the log would hold more
    than 11 entries, trims the oldest ones and lowers the cursor by their
    number. *)
Theorem record_history_behaviour (mw : MainWindow) :
  _history_freeze mw = false -> history_wf mw -> _history_max mw = 11 ->
  let mw' := _record_history mw in
  let kept :=
    take (Z.to_nat (_history_index mw + 1)) (_history mw) ++ [snapshot_entry mw] in
  let excess := (length kept - 11)%nat in
  ((exists e, cursor_entry mw = Some e /\ h_events e = stored_events mw) ->
     _history mw' = _history mw /\ _history_index mw' = _history_index mw) /\
  ((forall e, cursor_entry mw = Some e -> h_events e <> stored_events mw) ->
     _history mw' = drop excess kept /\
     _history_index mw' = _history_index mw + 1 - Z.of_nat excess /\
     cursor_entry mw' = Some (snapshot_entry mw) /\
     (length (_history mw') <= 11)%nat) /\
  day_view mw' = day_view mw /\ events_by_date mw' = events_by_date mw.
Proof.
  intros Hf Hwf Hmax mw' kept excess. subst mw'.
  assert (Hframe : day_view (_record_history mw) = day_view mw /\
                   events_by_date (_record_history mw) = events_by_date mw).
  { unfold _record_history. rewrite Hf.
    repeat match goal with |- context [if ?b then _ else _] => destruct b end;
      split; reflexivity. }
  split; [|split; [|exact Hframe]].
  - intros (e & He & Hev).
    assert (Hi : 0 <= _history_index mw).
    { destruct Hwf as [[Hnil Hidx]|Hin]; [|lia].
      unfold cursor_entry, py_index in He. rewrite Hnil in He.
      destruct (_ <? 0); rewrite lookup_nil in He; discriminate. }
    rewrite (_record_history_same mw e) by assumption. split; reflexivity.
  - intros Hne.
    destruct (_record_history_new_cursor mw) as (Hc & Hl & _); try assumption; [lia|].
    rewrite _record_history_new in * by (assumption || lia).
    cbn [_history _history_index with_history] in *.
    rewrite Hmax in *. change (Z.to_nat 11) with 11%nat in *.
    fold kept in Hc, Hl |- *. fold excess in Hc, Hl |- *.
    repeat split; try assumption. lia.
Qed.

Lemma record_history_behaviour_witness :
  let mw := _reset_history None (example_window (example_view 30 [])) in
  _history_freeze mw = false /\ history_wf mw /\ _history_max mw = 11 /\
  day_view (_record_history mw) = day_view mw.
Proof.
  assert (Hwf : history_wf (_reset_history None (example_window (example_view 30 [])))).
  { right. cbn. lia. }
  split; [reflexivity|]. split; [exact Hwf|]. split; [reflexivity|].
  exact (proj1 (proj2 (proj2
    (record_history_behaviour
       (_reset_history None (example_window (example_view 30 [])))
       eq_refl Hwf eq_refl)))).
Defined.

(** *** What the day view's operations leave alone *)

Lemma same_ledger_refl (mw : MainWindow) : same_ledger mw mw.
Proof. unfold same_ledger. repeat split. Qed.

Lemma same_ledger_trans (a b c : MainWindow) :
  same_ledger a b -> same_ledger b c -> same_ledger a c.
Proof. unfold same_ledger. intuition congruence. Qed.

Create HintDb ledger.

(** Projections of a main window through its field updates. *)
Ltac window_simpl :=
  cbn [showMessage flash_status with_status with_pending_history_action
       with_history_freeze with_history with_day_view with_events_by_date
       with_current_date with_repeat_rules day_view events_by_date repeat_rules
       current_date _history _history_index _history_freeze _history_max
       _pending_history_action status current_date_time] in *.

Ltac ledger_cases :=
  repeat match goal with
         | |- context [if ?b then _ else _] => destruct b
         | |- context [match ?o with Some _ => _ | None => _ end] => destruct o
         end;
  try (unfold same_ledger; cbn; repeat split; reflexivity).

Lemma same_ledger_with_day_view (dv : DayView) (mw : MainWindow) :
  same_ledger (with_day_view dv mw) mw.
Proof. unfold same_ledger. repeat split. Qed.

Lemma same_ledger_showMessage (msg : string) (mw : MainWindow) :
  same_ledger (showMessage msg mw) mw.
Proof. unfold same_ledger. repeat split. Qed.

Lemma same_ledger_note_history_action (a : string) (mw : MainWindow) :
  same_ledger (note_history_action a mw) mw.
Proof. unfold note_history_action. ledger_cases. Qed.

Lemma same_ledger_update_box_selection (s : gset nat) (mw : MainWindow) :
  same_ledger (_update_box_selection s mw) mw.
Proof.
  unfold _update_box_selection, _notify_box_selection_changed, on_box_selection_changed.
  ledger_cases.
Qed.

Lemma same_ledger_clear_blocks (mw : MainWindow) : same_ledger (clear_blocks mw) mw.
Proof.
  unfold clear_blocks.
  eapply same_ledger_trans; [apply same_ledger_with_day_view|].
  apply same_ledger_update_box_selection.
Qed.

Lemma same_ledger_add_block (s d : Z) (t : string) (c : option string) (fr : bool)
    (rid : option string) (l : bool) (img tg : option string) (n : Z) (rec : bool)
    (mw : MainWindow) :
  same_ledger (add_block s d t c fr rid l img tg n rec mw).1 mw.
Proof.
  unfold add_block, flash_status, note_history_action.
  ledger_cases.
Qed.

Lemma same_ledger_foldl {A} (f : MainWindow -> A -> MainWindow) (l : list A) :
  (forall m a, same_ledger (f m a) m) ->
  forall mw, same_ledger (foldl f mw l) mw.
Proof.
  intros Hf. induction l as [|a l IH]; intros mw; cbn.
  - apply same_ledger_refl.
  - eapply same_ledger_trans; [apply IH|apply Hf].
Qed.

#[global] Hint Resolve same_ledger_refl same_ledger_with_day_view same_ledger_showMessage
  same_ledger_note_history_action same_ledger_update_box_selection
  same_ledger_clear_blocks same_ledger_add_block same_ledger_foldl : ledger.

Lemma same_ledger_load_day_keep (qdate : string) (mw : MainWindow) :
  same_ledger (load_day qdate false mw) mw.
Proof.
  unfold load_day. cbv zeta.
  eapply same_ledger_trans.
  { apply same_ledger_foldl. intros m r. unfold add_rule.
    destruct (bool_decide _); auto with ledger. }
  eapply same_ledger_trans; [|apply same_ledger_clear_blocks].
  apply same_ledger_foldl. intros m a. unfold add_item. auto with ledger.
Qed.


(** Applying a snapshot writes its events under its date, shows that day,
    and leaves the log alone. *)
Lemma _apply_history_snapshot_spec (snapshot : HistoryEntry) (mw : MainWindow) :
  h_date snapshot <> "" ->
  let mw' := _apply_history_snapshot snapshot mw in
  events_by_date mw' = <[h_date snapshot := h_events snapshot]> (events_by_date mw) /\
  current_date mw' =
    (if date_key_is_valid (h_date snapshot) then h_date snapshot else current_date mw) /\
  _history mw' = _history mw /\ _history_index mw' = _history_index mw /\
  _history_freeze mw' = _history_freeze mw /\ _history_max mw' = _history_max mw.
Proof.
  intros Hk mw'. subst mw'. unfold _apply_history_snapshot.
  rewrite bool_decide_eq_false_2 by assumption.
  destruct (date_key_is_valid (h_date snapshot)).
  - match goal with |- context [load_day ?k false ?m] =>
      pose proof (same_ledger_load_day_keep k m) as H end.
    unfold same_ledger in H. cbn in H. intuition.
  - match goal with |- context [load_day ?k false ?m] =>
      pose proof (same_ledger_load_day_keep k m) as H end.
    unfold same_ledger in H. cbn in H. intuition.
Qed.

(** The stored events after a snapshot of the day on screen is applied. *)
Lemma _apply_history_snapshot_stored (snapshot : HistoryEntry) (mw : MainWindow) :
  h_date snapshot <> "" -> h_date snapshot = current_date mw ->
  stored_events (_apply_history_snapshot snapshot mw) = h_events snapshot /\
  current_date (_apply_history_snapshot snapshot mw) = current_date mw.
Proof.
  intros Hk Hd.
  destruct (_apply_history_snapshot_spec snapshot mw Hk) as (He & Hc & _).
  assert (Hcd : current_date (_apply_history_snapshot snapshot mw) = current_date mw).
  { rewrite Hc. destruct (date_key_is_valid _); congruence. }
  split; [|exact Hcd].
  unfold stored_events. rewrite He, Hcd, <- Hd, lookup_insert_eq. reflexivity.
Qed.

Lemma perform_undo_noop (mw : MainWindow) :
  _history_index mw <= 0 -> perform_undo mw = showMessage "Nothing to undo" mw.
Proof.
  intros H. unfold perform_undo.
  destruct (Z.leb_spec (_history_index mw) 0); [reflexivity|lia].
Qed.

Lemma perform_redo_noop (mw : MainWindow) :
  Z.of_nat (length (_history mw)) - 1 <= _history_index mw ->
  perform_redo mw = showMessage "Nothing to redo" mw.
Proof.
  intros H. unfold perform_redo.
  destruct (Z.leb_spec (Z.of_nat (length (_history mw)) - 1) (_history_index mw)); [|lia].
  rewrite orb_true_r. reflexivity.
Qed.

Lemma history_nonempty_of_lookup (mw : MainWindow) (i : nat) (e : HistoryEntry) :
  _history mw !! i = Some e -> bool_decide (_history mw = []) = false.
Proof.
  intros H. apply bool_decide_eq_false_2. intros Hnil. rewrite Hnil in H.
  rewrite lookup_nil in H. discriminate.
Qed.

(** One step back: the cursor moves to the previous entry, the entry is
    applied, and the log itself is not touched. *)
Lemma perform_undo_step (mw : MainWindow) (e : HistoryEntry) :
  0 < _history_index mw ->
  _history mw !! Z.to_nat (_history_index mw - 1) = Some e ->
  h_date e <> "" -> h_date e = current_date mw ->
  let mw' := perform_undo mw in
  _history mw' = _history mw /\ _history_index mw' = _history_index mw - 1 /\
  stored_events mw' = h_events e /\ current_date mw' = current_date mw /\
  _history_freeze mw' = false /\ _history_max mw' = _history_max mw.
Proof.
  intros Hi He Hk Hd mw'. subst mw'. unfold perform_undo.
  destruct (Z.leb_spec (_history_index mw) 0); [lia|].
  rewrite (history_nonempty_of_lookup mw _ e He). cbn [orb].
  cbn [_history _history_index with_history with_history_freeze].
  rewrite py_index_nonneg by lia. rewrite He.
  match goal with |- context [_apply_history_snapshot e ?m] => set (m0 := m) end.
  destruct (_apply_history_snapshot_spec e m0 Hk) as (_ & _ & Hh & Hx & _ & Hm).
  destruct (_apply_history_snapshot_stored e m0 Hk Hd) as (Hs & Hc).
  unfold stored_events in *. window_simpl. rewrite Hs, Hh, Hx, Hm, Hc.
  subst m0. window_simpl. repeat split.
Qed.

(** One step forward. *)
Lemma perform_redo_step (mw : MainWindow) (e : HistoryEntry) :
  -1 <= _history_index mw ->
  _history mw !! Z.to_nat (_history_index mw + 1) = Some e ->
  h_date e <> "" -> h_date e = current_date mw ->
  let mw' := perform_redo mw in
  _history mw' = _history mw /\ _history_index mw' = _history_index mw + 1 /\
  stored_events mw' = h_events e /\ current_date mw' = current_date mw /\
  _history_freeze mw' = false /\ _history_max mw' = _history_max mw.
Proof.
  intros Hi He Hk Hd mw'. subst mw'. unfold perform_redo.
  rewrite (history_nonempty_of_lookup mw _ e He). cbn [orb].
  assert (Hlt : (Z.to_nat (_history_index mw + 1) < length (_history mw))%nat)
    by (eapply lookup_lt_Some; eauto).
  destruct (Z.leb_spec (Z.of_nat (length (_history mw)) - 1) (_history_index mw)); [lia|].
  cbn [_history _history_index with_history with_history_freeze].
  rewrite py_index_nonneg by lia. rewrite He.
  match goal with |- context [_apply_history_snapshot e ?m] => set (m0 := m) end.
  destruct (_apply_history_snapshot_spec e m0 Hk) as (_ & _ & Hh & Hx & _ & Hm).
  destruct (_apply_history_snapshot_stored e m0 Hk Hd) as (Hs & Hc).
  unfold stored_events in *. window_simpl. rewrite Hs, Hh, Hx, Hm, Hc.
  subst m0. window_simpl. repeat split.
Qed.

Lemma cursor_entry_none_or_nonneg (mw : MainWindow) (e : HistoryEntry) :
  history_wf mw -> cursor_entry mw = Some e ->
  0 <= _history_index mw < Z.of_nat (length (_history mw)).
Proof.
  intros [[Hnil Hidx]|Hin] He; [|exact Hin].
  unfold cursor_entry, py_index in He. rewrite Hnil in He.
  destruct (_ <? 0); rewrite lookup_nil in He; discriminate.
Qed.

(** Committing a change: the day is saved and a recording is made; after
    it the entry under the cursor holds the stored events. *)
Lemma on_day_changed_cursor (mw : MainWindow) :
  _history_freeze mw = false -> history_wf mw -> 1 <= _history_max mw ->
  history_of_day mw ->
  let mw1 := on_day_changed mw in
  (exists e, cursor_entry mw1 = Some e /\ h_events e = stored_events mw1) /\
  0 <= _history_index mw1 < Z.of_nat (length (_history mw1)) /\
  _history_freeze mw1 = false /\ _history_max mw1 = _history_max mw /\
  current_date mw1 = current_date mw /\ history_of_day mw1 /\
  day_view mw1 = day_view mw.
Proof.
  intros Hf Hwf Hmax Hday mw1. subst mw1. unfold on_day_changed.
  set (s := save_day (current_date mw) mw).
  assert (Hsf : _history_freeze s = false) by exact Hf.
  assert (Hswf : history_wf s) by exact Hwf.
  assert (Hsmax : 1 <= _history_max s) by exact Hmax.
  assert (Hsday : history_of_day s) by exact Hday.
  assert (Hscd : current_date s = current_date mw) by reflexivity.
  assert (Hsdv : day_view s = day_view mw) by reflexivity.
  assert (Hsm : _history_max s = _history_max mw) by reflexivity.
  clearbody s.
  destruct (cursor_entry s) as [e|] eqn:He.
  - destruct (decide (h_events e = stored_events s)) as [Hev|Hev].
    + pose proof (cursor_entry_none_or_nonneg s e Hswf He) as Hin.
      rewrite (_record_history_same s e) by (assumption || lia).
      unfold cursor_entry, stored_events, history_of_day in *. window_simpl.
      repeat split; try assumption; try lia. exists e. auto.
    + assert (Hne : forall e', cursor_entry s = Some e' -> h_events e' <> stored_events s)
        by (intros e' He'; congruence).
      destruct (_record_history_new_cursor s Hsf Hswf Hsmax Hne) as (Hc & Hl & Hin).
      rewrite _record_history_new in * by assumption.
      unfold cursor_entry, stored_events, history_of_day in *. window_simpl.
      repeat split; try assumption; try lia.
      * eexists. split; [exact Hc|reflexivity].
      * apply Forall_drop, Forall_app. split; [apply Forall_take; assumption|].
        constructor; [reflexivity|constructor].
  - assert (Hne : forall e', cursor_entry s = Some e' -> h_events e' <> stored_events s)
      by (intros e' He'; congruence).
    destruct (_record_history_new_cursor s Hsf Hswf Hsmax Hne) as (Hc & Hl & Hin).
    rewrite _record_history_new in * by assumption.
    unfold cursor_entry, stored_events, history_of_day in *. window_simpl.
    repeat split; try assumption; try lia.
    * eexists. split; [exact Hc|reflexivity].
    * apply Forall_drop, Forall_app. split; [apply Forall_take; assumption|].
      constructor; [reflexivity|constructor].
Qed.

(** Committing a change that differs from the entry under the cursor. *)
Lemma on_day_changed_new (mw : MainWindow) (e : HistoryEntry) :
  _history_freeze mw = false -> 2 <= _history_max mw -> history_of_day mw ->
  0 <= _history_index mw < Z.of_nat (length (_history mw)) ->
  cursor_entry mw = Some e ->
  let mw1 := on_day_changed mw in
  stored_events mw1 <> h_events e ->
  1 <= _history_index mw1 /\
  _history mw1 !! Z.to_nat (_history_index mw1 - 1) = Some e /\
  (let e1 := snapshot_entry (save_day (current_date mw) mw) in
   _history mw1 !! Z.to_nat (_history_index mw1) = Some e1 /\
   h_events e1 = stored_events mw1 /\ h_date e1 = current_date mw) /\
  Z.of_nat (length (_history mw1)) = _history_index mw1 + 1 /\
  current_date mw1 = current_date mw /\
  _history mw1 =
    drop (length (take (Z.to_nat (_history_index mw + 1)) (_history mw)) + 1
          - Z.to_nat (_history_max mw))
      (take (Z.to_nat (_history_index mw + 1)) (_history mw)
       ++ [snapshot_entry (save_day (current_date mw) mw)]).
Proof.
  intros Hf Hmax Hday Hin He mw1. subst mw1. unfold on_day_changed.
  set (s := save_day (current_date mw) mw).
  assert (Hsf : _history_freeze s = false) by exact Hf.
  assert (Hswf : history_wf s) by (right; exact Hin).
  assert (Hsmax : 2 <= _history_max s) by exact Hmax.
  assert (Hse : cursor_entry s = Some e) by exact He.
  assert (Hsi : 0 <= _history_index s) by (apply Hin).
  assert (Hscd : current_date s = current_date mw) by reflexivity.
  assert (Hsh : _history s = _history mw) by reflexivity.
  assert (Hsx : _history_index s = _history_index mw) by reflexivity.
  assert (Hsm : _history_max s = _history_max mw) by reflexivity.
  assert (Hstored : stored_events (_record_history s) = stored_events s).
  { unfold _record_history. rewrite Hsf.
    repeat match goal with |- context [if ?b then _ else _] => destruct b end;
      reflexivity. }
  rewrite Hstored. intros Hdiff.
  assert (Hne : forall e', cursor_entry s = Some e' -> h_events e' <> stored_events s)
    by (intros e' He'; congruence).
  destruct (_record_history_new_previous s e Hsf Hswf Hsmax Hne Hsi Hse) as (H1 & Hp & Hl).
  destruct (_record_history_new_cursor s Hsf Hswf) as (Hc & _ & Hin'); [lia|assumption|].
  unfold cursor_entry in Hc. rewrite py_index_nonneg in Hc by lia.
  split; [exact H1|]. split; [exact Hp|]. split.
  { split; [exact Hc|]. split; [reflexivity|exact Hscd]. }
  split; [exact Hl|].
  rewrite _record_history_new by (assumption || lia). window_simpl.
  split; [assumption|].
  rewrite length_app, Hsh, Hsx, Hsm. reflexivity.
Qed.

(** C5: undo at the first entry and redo at the last entry change nothing
    but the status line; and when a snapshot is recorded, the day is then
    changed and the change recorded, undo brings back the stored events of
    the snapshot without touching the log, and redo after it brings back
    the changed events, the cursor returning to where it was. *)
Theorem undo_redo_round_trip (mw0 : MainWindow) (dv' : DayView) :
  _history_freeze mw0 = false -> history_wf mw0 -> _history_max mw0 = 11 ->
  history_of_day mw0 -> current_date mw0 <> "" ->
  let mw1 := on_day_changed mw0 in
  let mw2 := on_day_changed (with_day_view dv' mw1) in
  stored_events mw2 <> stored_events mw1 ->
  let mw3 := perform_undo mw2 in
  let mw4 := perform_redo mw3 in
  (stored_events mw3 = stored_events mw1 /\ _history mw3 = _history mw2 /\
   _history_index mw3 = _history_index mw2 - 1) /\
  (stored_events mw4 = stored_events mw2 /\ _history mw4 = _history mw2 /\
   _history_index mw4 = _history_index mw2) /\
  (forall mw, _history_index mw <= 0 ->
     perform_undo mw = showMessage "Nothing to undo" mw) /\
  (forall mw, Z.of_nat (length (_history mw)) - 1 <= _history_index mw ->
     perform_redo mw = showMessage "Nothing to redo" mw).
Proof.
  intros Hf Hwf Hmax Hday Hcd mw1 mw2 Hdiff mw3 mw4.
  destruct (on_day_changed_cursor mw0 Hf Hwf) as ((e & He & Hev) & Hin & Hf1 & Hm1 & Hc1 & Hd1 & _);
    [lia|assumption|].
  fold mw1 in He, Hev, Hin, Hf1, Hm1, Hc1, Hd1.
  set (m := with_day_view dv' mw1) in *.
  assert (Hdiff' : stored_events (on_day_changed m) <> h_events e) by (rewrite Hev; exact Hdiff).
  destruct (on_day_changed_new m e) as (Hi2 & Hprev & (Hcur & Hev1 & Hde1) & Hlen & Hc2 & _);
    try assumption; [change (_history_max m) with (_history_max mw1); lia|].
  set (e1 := snapshot_entry (save_day (current_date m) m)) in *.
  fold mw2 in Hi2, Hprev, Hcur, Hev1, Hde1, Hlen, Hc2.
  change (current_date m) with (current_date mw1) in *.
  assert (Hde : h_date e = current_date mw2).
  { rewrite Hc2. unfold history_of_day in Hd1. rewrite Forall_forall in Hd1.
    apply Hd1. unfold cursor_entry in He. rewrite py_index_nonneg in He by lia.
    eapply list_elem_of_lookup_2. exact He. }
  destruct (perform_undo_step mw2 e) as (Hh3 & Hx3 & Hs3 & Hc3 & Hf3 & Hm3);
    try assumption; [lia|congruence|].
  fold mw3 in Hh3, Hx3, Hs3, Hc3, Hf3, Hm3.
  destruct (perform_redo_step mw3 e1) as (Hh4 & Hx4 & Hs4 & Hc4 & _).
  { lia. }
  { rewrite Hh3, Hx3. replace (_history_index mw2 - 1 + 1) with (_history_index mw2) by lia.
    exact Hcur. }
  { congruence. }
  { congruence. }
  fold mw4 in Hh4, Hx4, Hs4, Hc4.
  split; [repeat split; congruence|].
  split; [repeat split; try congruence; lia|].
  split; [exact perform_undo_noop|exact perform_redo_noop].
Qed.

Lemma undo_redo_round_trip_witness :
  let mw0 := _reset_history None (example_window (example_view 30 [])) in
  let dv' := example_view 30 [example_widget 0 480 510 false] in
  let mw1 := on_day_changed mw0 in
  let mw2 := on_day_changed (with_day_view dv' mw1) in
  (_history_freeze mw0 = false /\ history_wf mw0 /\ _history_max mw0 = 11 /\
   history_of_day mw0 /\ current_date mw0 <> "" /\
   stored_events mw2 <> stored_events mw1) /\
  stored_events (perform_undo mw2) = stored_events mw1 /\
  stored_events (perform_redo (perform_undo mw2)) = stored_events mw2.
Proof.
  intros mw0 dv' mw1 mw2.
  assert (Hwf : history_wf mw0) by (right; cbn; lia).
  assert (Hday : history_of_day mw0) by (repeat constructor).
  assert (Hcd : current_date mw0 <> "") by discriminate.
  assert (Hdiff : stored_events mw2 <> stored_events mw1) by (vm_compute; discriminate).
  pose proof (undo_redo_round_trip mw0 dv' eq_refl Hwf eq_refl Hday Hcd Hdiff) as H.
  split; [repeat split; assumption|].
  split; [exact (proj1 (proj1 H))|exact (proj1 (proj1 (proj2 H)))].
Defined.

(** The jump to an entry: the cursor goes there, the entry is applied, the
    log is the same list as before. *)
Lemma restore_history_entry_spec (mw : MainWindow) (index : Z) (e : HistoryEntry) :
  0 <= index -> _history mw !! Z.to_nat index = Some e ->
  h_date e <> "" -> h_date e = current_date mw ->
  let mw' := restore_history_entry index mw in
  _history mw' = _history mw /\ _history_index mw' = index /\
  stored_events mw' = h_events e /\ current_date mw' = current_date mw /\
  _history_freeze mw' = false /\ _history_max mw' = _history_max mw.
Proof.
  intros Hi He Hk Hd mw'. subst mw'. unfold restore_history_entry.
  assert (Hlt : (Z.to_nat index < length (_history mw))%nat)
    by (eapply lookup_lt_Some; eauto).
  destruct (Z.leb_spec 0 index); [|lia].
  destruct (Z.ltb_spec index (Z.of_nat (length (_history mw)))); [|lia].
  cbn [andb negb]. rewrite py_index_nonneg by lia. rewrite He.
  match goal with |- context [_apply_history_snapshot e ?m] => set (m0 := m) end.
  destruct (_apply_history_snapshot_spec e m0 Hk) as (_ & _ & Hh & Hx & _ & Hm).
  destruct (_apply_history_snapshot_stored e m0 Hk Hd) as (Hs & Hc).
  unfold stored_events in *. window_simpl. rewrite Hs, Hh, Hx, Hm, Hc.
  subst m0. window_simpl. repeat split.
Qed.

(** C6: the jump to an entry applies the entry and moves the cursor to it
    without removing anything: the log is the same list, so every entry
    after the index is still there; only the next recorded change cuts the
    log after the new cursor. *)
Theorem restore_keeps_forward_entries (mw : MainWindow) (index : Z)
    (e : HistoryEntry) (dv' : DayView) :
  0 <= index -> _history mw !! Z.to_nat index = Some e ->
  current_date mw <> "" -> history_of_day mw -> _history_max mw = 11 ->
  let mw' := restore_history_entry index mw in
  (_history mw' = _history mw /\ _history_index mw' = index /\
   stored_events mw' = h_events e) /\
  (forall (j : nat) x, index < Z.of_nat j ->
     _history mw !! j = Some x -> _history mw' !! j = Some x) /\
  (let mw'' := on_day_changed (with_day_view dv' mw') in
   stored_events mw'' <> h_events e ->
   exists entry,
     h_events entry = stored_events mw'' /\
     cursor_entry mw'' = Some entry /\
     _history mw'' =
       drop (Z.to_nat (index + 2 - 11))
            (take (Z.to_nat (index + 1)) (_history mw) ++ [entry])).
Proof.
  intros Hi He Hcd Hday Hmax mw'.
  assert (Hlt : (Z.to_nat index < length (_history mw))%nat)
    by (eapply lookup_lt_Some; eauto).
  assert (Hde : h_date e = current_date mw).
  { unfold history_of_day in Hday. rewrite Forall_forall in Hday. apply Hday.
    eapply list_elem_of_lookup_2. exact He. }
  destruct (restore_history_entry_spec mw index e) as (Hh & Hx & Hs & Hc & Hf & Hm);
    try assumption; [congruence|].
  fold mw' in Hh, Hx, Hs, Hc, Hf, Hm.
  split; [auto|]. split; [intros j x _ Hj; rewrite Hh; exact Hj|].
  intros mw'' Hdiff.
  set (m := with_day_view dv' mw') in *.
  assert (Hmday : history_of_day m).
  { unfold history_of_day, m. window_simpl. rewrite Hh, Hc. exact Hday. }
  assert (Hmin : 0 <= _history_index m < Z.of_nat (length (_history m))).
  { unfold m. window_simpl. rewrite Hh, Hx. lia. }
  assert (Hme : cursor_entry m = Some e).
  { unfold cursor_entry, m. window_simpl. rewrite Hh, Hx.
    rewrite py_index_nonneg by lia. exact He. }
  assert (Hmf : _history_freeze m = false) by exact Hf.
  assert (Hm2 : 2 <= _history_max m) by (unfold m; window_simpl; lia).
  destruct (on_day_changed_new m e Hmf Hm2 Hmday Hmin Hme Hdiff)
    as (Hi2 & _ & (Hcur & Hev1 & _) & _ & _ & Hlog).
  fold mw'' in Hi2, Hcur, Hev1, Hlog.
  exists (snapshot_entry (save_day (current_date m) m)).
  split; [exact Hev1|]. split.
  { unfold cursor_entry. rewrite py_index_nonneg by lia. exact Hcur. }
  rewrite Hlog.
  replace (_history m) with (_history mw) by (symmetry; exact Hh).
  replace (_history_index m) with index by (symmetry; exact Hx).
  replace (_history_max m) with 11 by (unfold m; window_simpl; lia).
  rewrite length_take. f_equal. lia.
Qed.

Lemma restore_keeps_forward_entries_witness :
  let mw := example_recorded in
  let e := {| h_date := example_day; h_events := []; h_action := "Initial load";
              h_timestamp := "2026-01-05T09:00:00" |} in
  (0 <= 0 /\ _history mw !! Z.to_nat 0 = Some e /\ current_date mw <> "" /\
   history_of_day mw /\ _history_max mw = 11) /\
  length (_history (restore_history_entry 0 mw)) = 2%nat /\
  stored_events (restore_history_entry 0 mw) = [].
Proof.
  intros mw e.
  assert (He : _history mw !! Z.to_nat 0 = Some e) by (vm_compute; reflexivity).
  assert (Hcd : current_date mw <> "") by discriminate.
  assert (Hday : history_of_day mw).
  { unfold history_of_day.
    match goal with
    | |- Forall ?P ?l => let l' := eval vm_compute in l in change (Forall P l')
    end.
    repeat constructor. }
  pose proof (restore_keeps_forward_entries mw 0 e (example_view 30 [])
                (Z.le_refl 0) He Hcd Hday eq_refl) as H.
  split; [repeat split; try assumption; lia|].
  destruct H as ((Hh & _ & Hs) & _).
  split; [rewrite Hh; vm_compute; reflexivity|exact Hs].
Defined.

(** ** Overlap and the placement search *)

Lemma ranges_overlap_true (s1 e1 s2 e2 : Z) :
  ranges_overlap s1 e1 s2 e2 = true <-> Z.max s1 s2 < Z.min e1 e2.
Proof. unfold ranges_overlap. apply Z.ltb_lt. Qed.

Lemma ranges_overlap_false (s1 e1 s2 e2 : Z) :
  ranges_overlap s1 e1 s2 e2 = false <-> Z.min e1 e2 <= Z.max s1 s2.
Proof. unfold ranges_overlap. apply Z.ltb_ge. Qed.

Lemma ranges_overlap_sym (s1 e1 s2 e2 : Z) :
  ranges_overlap s1 e1 s2 e2 = ranges_overlap s2 e2 s1 e1.
Proof. unfold ranges_overlap. rewrite (Z.max_comm s1), (Z.min_comm e1). reflexivity. Qed.

Lemma excluded_of_spec (ev : EventWidget) (exclude : option nat)
    (exclude_set : option (gset nat)) :
  bool_decide (wid ev ∈ excluded_of exclude exclude_set)
  = is_widget ev exclude || in_exclude_set ev exclude_set.
Proof.
  unfold excluded_of, is_widget, in_exclude_set.
  destruct exclude as [i|], exclude_set as [s|]; cbn [default].
  - destruct (Nat.eqb_spec (wid ev) i) as [->|Hne]; cbn [orb].
    + apply bool_decide_eq_true_2. set_solver.
    + apply bool_decide_ext. set_solver.
  - destruct (Nat.eqb_spec (wid ev) i) as [->|Hne]; cbn [orb].
    + apply bool_decide_eq_true_2. set_solver.
    + apply bool_decide_eq_false_2. set_solver.
  - cbn [orb]. apply bool_decide_ext. set_solver.
  - apply bool_decide_eq_false_2. set_solver.
Qed.

(** [overlaps_in] says whether some block outside the exclusions meets the
    range. *)
Lemma overlaps_in_false (evs : list EventWidget) (s e : Z) (exclude : option nat)
    (exclude_set : option (gset nat)) :
  overlaps_in evs s e exclude exclude_set = false <->
  forall ev, ev ∈ evs -> wid ev ∉ excluded_of exclude exclude_set ->
    ranges_overlap s e (start_min ev) (end_min ev) = false.
Proof.
  induction evs as [|ev evs IH]; cbn [overlaps_in].
  - split; [intros _ ev Hin; inversion Hin|reflexivity].
  - pose proof (excluded_of_spec ev exclude exclude_set) as Hx.
    destruct (is_widget ev exclude) eqn:H1; cbn [orb] in Hx.
    { apply bool_decide_eq_true_1 in Hx. rewrite IH. split.
      - intros H v Hin Hv. apply elem_of_cons in Hin as [->|Hin]; [contradiction|auto].
      - intros H v Hin. apply H. apply elem_of_cons. auto. }
    destruct (in_exclude_set ev exclude_set) eqn:H2.
    { apply bool_decide_eq_true_1 in Hx. rewrite IH. split.
      - intros H v Hin Hv. apply elem_of_cons in Hin as [->|Hin]; [contradiction|auto].
      - intros H v Hin. apply H. apply elem_of_cons. auto. }
    apply bool_decide_eq_false_1 in Hx.
    destruct (ranges_overlap s e (start_min ev) (end_min ev)) eqn:Ho.
    + split; [discriminate|]. intros H.
      rewrite <- Ho. apply H; [apply elem_of_cons; auto|assumption].
    + rewrite IH. split.
      * intros H v Hin Hv. apply elem_of_cons in Hin as [->|Hin]; auto.
      * intros H v Hin. apply H. apply elem_of_cons. auto.
Qed.

Lemma first_conflict_None (evs : list EventWidget) (excluded : gset nat) (s d : Z) :
  first_conflict evs excluded s d = None <->
  forall ev, ev ∈ evs -> wid ev ∉ excluded ->
    ranges_overlap s (s + d) (start_min ev) (end_min ev) = false.
Proof.
  induction evs as [|ev evs IH]; cbn [first_conflict].
  - split; [intros _ ev Hin; inversion Hin|reflexivity].
  - destruct (bool_decide (wid ev ∈ excluded)) eqn:Hx.
    { apply bool_decide_eq_true_1 in Hx. rewrite IH. split.
      - intros H v Hin Hv. apply elem_of_cons in Hin as [->|Hin]; [contradiction|auto].
      - intros H v Hin. apply H. apply elem_of_cons. auto. }
    apply bool_decide_eq_false_1 in Hx.
    destruct (ranges_overlap s (s + d) (start_min ev) (end_min ev)) eqn:Ho.
    + split; [discriminate|]. intros H. exfalso.
      rewrite (H ev) in Ho; [discriminate|apply elem_of_cons; auto|assumption].
    + rewrite IH. split.
      * intros H v Hin Hv. apply elem_of_cons in Hin as [->|Hin]; auto.
      * intros H v Hin. apply H. apply elem_of_cons. auto.
Qed.

Lemma first_conflict_Some (evs : list EventWidget) (excluded : gset nat) (s d : Z)
    (c : EventWidget) :
  first_conflict evs excluded s d = Some c ->
  c ∈ evs /\ (wid c ∉ excluded) /\
  ranges_overlap s (s + d) (start_min c) (end_min c) = true.
Proof.
  induction evs as [|ev evs IH]; cbn [first_conflict]; [discriminate|].
  destruct (bool_decide (wid ev ∈ excluded)) eqn:Hx.
  { intros H. destruct (IH H) as (Hin & Hrest). split; [apply elem_of_cons; auto|auto]. }
  apply bool_decide_eq_false_1 in Hx.
  destruct (ranges_overlap s (s + d) (start_min ev) (end_min ev)) eqn:Ho.
  - intros [= <-]. split; [apply elem_of_cons; auto|auto].
  - intros H. destruct (IH H) as (Hin & Hrest). split; [apply elem_of_cons; auto|auto].
Qed.

(** A free start for the search is a free range for [overlaps_range]. *)
Lemma first_conflict_overlaps_range (dv : DayView) (s d : Z) (exclude : option nat)
    (exclude_set : option (gset nat)) :
  first_conflict (event_widgets dv) (excluded_of exclude exclude_set) s d = None <->
  overlaps_range dv s (s + d) exclude exclude_set = false.
Proof. unfold overlaps_range. rewrite first_conflict_None, overlaps_in_false. reflexivity. Qed.

(** The undirected step, once the sort is carried out: the nearer of the
    candidates inside the day, the backward one on a tie. *)
Lemma next_start_nearest (c : EventWidget) (s d : Z) :
  start_min c - d < end_min c ->
  let fwd := end_min c in
  let bwd := start_min c - d in
  let inside x := (0 <= x <= 24 * 60 - d) in
  (inside fwd -> (~ inside bwd \/ Z.abs (fwd - s) < Z.abs (bwd - s)) ->
     next_start c s d 0 = Some fwd) /\
  (inside bwd -> (~ inside fwd \/ Z.abs (bwd - s) <= Z.abs (fwd - s)) ->
     next_start c s d 0 = Some bwd) /\
  (~ inside fwd -> ~ inside bwd -> next_start c s d 0 = None).
Proof.
  intros Hlt fwd bwd inside. unfold next_start, nearest_candidates.
  cbn [Z.ltb Z.compare]. fold fwd bwd. unfold inside.
  destruct (Z.leb_spec 0 fwd), (Z.leb_spec fwd (24 * 60 - d)),
           (Z.leb_spec 0 bwd), (Z.leb_spec bwd (24 * 60 - d));
    cbn [andb app py_sorted foldl insert_sorted];
    repeat split; intros; try lia; try reflexivity;
    unfold tuple_leb; cbn [fst snd];
    destruct (Z.ltb_spec (Z.abs (fwd - s)) (Z.abs (bwd - s)));
    destruct (Z.eqb_spec (Z.abs (fwd - s)) (Z.abs (bwd - s)));
    destruct (Z.leb_spec fwd bwd);
    cbn [orb andb]; try reflexivity; lia.
Qed.

(** What the loop returns was a candidate, free of conflicts. *)
Lemma clamp_loop_sound (n : nat) (evs : list EventWidget) (excluded : gset nat)
    (d direction s r : Z) :
  clamp_loop n evs excluded d direction s = Some r ->
  first_conflict evs excluded r d = None /\
  (r = s \/ exists x, r = Z.max 0 (Z.min x (24 * 60 - d))).
Proof.
  revert s. induction n as [|n IH]; intros s; cbn [clamp_loop]; [discriminate|].
  destruct (first_conflict evs excluded s d) as [c|] eqn:Hc.
  - destruct (next_start c s d direction) as [s'|]; [|discriminate].
    intros H. destruct (IH _ H) as (Hfree & [->|Hx]); split; eauto.
  - intros [= <-]. auto.
Qed.

(** C2, as the specification states it, fails for the undirected search.
    With the store [(480,510)] and the request (480, 30) both candidates,
    510 and 450, are inside the day, free and 30 minutes away: the search
    returns the backward one, 450.  With the store [(480,510); (510,540)]
    and the request (490, 30) the forward candidate 510 still overlaps and
    the backward candidate 450 is free: the search does not discard 510, it
    walks 510, 480, 450 and gives up when its three iterations are used. *)
Lemma clamp_nearest_counterexample :
  ~ nearest_ties_favor_forward /\ ~ nearest_discards_overlapping.
Proof.
  split.
  - intros H.
    specialize (H (example_view 30 [example_widget 0 480 510 false]) 480 30
                  (example_widget 0 480 510 false)).
    cbv zeta in H.
    assert (Hr : clamp_start_to_available
                   (example_view 30 [example_widget 0 480 510 false]) 480 30 None None 0
                 = Some 450) by (vm_compute; reflexivity).
    rewrite Hr in H.
    assert (Hf : Some 450 = Some (end_min (example_widget 0 480 510 false))).
    { apply H; try (vm_compute; reflexivity); cbn; lia. }
    discriminate Hf.
  - intros H.
    specialize (H (example_view 30 [example_widget 0 480 510 false;
                                     example_widget 1 510 540 false]) 490 30
                  (example_widget 0 480 510 false)).
    cbv zeta in H.
    assert (Hr : clamp_start_to_available
                   (example_view 30 [example_widget 0 480 510 false;
                                     example_widget 1 510 540 false]) 490 30 None None 0
                 = None) by (vm_compute; reflexivity).
    rewrite Hr in H.
    assert (Hf : None = Some (start_min (example_widget 0 480 510 false) - 30)).
    { apply H; try (vm_compute; reflexivity); cbn; lia. }
    discriminate Hf.
Qed.

(** C2, amended: the search clamps the request into [0, 1440 - duration]
    and makes at most N + 1 rounds.  A round with no conflict returns the
    candidate.  Otherwise the candidate moves to the end of the first
    conflict (forward), to its start less the duration (backward), or, in
    the undirected search, to whichever of these two lies inside
    [0, 1440 - duration] and is nearer to the current candidate, the
    backward one on a tie, without testing them for overlap; when neither
    lies inside, the search returns nothing.  The new candidate is clamped
    again.  When the rounds are used up the search returns nothing.
    Whatever it returns is inside the day and free of conflicts. *)
Theorem clamp_start_to_available_search (dv : DayView) (start duration : Z)
    (exclude : option nat) (exclude_set : option (gset nat)) (direction : Z) :
  let d := Z.max 1 duration in
  let excluded := excluded_of exclude exclude_set in
  let clamp x := Z.max 0 (Z.min x (24 * 60 - d)) in
  let evs := event_widgets dv in
  let search n s := clamp_loop n evs excluded d direction s in
  clamp_start_to_available dv start duration exclude exclude_set direction
    = search (S (length evs)) (clamp start) /\
  (forall s, search O s = None) /\
  (forall n s, first_conflict evs excluded s d = None -> search (S n) s = Some s) /\
  (forall n s c, first_conflict evs excluded s d = Some c ->
     let fwd := end_min c in
     let bwd := start_min c - d in
     let inside x := (0 <= x <= 24 * 60 - d) in
     (0 < direction -> search (S n) s = search n (clamp fwd)) /\
     (direction < 0 -> search (S n) s = search n (clamp bwd)) /\
     (direction = 0 ->
        (inside fwd -> (~ inside bwd \/ Z.abs (fwd - s) < Z.abs (bwd - s)) ->
           search (S n) s = search n fwd) /\
        (inside bwd -> (~ inside fwd \/ Z.abs (bwd - s) <= Z.abs (fwd - s)) ->
           search (S n) s = search n bwd) /\
        (~ inside fwd -> ~ inside bwd -> search (S n) s = None))) /\
  (forall r,
     clamp_start_to_available dv start duration exclude exclude_set direction = Some r ->
     overlaps_range dv r (r + d) exclude exclude_set = false /\
     0 <= r /\ (d <= 24 * 60 -> r + d <= 24 * 60)).
Proof.
  intros d excluded clamp evs search.
  split; [reflexivity|]. split; [reflexivity|]. split.
  { intros n s Hn. unfold search. cbn [clamp_loop]. rewrite Hn. reflexivity. }
  split.
  { intros n s c Hc fwd bwd inside.
    destruct (first_conflict_Some _ _ _ _ _ Hc) as (_ & _ & Ho).
    apply ranges_overlap_true in Ho.
    assert (Hlt : start_min c - d < end_min c) by (unfold d; lia).
    unfold search. cbn [clamp_loop]. rewrite Hc.
    split; [|split].
    - intros Hd. unfold next_start. destruct (Z.ltb_spec 0 direction); [reflexivity|lia].
    - intros Hd. unfold next_start.
      destruct (Z.ltb_spec 0 direction); [lia|].
      destruct (Z.ltb_spec direction 0); [reflexivity|lia].
    - intros ->.
      destruct (next_start_nearest c s d Hlt) as (Hf & Hb & Hn).
      fold fwd bwd in Hf, Hb, Hn.
      split; [|split].
      + intros Hi Hor. rewrite (Hf Hi Hor). f_equal. unfold inside in Hi. lia.
      + intros Hi Hor. rewrite (Hb Hi Hor). f_equal. unfold inside in Hi. lia.
      + intros H1 H2. rewrite (Hn H1 H2). reflexivity. }
  intros r Hr. unfold clamp_start_to_available in Hr.
  apply clamp_loop_sound in Hr as (Hfree & Hshape).
  fold d in Hfree, Hshape.
  split; [apply first_conflict_overlaps_range; exact Hfree|].
  destruct Hshape as [->|[x ->]]; lia.
Qed.

(** Scenario 2: with (480,510) in the store, a forward request for 30
    minutes at 490 resolves to 510. *)
Lemma clamp_start_to_available_search_witness :
  let dv := example_view 30 [example_widget 0 480 510 false] in
  clamp_start_to_available dv 490 30 None None 1 = Some 510 /\
  overlaps_range dv 510 540 None None = false.
Proof.
  intros dv.
  pose proof (clamp_start_to_available_search dv 490 30 None None 1) as H.
  cbv zeta in H. destruct H as (_ & _ & _ & _ & H).
  assert (Hr : clamp_start_to_available dv 490 30 None None 1 = Some 510)
    by (vm_compute; reflexivity).
  split; [exact Hr|]. exact (proj1 (H 510 Hr)).
Defined.

(** ** Group moves *)

Lemma with_range_with_range (s e s' e' : Z) (w : EventWidget) :
  with_range s e (with_range s' e' w) = with_range s e w.
Proof. reflexivity. Qed.

Lemma with_range_id (w : EventWidget) : with_range (start_min w) (end_min w) w = w.
Proof. destruct w. reflexivity. Qed.

Lemma update_widget_map_wid (i : nat) (s e : Z) (ws : list EventWidget) :
  map wid (update_widget i (with_range s e) ws) = map wid ws.
Proof.
  unfold update_widget. rewrite map_map. apply map_ext. intros w.
  destruct (Nat.eqb (wid w) i); reflexivity.
Qed.

(** The third loop in closed form: each widget takes the range of the
    last position that names it, and keeps its own when none does. *)
Lemma apply_positions_map (ps : list (nat * Z * Z)) (ws : list EventWidget) :
  apply_positions ps ws =
  map (fun w => match final_position (wid w) ps with
                | Some x => with_range x.1 x.2 w
                | None => w
                end) ws.
Proof.
  unfold apply_positions. revert ws.
  induction ps as [|p ps IH]; intros ws; cbn [foldl final_position].
  - rewrite map_id. reflexivity.
  - rewrite IH. unfold update_widget. rewrite map_map. apply map_ext. intros w.
    destruct (Nat.eqb (wid w) p.1.1) eqn:Hw.
    + apply Nat.eqb_eq in Hw. cbn [wid with_range]. rewrite <- Hw.
      destruct (final_position (wid w) ps); [reflexivity|].
      rewrite Nat.eqb_refl. reflexivity.
    + destruct (final_position (wid w) ps); [reflexivity|].
      rewrite Nat.eqb_sym, Hw. reflexivity.
Qed.

Lemma final_position_shift (i : nat) (delta : Z) (refs : list (nat * Z * Z)) :
  final_position i (map (shift_ref delta) refs) =
  (fun x => (x.1 + delta, x.2 + delta)) <$> final_position i refs.
Proof.
  induction refs as [|r refs IH]; cbn [map final_position]; [reflexivity|].
  rewrite IH. destruct (final_position i refs); cbn [fmap option_fmap option_map].
  - reflexivity.
  - unfold shift_ref. cbn [fst snd]. destruct (Nat.eqb r.1.1 i); reflexivity.
Qed.

Lemma shifted_positions_Some (refs : list (nat * Z * Z)) (delta : Z) :
  Forall (fun r => 0 <= r.1.2 + delta /\ r.2 + delta <= 24 * 60) refs ->
  shifted_positions refs delta = Some (map (shift_ref delta) refs).
Proof.
  induction 1 as [|r refs [Hlo Hhi] _ IH]; cbn [shifted_positions map]; [reflexivity|].
  destruct r as [[w s] e]. cbn [fst snd] in *.
  destruct (Z.ltb_spec (s + delta) 0); [lia|].
  destruct (Z.ltb_spec (24 * 60) (e + delta)); [lia|].
  cbn [orb]. rewrite IH. reflexivity.
Qed.

Lemma shifted_positions_None (refs : list (nat * Z * Z)) (delta : Z) :
  Exists (fun r => r.1.2 + delta < 0 \/ 24 * 60 < r.2 + delta) refs ->
  shifted_positions refs delta = None.
Proof.
  induction 1 as [r refs Hr|r refs _ IH]; cbn [shifted_positions];
    destruct r as [[w s] e]; cbn [fst snd] in *.
  - destruct (Z.ltb_spec (s + delta) 0); [reflexivity|].
    destruct (Z.ltb_spec (24 * 60) (e + delta)); [reflexivity|lia].
  - rewrite IH. destruct (_ || _); reflexivity.
Qed.

Lemma shifted_positions_inv (refs : list (nat * Z * Z)) (delta : Z)
    (ps : list (nat * Z * Z)) :
  shifted_positions refs delta = Some ps ->
  ps = map (shift_ref delta) refs /\
  Forall (fun r => 0 <= r.1.2 + delta /\ r.2 + delta <= 24 * 60) refs.
Proof.
  revert ps. induction refs as [|r refs IH]; intros ps; cbn [shifted_positions map].
  - intros [= <-]. split; [reflexivity|constructor].
  - destruct r as [[w s] e].
    destruct (Z.ltb_spec (s + delta) 0); [discriminate|].
    destruct (Z.ltb_spec (24 * 60) (e + delta)); [discriminate|]. cbn [orb].
    destruct (shifted_positions refs delta) as [ps'|]; [|discriminate].
    intros [= <-]. destruct (IH ps' eq_refl) as [-> HF].
    split; [reflexivity|]. constructor; [cbn [fst snd]; lia|exact HF].
Qed.

Lemma any_overlap_true (dv : DayView) (ps : list (nat * Z * Z)) (ex : gset nat) :
  any_overlap dv ps ex = true <->
  Exists (fun p => overlaps_range dv p.1.2 p.2 None (Some ex) = true) ps.
Proof.
  induction ps as [|p ps IH]; cbn [any_overlap].
  - split; [discriminate|]. intros H. inversion H.
  - destruct p as [[w s] e]. cbn [fst snd].
    destruct (overlaps_range dv s e None (Some ex)) eqn:Ho.
    + split; [|reflexivity]. intros _. constructor. exact Ho.
    + rewrite IH. split.
      * intros H. apply Exists_cons_tl. exact H.
      * intros H. inversion H as [? ? H1|? ? H1]; subst; [|exact H1].
        cbn [fst snd] in H1. congruence.
Qed.

(** The view after a delta has been taken by every member. *)
Lemma update_group_move_cases (y : Q) (dv : DayView) :
  _group_move_active dv = true ->
  let delta := group_delta y dv in
  let dv' := _update_group_move y dv in
  dv' = dv \/
  (Forall (fun r => ~ member_fails dv delta r) (_group_move_refs dv) /\
   event_widgets dv' =
     map (fun w => match final_position (wid w) (_group_move_refs dv) with
                   | Some x => with_range (x.1 + delta) (x.2 + delta) w
                   | None => w
                   end) (event_widgets dv) /\
   _group_move_last_delta dv' = delta /\
   _group_move_refs dv' = _group_move_refs dv /\
   _group_move_selected dv' = _group_move_selected dv /\
   _group_move_active dv' = true /\
   _group_move_start_global dv' = _group_move_start_global dv /\
   px_per_min dv' = px_per_min dv /\ snap_step dv' = snap_step dv).
Proof.
  intros Ha delta dv'. subst dv'. unfold _update_group_move. rewrite Ha. cbn [negb].
  fold (group_delta y dv). fold delta.
  destruct (Z.eqb_spec delta (_group_move_last_delta dv)); [left; reflexivity|].
  destruct (shifted_positions (_group_move_refs dv) delta) as [ps|] eqn:Hps;
    [|left; reflexivity].
  apply shifted_positions_inv in Hps as [-> Hin].
  destruct (any_overlap dv (map (shift_ref delta) (_group_move_refs dv))
              (_group_move_selected dv)) eqn:Hov; [left; reflexivity|].
  right. cbn. split.
  - rewrite Forall_forall in Hin |- *. intros r Hr [Hlo|[Hhi|Ho]].
    + specialize (Hin r Hr). lia.
    + specialize (Hin r Hr). lia.
    + assert (Hex : any_overlap dv (map (shift_ref delta) (_group_move_refs dv))
                      (_group_move_selected dv) = true).
      { apply any_overlap_true. apply Exists_exists. exists (shift_ref delta r).
        split; [apply (list_elem_of_fmap_2 (shift_ref delta)); exact Hr|exact Ho]. }
      congruence.
  - split; [|repeat split; assumption].
    rewrite apply_positions_map. apply map_ext. intros w.
    rewrite final_position_shift.
    destruct (final_position (wid w) (_group_move_refs dv)); reflexivity.
Qed.

(** A member that fails discards the delta: the view is what it was. *)
Lemma update_group_move_fail (y : Q) (dv : DayView) (r : nat * Z * Z) :
  r ∈ _group_move_refs dv -> member_fails dv (group_delta y dv) r ->
  _update_group_move y dv = dv.
Proof.
  intros Hr Hfail. unfold _update_group_move.
  destruct (_group_move_active dv); [|reflexivity]. cbn [negb].
  fold (group_delta y dv). set (delta := group_delta y dv) in *.
  destruct (Z.eqb_spec delta (_group_move_last_delta dv)); [reflexivity|].
  destruct (shifted_positions (_group_move_refs dv) delta) as [ps|] eqn:Hps;
    [|reflexivity].
  apply shifted_positions_inv in Hps as [-> Hin].
  rewrite Forall_forall in Hin. specialize (Hin r Hr).
  destruct Hfail as [Hlo|[Hhi|Ho]]; [lia|lia|].
  assert (Hex : any_overlap dv (map (shift_ref delta) (_group_move_refs dv))
                  (_group_move_selected dv) = true).
  { apply any_overlap_true. apply Exists_exists. exists (shift_ref delta r).
    split; [apply (list_elem_of_fmap_2 (shift_ref delta)); exact Hr|exact Ho]. }
  rewrite Hex. reflexivity.
Qed.

Lemma snap_delta_on_grid (dv : DayView) (raw : Q) :
  1 < snap_step dv -> exists k, snap_delta dv raw = k * snap_step dv.
Proof.
  intros H. unfold snap_delta. destruct (Z.leb_spec (snap_step dv) 1); [lia|].
  eexists. reflexivity.
Qed.

(** A delta that no member refuses and that is not the one already in
    effect is taken: the view records it as the last accepted delta. *)
Lemma update_group_move_accepts (y : Q) (dv : DayView) :
  _group_move_active dv = true ->
  (forall r, r ∈ _group_move_refs dv -> ~ member_fails dv (group_delta y dv) r) ->
  group_delta y dv <> _group_move_last_delta dv ->
  _group_move_last_delta (_update_group_move y dv) = group_delta y dv.
Proof.
  intros Ha Hno Hne. unfold _update_group_move. rewrite Ha. cbn [negb].
  fold (group_delta y dv). set (delta := group_delta y dv) in *.
  destruct (Z.eqb_spec delta (_group_move_last_delta dv)); [contradiction|].
  rewrite shifted_positions_Some.
  2:{ apply Forall_forall. intros r Hr. specialize (Hno r Hr). split.
      - apply Z.nlt_ge. intros H. apply Hno. left. exact H.
      - apply Z.nlt_ge. intros H. apply Hno. right. left. exact H. }
  destruct (any_overlap dv (map (shift_ref delta) (_group_move_refs dv))
              (_group_move_selected dv)) eqn:Hov; [|reflexivity].
  exfalso. apply any_overlap_true in Hov. apply Exists_exists in Hov as (p & Hp & Ho).
  change (p ∈ shift_ref delta <$> _group_move_refs dv) in Hp.
  apply list_elem_of_fmap in Hp as (r & -> & Hr).
  apply (Hno r Hr). right. right. exact Ho.
Qed.

(** C3: one delta, snapped to the grid, is tried on every member captured
    at the start of the gesture.  When some member would leave [0, 1440]
    or would meet a block outside the selection, the view stays exactly as
    it was, and so it does when the delta is the one already in effect.
    When no member fails and the delta is new, it is applied: every captured
    member takes its start-of-gesture range plus the delta, the blocks that
    were not captured stay as they are, the delta becomes the last accepted
    one and the gesture goes on with the same members.  There is no third
    outcome: the delta is never applied to some members only. *)
Theorem update_group_move_all_or_nothing (y : Q) (dv : DayView) :
  _group_move_active dv = true ->
  let delta := group_delta y dv in
  let dv' := _update_group_move y dv in
  (1 < snap_step dv -> exists k, delta = k * snap_step dv) /\
  ((exists r, r ∈ _group_move_refs dv /\ member_fails dv delta r) -> dv' = dv) /\
  (delta = _group_move_last_delta dv -> dv' = dv) /\
  ((forall r, r ∈ _group_move_refs dv -> ~ member_fails dv delta r) ->
   delta <> _group_move_last_delta dv ->
   _group_move_last_delta dv' = delta /\
   event_widgets dv' =
     map (fun w => match final_position (wid w) (_group_move_refs dv) with
                   | Some x => with_range (x.1 + delta) (x.2 + delta) w
                   | None => w
                   end) (event_widgets dv) /\
   _group_move_refs dv' = _group_move_refs dv /\
   _group_move_selected dv' = _group_move_selected dv /\
   _group_move_active dv' = true /\
   _group_move_start_global dv' = _group_move_start_global dv) /\
  (dv' = dv \/
   ((forall r, r ∈ _group_move_refs dv -> ~ member_fails dv delta r) /\
    _group_move_last_delta dv' = delta /\
    event_widgets dv' =
      map (fun w => match final_position (wid w) (_group_move_refs dv) with
                    | Some x => with_range (x.1 + delta) (x.2 + delta) w
                    | None => w
                    end) (event_widgets dv))).
Proof.
  intros Ha delta dv'. split; [|split; [|split; [|split]]].
  - intros Hs. apply snap_delta_on_grid. exact Hs.
  - intros (r & Hr & Hf). exact (update_group_move_fail y dv r Hr Hf).
  - intros Hsame. subst dv'. unfold _update_group_move. rewrite Ha. cbn [negb].
    fold (group_delta y dv). fold delta. rewrite Hsame, Z.eqb_refl. reflexivity.
  - intros Hno Hne.
    pose proof (update_group_move_accepts y dv Ha Hno Hne) as Hlast.
    destruct (update_group_move_cases y dv Ha)
      as [H|(_ & Hw & Hd & Hr & Hs & Hact & Hg & _)].
    + exfalso. apply Hne. unfold dv' in H. rewrite H in Hlast. symmetry. exact Hlast.
    + repeat split; assumption.
  - destruct (update_group_move_cases y dv Ha) as [H|(HF & Hw & Hd & _)]; [left; exact H|].
    right. split; [|split; assumption].
    rewrite Forall_forall in HF. exact HF.
Qed.

(** Scenario 4: a delta of +15 would put B on (555,585), which is taken by
    a block outside the selection; A and B stay where they are.  A delta of
    -15 meets nothing: A and B both move up by 15 minutes and the block
    outside the selection stays. *)
Lemma update_group_move_all_or_nothing_witness :
  let dv := day_view example_scenario4 in
  _group_move_active dv = true /\ group_delta 45 dv = 15 /\
  map interval_of (event_widgets (_update_group_move 45 dv)) =
    [(0%nat, 480, 510, false); (1%nat, 540, 570, false); (2%nat, 555, 585, false)] /\
  group_delta (-45) dv = -15 /\
  _group_move_last_delta (_update_group_move (-45) dv) = -15 /\
  map interval_of (event_widgets (_update_group_move (-45) dv)) =
    [(0%nat, 465, 495, false); (1%nat, 525, 555, false); (2%nat, 555, 585, false)].
Proof.
  intros dv.
  assert (Ha : _group_move_active dv = true) by reflexivity.
  assert (Hd : group_delta 45 dv = 15) by (vm_compute; reflexivity).
  assert (Hd' : group_delta (-45) dv = -15) by (vm_compute; reflexivity).
  split; [exact Ha|]. split; [exact Hd|].
  destruct (update_group_move_all_or_nothing 45 dv Ha) as (_ & Hfail & _).
  destruct (update_group_move_all_or_nothing (-45) dv Ha) as (_ & _ & _ & Hacc & _).
  split; [|split; [exact Hd'|]].
  - rewrite Hfail; [vm_compute; reflexivity|].
    exists (1%nat, 540, 570). split.
    + vm_compute. apply list_elem_of_further, list_elem_of_here.
    + right. right. rewrite Hd. vm_compute. reflexivity.
  - destruct Hacc as (Hlast & Hws & _).
    + intros r Hr. rewrite Hd'.
      change (r ∈ [(0%nat, 480, 510); (1%nat, 540, 570)]) in Hr.
      apply elem_of_cons in Hr as [->|Hr];
        [|apply list_elem_of_singleton in Hr as ->];
        (intros [H|[H|H]]; [cbn in H; lia|cbn in H; lia|vm_compute in H; discriminate]).
    + rewrite Hd'. vm_compute. discriminate.
    + split; [rewrite Hlast; exact Hd'|].
      rewrite Hws, Hd'. vm_compute. reflexivity.
Defined.

(** What [_start_group_move] captures when it accepts the gesture. *)
Lemma start_group_move_spec (y0 : Q) (mw0 mw1 : MainWindow) :
  _start_group_move y0 mw0 = (mw1, true) ->
  let dv0 := day_view mw0 in
  let dv1 := day_view mw1 in
  event_widgets dv1 = event_widgets dv0 /\ _group_move_active dv1 = true /\
  _group_move_last_delta dv1 = 0 /\
  _group_move_refs dv1
    = map ref_of (widgets_of (_box_selected_widgets dv0) (event_widgets dv0)) /\
  _group_move_selected dv1 = _box_selected_widgets dv0 /\
  existsb locked (widgets_of (_box_selected_widgets dv0) (event_widgets dv0)) = false.
Proof.
  unfold _start_group_move.
  destruct (bool_decide (_box_selected_widgets (day_view mw0) = ∅)); [intros [= _ H]; discriminate|].
  destruct (existsb locked _) eqn:Hl; [intros [= _ H]; discriminate|].
  intros [= <-]. cbn. repeat split.
Qed.

Lemma final_position_absent (i : nat) (ws : list EventWidget) (sel : gset nat) :
  i ∉ map wid ws -> final_position i (map ref_of (widgets_of sel ws)) = None.
Proof.
  induction ws as [|a ws IH]; cbn [widgets_of List.filter map final_position];
    [reflexivity|].
  intros Hn. rewrite not_elem_of_cons in Hn. destruct Hn as [Hne Hn].
  fold (widgets_of sel ws).
  destruct (bool_decide (wid a ∈ sel)); cbn [map final_position].
  - rewrite (IH Hn). unfold ref_of at 1. cbn [fst snd].
    destruct (Nat.eqb_spec (wid a) i); [congruence|reflexivity].
  - exact (IH Hn).
Qed.

(** In a store without two widgets of one identity, the captured
    position of a widget is its own range if it is selected. *)
Lemma final_position_refs (ws : list EventWidget) (sel : gset nat) (w : EventWidget) :
  NoDup (map wid ws) -> w ∈ ws ->
  final_position (wid w) (map ref_of (widgets_of sel ws)) =
  if bool_decide (wid w ∈ sel) then Some (start_min w, end_min w) else None.
Proof.
  induction ws as [|a ws IH]; intros Hnd Hin; [inversion Hin|].
  cbn [map] in Hnd. apply NoDup_cons in Hnd as [Ha Hnd].
  cbn [widgets_of List.filter]. fold (widgets_of sel ws).
  apply elem_of_cons in Hin as [->|Hin].
  - destruct (bool_decide (wid a ∈ sel)); cbn [map final_position].
    + rewrite (final_position_absent _ _ _ Ha). unfold ref_of at 1. cbn [fst snd].
      rewrite Nat.eqb_refl. reflexivity.
    + apply final_position_absent. exact Ha.
  - assert (Hne : wid a <> wid w).
    { intros Heq. apply Ha. rewrite Heq. apply (list_elem_of_fmap_2 wid). exact Hin. }
    destruct (bool_decide (wid a ∈ sel)); cbn [map final_position].
    + rewrite (IH Hnd Hin). destruct (bool_decide (wid w ∈ sel)); [reflexivity|].
      unfold ref_of. cbn [fst snd].
      destruct (Nat.eqb_spec (wid a) (wid w)); [congruence|reflexivity].
    + exact (IH Hnd Hin).
Qed.

Lemma group_move_inv_start (y0 : Q) (mw0 mw1 : MainWindow) :
  _start_group_move y0 mw0 = (mw1, true) ->
  group_move_inv (event_widgets (day_view mw0)) (_box_selected_widgets (day_view mw0))
    (day_view mw1).
Proof.
  intros H. destruct (start_group_move_spec y0 mw0 mw1 H) as (Hw & Ha & Hd & Hr & Hs & _).
  split; [exact Ha|]. split; [exact Hr|]. split; [exact Hs|].
  rewrite Hw, Hd. symmetry. rewrite <- (map_id (event_widgets (day_view mw0))) at 2.
  apply map_ext. intros w. unfold shift_selected.
  destruct (bool_decide _); [|reflexivity].
  rewrite !Z.add_0_r. apply with_range_id.
Qed.

Lemma group_move_inv_update (ws0 : list EventWidget) (sel : gset nat) (y : Q)
    (dv : DayView) :
  NoDup (map wid ws0) -> group_move_inv ws0 sel dv ->
  group_move_inv ws0 sel (_update_group_move y dv).
Proof.
  intros Hnd (Ha & Hr & Hs & Hw).
  destruct (update_group_move_cases y dv Ha) as [->|(_ & Hw' & Hd' & Hr' & Hs' & Ha' & _)];
    [split; auto|].
  split; [exact Ha'|]. split; [rewrite Hr'; exact Hr|]. split; [rewrite Hs'; exact Hs|].
  rewrite Hw', Hd', Hw, Hr. rewrite map_map.
  apply map_ext_in. intros w Hin. apply list_elem_of_In in Hin.
  assert (Hid : wid (shift_selected sel (_group_move_last_delta dv) w) = wid w).
  { unfold shift_selected. destruct (bool_decide _); reflexivity. }
  rewrite Hid, (final_position_refs ws0 sel w Hnd Hin).
  unfold shift_selected. destruct (bool_decide (wid w ∈ sel)); reflexivity.
Qed.

Lemma group_move_inv_updates (ws0 : list EventWidget) (sel : gset nat) (ys : list Q) :
  NoDup (map wid ws0) ->
  forall dv, group_move_inv ws0 sel dv ->
  group_move_inv ws0 sel (foldl (fun dv y => _update_group_move y dv) dv ys).
Proof.
  intros Hnd. induction ys as [|y ys IH]; intros dv Hinv; cbn [foldl]; [exact Hinv|].
  apply IH. apply group_move_inv_update; assumption.
Qed.

(** C10: during a group move, whatever updates the pointer has caused,
    the store is the store of the gesture's start with every selected
    widget moved by one and the same delta, the last accepted one, and
    every other widget left as it was.  So a selected widget keeps its
    duration, two selected widgets keep the gap between them, and a widget
    outside the selection is never repositioned. *)
Theorem group_move_uniform_shift (mw0 mw1 : MainWindow) (y0 : Q) (ys : list Q) :
  NoDup (map wid (event_widgets (day_view mw0))) ->
  _start_group_move y0 mw0 = (mw1, true) ->
  let sel := _box_selected_widgets (day_view mw0) in
  let ws0 := event_widgets (day_view mw0) in
  let dv := foldl (fun dv y => _update_group_move y dv) (day_view mw1) ys in
  let delta := _group_move_last_delta dv in
  event_widgets dv = map (shift_selected sel delta) ws0 /\
  (forall (i : nat) w0, ws0 !! i = Some w0 ->
     exists w, event_widgets dv !! i = Some w /\ wid w = wid w0 /\
       (wid w0 ∈ sel ->
          start_min w = start_min w0 + delta /\ end_min w = end_min w0 + delta /\
          end_min w - start_min w = end_min w0 - start_min w0) /\
       (wid w0 ∉ sel -> w = w0)) /\
  (forall (i j : nat) a0 b0 a b,
     ws0 !! i = Some a0 -> ws0 !! j = Some b0 -> wid a0 ∈ sel -> wid b0 ∈ sel ->
     event_widgets dv !! i = Some a -> event_widgets dv !! j = Some b ->
     start_min b - end_min a = start_min b0 - end_min a0).
Proof.
  intros Hnd Hstart sel ws0 dv delta.
  pose proof (group_move_inv_updates ws0 sel ys Hnd _ (group_move_inv_start y0 mw0 mw1 Hstart))
    as (_ & _ & _ & Hw).
  fold dv in Hw. fold delta in Hw.
  assert (Hpt : forall (i : nat) w0, ws0 !! i = Some w0 ->
                event_widgets dv !! i = Some (shift_selected sel delta w0)).
  { intros i w0 Hi. rewrite Hw. rewrite list_lookup_fmap, Hi. reflexivity. }
  split; [exact Hw|]. split.
  - intros i w0 Hi. exists (shift_selected sel delta w0).
    split; [exact (Hpt i w0 Hi)|]. unfold shift_selected.
    destruct (decide (wid w0 ∈ sel)) as [Hs|Hs].
    + rewrite bool_decide_eq_true_2 by exact Hs. cbn.
      split; [reflexivity|]. split; [intros _; lia|contradiction].
    + rewrite bool_decide_eq_false_2 by exact Hs.
      split; [reflexivity|]. split; [contradiction|reflexivity].
  - intros i j a0 b0 a b Hi Hj Ha Hb Hi' Hj'.
    rewrite (Hpt i a0 Hi) in Hi'. rewrite (Hpt j b0 Hj) in Hj'.
    injection Hi' as <-. injection Hj' as <-. unfold shift_selected.
    rewrite !bool_decide_eq_true_2 by assumption. cbn. lia.
Qed.

Lemma group_move_uniform_shift_witness :
  let mw1 := (_start_group_move 0 example_group).1 in
  (NoDup (map wid (event_widgets (day_view example_group))) /\
   _start_group_move 0 example_group = (mw1, true)) /\
  map interval_of
      (event_widgets (foldl (fun dv y => _update_group_move y dv) (day_view mw1) [45%Q; 90%Q]))
  = [(0%nat, 510, 540, false); (1%nat, 570, 600, false); (2%nat, 700, 730, false)].
Proof.
  intros mw1.
  assert (Hnd : NoDup (map wid (event_widgets (day_view example_group)))).
  { cbn. apply (NoDup_ListNoDup [0; 1; 2]%nat). repeat constructor; cbn; intuition lia. }
  assert (Hs : _start_group_move 0 example_group = (mw1, true)) by reflexivity.
  split; [split; assumption|].
  rewrite (proj1 (group_move_uniform_shift example_group mw1 0 [45%Q; 90%Q] Hnd Hs)).
  vm_compute. reflexivity.
Defined.

(** ** Locked blocks *)

Lemma widget_by_id_Some (i : nat) (ws : list EventWidget) (w : EventWidget) :
  widget_by_id i ws = Some w -> w ∈ ws /\ wid w = i.
Proof.
  induction ws as [|a ws IH]; cbn [widget_by_id]; [discriminate|].
  destruct (Nat.eqb_spec (wid a) i) as [Heq|Hne].
  - intros [= <-]. split; [apply list_elem_of_here|exact Heq].
  - intros H. destruct (IH H) as [Hin Hw]. split; [apply list_elem_of_further; exact Hin|exact Hw].
Qed.

Lemma widget_by_id_update (i : nat) (f : EventWidget -> EventWidget)
    (ws : list EventWidget) :
  (forall w, wid (f w) = wid w) ->
  widget_by_id i (update_widget i f ws) = f <$> widget_by_id i ws.
Proof.
  intros Hf. induction ws as [|a ws IH]; cbn [update_widget map widget_by_id];
    [reflexivity|].
  destruct (Nat.eqb_spec (wid a) i) as [Heq|Hne].
  - rewrite Hf. destruct (Nat.eqb_spec (wid a) i); [reflexivity|contradiction].
  - destruct (Nat.eqb_spec (wid a) i); [contradiction|]. exact IH.
Qed.

Lemma update_widget_intervals (i : nat) (f : EventWidget -> EventWidget)
    (ws : list EventWidget) :
  (forall w, interval_of (f w) = interval_of w) ->
  map interval_of (update_widget i f ws) = map interval_of ws.
Proof.
  intros Hf. unfold update_widget. rewrite map_map. apply map_ext. intros w.
  destruct (Nat.eqb (wid w) i); [apply Hf|reflexivity].
Qed.

Lemma selection_has_locked (ws : list EventWidget) (sel : gset nat) (w : EventWidget) :
  w ∈ ws -> wid w ∈ sel -> locked w = true ->
  existsb locked (widgets_of sel ws) = true.
Proof.
  intros Hin Hsel Hl. apply existsb_exists. exists w. split; [|exact Hl].
  unfold widgets_of. apply filter_In. split; [apply list_elem_of_In; exact Hin|].
  apply bool_decide_eq_true_2. exact Hsel.
Qed.

Lemma selection_nonempty (sel : gset nat) (b : nat) :
  b ∈ sel -> bool_decide (sel = ∅) = false.
Proof. intros H. apply bool_decide_eq_false_2. set_solver. Qed.

(** C8: a locked block rejects deletion, deletion of a selection that
    holds it, a group move of such a selection, and a move or resize by
    the pointer.  Each time the blocks keep their ranges, the stored events
    and the history log (entries and cursor) are untouched, and a message
    goes to the status bar. *)
Theorem locked_block_rejects_mutation (mw : MainWindow) (b : nat) (w : EventWidget) :
  widget_by_id b (event_widgets (day_view mw)) = Some w -> locked w = true ->
  (let mw' := delete_block b mw in
   day_view mw' = day_view mw /\ same_ledger mw' mw /\
   status mw' = status mw ++ ["Event is locked"]) /\
  (b ∈ _box_selected_widgets (day_view mw) ->
   let mw' := delete_selected_blocks mw in
   day_view mw' = day_view mw /\ same_ledger mw' mw /\
   status mw' = status mw ++ ["Locked events cannot be deleted"]) /\
  (b ∈ _box_selected_widgets (day_view mw) ->
   forall y, let r := _start_group_move y mw in
   r.2 = false /\ day_view r.1 = day_view mw /\ same_ledger r.1 mw /\
   status r.1 = status mw ++ ["Locked events cannot move"]) /\
  (forall e1 : MouseEvent, button e1 = LeftButton ->
   let mw1 := EventWidget_mousePressEvent b e1 mw in
   intervals mw1 = intervals mw /\ same_ledger mw1 mw /\
   _group_move_active (day_view mw1) = _group_move_active (day_view mw) /\
   (box_select_mode (day_view mw) = false ->
    status mw1 = status mw ++ ["Event is locked"] /\
    forall e2 e3 : MouseEvent,
      let mw2 := EventWidget_mouseMoveEvent b e2 mw1 in
      let mw3 := EventWidget_mouseReleaseEvent b e3 mw2 in
      mw2 = mw1 /\ intervals mw3 = intervals mw /\ same_ledger mw3 mw /\
      status mw3 = status mw1)).
Proof.
  intros Hw Hl. destruct (widget_by_id_Some _ _ _ Hw) as [Hin Hid].
  split; [|split; [|split]].
  - unfold delete_block. rewrite Hw, Hl. cbn. repeat split.
  - intros Hsel. unfold delete_selected_blocks.
    rewrite (selection_nonempty _ b Hsel).
    change (day_view (note_history_action "Delete selection" mw)) with (day_view mw).
    rewrite (selection_has_locked _ _ w Hin) by (rewrite ?Hid; assumption).
    cbn. repeat split.
  - intros Hsel y. unfold _start_group_move.
    rewrite (selection_nonempty _ b Hsel).
    rewrite (selection_has_locked _ _ w Hin) by (rewrite ?Hid; assumption).
    cbn. repeat split.
  - intros e1 He1. unfold EventWidget_mousePressEvent. rewrite Hw, Hl, He1.
    rewrite bool_decide_eq_true_2 by reflexivity. cbn [andb].
    destruct (box_select_mode (day_view mw)) eqn:Hbox.
    + split; [|split; [|split; [|discriminate]]].
      * destruct (bool_decide (b ∈ _box_selected_widgets (day_view mw))) eqn:Hsel;
          [|reflexivity].
        apply bool_decide_eq_true_1 in Hsel.
        unfold start_group_move_by_widget, _start_group_move.
        rewrite (bool_decide_eq_true_2 _ Hsel). cbn [negb].
        rewrite (selection_nonempty _ b Hsel).
        rewrite (selection_has_locked _ _ w Hin) by (rewrite ?Hid; assumption).
        reflexivity.
      * destruct (bool_decide (b ∈ _box_selected_widgets (day_view mw))) eqn:Hsel;
          [|apply same_ledger_refl].
        apply bool_decide_eq_true_1 in Hsel.
        unfold start_group_move_by_widget, _start_group_move.
        rewrite (bool_decide_eq_true_2 _ Hsel). cbn [negb].
        rewrite (selection_nonempty _ b Hsel).
        rewrite (selection_has_locked _ _ w Hin) by (rewrite ?Hid; assumption).
        cbn. unfold same_ledger. repeat split.
      * destruct (bool_decide (b ∈ _box_selected_widgets (day_view mw))) eqn:Hsel;
          [|reflexivity].
        apply bool_decide_eq_true_1 in Hsel.
        unfold start_group_move_by_widget, _start_group_move.
        rewrite (bool_decide_eq_true_2 _ Hsel). cbn [negb].
        rewrite (selection_nonempty _ b Hsel).
        rewrite (selection_has_locked _ _ w Hin) by (rewrite ?Hid; assumption).
        reflexivity.
    + set (f := fun w0 : EventWidget =>
                  with_orig (start_min w0) (end_min w0) (with_drag_mode None w0)).
      assert (Hiv : intervals
                      (modify_widget b f (flash_status "Event is locked" true mw))
                    = intervals mw).
      { unfold intervals, modify_widget. cbn. apply update_widget_intervals.
        intros w0. reflexivity. }
      split; [exact Hiv|]. split; [unfold same_ledger; cbn; repeat split|].
      split; [reflexivity|]. intros _. split; [reflexivity|].
      intros e2 e3.
      set (mw1 := modify_widget b f (flash_status "Event is locked" true mw)) in *.
      assert (Hw1 : widget_by_id b (event_widgets (day_view mw1)) = Some (f w)).
      { unfold mw1, modify_widget. cbn.
        rewrite widget_by_id_update by (intros w0; reflexivity). rewrite Hw. reflexivity. }
      assert (Hbox1 : box_select_mode (day_view mw1) = false) by exact Hbox.
      assert (Hmove : EventWidget_mouseMoveEvent b e2 mw1 = mw1).
      { unfold EventWidget_mouseMoveEvent. rewrite Hw1, Hbox1. reflexivity. }
      cbv zeta. rewrite Hmove. split; [reflexivity|].
      unfold EventWidget_mouseReleaseEvent. rewrite Hw1, Hbox1.
      change (locked (f w)) with (locked w). rewrite Hl. cbn [andb].
      destruct (bool_decide (button e3 = LeftButton)).
      * split; [|split; [unfold same_ledger; cbn; repeat split|reflexivity]].
        rewrite <- Hiv. unfold intervals, modify_widget. cbn.
        apply update_widget_intervals. intros w0. reflexivity.
      * split; [exact Hiv|]. split; [unfold same_ledger; cbn; repeat split|reflexivity].
Qed.

Lemma locked_block_rejects_mutation_witness :
  let mw := example_locked in
  let w := example_widget 0 480 510 true in
  (widget_by_id 0 (event_widgets (day_view mw)) = Some w /\ locked w = true) /\
  day_view (delete_block 0 mw) = day_view mw /\
  status (delete_selected_blocks mw) = ["Locked events cannot be deleted"] /\
  _history (delete_selected_blocks mw) = _history mw.
Proof.
  intros mw w.
  assert (Hw : widget_by_id 0 (event_widgets (day_view mw)) = Some w) by reflexivity.
  assert (Hl : locked w = true) by reflexivity.
  destruct (locked_block_rejects_mutation mw 0 w Hw Hl) as ((Hd & _) & Hsel & _).
  assert (Hin : 0%nat ∈ _box_selected_widgets (day_view mw)) by (vm_compute; reflexivity).
  destruct (Hsel Hin) as (_ & Hledger & Hst).
  split; [split; assumption|]. split; [exact Hd|]. split; [exact Hst|].
  exact (proj1 (proj2 (proj2 (proj2 Hledger)))).
Defined.

(** ** The invariant of the store *)

Lemma forallb_free (a : EventWidget) (ws : list EventWidget) :
  forallb (fun v => negb (ranges_overlap (start_min a) (end_min a)
                            (start_min v) (end_min v))) ws = true <->
  forall v, v ∈ ws ->
    ranges_overlap (start_min a) (end_min a) (start_min v) (end_min v) = false.
Proof.
  rewrite forallb_forall. split.
  - intros H v Hv. apply negb_true_iff, H, list_elem_of_In, Hv.
  - intros H v Hv. apply negb_true_iff, H, list_elem_of_In, Hv.
Qed.

(** The boolean test decides the invariant. *)
Lemma store_okb_spec (ws : list EventWidget) : store_okb ws = true <-> store_ok ws.
Proof.
  induction ws as [|a ws IH]; cbn [store_okb].
  - split; [|reflexivity]. intros _. split.
    + intros w Hw. inversion Hw.
    + intros i j x y _ Hi. rewrite lookup_nil in Hi. discriminate.
  - rewrite !andb_true_iff, Z.ltb_lt, forallb_free, IH. unfold store_ok. split.
    + intros ((Ha & Hfree) & Hlen & Hpair). split.
      * intros w Hw. apply elem_of_cons in Hw as [->|Hw]; auto.
      * intros i j x y Hij Hi Hj. destruct i as [|i], j as [|j]; cbn in Hi, Hj.
        -- contradiction.
        -- injection Hi as <-. apply Hfree. eapply list_elem_of_lookup_2; eauto.
        -- injection Hj as <-. rewrite ranges_overlap_sym. apply Hfree.
           eapply list_elem_of_lookup_2; eauto.
        -- apply (Hpair i j); auto.
    + intros (Hlen & Hpair). split; [split|split].
      * apply Hlen. apply list_elem_of_here.
      * intros v Hv. apply list_elem_of_lookup_1 in Hv as [k Hk].
        apply (Hpair 0%nat (S k)); auto.
      * intros w Hw. apply Hlen. apply list_elem_of_further. exact Hw.
      * intros i j x y Hij Hi Hj. apply (Hpair (S i) (S j)); auto.
Qed.

(** C1 fails on the code, by a slip of the smart-scale walk.  The store
    holds A (480,490) and B (490,500) and satisfies the invariant; with a
    time size of 30 minutes the pointer pulls the bottom handle of A.  The
    walk tries 30 minutes, finds B in the way, steps down below one chunk,
    falls back to one chunk and stops without testing it: A becomes
    (480,510) over B.  The release commits and records the state. *)
Theorem smart_scale_resize_commits_overlap :
  let mw := example_smart_scale in
  let mw' := example_smart_scale_gesture mw in
  store_ok (event_widgets (day_view mw)) /\
  intervals mw' = [(0%nat, 480, 510, false); (1%nat, 490, 500, false)] /\
  ~ store_ok (event_widgets (day_view mw')) /\
  map h_action (_history mw') = ["Initial load"; "Resize block"] /\
  map (fun it => (it_start_min it, it_end_min it)) (stored_events mw')
  = [(480, 510); (490, 500)].
Proof.
  split; [apply store_okb_spec; vm_compute; reflexivity|].
  split; [vm_compute; reflexivity|].
  split; [|split; vm_compute; reflexivity].
  rewrite <- store_okb_spec. vm_compute. discriminate.
Qed.

(** *** The sibling paths keep the invariant

    The operations that place a block through the placement search or
    through an overlap test keep the invariant; the smart-scale walk is the
    one that does not. *)

(** The invariant looks at the ranges only. *)
Lemma store_ok_ranges (ws ws' : list EventWidget) :
  map range_of ws = map range_of ws' -> store_ok ws -> store_ok ws'.
Proof.
  intros Heq [Hlen Hpair].
  assert (Hlk : forall (i : nat) a, ws' !! i = Some a ->
                exists a0, ws !! i = Some a0 /\ range_of a0 = range_of a).
  { intros i a Hi.
    assert (H : (map range_of ws) !! i = Some (range_of a))
      by (rewrite Heq, list_lookup_fmap, Hi; reflexivity).
    rewrite list_lookup_fmap in H. destruct (ws !! i) as [a0|]; [|discriminate].
    exists a0. split; [reflexivity|]. cbn in H. congruence. }
  split.
  - intros w Hw. apply list_elem_of_lookup_1 in Hw as [i Hi].
    destruct (Hlk i w Hi) as (a0 & Ha0 & Hr). injection Hr as Hs He.
    rewrite <- Hs, <- He. apply Hlen. eapply list_elem_of_lookup_2; eauto.
  - intros i j a b Hij Hi Hj.
    destruct (Hlk i a Hi) as (a0 & Ha0 & Hra). destruct (Hlk j b Hj) as (b0 & Hb0 & Hrb).
    injection Hra as Hsa Hea. injection Hrb as Hsb Heb.
    rewrite <- Hsa, <- Hea, <- Hsb, <- Heb. apply (Hpair i j); auto.
Qed.

Lemma store_ok_map (f : EventWidget -> EventWidget) (ws : list EventWidget) :
  (forall w, range_of (f w) = range_of w) -> store_ok ws -> store_ok (map f ws).
Proof.
  intros Hf. apply store_ok_ranges. rewrite map_map. apply map_ext. intros w.
  symmetry. apply Hf.
Qed.

Lemma ranges_overlap_sub (s e s' e' a b : Z) :
  s' <= s -> e <= e' -> ranges_overlap s' e' a b = false ->
  ranges_overlap s e a b = false.
Proof. rewrite !ranges_overlap_false. lia. Qed.

(** A block put after the others, on a range no block meets. *)
Lemma store_ok_append (ws : list EventWidget) (w : EventWidget) (s e : Z) :
  store_ok ws -> start_min w < end_min w -> s <= start_min w -> end_min w <= e ->
  overlaps_in ws s e None None = false ->
  store_ok (ws ++ [w]).
Proof.
  intros [Hlen Hpair] Hw Hs He Hfree.
  rewrite overlaps_in_false in Hfree.
  assert (Hfree' : forall v, v ∈ ws ->
            ranges_overlap (start_min w) (end_min w) (start_min v) (end_min v) = false).
  { intros v Hv. apply (ranges_overlap_sub _ _ s e); [lia|lia|].
    apply Hfree; [exact Hv|]. unfold excluded_of. cbn. set_solver. }
  split.
  - intros v Hv. apply elem_of_app in Hv as [Hv|Hv]; [auto|].
    apply list_elem_of_singleton in Hv as ->. exact Hw.
  - intros i j a b Hij Hi Hj.
    destruct (lookup_app_Some ws [w] i a) as [Hia _].
    destruct (lookup_app_Some ws [w] j b) as [Hjb _].
    destruct (Hia Hi) as [Hi1|[Hi1 Hi2]], (Hjb Hj) as [Hj1|[Hj1 Hj2]].
    + apply (Hpair i j); auto.
    + apply list_lookup_singleton_Some in Hj2 as [_ <-].
      rewrite ranges_overlap_sym. apply Hfree'. eapply list_elem_of_lookup_2; eauto.
    + apply list_lookup_singleton_Some in Hi2 as [_ <-].
      apply Hfree'. eapply list_elem_of_lookup_2; eauto.
    + apply list_lookup_singleton_Some in Hi2 as [Hi2 _].
      apply list_lookup_singleton_Some in Hj2 as [Hj2 _]. lia.
Qed.

(** A block moved to a range that no other block meets. *)
Lemma store_ok_place (ws : list EventWidget) (i : nat) (s e : Z) :
  NoDup (map wid ws) -> store_ok ws -> s < e ->
  overlaps_in ws s e (Some i) None = false ->
  store_ok (update_widget i (with_range s e) ws).
Proof.
  intros Hnd [Hlen Hpair] Hse Hfree.
  rewrite overlaps_in_false in Hfree.
  assert (Hother : forall v, v ∈ ws -> wid v <> i ->
            ranges_overlap s e (start_min v) (end_min v) = false).
  { intros v Hv Hne. apply Hfree; [exact Hv|]. unfold excluded_of. cbn. set_solver. }
  assert (Hlk : forall (k : nat) a, update_widget i (with_range s e) ws !! k = Some a ->
            exists a0, ws !! k = Some a0 /\ wid a = wid a0 /\
              ((wid a0 = i /\ start_min a = s /\ end_min a = e) \/
               (wid a0 <> i /\ a = a0))).
  { intros k a Hk. unfold update_widget in Hk. rewrite list_lookup_fmap in Hk.
    destruct (ws !! k) as [a0|]; [|discriminate]. cbn in Hk. injection Hk as <-.
    exists a0. split; [reflexivity|].
    destruct (Nat.eqb_spec (wid a0) i); (split; [reflexivity|]); [left|right]; auto. }
  split.
  - intros w Hw. apply list_elem_of_lookup_1 in Hw as [k Hk].
    destruct (Hlk k w Hk) as (a0 & Ha0 & _ & [(_ & -> & ->)|(_ & ->)]); [exact Hse|].
    apply Hlen. eapply list_elem_of_lookup_2; eauto.
  - intros k l a b Hkl Hk Hl.
    destruct (Hlk k a Hk) as (a0 & Ha0 & _ & Ha). destruct (Hlk l b Hl) as (b0 & Hb0 & _ & Hb).
    assert (Hids : wid a0 <> wid b0).
    { intros Heq. apply Hkl. eapply (NoDup_lookup _ k l (wid a0) Hnd).
      - rewrite list_lookup_fmap, Ha0. reflexivity.
      - rewrite list_lookup_fmap, Hb0, Heq. reflexivity. }
    destruct Ha as [(Hai & -> & ->)|(Hai & ->)], Hb as [(Hbi & -> & ->)|(Hbi & ->)].
    + congruence.
    + apply Hother; [eapply list_elem_of_lookup_2; eauto|exact Hbi].
    + rewrite ranges_overlap_sym.
      apply Hother; [eapply list_elem_of_lookup_2; eauto|exact Hai].
    + apply (Hpair k l); auto.
Qed.

(** A block taken out. *)
Lemma store_ok_remove (i : nat) (ws : list EventWidget) :
  store_ok ws -> store_ok (remove_widget i ws).
Proof.
  rewrite <- !store_okb_spec. induction ws as [|a ws IH]; [auto|].
  cbn [store_okb remove_widget]. rewrite !andb_true_iff. intros ((Ha & Hf) & Hr).
  destruct (Nat.eqb (wid a) i); [exact Hr|].
  cbn [store_okb]. rewrite !andb_true_iff. split; [split; [exact Ha|]|auto].
  rewrite forallb_forall in Hf |- *. intros v Hv. apply Hf.
  clear - Hv. induction ws as [|b ws IH]; [inversion Hv|].
  cbn [remove_widget] in Hv. destruct (Nat.eqb (wid b) i); [right; exact Hv|].
  destruct Hv as [->|Hv]; [left; reflexivity|right; auto].
Qed.

Lemma day_view_record_history (mw : MainWindow) :
  day_view (_record_history mw) = day_view mw.
Proof.
  unfold _record_history.
  repeat match goal with |- context [if ?b then _ else _] => destruct b end;
    reflexivity.
Qed.

Lemma day_view_on_day_changed (mw : MainWindow) :
  day_view (on_day_changed mw) = day_view mw.
Proof. unfold on_day_changed. rewrite day_view_record_history. reflexivity. Qed.

Lemma store_ok_refresh (dv : DayView) :
  store_ok (event_widgets dv) -> store_ok (event_widgets (_refresh_widget_transparency dv)).
Proof.
  intros H. unfold _refresh_widget_transparency.
  destruct (negb (box_select_mode dv)); cbn [event_widgets with_event_widgets];
    apply store_ok_map; auto; intros w; unfold set_mouse_transparent;
    try reflexivity; destruct (negb _); reflexivity.
Qed.

(** What the placement search returns is a free range. *)
Lemma clamp_start_to_available_free (dv : DayView) (start duration : Z)
    (exclude : option nat) (exclude_set : option (gset nat)) (direction r : Z) :
  clamp_start_to_available dv start duration exclude exclude_set direction = Some r ->
  overlaps_range dv r (r + Z.max 1 duration) exclude exclude_set = false /\
  0 <= r /\ (Z.max 1 duration <= 24 * 60 -> r + Z.max 1 duration <= 24 * 60) /\
  (24 * 60 < Z.max 1 duration -> r = 0).
Proof.
  intros Hr. unfold clamp_start_to_available in Hr.
  apply clamp_loop_sound in Hr as (Hfree & Hshape).
  split; [apply first_conflict_overlaps_range; exact Hfree|].
  destruct Hshape as [->|[x ->]]; lia.
Qed.

(** Adding a block keeps the invariant. *)
Lemma add_block_store_ok (s d : Z) (t : string) (c : option string) (fr : bool)
    (rid : option string) (l : bool) (img tg : option string) (n : Z) (rec : bool)
    (mw : MainWindow) :
  store_ok (event_widgets (day_view mw)) ->
  store_ok (event_widgets (day_view (add_block s d t c fr rid l img tg n rec mw).1)).
Proof.
  intros Hok. unfold add_block.
  destruct (clamp_start_to_available _ _ _ _ _ _) as [r|] eqn:Hr; [|exact Hok].
  destruct (overlaps_range (day_view mw) r (r + Z.max 1 d) None None) eqn:Hfree;
    [exact Hok|].
  apply clamp_start_to_available_free in Hr as (_ & Hr0 & Hr1 & Hr2).
  replace (Z.max 1 (Z.max 1 d)) with (Z.max 1 d) in Hr1, Hr2 by lia.
  match goal with
  | |- store_ok (event_widgets (day_view (?m, _).1)) =>
      change (store_ok (event_widgets (day_view m)))
  end.
  assert (Hdv : forall m a, day_view (if rec then note_history_action a m else m)
                            = day_view m).
  { intros m a. destruct rec; [|reflexivity]. unfold note_history_action.
    destruct (bool_decide _); reflexivity. }
  rewrite Hdv. cbn [day_view with_day_view].
  apply store_ok_refresh. cbn [event_widgets with_event_widgets with_next_wid].
  apply (store_ok_append _ _ r (r + Z.max 1 d)); try assumption.
  - unfold set_mouse_transparent, set_box_selected.
    destruct (_ && _); cbn; lia.
  - unfold set_mouse_transparent, set_box_selected.
    destruct (_ && _); cbn; lia.
  - unfold set_mouse_transparent, set_box_selected.
    destruct (_ && _); cbn; lia.
Qed.

Lemma store_ok_update_box_selection (s : gset nat) (mw : MainWindow) :
  store_ok (event_widgets (day_view mw)) ->
  store_ok (event_widgets (day_view (_update_box_selection s mw))).
Proof.
  intros Hok. unfold _update_box_selection.
  destruct (bool_decide _); [exact Hok|].
  unfold _notify_box_selection_changed. cbn [day_view with_day_view].
  apply store_ok_refresh.
  assert (Hdv : forall c t m, day_view (on_box_selection_changed c t m) = day_view m).
  { intros c t m. unfold on_box_selection_changed.
    repeat match goal with |- context [if ?b then _ else _] => destruct b end;
      reflexivity. }
  rewrite Hdv. cbn [day_view with_day_view event_widgets with_event_widgets
                    with_box_selected_widgets].
  apply store_ok_map; [|exact Hok].
  intros w. repeat match goal with |- context [if ?b then _ else _] => destruct b end;
    reflexivity.
Qed.

(** Deleting a block keeps the invariant. *)
Lemma delete_block_store_ok (b : nat) (mw : MainWindow) :
  store_ok (event_widgets (day_view mw)) ->
  store_ok (event_widgets (day_view (delete_block b mw))).
Proof.
  intros Hok. unfold delete_block.
  destruct (widget_by_id b _) as [w|]; [|exact Hok].
  destruct (locked w); [exact Hok|].
  cbn [day_view with_day_view]. apply store_ok_refresh.
  rewrite day_view_on_day_changed. cbn [day_view with_day_view event_widgets
                                        with_event_widgets].
  apply store_ok_remove.
  assert (Hn : day_view (note_history_action "Delete block" mw) = day_view mw)
    by reflexivity.
  destruct (bool_decide _).
  - apply store_ok_update_box_selection. rewrite Hn. exact Hok.
  - rewrite Hn. exact Hok.
Qed.

Lemma overlaps_range_place (dv : DayView) (i : nat) (s e : Z) :
  NoDup (map wid (event_widgets dv)) -> store_ok (event_widgets dv) -> s < e ->
  overlaps_range dv s e (Some i) None = false ->
  store_ok (event_widgets
              (with_event_widgets (update_widget i (with_range s e) (event_widgets dv)) dv)).
Proof. intros. cbn [event_widgets with_event_widgets]. apply store_ok_place; assumption. Qed.

(** The release of a move keeps the invariant: the block goes where the
    search puts it, or back where the gesture found it. *)
Lemma finalize_single_move_store_ok (i : nat) (orig_start orig_end : Z)
    (mw : MainWindow) :
  NoDup (map wid (event_widgets (day_view mw))) ->
  store_ok (event_widgets (day_view mw)) ->
  orig_start < orig_end ->
  overlaps_range (day_view mw) orig_start orig_end (Some i) None = false ->
  store_ok (event_widgets (day_view (finalize_single_move i orig_start orig_end mw))).
Proof.
  intros Hnd Hok Ho Hfree. unfold finalize_single_move.
  destruct (widget_by_id i _) as [w|]; [|exact Hok].
  destruct (_ && _); [rewrite day_view_on_day_changed; exact Hok|].
  destruct (clamp_start_to_available _ _ _ _ _ _) as [r|] eqn:Hr.
  - rewrite day_view_on_day_changed. unfold modify_widget. cbn [day_view with_day_view].
    apply clamp_start_to_available_free in Hr as (Hr & _).
    replace (Z.max 1 (Z.max 1 (end_min w - start_min w)))
      with (Z.max 1 (end_min w - start_min w)) in Hr by lia.
    apply overlaps_range_place; try assumption. lia.
  - rewrite day_view_on_day_changed. unfold modify_widget, flash_status.
    cbn [day_view with_day_view showMessage with_status].
    apply overlaps_range_place; assumption.
Qed.

(** A step of a grid resize keeps the invariant. *)
Lemma drag_resize_store_ok (i : nat) (w : EventWidget) (minute_at_cursor : Z)
    (dv : DayView) :
  NoDup (map wid (event_widgets dv)) -> store_ok (event_widgets dv) ->
  store_ok (event_widgets (drag_resize_top i w minute_at_cursor dv)) /\
  store_ok (event_widgets (drag_resize_bottom i w minute_at_cursor dv)).
Proof.
  intros Hnd Hok. unfold drag_resize_top, drag_resize_bottom, _base_chunk. split.
  - destruct (clamp_start_to_available _ _ _ _ _ _) as [r|] eqn:Hr; [|exact Hok].
    apply clamp_start_to_available_free in Hr as (Hr & _).
    replace (Z.max 1 (Z.max 1 (time_size_minutes dv)))
      with (Z.max 1 (time_size_minutes dv)) in Hr by lia.
    apply overlaps_range_place; try assumption. lia.
  - destruct (clamp_start_to_available _ _ _ _ _ _) as [r|] eqn:Hr; [|exact Hok].
    apply clamp_start_to_available_free in Hr as (Hr & _).
    replace (Z.max 1 (Z.max 1 (time_size_minutes dv)))
      with (Z.max 1 (time_size_minutes dv)) in Hr by lia.
    apply overlaps_range_place; try assumption. lia.
Qed.

(** A step of a group move keeps the invariant. *)
Lemma update_group_move_store_ok (ws0 : list EventWidget) (sel : gset nat) (y : Q)
    (dv : DayView) :
  NoDup (map wid ws0) -> group_move_inv ws0 sel dv -> store_ok (event_widgets dv) ->
  store_ok (event_widgets (_update_group_move y dv)).
Proof.
  intros Hnd Hinv Hok.
  pose proof (group_move_inv_update ws0 sel y dv Hnd Hinv) as (_ & _ & _ & Hw').
  destruct Hinv as (Ha & Hr & Hs & Hw).
  destruct (update_group_move_cases y dv Ha) as [->|(HF & _ & Hd' & _)]; [exact Hok|].
  set (delta := group_delta y dv) in *. set (old := _group_move_last_delta dv) in *.
  rewrite Hw', Hd'. rewrite Hw in Hok. destruct Hok as [Hlen Hpair].
  assert (Hlk : forall (k : nat) a d, map (shift_selected sel d) ws0 !! k = Some a ->
            exists a0, ws0 !! k = Some a0 /\ a = shift_selected sel d a0).
  { intros k a d Hk. rewrite list_lookup_fmap in Hk.
    destruct (ws0 !! k) as [a0|]; [|discriminate]. injection Hk as <-. eauto. }
  assert (Hold : forall (k : nat) a0, ws0 !! k = Some a0 ->
            map (shift_selected sel old) ws0 !! k = Some (shift_selected sel old a0)).
  { intros k a0 Hk. rewrite list_lookup_fmap, Hk. reflexivity. }
  split.
  - intros a Hin. apply list_elem_of_lookup_1 in Hin as [k Hk].
    destruct (Hlk k a delta Hk) as (a0 & Ha0 & ->).
    assert (H0 : start_min (shift_selected sel old a0) < end_min (shift_selected sel old a0)).
    { apply Hlen. eapply list_elem_of_lookup_2. apply Hold. exact Ha0. }
    unfold shift_selected in *. destruct (bool_decide (wid a0 ∈ sel)); cbn in *; lia.
  - intros k l a b Hkl Hk Hl.
    destruct (Hlk k a delta Hk) as (a0 & Ha0 & ->).
    destruct (Hlk l b delta Hl) as (b0 & Hb0 & ->).
    pose proof (Hpair k l _ _ Hkl (Hold k a0 Ha0) (Hold l b0 Hb0)) as Hp.
    assert (Hfree : forall (m n : nat) x0 z0, ws0 !! m = Some x0 -> ws0 !! n = Some z0 ->
              wid x0 ∈ sel -> wid z0 ∉ sel ->
              ranges_overlap (start_min x0 + delta) (end_min x0 + delta)
                             (start_min z0) (end_min z0) = false).
    { intros m n x0 z0 Hm Hn Hx Hz.
      rewrite Forall_forall in HF.
      assert (Href : ref_of x0 ∈ _group_move_refs dv).
      { rewrite Hr. apply (list_elem_of_fmap_2 ref_of). unfold widgets_of.
        apply list_elem_of_In, filter_In. split.
        - apply list_elem_of_In. eapply list_elem_of_lookup_2; eauto.
        - apply bool_decide_eq_true_2. exact Hx. }
      specialize (HF _ Href). unfold member_fails, ref_of in HF. cbn [fst snd] in HF.
      destruct (overlaps_range dv (start_min x0 + delta) (end_min x0 + delta) None
                  (Some (_group_move_selected dv))) eqn:Ho; [exfalso; apply HF; auto|].
      unfold overlaps_range in Ho. rewrite overlaps_in_false in Ho.
      specialize (Ho (shift_selected sel old z0)).
      assert (Hz' : shift_selected sel old z0 = z0).
      { unfold shift_selected. rewrite bool_decide_eq_false_2 by exact Hz. reflexivity. }
      rewrite Hz' in Ho. apply Ho.
      - rewrite Hw. rewrite <- Hz'. apply (list_elem_of_fmap_2 (shift_selected sel old)).
        eapply list_elem_of_lookup_2; eauto.
      - unfold excluded_of. cbn. rewrite Hs. set_solver. }
    unfold shift_selected in Hp |- *.
    destruct (decide (wid a0 ∈ sel)) as [Hsa|Hsa], (decide (wid b0 ∈ sel)) as [Hsb|Hsb];
      rewrite ?(bool_decide_eq_true_2 _ Hsa), ?(bool_decide_eq_false_2 _ Hsa),
              ?(bool_decide_eq_true_2 _ Hsb), ?(bool_decide_eq_false_2 _ Hsb) in Hp |- *;
      cbn [start_min end_min with_range] in Hp |- *.
    + rewrite ranges_overlap_false in Hp |- *. lia.
    + apply (Hfree k l); assumption.
    + rewrite ranges_overlap_sym. apply (Hfree l k); assumption.
    + exact Hp.
Qed.

Lemma keep_best_good (dv : DayView) (b : nat) (best : option (Z * Z * Z))
    (c : Z * Z * Z) :
  good_candidate dv b best -> good_candidate dv b (Some c) ->
  good_candidate dv b (keep_best best c).
Proof.
  intros Hb Hc. unfold keep_best. destruct best as [x|]; [|exact Hc].
  destruct (_ <? _); assumption.
Qed.

Lemma neighbor_step_good (dv : DayView) (blk : EventWidget)
    (allow_start allow_end lock_start lock_end : bool) (threshold duration : Z)
    (best : option (Z * Z * Z)) (ev : EventWidget) :
  1 <= duration -> good_candidate dv (wid blk) best ->
  good_candidate dv (wid blk)
    (neighbor_step dv blk allow_start allow_end lock_start lock_end threshold duration
       best ev).
Proof.
  intros Hd Hb. unfold neighbor_step.
  destruct (Nat.eqb (wid ev) (wid blk)); [exact Hb|]. cbv zeta.
  assert (Hb1 : good_candidate dv (wid blk)
                  (neighbor_start dv blk allow_start lock_start lock_end threshold
                     duration best ev)).
  { unfold neighbor_start. cbv zeta.
    destruct allow_start; [|exact Hb].
    destruct (_ <=? threshold); [|exact Hb].
    destruct (lock_start && _); [exact Hb|].
    destruct (_ <=? 24 * 60); cbn [andb]; [|exact Hb].
    destruct (overlaps_range dv _ _ _ _) eqn:Ho; cbn [negb]; [exact Hb|].
    destruct (negb lock_end || _); [|exact Hb].
    apply keep_best_good; [exact Hb|]. cbn. split; [lia|exact Ho]. }
  revert Hb1. generalize (neighbor_start dv blk allow_start lock_start lock_end threshold
                            duration best ev).
  intros best1 Hb1. unfold neighbor_end. cbv zeta.
  destruct allow_end; [|exact Hb1].
  destruct (_ <=? threshold); [|exact Hb1].
  destruct (lock_end && _); [exact Hb1|].
  destruct (0 <=? _); cbn [andb]; [|exact Hb1].
  destruct (overlaps_range dv _ _ _ _) eqn:Ho; cbn [negb]; [exact Hb1|].
  destruct (negb lock_start || _); [|exact Hb1].
  apply keep_best_good; [exact Hb1|]. cbn. split; [lia|exact Ho].
Qed.

Lemma now_line_candidate_good (dv : DayView) (b : nat) (s d : Z) (c : Z * Z * Z) :
  1 <= d -> _now_line_snap_candidate dv s d (Some b) = Some c ->
  good_candidate dv b (Some c).
Proof.
  intros Hd. unfold _now_line_snap_candidate.
  destruct (negb _); [discriminate|].
  destruct (_current_time_minute dv) as [now|]; [|discriminate].
  destruct (_ <? _); [discriminate|].
  destruct (24 * 60 <? _); [discriminate|].
  destruct (overlaps_range dv now (now + d) (Some b) None) eqn:Ho; [discriminate|].
  intros [= <-]. cbn. split; [lia|exact Ho].
Qed.

(** Magnetic alignment keeps the invariant. *)
Lemma snap_block_to_neighbors_store_ok (block : option nat)
    (allow_start allow_end lock_start lock_end : bool) (dv : DayView) :
  NoDup (map wid (event_widgets dv)) -> store_ok (event_widgets dv) ->
  let r := snap_block_to_neighbors block allow_start allow_end lock_start lock_end dv in
  store_ok (event_widgets r.1) /\ map wid (event_widgets r.1) = map wid (event_widgets dv).
Proof.
  intros Hnd Hok r. subst r. unfold snap_block_to_neighbors.
  destruct block as [b|]; [|split; [exact Hok|reflexivity]].
  destruct (negb (magnetic_mode dv)); [split; [exact Hok|reflexivity]|].
  destruct (widget_by_id b (event_widgets dv)) as [blk|] eqn:Hb;
    [|split; [exact Hok|reflexivity]].
  destruct (widget_by_id_Some _ _ _ Hb) as [_ Hid].
  cbv zeta.
  set (duration := Z.max 1 (end_min blk - start_min blk)).
  assert (Hd : 1 <= duration) by (unfold duration; lia).
  set (best1 := foldl _ None (event_widgets dv)).
  assert (Hfold : good_candidate dv b best1).
  { assert (Hgen : forall l best, good_candidate dv b best ->
              good_candidate dv b
                (foldl (neighbor_step dv blk allow_start allow_end lock_start lock_end
                          (_snap_threshold_minutes dv) duration) best l)).
    { induction l as [|ev l IH]; intros best Hbest; cbn [foldl]; [exact Hbest|].
      apply IH. rewrite <- Hid. apply neighbor_step_good; [exact Hd|].
      rewrite Hid. exact Hbest. }
    apply Hgen. exact I. }
  clearbody best1.
  set (best2 := if allow_start then _ else best1).
  assert (Hbest : good_candidate dv b best2).
  { unfold best2. destruct allow_start; [|exact Hfold].
    destruct (_now_line_snap_candidate dv (start_min blk) duration (Some b)) as [c|] eqn:Hc;
      [|exact Hfold].
    destruct (lock_start && _); [exact Hfold|].
    destruct (lock_end && _); [exact Hfold|].
    apply keep_best_good; [exact Hfold|].
    eapply now_line_candidate_good; [exact Hd|exact Hc]. }
  clearbody best2. destruct best2 as [c|]; cbn [fst snd].
  - destruct Hbest as [Hlt Hfree]. split.
    + apply overlaps_range_place; assumption.
    + cbn [event_widgets with_event_widgets]. apply update_widget_map_wid.
  - split; [exact Hok|reflexivity].
Qed.

(** A step of a move, magnetic or not, keeps the invariant. *)
Lemma drag_move_store_ok (i : nat) (w : EventWidget) (e : MouseEvent) (dv : DayView) :
  NoDup (map wid (event_widgets dv)) -> store_ok (event_widgets dv) ->
  store_ok (event_widgets (drag_move i w e dv)).
Proof.
  intros Hnd Hok. unfold drag_move.
  match goal with
  | |- context [clamp_start_to_available dv ?s ?d ?x ?xs ?dir] =>
      destruct (clamp_start_to_available dv s d x xs dir) as [r|] eqn:Hr; [|exact Hok]
  end.
  apply clamp_start_to_available_free in Hr as (Hr & _).
  match type of Hr with
  | overlaps_range _ _ (_ + Z.max 1 ?d) _ _ = _ =>
      assert (Hd : Z.max 1 d = d)
        by (destruct (magnetic_mode dv); unfold _base_chunk; lia);
      rewrite Hd in Hr
  end.
  match goal with
  | |- context [with_event_widgets (update_widget i (with_range r ?e') _) dv] =>
      set (dv1 := with_event_widgets (update_widget i (with_range r e') (event_widgets dv)) dv);
      assert (Hok1 : store_ok (event_widgets dv1))
        by (apply overlaps_range_place; try assumption;
            destruct (magnetic_mode dv); unfold _base_chunk; lia);
      assert (Hnd1 : NoDup (map wid (event_widgets dv1)))
        by (unfold dv1; cbn [event_widgets with_event_widgets];
            rewrite update_widget_map_wid; exact Hnd)
  end.
  destruct (magnetic_mode dv); [|exact Hok1].
  match goal with
  | |- context [if 0 <=? ?dir then ?a else ?b] => destruct (0 <=? dir)
  end.
  - pose proof (snap_block_to_neighbors_store_ok (Some i) true false false false dv1 Hnd1 Hok1)
      as [H1 H1'].
    destruct (snap_block_to_neighbors (Some i) true false false false dv1) as [dv2 []];
      cbn [fst snd] in *; [exact H1|].
    apply snap_block_to_neighbors_store_ok; [rewrite H1'; exact Hnd1|exact H1].
  - pose proof (snap_block_to_neighbors_store_ok (Some i) false true false false dv1 Hnd1 Hok1)
      as [H1 H1'].
    destruct (snap_block_to_neighbors (Some i) false true false false dv1) as [dv2 []];
      cbn [fst snd] in *; [exact H1|].
    apply snap_block_to_neighbors_store_ok; [rewrite H1'; exact Hnd1|exact H1].
Qed.

(** With smart scale off, every pointer move over a block outside the box
    selection mode keeps the invariant. *)
Lemma mouseMoveEvent_store_ok (i : nat) (e : MouseEvent) (mw : MainWindow) :
  smart_scale_enabled (day_view mw) = false -> box_select_mode (day_view mw) = false ->
  NoDup (map wid (event_widgets (day_view mw))) ->
  store_ok (event_widgets (day_view mw)) ->
  store_ok (event_widgets (day_view (EventWidget_mouseMoveEvent i e mw))).
Proof.
  intros Hs Hbox Hnd Hok. unfold EventWidget_mouseMoveEvent.
  destruct (widget_by_id i _) as [w|]; [|exact Hok].
  rewrite Hbox, Hs.
  destruct (_drag_mode w) as [[]|]; [| | |exact Hok];
    (destruct (locked w);
     [unfold modify_widget, update_widget;
      cbn [day_view with_day_view event_widgets with_event_widgets];
      apply store_ok_map;
      [intros w0; destruct (Nat.eqb (wid w0) i); reflexivity|exact Hok]|]);
    cbn [day_view with_day_view].
  - apply drag_resize_store_ok; assumption.
  - apply drag_resize_store_ok; assumption.
  - apply drag_move_store_ok; assumption.
Qed.

(** ** Reloading a day from its stored events

    Applying a snapshot rebuilds the blocks with [load_day].  When the
    stored events fit the day and do not meet, and no repeat rule is
    present, the blocks on screen are exactly the stored events, in the
    order of their starts. *)

Lemma insert_sorted_perm {A} (leb : A -> A -> bool) (x : A) (l : list A) :
  Permutation (insert_sorted leb x l) (x :: l).
Proof.
  induction l as [|y l IH]; cbn [insert_sorted]; [reflexivity|].
  destruct (leb y x); [|reflexivity].
  rewrite IH. apply perm_swap.
Qed.

Lemma py_sorted_perm {A} (leb : A -> A -> bool) (l : list A) :
  Permutation (py_sorted leb l) l.
Proof.
  unfold py_sorted.
  assert (H : forall acc, Permutation (foldl (fun acc x => insert_sorted leb x acc) acc l)
                            (acc ++ l)).
  { induction l as [|x l IH]; intros acc; cbn [foldl].
    - rewrite app_nil_r. reflexivity.
    - rewrite IH, insert_sorted_perm. apply Permutation_middle. }
  apply (H []).
Qed.

Lemma items_ok_perm (l l' : list EventItem) :
  Permutation l l' -> items_ok l -> items_ok l'.
Proof.
  induction 1 as [|x l l' Hp IH|x y l|l l' l'' _ IH1 _ IH2]; cbn [items_ok].
  - auto.
  - intros (Hx & Hf & Hok). split; [exact Hx|]. split; [|auto].
    rewrite <- Hp. exact Hf.
  - intros (Hx & Hfx & Hy & Hfy & Hok).
    apply Forall_cons in Hfx as [Hxy Hfx].
    repeat split; try tauto.
    constructor; [rewrite ranges_overlap_sym; exact Hxy|exact Hfy].
  - auto.
Qed.

Lemma clamp_loop_free (n : nat) (evs : list EventWidget) (excluded : gset nat)
    (d direction s : Z) :
  first_conflict evs excluded s d = None ->
  clamp_loop (S n) evs excluded d direction s = Some s.
Proof. intros H. cbn [clamp_loop]. rewrite H. reflexivity. Qed.

Lemma range_of_refresh (dv : DayView) :
  map range_of (event_widgets (_refresh_widget_transparency dv))
  = map range_of (event_widgets dv).
Proof.
  unfold _refresh_widget_transparency.
  destruct (negb (box_select_mode dv)); cbn [event_widgets with_event_widgets];
    rewrite map_map; apply map_ext; intros w; unfold set_mouse_transparent;
    try reflexivity; destruct (negb _); reflexivity.
Qed.

(** A stored event that fits the day and meets no block becomes a block on
    its own range, after the others. *)
Lemma add_item_places (mw : MainWindow) (it : EventItem) :
  0 <= it_start_min it -> it_start_min it < it_end_min it -> it_end_min it <= 24 * 60 ->
  Forall (fun r => ranges_overlap (it_start_min it) (it_end_min it) r.1 r.2 = false)
         (map range_of (event_widgets (day_view mw))) ->
  map range_of (event_widgets (day_view (add_item mw it)))
  = map range_of (event_widgets (day_view mw)) ++ [item_range it].
Proof.
  intros Hs Hse He Hfree. unfold add_item, add_block.
  set (s := it_start_min it) in *. set (e := it_end_min it) in *.
  replace (Z.max 1 (e - s)) with (e - s) by lia.
  assert (Hnone : forall ex, first_conflict (event_widgets (day_view mw)) ex s (e - s) = None).
  { intros ex. apply first_conflict_None. intros ev Hev _.
    rewrite Forall_forall in Hfree.
    replace (s + (e - s)) with e by lia.
    apply (Hfree (range_of ev)). apply (list_elem_of_fmap_2 range_of). exact Hev. }
  assert (Hclamp : clamp_start_to_available (day_view mw) s (e - s) None None 0 = Some s).
  { unfold clamp_start_to_available.
    replace (Z.max 1 (e - s)) with (e - s) by lia.
    replace (Z.max 0 (Z.min s (24 * 60 - (e - s)))) with s by lia.
    apply clamp_loop_free, Hnone. }
  rewrite Hclamp.
  assert (Hov : overlaps_range (day_view mw) s (s + (e - s)) None None = false).
  { apply first_conflict_overlaps_range. apply Hnone. }
  rewrite Hov. cbn [fst day_view with_day_view].
  rewrite range_of_refresh. cbn [event_widgets with_event_widgets with_next_wid].
  rewrite map_app. f_equal. cbn [map]. f_equal.
  unfold set_mouse_transparent, set_box_selected, item_range, range_of.
  destruct (_ && _);
    cbn [start_min end_min EventWidget_init with_box_selected with_group_dragging];
    fold s e; f_equal; lia.
Qed.

Lemma foldl_add_item_places (items : list EventItem) :
  forall mw,
  items_ok items ->
  Forall (fun r => Forall (fun it => ranges_overlap (it_start_min it) (it_end_min it)
                                       r.1 r.2 = false) items)
         (map range_of (event_widgets (day_view mw))) ->
  map range_of (event_widgets (day_view (foldl add_item mw items)))
  = map range_of (event_widgets (day_view mw)) ++ map item_range items.
Proof.
  induction items as [|it items IH]; intros mw Hok Hfree; cbn [foldl map].
  - rewrite app_nil_r. reflexivity.
  - destruct Hok as ((Hs & Hse & He) & Hrest & Hok).
    assert (Hit : map range_of (event_widgets (day_view (add_item mw it)))
                  = map range_of (event_widgets (day_view mw)) ++ [item_range it]).
    { apply add_item_places; try assumption.
      eapply Forall_impl; [exact Hfree|]. intros r Hr. apply Forall_cons in Hr as [H _].
      exact H. }
    rewrite IH; [rewrite Hit, <- app_assoc; reflexivity|exact Hok|].
    rewrite Hit. apply Forall_app. split.
    + eapply Forall_impl; [exact Hfree|]. intros r Hr. apply Forall_cons in Hr as [_ H].
      exact H.
    + constructor; [|constructor]. unfold item_range. cbn [fst snd].
      eapply Forall_impl; [exact Hrest|]. intros v Hv. cbn beta in Hv.
      rewrite ranges_overlap_sym. exact Hv.
Qed.

Lemma load_day_rebuilds_blocks (qdate : string) (mw : MainWindow) :
  repeat_rules mw = [] ->
  items_ok (default [] (events_by_date mw !! qdate)) ->
  map range_of (event_widgets (day_view (load_day qdate false mw)))
  = map item_range (py_sorted by_start (default [] (events_by_date mw !! qdate))).
Proof.
  intros Hrules Hok. unfold load_day. cbv zeta.
  pose proof (same_ledger_clear_blocks mw) as (Hev & Hr & _).
  set (m := clear_blocks mw) in *.
  assert (Hempty : event_widgets (day_view m) = []) by reflexivity.
  assert (Hr' : repeat_rules (foldl add_item m
                  (py_sorted by_start (default [] (events_by_date m !! qdate)))) = []).
  { match goal with |- repeat_rules (foldl add_item m ?l) = _ =>
      pose proof (same_ledger_foldl add_item l) as Hl end.
    destruct (Hl (fun m a => same_ledger_add_block _ _ _ _ _ _ _ _ _ _ _ m) m) as (_ & Hrr & _).
    rewrite Hrr, Hr. exact Hrules. }
  rewrite Hr'. cbn [foldl]. rewrite Hev.
  rewrite foldl_add_item_places.
  - rewrite Hempty. reflexivity.
  - eapply items_ok_perm; [symmetry; apply py_sorted_perm|exact Hok].
  - rewrite Hempty. constructor.
Qed.

(** After an undo of a day without repeat rules whose snapshot fits the
    day and has no two events that meet, the blocks on screen are the
    events of the snapshot, in the order of their starts. *)
Lemma perform_undo_rebuilds_blocks (mw : MainWindow) (e : HistoryEntry) :
  0 < _history_index mw ->
  _history mw !! Z.to_nat (_history_index mw - 1) = Some e ->
  h_date e <> "" -> h_date e = current_date mw ->
  repeat_rules mw = [] -> items_ok (h_events e) ->
  map range_of (event_widgets (day_view (perform_undo mw)))
  = map item_range (py_sorted by_start (h_events e)).
Proof.
  intros Hi He Hk Hd Hrules Hok. unfold perform_undo.
  destruct (Z.leb_spec (_history_index mw) 0); [lia|].
  rewrite (history_nonempty_of_lookup mw _ e He). cbn [orb].
  cbn [_history _history_index with_history with_history_freeze].
  rewrite py_index_nonneg by lia. rewrite He.
  cbn [day_view showMessage with_status with_pending_history_action with_history_freeze].
  unfold _apply_history_snapshot. rewrite bool_decide_eq_false_2 by exact Hk.
  assert (Hload : forall k m, k = h_date e -> repeat_rules m = [] ->
            events_by_date m !! k = Some (h_events e) ->
            map range_of (event_widgets (day_view (load_day k false m)))
            = map item_range (py_sorted by_start (h_events e))).
  { intros k m -> Hr Hlk. rewrite load_day_rebuilds_blocks; [|exact Hr|].
    - rewrite Hlk. reflexivity.
    - rewrite Hlk. exact Hok. }
  destruct (date_key_is_valid (h_date e)).
  - apply Hload; [reflexivity|exact Hrules|]. cbn. apply lookup_insert_eq.
  - apply Hload; [cbn; congruence|exact Hrules|]. cbn. rewrite <- Hd.
    apply lookup_insert_eq.
Qed.
(** * Further properties of the schedule *)

(** ** Placement *)

Lemma clamp_loop_forward (n : nat) (evs : list EventWidget) (excluded : gset nat)
    (d direction : Z) :
  0 < direction ->
  forall s r, s = Z.max 0 (Z.min s (24 * 60 - d)) ->
  clamp_loop n evs excluded d direction s = Some r -> s <= r.
Proof.
  intros Hdir. induction n as [|n IH]; intros s r Hs H; [discriminate|].
  cbn [clamp_loop] in H.
  destruct (first_conflict evs excluded s d) as [c|] eqn:Hc.
  - apply first_conflict_Some in Hc as (_ & _ & Ho).
    apply ranges_overlap_true in Ho.
    unfold next_start in H.
    destruct (0 <? direction) eqn:Hd; [|lia].
    apply IH in H; lia.
  - injection H as <-. lia.
Qed.

Lemma clamp_loop_backward (n : nat) (evs : list EventWidget) (excluded : gset nat)
    (d direction : Z) :
  direction < 0 ->
  forall s r, s = Z.max 0 (Z.min s (24 * 60 - d)) ->
  clamp_loop n evs excluded d direction s = Some r -> r <= s.
Proof.
  intros Hdir. induction n as [|n IH]; intros s r Hs H; [discriminate|].
  cbn [clamp_loop] in H.
  destruct (first_conflict evs excluded s d) as [c|] eqn:Hc.
  - apply first_conflict_Some in Hc as (_ & _ & Ho).
    apply ranges_overlap_true in Ho.
    unfold next_start in H.
    destruct (0 <? direction) eqn:Hd; [lia|].
    destruct (direction <? 0) eqn:Hd'; [|lia].
    apply IH in H; lia.
  - injection H as <-. lia.
Qed.

(** X2: the placement search keeps to the side it is sent to.  A forward
    search never answers a start before the request (clamped to the day), a
    backward search never one after it; a request that is free is answered
    as it is; and the answer is a fixed point: asked again for the answer,
    in any direction, the search returns it. *)
Theorem clamp_start_to_available_direction (dv : DayView) (start duration : Z)
    (exclude : option nat) (exclude_set : option (gset nat)) (direction r : Z) :
  clamp_start_to_available dv start duration exclude exclude_set direction = Some r ->
  let d := Z.max 1 duration in
  let s := Z.max 0 (Z.min start (24 * 60 - d)) in
  (0 < direction -> s <= r) /\
  (direction < 0 -> r <= s) /\
  (overlaps_range dv s (s + d) exclude exclude_set = false -> r = s) /\
  (forall direction',
     clamp_start_to_available dv r duration exclude exclude_set direction' = Some r).
Proof.
  intros H d s. split; [|split; [|split]].
  - intros Hdir. unfold clamp_start_to_available in H.
    apply (clamp_loop_forward _ _ _ _ _ Hdir) in H; [exact H|]. lia.
  - intros Hdir. unfold clamp_start_to_available in H.
    apply (clamp_loop_backward _ _ _ _ _ Hdir) in H; [exact H|]. lia.
  - intros Hfree. apply first_conflict_overlaps_range in Hfree.
    unfold clamp_start_to_available in H. fold d in H. fold s in H.
    rewrite (clamp_loop_free _ _ _ _ _ _ Hfree) in H. congruence.
  - intros direction'.
    pose proof (clamp_start_to_available_free _ _ _ _ _ _ _ H) as (Hfree & H0 & H1 & H2).
    fold d in Hfree, H1, H2.
    unfold clamp_start_to_available. fold d.
    replace (Z.max 0 (Z.min r (24 * 60 - d))) with r by lia.
    apply clamp_loop_free. apply first_conflict_overlaps_range. exact Hfree.
Qed.

Lemma clamp_start_to_available_direction_witness :
  let dv := example_view 30 [example_widget 0 480 510 false] in
  clamp_start_to_available dv 490 30 None None 1 = Some 510 /\
  490 <= 510 /\
  clamp_start_to_available dv 510 30 None None (-1) = Some 510.
Proof.
  assert (H : clamp_start_to_available
                (example_view 30 [example_widget 0 480 510 false]) 490 30 None None 1
              = Some 510) by (vm_compute; reflexivity).
  pose proof (clamp_start_to_available_direction _ _ _ _ _ _ _ H) as (Hf & _ & _ & Hi).
  split; [exact H|]. split; [apply Hf; lia|]. apply Hi.
Defined.

Lemma interval_of_refresh (dv : DayView) :
  map interval_of (event_widgets (_refresh_widget_transparency dv))
  = map interval_of (event_widgets dv).
Proof.
  unfold _refresh_widget_transparency.
  destruct (negb (box_select_mode dv)); cbn [event_widgets with_event_widgets];
    rewrite map_map; apply map_ext; intros w; unfold set_mouse_transparent;
    try reflexivity; destruct (negb _); reflexivity.
Qed.

Lemma day_view_note_if (rec : bool) (a : string) (m : MainWindow) :
  day_view (if rec then note_history_action a m else m) = day_view m /\
  status (if rec then note_history_action a m else m) = status m /\
  same_ledger (if rec then note_history_action a m else m) m.
Proof.
  destruct rec; [|repeat split; reflexivity].
  unfold note_history_action. destruct (bool_decide _); repeat split; reflexivity.
Qed.

(** The two outcomes of [add_block]. *)
Lemma add_block_cases (s d : Z) (t : string) (c : option string) (fr : bool)
    (rid : option string) (l : bool) (img tg : option string) (n : Z) (rec : bool)
    (mw : MainWindow) :
  let r := add_block s d t c fr rid l img tg n rec mw in
  let ws := event_widgets (day_view mw) in
  let ws' := event_widgets (day_view r.1) in
  match r.2 with
  | None =>
      day_view r.1 = day_view mw /\
      status r.1 = status mw ++ ["No room for new event here"]
  | Some i =>
      i = next_wid (day_view mw) /\ next_wid (day_view r.1) = S i /\
      status r.1 = status mw /\
      exists w,
        map interval_of ws' = map interval_of ws ++ [interval_of w] /\
        wid w = i /\ locked w = l /\
        0 <= start_min w /\ start_min w < end_min w /\ end_min w <= 24 * 60 /\
        (Z.max 1 d <= 24 * 60 -> end_min w - start_min w = Z.max 1 d) /\
        (forall v, v ∈ ws ->
           ranges_overlap (start_min w) (end_min w) (start_min v) (end_min v) = false)
  end.
Proof.
  intros r ws ws'.
  subst r ws ws'. unfold add_block.
  destruct (clamp_start_to_available _ _ _ _ _ _) as [p|] eqn:Hp.
  2:{ cbn [fst snd]. split; reflexivity. }
  pose proof (clamp_start_to_available_free _ _ _ _ _ _ _ Hp) as (Hfree & H0 & H1 & H2).
  replace (Z.max 1 (Z.max 1 d)) with (Z.max 1 d) in Hfree, H1, H2 by lia.
  rewrite Hfree. cbn [fst snd].
  match goal with
  | |- context [if rec then note_history_action ?a ?m else ?m'] =>
      destruct (day_view_note_if rec a m) as (Hdv & Hst & _)
  end.
  split; [unfold set_mouse_transparent, set_box_selected; destruct (_ && _); reflexivity|].
  rewrite Hdv, Hst. cbn [day_view with_day_view status].
  split.
  { unfold _refresh_widget_transparency, set_mouse_transparent, set_box_selected.
    destruct (_ && _); destruct (negb (box_select_mode _)); reflexivity. }
  split; [reflexivity|].
  rewrite interval_of_refresh. cbn [event_widgets with_event_widgets with_next_wid].
  rewrite map_app. cbn [map].
  eexists. split; [reflexivity|].
  pose proof (proj1 (overlaps_in_false _ _ _ _ _) Hfree) as Hfree'.
  unfold set_mouse_transparent, set_box_selected.
  destruct (_ && _);
    cbn [wid locked start_min end_min with_group_dragging with_box_selected
         EventWidget_init].
  all: repeat split; try lia.
  all: intros v Hv; apply (ranges_overlap_sub _ _ p (p + Z.max 1 d)); try lia;
    apply Hfree'; [exact Hv|]; unfold excluded_of; cbn; set_solver.
Qed.

Lemma interval_of_views (ws ws' : list EventWidget) :
  map interval_of ws' = map interval_of ws ->
  map wid ws' = map wid ws /\ map range_of ws' = map range_of ws.
Proof.
  intros H. split.
  - change wid with (fun w => (interval_of w).1.1.1).
    rewrite <- !(map_map interval_of (fun x => x.1.1.1)). now rewrite H.
  - change range_of with (fun w => ((interval_of w).1.1.2, (interval_of w).1.2)).
    rewrite <- !(map_map interval_of (fun x => (x.1.1.2, x.1.2))). now rewrite H.
Qed.

Lemma in_day_ranges (ws ws' : list EventWidget) :
  map range_of ws' = map range_of ws -> Forall in_day ws -> Forall in_day ws'.
Proof.
  revert ws. induction ws' as [|a ws' IH]; intros [|b ws] H Hd; try discriminate;
    [constructor|].
  cbn [map] in H.
  pose proof (f_equal (fun l => match l with x :: _ => x | [] => range_of a end) H) as Hab.
  pose proof (f_equal (@tail _) H) as Hrest. cbn in Hab, Hrest.
  apply Forall_cons in Hd as (Hb & Hd). constructor; [|eapply IH; eauto].
  unfold in_day, range_of in *. injection Hab as -> ->. exact Hb.
Qed.

Lemma ids_ok_intro (dv dv' : DayView) :
  map wid (event_widgets dv') = map wid (event_widgets dv) ->
  next_wid dv' = next_wid dv -> ids_ok dv -> ids_ok dv'.
Proof.
  intros Hw Hn (Hnd & Hlt). split; [now rewrite Hw|].
  intros w Hin. rewrite Hn.
  apply (list_elem_of_fmap_2 wid) in Hin.
  change (wid w ∈ map wid (event_widgets dv')) in Hin. rewrite Hw in Hin.
  apply list_elem_of_fmap in Hin as (v & -> & Hv). auto.
Qed.

Lemma add_block_ids_in_day (s d : Z) (t : string) (c : option string) (fr : bool)
    (rid : option string) (l : bool) (img tg : option string) (n : Z) (rec : bool)
    (mw : MainWindow) :
  let mw' := (add_block s d t c fr rid l img tg n rec mw).1 in
  (ids_ok (day_view mw) -> ids_ok (day_view mw')) /\
  (Forall in_day (event_widgets (day_view mw)) ->
   Forall in_day (event_widgets (day_view mw'))) /\
  (length (event_widgets (day_view mw')) <= S (length (event_widgets (day_view mw))))%nat.
Proof.
  cbv zeta. pose proof (add_block_cases s d t c fr rid l img tg n rec mw) as H.
  cbv zeta in H.
  destruct (add_block s d t c fr rid l img tg n rec mw).2 as [i|].
  - destruct H as (Hi & Hn & _ & w & Hint & Hw & _ & H0 & H1 & H2 & _).
    change [interval_of w] with (map interval_of [w]) in Hint.
    rewrite <- map_app in Hint.
    pose proof (f_equal (@length _) Hint) as Hlen.
    rewrite !length_map, length_app in Hlen. cbn in Hlen.
    apply interval_of_views in Hint as (Hwid & Hrange).
    split; [|split; [|lia]].
    + intros (Hnd & Hlt). split.
      * rewrite Hwid, map_app. cbn [map].
        apply NoDup_app. split; [exact Hnd|]. split; [|apply NoDup_singleton].
        intros x Hx Hx'. apply list_elem_of_singleton in Hx'. subst x.
        apply list_elem_of_fmap in Hx as (v & Hv & Hin). apply Hlt in Hin. lia.
      * intros v Hv. rewrite Hn.
        apply (list_elem_of_fmap_2 wid) in Hv.
        match type of Hv with _ ∈ _ <$> ?l => change (wid v ∈ map wid l) in Hv end.
        rewrite Hwid, map_app in Hv.
        apply elem_of_app in Hv as [Hv|Hv].
        -- apply list_elem_of_fmap in Hv as (u & -> & Hu). apply Hlt in Hu. lia.
        -- cbn in Hv. apply list_elem_of_singleton in Hv. lia.
    + intros Hd. apply (in_day_ranges _ _ Hrange).
      apply Forall_app. split; [exact Hd|]. constructor; [|constructor].
      unfold in_day. lia.
  - destruct H as (-> & _). split; [auto|]. split; [auto|lia].
Qed.

(** X1: what adding a block does.  The log and the stored events are not
    touched, and the invariants of the store are kept: non-empty ranges that
    do not meet, inside the day, with distinct identities.  Either the search
    finds no room: the day view is as before and the status bar says so (the
    second test of the source, "Time occupied", never fires).  Or a block
    with a fresh identity is appended: it lies inside the day, is not empty,
    has the duration asked for when that fits a day, and meets none of the
    blocks that were there; those keep their places. *)
Theorem add_block_outcome (s d : Z) (t : string) (c : option string) (fr : bool)
    (rid : option string) (l : bool) (img tg : option string) (n : Z) (rec : bool)
    (mw : MainWindow) :
  let r := add_block s d t c fr rid l img tg n rec mw in
  let ws := event_widgets (day_view mw) in
  let ws' := event_widgets (day_view r.1) in
  same_ledger r.1 mw /\
  (store_ok ws -> store_ok ws') /\
  (ids_ok (day_view mw) -> ids_ok (day_view r.1)) /\
  (Forall in_day ws -> Forall in_day ws') /\
  match r.2 with
  | None =>
      day_view r.1 = day_view mw /\
      status r.1 = status mw ++ ["No room for new event here"]
  | Some i =>
      i = next_wid (day_view mw) /\ next_wid (day_view r.1) = S i /\
      status r.1 = status mw /\
      exists w,
        map interval_of ws' = map interval_of ws ++ [interval_of w] /\
        wid w = i /\ locked w = l /\
        0 <= start_min w /\ start_min w < end_min w /\ end_min w <= 24 * 60 /\
        (Z.max 1 d <= 24 * 60 -> end_min w - start_min w = Z.max 1 d) /\
        (forall v, v ∈ ws ->
           ranges_overlap (start_min w) (end_min w) (start_min v) (end_min v) = false)
  end.
Proof.
  intros r ws ws'.
  split; [apply same_ledger_add_block|].
  split; [apply add_block_store_ok|].
  split; [apply add_block_ids_in_day|].
  split; [apply add_block_ids_in_day|].
  apply add_block_cases.
Qed.

(** ** Blocks and their flags *)

Lemma forget_flags_set (b c : bool) (w : EventWidget) :
  forget_flags (set_mouse_transparent b (set_box_selected c w)) = forget_flags w /\
  forget_flags (set_mouse_transparent b w) = forget_flags w /\
  forget_flags (set_box_selected c w) = forget_flags w.
Proof. unfold set_mouse_transparent, set_box_selected. destruct b; repeat split. Qed.

Lemma map_forget_flags (f : EventWidget -> EventWidget) (ws : list EventWidget) :
  (forall w, forget_flags (f w) = forget_flags w) ->
  map forget_flags (map f ws) = map forget_flags ws.
Proof. intros H. rewrite map_map. apply map_ext. exact H. Qed.

Lemma refresh_forget (dv : DayView) :
  map forget_flags (event_widgets (_refresh_widget_transparency dv))
  = map forget_flags (event_widgets dv).
Proof.
  unfold _refresh_widget_transparency.
  destruct (negb (box_select_mode dv)); cbn [event_widgets with_event_widgets];
    apply map_forget_flags; intros w; unfold set_mouse_transparent;
    try reflexivity; destruct (negb _); reflexivity.
Qed.

Lemma refresh_fields (dv : DayView) :
  _box_selected_widgets (_refresh_widget_transparency dv) = _box_selected_widgets dv /\
  next_wid (_refresh_widget_transparency dv) = next_wid dv /\
  box_select_mode (_refresh_widget_transparency dv) = box_select_mode dv /\
  _group_move_active (_refresh_widget_transparency dv) = _group_move_active dv /\
  magnetic_mode (_refresh_widget_transparency dv) = magnetic_mode dv /\
  smart_scale_enabled (_refresh_widget_transparency dv) = smart_scale_enabled dv.
Proof.
  unfold _refresh_widget_transparency.
  destruct (negb (box_select_mode dv)); repeat split.
Qed.

Lemma day_view_on_box_selection_changed (c t : Z) (m : MainWindow) :
  day_view (on_box_selection_changed c t m) = day_view m.
Proof.
  unfold on_box_selection_changed.
  repeat match goal with |- context [if ?b then _ else _] => destruct b end;
    reflexivity.
Qed.

Lemma update_box_selection_selected (s : gset nat) (m : MainWindow) :
  _box_selected_widgets (day_view (_update_box_selection s m)) = s.
Proof.
  unfold _update_box_selection.
  destruct (bool_decide _) eqn:Hs; [apply bool_decide_eq_true_1 in Hs; congruence|].
  unfold _notify_box_selection_changed. cbn [day_view with_day_view].
  rewrite (proj1 (refresh_fields _)), day_view_on_box_selection_changed. reflexivity.
Qed.

Lemma update_box_selection_forget (s : gset nat) (m : MainWindow) :
  map forget_flags (event_widgets (day_view (_update_box_selection s m)))
  = map forget_flags (event_widgets (day_view m)).
Proof.
  unfold _update_box_selection.
  destruct (bool_decide _); [reflexivity|].
  unfold _notify_box_selection_changed. cbn [day_view with_day_view].
  rewrite refresh_forget, day_view_on_box_selection_changed.
  cbn [day_view with_day_view event_widgets with_event_widgets
       with_box_selected_widgets].
  apply map_forget_flags. intros w.
  repeat match goal with |- context [if ?b then _ else _] => destruct b end;
    reflexivity.
Qed.

(** Two stores that agree up to the flags show and save the same. *)
Lemma forget_flags_views (ws ws' : list EventWidget) :
  map forget_flags ws' = map forget_flags ws ->
  map interval_of ws' = map interval_of ws /\
  map range_of ws' = map range_of ws /\
  map wid ws' = map wid ws /\
  items_of_store ws' = items_of_store ws.
Proof.
  revert ws; induction ws' as [|a ws' IH]; intros [|b ws] H; try discriminate.
  - repeat split.
  - cbn [map] in H.
    pose proof (f_equal (fun l => match l with x :: _ => x | [] => forget_flags a end) H)
      as Hab.
    pose proof (f_equal (@tail _) H) as Hrest. cbn in Hab, Hrest.
    change (forget_flags a = forget_flags b) in Hab.
    change (map forget_flags ws' = map forget_flags ws) in Hrest.
    destruct (IH _ Hrest) as (H1 & H2 & H3 & H4).
    assert (Hi : interval_of a = interval_of b)
      by (change (interval_of (forget_flags a) = interval_of (forget_flags b));
          now rewrite Hab).
    assert (Hr : range_of a = range_of b)
      by (change (range_of (forget_flags a) = range_of (forget_flags b));
          now rewrite Hab).
    assert (Hw : wid a = wid b)
      by (change (wid (forget_flags a) = wid (forget_flags b)); now rewrite Hab).
    assert (Hf : from_rule a = from_rule b)
      by (change (from_rule (forget_flags a) = from_rule (forget_flags b));
          now rewrite Hab).
    assert (Ht : item_of_widget a = item_of_widget b)
      by (change (item_of_widget (forget_flags a) = item_of_widget (forget_flags b));
          now rewrite Hab).
    cbn [map]. rewrite Hi, Hr, Hw, H1, H2, H3. repeat split.
    unfold items_of_store in *. cbn [List.filter]. rewrite Hf.
    destruct (negb (from_rule b)); cbn [map]; rewrite ?Ht, H4; reflexivity.
Qed.

Lemma remove_widget_map (b : nat) (f : EventWidget -> EventWidget)
    (ws : list EventWidget) :
  (forall w, wid (f w) = wid w) ->
  remove_widget b (map f ws) = map f (remove_widget b ws).
Proof.
  intros Hf. induction ws as [|w ws IH]; [reflexivity|].
  cbn [map remove_widget]. rewrite Hf. destruct (Nat.eqb (wid w) b); [reflexivity|].
  cbn [map]. now rewrite IH.
Qed.

Lemma remove_widget_forget (b : nat) (ws ws' : list EventWidget) :
  map forget_flags ws' = map forget_flags ws ->
  map forget_flags (remove_widget b ws') = map forget_flags (remove_widget b ws).
Proof.
  intros H. rewrite <- !(remove_widget_map b forget_flags) by reflexivity.
  now rewrite H.
Qed.

Lemma widget_by_id_None (i : nat) (ws : list EventWidget) :
  widget_by_id i ws = None <-> i ∉ map wid ws.
Proof.
  induction ws as [|w ws IH]; cbn [widget_by_id map].
  - split; [intros _ H; inversion H|reflexivity].
  - destruct (Nat.eqb (wid w) i) eqn:Hw.
    + apply Nat.eqb_eq in Hw. split; [discriminate|]. intros H. exfalso. apply H.
      rewrite Hw. apply list_elem_of_here.
    + apply Nat.eqb_neq in Hw. rewrite IH. split.
      * intros H Hin. apply elem_of_cons in Hin as [Hin|Hin]; [congruence|auto].
      * intros H Hin. apply H. now apply list_elem_of_further.
Qed.

Lemma remove_widget_absent (b : nat) (ws : list EventWidget) :
  NoDup (map wid ws) -> b ∉ map wid (remove_widget b ws).
Proof.
  induction ws as [|w ws IH]; cbn [map remove_widget]; intros Hnd.
  - intros H; inversion H.
  - apply NoDup_cons in Hnd as (Hw & Hnd).
    destruct (Nat.eqb (wid w) b) eqn:Hb.
    + apply Nat.eqb_eq in Hb. now rewrite <- Hb.
    + apply Nat.eqb_neq in Hb. cbn [map]. intros Hin.
      apply elem_of_cons in Hin as [Hin|Hin]; [congruence|]. now apply IH.
Qed.

Lemma stored_events_save_day (m : MainWindow) :
  stored_events (save_day (current_date m) m)
  = items_of_store (event_widgets (day_view m)).
Proof.
  unfold stored_events, save_day, items_of_store.
  cbn [events_by_date with_events_by_date current_date].
  now rewrite lookup_insert_eq.
Qed.

Lemma stored_events_record_history (m : MainWindow) :
  stored_events (_record_history m) = stored_events m /\
  current_date (_record_history m) = current_date m.
Proof.
  unfold _record_history, stored_events.
  repeat match goal with
         | |- context [if ?b then _ else _] => destruct b
         end; split; reflexivity.
Qed.

(** ** Deleting a block *)

(** X3: deleting an unlocked block.  The block leaves the store and the
    box selection, the other blocks stay as they are (up to the flags of the
    selection), the invariant of the store is kept, the stored events of the
    day are the blocks that remain, and when this differs from the entry
    under the cursor the log gets an entry labelled "Delete block". *)
Theorem delete_block_outcome (b : nat) (w : EventWidget) (mw : MainWindow) :
  widget_by_id b (event_widgets (day_view mw)) = Some w -> locked w = false ->
  let ws := event_widgets (day_view mw) in
  let mw' := delete_block b mw in
  let ws' := event_widgets (day_view mw') in
  map forget_flags ws' = map forget_flags (remove_widget b ws) /\
  (NoDup (map wid ws) -> widget_by_id b ws' = None) /\
  b ∉ _box_selected_widgets (day_view mw') /\
  (store_ok ws -> store_ok ws') /\
  stored_events mw' = items_of_store (remove_widget b ws) /\
  (_history_freeze mw = false -> history_wf mw -> 1 <= _history_max mw ->
   (forall e, cursor_entry mw = Some e -> h_events e <> stored_events mw') ->
   exists e', cursor_entry mw' = Some e' /\ h_action e' = "Delete block" /\
              h_events e' = stored_events mw').
Proof.
  intros Hw Hl. cbv zeta.
  pose proof (delete_block_store_ok b mw) as Hok.
  set (P := store_ok (event_widgets (day_view mw)) ->
            store_ok (event_widgets (day_view (delete_block b mw)))) in *.
  clearbody P.
  unfold delete_block in *. rewrite Hw in *. rewrite Hl in *.
  set (ws := event_widgets (day_view mw)) in *.
  set (mw1 := note_history_action "Delete block" mw).
  assert (Hmw1 : mw1 = with_pending_history_action (Some "Delete block") mw)
    by reflexivity.
  set (mw2 := if bool_decide (b ∈ _box_selected_widgets (day_view mw1))
              then _update_box_selection (_box_selected_widgets (day_view mw1) ∖ {[ b ]}) mw1
              else mw1) in *.
  assert (Hws2 : map forget_flags (event_widgets (day_view mw2)) = map forget_flags ws).
  { subst mw2. destruct (bool_decide _); [rewrite update_box_selection_forget|];
      reflexivity. }
  assert (Hsel2 : b ∉ _box_selected_widgets (day_view mw2)).
  { subst mw2. destruct (bool_decide _) eqn:Hb.
    - rewrite update_box_selection_selected. set_solver.
    - apply bool_decide_eq_false_1 in Hb. exact Hb. }
  assert (Hled2 : same_ledger mw2 mw /\
                  _pending_history_action mw2 = Some "Delete block").
  { subst mw2. destruct (bool_decide _).
    - split.
      + eapply same_ledger_trans; [apply same_ledger_update_box_selection|].
        rewrite Hmw1. unfold same_ledger. repeat split.
      + unfold _update_box_selection. destruct (bool_decide _); [reflexivity|].
        unfold _notify_box_selection_changed, on_box_selection_changed.
        repeat match goal with |- context [if ?c then _ else _] => destruct c end;
          reflexivity.
    - split; [rewrite Hmw1; unfold same_ledger; repeat split|reflexivity]. }
  clearbody mw2. clear mw1 Hmw1.
  set (mw3 := with_day_view
                (with_event_widgets (remove_widget b (event_widgets (day_view mw2)))
                   (day_view mw2)) mw2) in *.
  assert (Hws3 : map forget_flags (event_widgets (day_view mw3))
                 = map forget_flags (remove_widget b ws)).
  { subst mw3. cbn [day_view with_day_view event_widgets with_event_widgets].
    now apply remove_widget_forget. }
  cbn [day_view with_day_view].
  unfold on_block_changed. rewrite day_view_on_day_changed.
  split; [now rewrite refresh_forget|].
  split.
  { intros Hnd. apply widget_by_id_None.
    destruct (forget_flags_views _ _
                (eq_trans (refresh_forget (day_view mw3)) Hws3)) as (_ & _ & -> & _).
    now apply remove_widget_absent. }
  split; [now rewrite (proj1 (refresh_fields _))|].
  split; [exact Hok|].
  assert (Hst : stored_events (on_day_changed mw3) = items_of_store (remove_widget b ws)).
  { unfold on_day_changed.
    rewrite (proj1 (stored_events_record_history _)), stored_events_save_day.
    apply (forget_flags_views _ _ Hws3). }
  split; [exact Hst|].
  intros Hfr Hwf Hmax Hnew.
  change (stored_events (with_day_view _ (on_day_changed mw3)))
    with (stored_events (on_day_changed mw3)) in *.
  change (cursor_entry (with_day_view _ (on_day_changed mw3)))
    with (cursor_entry (on_day_changed mw3)).
  destruct Hled2 as ((He & Hr & Hd & Hh & Hi & Hf & Hm & Ht) & Hp).
  set (m := save_day (current_date mw3) mw3).
  assert (Hm1 : _history m = _history mw /\ _history_index m = _history_index mw /\
                _history_freeze m = false /\ _history_max m = _history_max mw /\
                _pending_history_action m = Some "Delete block").
  { subst m mw3. cbn. rewrite Hh, Hi, Hf, Hm, Hp. auto. }
  destruct Hm1 as (Hh' & Hi' & Hf' & Hm' & Hp').
  assert (Hst' : stored_events m = stored_events (on_day_changed mw3)).
  { unfold on_day_changed. fold m. now rewrite (proj1 (stored_events_record_history _)). }
  destruct (_record_history_new_cursor m) as (Hc & _).
  - exact Hf'.
  - unfold history_wf in *. rewrite Hh', Hi'. exact Hwf.
  - lia.
  - intros e Hc. rewrite Hst'. apply Hnew. unfold cursor_entry in *.
    now rewrite <- Hh', <- Hi'.
  - exists (snapshot_entry m). unfold on_day_changed. fold m.
    split; [exact Hc|]. unfold snapshot_entry, pending_label. rewrite Hp'.
    cbn [h_action h_events]. split; [reflexivity|].
    now rewrite (proj1 (stored_events_record_history _)).
Qed.

Lemma delete_block_outcome_witness :
  (widget_by_id 0 (event_widgets (day_view example_two_blocks))
   = Some (example_widget 0 480 510 false) /\
   locked (example_widget 0 480 510 false) = false) /\
  stored_events (delete_block 0 example_two_blocks)
  = items_of_store [example_widget 1 540 570 false].
Proof.
  split; [split; reflexivity|].
  exact (proj1 (proj2 (proj2 (proj2 (proj2
           (delete_block_outcome 0 (example_widget 0 480 510 false) example_two_blocks
              eq_refl eq_refl)))))).
Defined.

(** ** Gestures on one block *)

Lemma others_kept_refl (i : nat) (ws : list EventWidget) : others_kept i ws ws.
Proof. split; auto. Qed.

Lemma others_kept_trans (i : nat) (a b c : list EventWidget) :
  others_kept i a b -> others_kept i b c -> others_kept i a c.
Proof.
  intros [H1 H2] [H3 H4]. split; [congruence|].
  intros k v Hk Hv. apply H4; auto.
Qed.

Lemma others_kept_update (i : nat) (f : EventWidget -> EventWidget)
    (ws : list EventWidget) :
  (forall w, wid (f w) = wid w) -> others_kept i ws (update_widget i f ws).
Proof.
  intros Hf. unfold update_widget. split.
  - rewrite map_map. apply map_ext. intros w. destruct (Nat.eqb (wid w) i); auto.
  - intros k v Hk Hv. rewrite list_lookup_fmap, Hk. cbn.
    apply Nat.eqb_neq in Hv. now rewrite Hv.
Qed.

Lemma items_of_store_update (i : nat) (f : EventWidget -> EventWidget)
    (ws : list EventWidget) :
  (forall w, item_of_widget (f w) = item_of_widget w /\ from_rule (f w) = from_rule w) ->
  items_of_store (update_widget i f ws) = items_of_store ws.
Proof.
  intros Hf. unfold items_of_store, update_widget.
  induction ws as [|w ws IH]; [reflexivity|].
  cbn [map List.filter].
  assert (Hw : from_rule (if Nat.eqb (wid w) i then f w else w) = from_rule w
               /\ item_of_widget (if Nat.eqb (wid w) i then f w else w)
                  = item_of_widget w)
    by (destruct (Nat.eqb (wid w) i); [split; apply Hf|split; reflexivity]).
  destruct Hw as [-> Hit].
  destruct (negb (from_rule w)); cbn [map]; rewrite ?Hit, IH; reflexivity.
Qed.

Lemma store_ok_update_same_range (i : nat) (f : EventWidget -> EventWidget)
    (ws : list EventWidget) :
  (forall w, range_of (f w) = range_of w) -> store_ok ws ->
  store_ok (update_widget i f ws).
Proof.
  intros Hf Hok. unfold update_widget. apply store_ok_map; [|exact Hok].
  intros w. destruct (Nat.eqb (wid w) i); auto.
Qed.

Lemma stored_events_on_day_changed (m : MainWindow) :
  stored_events (on_day_changed m) = items_of_store (event_widgets (day_view m)).
Proof.
  unfold on_day_changed.
  now rewrite (proj1 (stored_events_record_history _)), stored_events_save_day.
Qed.

Lemma finalize_single_move_others (i : nat) (orig_start orig_end : Z)
    (mw : MainWindow) :
  let mw' := finalize_single_move i orig_start orig_end mw in
  others_kept i (event_widgets (day_view mw)) (event_widgets (day_view mw')) /\
  (widget_by_id i (event_widgets (day_view mw)) <> None ->
   stored_events mw' = items_of_store (event_widgets (day_view mw'))).
Proof.
  unfold finalize_single_move.
  destruct (widget_by_id i _) as [w|]; [|split; [apply others_kept_refl|congruence]].
  assert (H : forall m, others_kept i (event_widgets (day_view mw))
                          (event_widgets (day_view m)) ->
              others_kept i (event_widgets (day_view mw))
                (event_widgets (day_view (on_block_changed m))) /\
              (Some w <> None ->
               stored_events (on_block_changed m)
               = items_of_store (event_widgets (day_view (on_block_changed m))))).
  { intros m Hm. unfold on_block_changed.
    rewrite day_view_on_day_changed, stored_events_on_day_changed. auto. }
  destruct (_ && _); [apply H, others_kept_refl|].
  destruct (clamp_start_to_available _ _ _ _ _ _); apply H;
    unfold modify_widget, flash_status, showMessage;
    cbn [day_view with_day_view with_status event_widgets with_event_widgets];
    apply others_kept_update; reflexivity.
Qed.

(** X4: the release of the pointer on a block, outside box selection.  If
    the range the gesture started from is not empty and is free of the other
    blocks, the release keeps the invariant of the store: the block ends on a
    free range or goes back where it was.  No other block is touched, and
    after a release with the left button on an unlocked block the stored
    events of the day are the blocks on screen. *)
Theorem mouse_release_keeps_schedule (i : nat) (e : MouseEvent) (w : EventWidget)
    (mw : MainWindow) :
  widget_by_id i (event_widgets (day_view mw)) = Some w ->
  box_select_mode (day_view mw) = false ->
  NoDup (map wid (event_widgets (day_view mw))) ->
  store_ok (event_widgets (day_view mw)) ->
  _orig_start w < _orig_end w ->
  overlaps_range (day_view mw) (_orig_start w) (_orig_end w) (Some i) None = false ->
  let mw' := EventWidget_mouseReleaseEvent i e mw in
  store_ok (event_widgets (day_view mw')) /\
  others_kept i (event_widgets (day_view mw)) (event_widgets (day_view mw')) /\
  (button e = LeftButton -> locked w = false ->
   stored_events mw' = items_of_store (event_widgets (day_view mw'))).
Proof.
  intros Hw Hbox Hnd Hok Ho Hfree. cbv zeta.
  unfold EventWidget_mouseReleaseEvent. rewrite Hw, Hbox.
  assert (Hmod : forall m,
            store_ok (event_widgets (day_view m)) ->
            others_kept i (event_widgets (day_view mw)) (event_widgets (day_view m)) ->
            store_ok (event_widgets (day_view (modify_widget i (with_drag_mode None) m)))
            /\ others_kept i (event_widgets (day_view mw))
                 (event_widgets (day_view (modify_widget i (with_drag_mode None) m)))
            /\ stored_events (modify_widget i (with_drag_mode None) m) = stored_events m
            /\ items_of_store
                 (event_widgets (day_view (modify_widget i (with_drag_mode None) m)))
               = items_of_store (event_widgets (day_view m))).
  { intros m Hm Hk. unfold modify_widget.
    cbn [day_view with_day_view event_widgets with_event_widgets].
    split; [apply store_ok_update_same_range; auto|].
    split; [eapply others_kept_trans; [exact Hk|apply others_kept_update; reflexivity]|].
    split; [reflexivity|]. apply items_of_store_update. intros; split; reflexivity. }
  destruct (locked w) eqn:Hl; cbn [andb].
  - destruct (bool_decide (button e = LeftButton)).
    + destruct (Hmod mw Hok (others_kept_refl _ _)) as (H1 & H2 & _).
      split; [exact H1|]. split; [exact H2|]. discriminate.
    + split; [exact Hok|]. split; [apply others_kept_refl|]. discriminate.
  - destruct (bool_decide (button e = LeftButton)) eqn:Hb.
    2:{ split; [exact Hok|]. split; [apply others_kept_refl|].
        intros Hbtn. apply bool_decide_eq_false_1 in Hb. contradiction. }
    set (changed := negb (start_min w =? _orig_start w) || negb (end_min w =? _orig_end w)).
    assert (Hnote : forall a, day_view (if changed then note_history_action a mw else mw)
                              = day_view mw)
      by (intros a; apply day_view_note_if).
    destruct (bool_decide (_drag_mode w = Some move)).
    + set (m1 := if changed then note_history_action "Move block" mw else mw).
      assert (Hd1 : day_view m1 = day_view mw) by apply Hnote.
      destruct (finalize_single_move_others i (_orig_start w) (_orig_end w) m1)
        as (Hk & Hs).
      rewrite Hd1 in Hk, Hs.
      assert (Hok1 : store_ok (event_widgets
                        (day_view (finalize_single_move i (_orig_start w) (_orig_end w) m1)))).
      { apply finalize_single_move_store_ok; rewrite ?Hd1; assumption. }
      destruct (Hmod _ Hok1 Hk) as (H1 & H2 & H3 & H4).
      split; [exact H1|]. split; [exact H2|]. intros _ _.
      rewrite H3, H4. apply Hs. congruence.
    + set (m1 := if changed then note_history_action "Resize block" mw else mw).
      assert (Hd1 : day_view m1 = day_view mw) by apply Hnote.
      assert (Hd2 : day_view (on_block_changed m1) = day_view mw)
        by (unfold on_block_changed; now rewrite day_view_on_day_changed).
      destruct (Hmod (on_block_changed m1)) as (H1 & H2 & H3 & H4).
      * now rewrite Hd2.
      * rewrite Hd2. apply others_kept_refl.
      * split; [exact H1|]. split; [exact H2|]. intros _ _.
        rewrite H3, H4. unfold on_block_changed.
        now rewrite stored_events_on_day_changed, day_view_on_day_changed.
Qed.

Lemma mouse_release_keeps_schedule_witness :
  let mw := modify_widget 0 (with_range 600 630)
              (EventWidget_mousePressEvent 0 (left_click 45 1000 1500) example_two_blocks) in
  map range_of (event_widgets (day_view mw)) = [(600, 630); (540, 570)] /\
  store_ok (event_widgets
              (day_view (EventWidget_mouseReleaseEvent 0 (left_click 45 1150 1650) mw))).
Proof.
  split; [reflexivity|].
  refine (proj1 (mouse_release_keeps_schedule 0 (left_click 45 1150 1650)
                   (with_range 600 630
                      (with_orig_duration 30
                         (with_orig 480 510
                            (with_press_global_y 1000
                               (with_drag_mode (Some move)
                                  (example_widget 0 480 510 false))))))
                   _ _ _ _ _ _ _)).
  - reflexivity.
  - reflexivity.
  - vm_compute. repeat constructor; set_solver.
  - apply store_okb_spec. reflexivity.
  - cbn. lia.
  - reflexivity.
Defined.

Lemma snap_block_to_neighbors_others (b : nat)
    (allow_start allow_end lock_start lock_end : bool) (dv : DayView) :
  others_kept b (event_widgets dv)
    (event_widgets
       (snap_block_to_neighbors (Some b) allow_start allow_end lock_start lock_end dv).1).
Proof.
  unfold snap_block_to_neighbors.
  destruct (negb (magnetic_mode dv)); [apply others_kept_refl|].
  destruct (widget_by_id b _) as [blk|]; [|apply others_kept_refl].
  cbv zeta.
  match goal with
  | |- context [match ?c with Some _ => _ | None => (dv, false) end] => destruct c
  end; [|apply others_kept_refl].
  cbn [fst event_widgets with_event_widgets]. apply others_kept_update. reflexivity.
Qed.

Lemma drag_move_others (i : nat) (w : EventWidget) (e : MouseEvent) (dv : DayView) :
  others_kept i (event_widgets dv) (event_widgets (drag_move i w e dv)).
Proof.
  unfold drag_move.
  destruct (clamp_start_to_available _ _ _ _ _ _) as [r|]; [|apply others_kept_refl].
  set (dv1 := with_event_widgets _ dv).
  assert (H1 : others_kept i (event_widgets dv) (event_widgets dv1))
    by (apply others_kept_update; reflexivity).
  clearbody dv1.
  destruct (magnetic_mode dv); [|exact H1].
  match goal with
  | |- context [if ?c then snap_block_to_neighbors ?b ?p ?q ?x ?y dv1 else ?t] =>
      set (r1 := if c then snap_block_to_neighbors b p q x y dv1 else t)
  end.
  assert (H2 : others_kept i (event_widgets dv1) (event_widgets r1.1))
    by (subst r1; destruct (0 <=? _); apply snap_block_to_neighbors_others).
  clearbody r1.
  destruct r1.2.
  - eapply others_kept_trans; eauto.
  - eapply others_kept_trans; [exact H1|].
    eapply others_kept_trans; [exact H2|]. apply snap_block_to_neighbors_others.
Qed.

(** X5: a step of a drag on one block, outside box selection.  Nothing
    is saved or recorded while the pointer moves, and no block but the
    dragged one changes.  With smart scale off, the step keeps the invariant
    of the store: the dragged block is only ever put on a free range. *)
Theorem pointer_move_keeps_schedule (i : nat) (e : MouseEvent) (mw : MainWindow) :
  box_select_mode (day_view mw) = false ->
  let mw' := EventWidget_mouseMoveEvent i e mw in
  same_ledger mw' mw /\ status mw' = status mw /\
  others_kept i (event_widgets (day_view mw)) (event_widgets (day_view mw')) /\
  (smart_scale_enabled (day_view mw) = false ->
   NoDup (map wid (event_widgets (day_view mw))) ->
   store_ok (event_widgets (day_view mw)) ->
   store_ok (event_widgets (day_view mw'))).
Proof.
  intros Hbox. cbv zeta.
  split; [|split; [|split]].
  4:{ intros Hs Hnd Hok. now apply mouseMoveEvent_store_ok. }
  all: unfold EventWidget_mouseMoveEvent;
    destruct (widget_by_id i _) as [w|];
    [|first [apply same_ledger_refl|reflexivity|apply others_kept_refl]];
    rewrite Hbox;
    destruct (_drag_mode w) as [mode|];
    [|first [apply same_ledger_refl|reflexivity|apply others_kept_refl]];
    destruct (locked w).
  - unfold same_ledger. repeat split.
  - destruct mode; destruct (smart_scale_enabled _);
      first [apply same_ledger_refl|unfold same_ledger; repeat split].
  - reflexivity.
  - destruct mode; destruct (smart_scale_enabled _); reflexivity.
  - unfold modify_widget. cbn [day_view with_day_view event_widgets with_event_widgets].
    apply others_kept_update. reflexivity.
  - destruct mode; destruct (smart_scale_enabled _);
      cbn [day_view with_day_view]; try apply others_kept_refl.
    + unfold _smart_scale_resize_top.
      destruct (widget_by_id i _); [|apply others_kept_refl].
      cbn [event_widgets with_event_widgets]. apply others_kept_update. reflexivity.
    + unfold drag_resize_top.
      destruct (clamp_start_to_available _ _ _ _ _ _); [|apply others_kept_refl].
      cbn [event_widgets with_event_widgets]. apply others_kept_update. reflexivity.
    + unfold _smart_scale_resize_bottom.
      destruct (widget_by_id i _); [|apply others_kept_refl].
      cbn [event_widgets with_event_widgets]. apply others_kept_update. reflexivity.
    + unfold drag_resize_bottom.
      destruct (clamp_start_to_available _ _ _ _ _ _); [|apply others_kept_refl].
      cbn [event_widgets with_event_widgets]. apply others_kept_update. reflexivity.
    + apply drag_move_others.
Qed.

Lemma pointer_move_keeps_schedule_witness :
  let mw := EventWidget_mousePressEvent 0 (left_click 45 1000 1500) example_two_blocks in
  box_select_mode (day_view mw) = false /\
  _history (EventWidget_mouseMoveEvent 0 (left_click 45 1090 1590) mw) = _history mw /\
  map range_of (event_widgets
                  (day_view (EventWidget_mouseMoveEvent 0 (left_click 45 1090 1590) mw)))
  = [(510, 540); (540, 570)].
Proof.
  split; [reflexivity|].
  split; [|vm_compute; reflexivity].
  exact (proj1 (proj2 (proj2 (proj2 (proj1
           (pointer_move_keeps_schedule 0 (left_click 45 1090 1590)
              (EventWidget_mousePressEvent 0 (left_click 45 1000 1500) example_two_blocks)
              eq_refl)))))).
Defined.

(** ** The whole gesture of a group move *)

Lemma group_move_updates_store_ok (ws0 : list EventWidget) (sel : gset nat)
    (ys : list Q) :
  NoDup (map wid ws0) ->
  forall dv, group_move_inv ws0 sel dv -> store_ok (event_widgets dv) ->
  store_ok (event_widgets (foldl (fun dv y => _update_group_move y dv) dv ys)).
Proof.
  intros Hnd. induction ys as [|y ys IH]; intros dv Hinv Hok; [exact Hok|].
  cbn [foldl]. apply IH.
  - now apply group_move_inv_update.
  - now apply (update_group_move_store_ok ws0 sel).
Qed.

Lemma shift_selected_zero (sel : gset nat) (ws : list EventWidget) :
  map (shift_selected sel 0) ws = ws.
Proof.
  induction ws as [|w ws IH]; [reflexivity|]. cbn [map]. rewrite IH. f_equal.
  unfold shift_selected. destruct (bool_decide _); [|reflexivity].
  rewrite !Z.add_0_r. apply with_range_id.
Qed.

(** X6: a group move from the press to the release.  Whatever positions
    the pointer visits, the store keeps its invariant.  The release ends the
    gesture without moving anything.  If the last accepted shift is zero,
    every block is where it was and nothing is saved or recorded; otherwise
    the stored events of the day become the blocks on screen. *)
Theorem group_move_gesture_keeps_schedule (mw0 mw1 : MainWindow) (y0 : Q)
    (ys : list Q) :
  NoDup (map wid (event_widgets (day_view mw0))) ->
  store_ok (event_widgets (day_view mw0)) ->
  _start_group_move y0 mw0 = (mw1, true) ->
  let dv := foldl (fun dv y => _update_group_move y dv) (day_view mw1) ys in
  let mw2 := _finish_group_move (with_day_view dv mw1) in
  store_ok (event_widgets dv) /\
  map forget_flags (event_widgets (day_view mw2)) = map forget_flags (event_widgets dv) /\
  _group_move_active (day_view mw2) = false /\
  (_group_move_last_delta dv = 0 ->
   event_widgets dv = event_widgets (day_view mw0) /\ same_ledger mw2 mw0) /\
  (_group_move_last_delta dv <> 0 ->
   stored_events mw2 = items_of_store (event_widgets dv)).
Proof.
  intros Hnd Hok Hstart. cbv zeta.
  set (ws0 := event_widgets (day_view mw0)) in *.
  set (sel := _box_selected_widgets (day_view mw0)).
  pose proof (group_move_inv_start _ _ _ Hstart) as Hinv0. fold ws0 sel in Hinv0.
  pose proof (start_group_move_spec _ _ _ Hstart) as (Hws1 & _).
  assert (Hled : same_ledger mw1 mw0).
  { unfold _start_group_move in Hstart.
    destruct (bool_decide _); [discriminate|].
    destruct (existsb _ _); [discriminate|].
    injection Hstart as <-. apply same_ledger_with_day_view. }
  pose proof (group_move_inv_updates ws0 sel ys Hnd _ Hinv0) as Hinv.
  assert (Hok1 : store_ok (event_widgets (day_view mw1))) by (rewrite Hws1; exact Hok).
  pose proof (group_move_updates_store_ok ws0 sel ys Hnd _ Hinv0 Hok1) as Hokd.
  set (dv := foldl (fun dv y => _update_group_move y dv) (day_view mw1) ys) in *.
  destruct Hinv as (Hact & _ & _ & Hws).
  split; [exact Hokd|].
  unfold _finish_group_move. cbn [day_view with_day_view]. rewrite Hact. cbn [negb].
  set (dv' := _refresh_widget_transparency (with_group_move false 0 0 [] ∅ dv)).
  assert (Hf : map forget_flags (event_widgets dv') = map forget_flags (event_widgets dv))
    by (subst dv'; now rewrite refresh_forget).
  assert (Ha : _group_move_active dv' = false)
    by (subst dv'; now rewrite (proj1 (proj2 (proj2 (proj2 (refresh_fields _)))))).
  destruct (_group_move_last_delta dv =? 0) eqn:Hd; cbn [negb].
  - apply Z.eqb_eq in Hd. cbn [day_view with_day_view].
    split; [exact Hf|]. split; [exact Ha|]. split; [|congruence].
    intros _. split.
    + rewrite Hws, Hd. apply shift_selected_zero.
    + eapply same_ledger_trans; [apply same_ledger_with_day_view|].
      eapply same_ledger_trans; [apply same_ledger_with_day_view|exact Hled].
  - apply Z.eqb_neq in Hd. unfold on_block_changed.
    rewrite day_view_on_day_changed. cbn [day_view with_day_view].
    split; [exact Hf|]. split; [exact Ha|]. split; [congruence|].
    intros _. rewrite stored_events_on_day_changed. cbn [day_view with_day_view].
    apply (forget_flags_views _ _ Hf).
Qed.

Lemma group_move_gesture_keeps_schedule_witness :
  let mw1 := (_start_group_move 0 example_group).1 in
  let dv := foldl (fun dv y => _update_group_move y dv) (day_view mw1) [45%Q; 90%Q] in
  map item_range (stored_events (_finish_group_move (with_day_view dv mw1)))
  = [(510, 540); (570, 600); (700, 730)].
Proof.
  assert (Hnd : NoDup (map wid (event_widgets (day_view example_group))))
    by (vm_compute; repeat constructor; set_solver).
  assert (Hok : store_ok (event_widgets (day_view example_group)))
    by (apply store_okb_spec; reflexivity).
  cbv zeta.
  rewrite (proj2 (proj2 (proj2 (proj2
             (group_move_gesture_keeps_schedule example_group
                (_start_group_move 0 example_group).1 0 [45%Q; 90%Q] Hnd Hok eq_refl)))));
    [reflexivity|vm_compute; discriminate].
Defined.

(** ** Smart scale on blocks aligned to the time size *)

Lemma smart_scale_bottom_loop_aligned (dv : DayView) (self : nat)
    (o c maxd k0 : Z) :
  1 <= c -> 1 <= k0 -> k0 * c <= maxd -> o + maxd <= 24 * 60 ->
  overlaps_range dv o (o + k0 * c) (Some self) None = false ->
  forall (j fuel : nat), (j < fuel)%nat -> (k0 + Z.of_nat j) * c <= maxd ->
  exists k, 1 <= k /\
    smart_scale_bottom_loop fuel dv self o c maxd 1 ((k0 + Z.of_nat j) * c) = k * c /\
    k * c <= maxd /\ overlaps_range dv o (o + k * c) (Some self) None = false.
Proof.
  intros Hc Hk0 Hle0 Hday Hfree.
  induction j as [|j IH]; intros fuel Hf Hle; (destruct fuel as [|fuel]; [lia|]);
    cbn [smart_scale_bottom_loop]; cbv zeta.
  - replace (Z.max c (Z.min ((k0 + Z.of_nat 0) * c) maxd)) with (k0 * c) by nia.
    replace (24 * 60 <? o + k0 * c) with false by (symmetry; apply Z.ltb_ge; lia).
    rewrite Hfree. cbn [negb]. exists k0. auto.
  - set (D := (k0 + Z.of_nat (S j)) * c) in *.
    assert (HD : D = (k0 + Z.of_nat j) * c + c) by (subst D; nia).
    assert (HDc : c <= (k0 + Z.of_nat j) * c) by nia.
    replace (Z.max c (Z.min D maxd)) with D by lia.
    replace (24 * 60 <? o + D) with false by (symmetry; apply Z.ltb_ge; lia).
    destruct (overlaps_range dv o (o + D) (Some self) None) eqn:Ho; cbn [negb].
    + replace (0 <=? 1) with true by reflexivity.
      replace (D - c) with ((k0 + Z.of_nat j) * c) by lia.
      replace ((k0 + Z.of_nat j) * c <? c) with false by (symmetry; apply Z.ltb_ge; lia).
      apply IH; lia.
    + exists (k0 + Z.of_nat (S j)). fold D. repeat split; try lia; assumption.
Qed.

Lemma smart_scale_top_loop_aligned (dv : DayView) (self : nat)
    (oe c maxd k0 : Z) :
  1 <= c -> 1 <= k0 -> k0 * c <= maxd -> maxd <= oe ->
  overlaps_range dv (oe - k0 * c) oe (Some self) None = false ->
  forall (j fuel : nat), (j < fuel)%nat -> (k0 + Z.of_nat j) * c <= maxd ->
  exists k, 1 <= k /\
    smart_scale_top_loop fuel dv self oe c maxd 1 ((k0 + Z.of_nat j) * c) = k * c /\
    k * c <= maxd /\ overlaps_range dv (oe - k * c) oe (Some self) None = false.
Proof.
  intros Hc Hk0 Hle0 Hday Hfree.
  induction j as [|j IH]; intros fuel Hf Hle; (destruct fuel as [|fuel]; [lia|]);
    cbn [smart_scale_top_loop]; cbv zeta.
  - replace (Z.max c (Z.min ((k0 + Z.of_nat 0) * c) maxd)) with (k0 * c) by nia.
    replace (oe - k0 * c <? 0) with false by (symmetry; apply Z.ltb_ge; lia).
    rewrite Hfree. cbn [negb]. exists k0. auto.
  - set (D := (k0 + Z.of_nat (S j)) * c) in *.
    assert (HD : D = (k0 + Z.of_nat j) * c + c) by (subst D; nia).
    assert (HDc : c <= (k0 + Z.of_nat j) * c) by nia.
    replace (Z.max c (Z.min D maxd)) with D by lia.
    replace (oe - D <? 0) with false by (symmetry; apply Z.ltb_ge; lia).
    destruct (overlaps_range dv (oe - D) oe (Some self) None) eqn:Ho; cbn [negb].
    + replace (0 <=? 1) with true by reflexivity.
      replace (D - c) with ((k0 + Z.of_nat j) * c) by lia.
      replace ((k0 + Z.of_nat j) * c <? c) with false by (symmetry; apply Z.ltb_ge; lia).
      apply IH; lia.
    + exists (k0 + Z.of_nat (S j)). fold D. repeat split; try lia; assumption.
Qed.

Lemma smart_scale_bottom_loop_free (fuel : nat) (dv : DayView) (self : nat)
    (o c maxd direction D : Z) :
  c <= D <= maxd -> o + D <= 24 * 60 ->
  overlaps_range dv o (o + D) (Some self) None = false ->
  smart_scale_bottom_loop (S fuel) dv self o c maxd direction D = D.
Proof.
  intros HD Hday Hfree. cbn [smart_scale_bottom_loop]. cbv zeta.
  replace (Z.max c (Z.min D maxd)) with D by lia.
  replace (24 * 60 <? o + D) with false by (symmetry; apply Z.ltb_ge; lia).
  now rewrite Hfree.
Qed.

Lemma smart_scale_top_loop_free (fuel : nat) (dv : DayView) (self : nat)
    (oe c maxd direction D : Z) :
  c <= D <= maxd -> 0 <= oe - D ->
  overlaps_range dv (oe - D) oe (Some self) None = false ->
  smart_scale_top_loop (S fuel) dv self oe c maxd direction D = D.
Proof.
  intros HD Hday Hfree. cbn [smart_scale_top_loop]. cbv zeta.
  replace (Z.max c (Z.min D maxd)) with D by lia.
  replace (oe - D <? 0) with false by (symmetry; apply Z.ltb_ge; lia).
  now rewrite Hfree.
Qed.

(** The target of a smart-scale resize is a whole number of chunks. *)
Lemma smart_scale_target (c k0 steps q : Z) :
  1 <= c -> 1 <= k0 -> k0 <= q ->
  let whole := q * c in
  let max_duration := Z.max c (if whole =? 0 then c else whole) in
  let target := Z.max c (Z.min (Z.max c (k0 * c + steps * c)) max_duration) in
  max_duration = q * c /\
  exists t, 1 <= t /\ t <= q /\ target = t * c /\ (k0 * c <= target <-> k0 <= t).
Proof.
  intros Hc Hk0 Hq. cbv zeta.
  assert (Hw : (q * c =? 0) = false) by (apply Z.eqb_neq; nia).
  rewrite Hw.
  assert (Hm : Z.max c (q * c) = q * c) by nia.
  rewrite Hm. split; [reflexivity|].
  exists (Z.max 1 (Z.min (Z.max 1 (k0 + steps)) q)).
  split; [lia|]. split; [lia|].
  assert (H1 : Z.max c (k0 * c + steps * c) = Z.max 1 (k0 + steps) * c).
  { replace (k0 * c + steps * c) with ((k0 + steps) * c) by ring.
    replace c with (1 * c) at 1 by ring.
    apply Z.mul_max_distr_nonneg_r. lia. }
  rewrite H1.
  rewrite (Z.mul_min_distr_nonneg_r _ _ c) by lia.
  replace c with (1 * c) at 1 by ring.
  rewrite (Z.mul_max_distr_nonneg_r _ _ c) by lia.
  split; [reflexivity|]. split; intros H; nia.
Qed.

(** X7: smart scale on a block aligned to the time size.  When the time
    size is at least two minutes, the block the gesture started on covered a
    whole number of time sizes inside the day, and that range is free of the
    other blocks, a smart-scale step on either handle keeps the invariant of
    the store: the block gets a whole number of time sizes, keeps its other
    edge, stays inside the day and meets no other block. *)
Theorem smart_scale_aligned_keeps_schedule (i : nat) (w : EventWidget) (m : Z)
    (dv : DayView) :
  widget_by_id i (event_widgets dv) = Some w ->
  NoDup (map wid (event_widgets dv)) -> store_ok (event_widgets dv) ->
  2 <= time_size_minutes dv ->
  0 <= _orig_start w -> _orig_end w <= 24 * 60 ->
  _orig_duration w = _orig_end w - _orig_start w ->
  (exists k, 1 <= k /\ _orig_duration w = k * time_size_minutes dv) ->
  overlaps_range dv (_orig_start w) (_orig_end w) (Some i) None = false ->
  (exists k, 1 <= k /\ _orig_start w + k * time_size_minutes dv <= 24 * 60 /\
     event_widgets (_smart_scale_resize_bottom i m dv)
     = update_widget i
         (with_range (_orig_start w) (_orig_start w + k * time_size_minutes dv))
         (event_widgets dv) /\
     store_ok (event_widgets (_smart_scale_resize_bottom i m dv))) /\
  (exists k, 1 <= k /\ 0 <= _orig_end w - k * time_size_minutes dv /\
     event_widgets (_smart_scale_resize_top i m dv)
     = update_widget i
         (with_range (_orig_end w - k * time_size_minutes dv) (_orig_end w))
         (event_widgets dv) /\
     store_ok (event_widgets (_smart_scale_resize_top i m dv))).
Proof.
  intros Hw Hnd Hok Hts Ho Hoe Hod (k0 & Hk0 & Hk) Hfree.
  set (c := time_size_minutes dv) in *.
  set (o := _orig_start w) in *. set (oe := _orig_end w) in *.
  assert (Hchunk : _base_chunk dv = c) by (unfold _base_chunk; fold c; lia).
  assert (Hoe' : oe = o + k0 * c) by lia.
  split.
  - unfold _smart_scale_resize_bottom. rewrite Hw, Hchunk. fold o oe. rewrite Hk.
    set (mc := Z.max (o + c) (Z.min m (24 * 60))).
    set (steps := (mc - oe) / c).
    set (q := (24 * 60 - o) / c).
    assert (Hq1 : q * c <= 24 * 60 - o).
    { subst q. rewrite Z.mul_comm. apply Z.mul_div_le. lia. }
    assert (Hq2 : k0 <= q).
    { subst q. apply Z.div_le_lower_bound; [lia|]. rewrite Z.mul_comm. lia. }
    destruct (smart_scale_target c k0 steps q) as (Hmax & t & Ht1 & Ht2 & Ht & Hdir);
      try lia.
    cbv zeta in Hmax, Ht, Hdir. rewrite Hmax. rewrite Hmax in Ht, Hdir. rewrite Ht.
    destruct (k0 * c <=? t * c) eqn:Hcmp.
    + apply Z.leb_le in Hcmp. rewrite Ht in Hdir. apply Hdir in Hcmp.
      destruct (smart_scale_bottom_loop_aligned dv i o c (q * c) k0) with
        (j := Z.to_nat (t - k0)) (fuel := 1000%nat) as (k & Hk1 & Hr & Hrm & Hrf);
        try lia; try nia.
      { rewrite <- Hoe'. exact Hfree. }
      replace ((k0 + Z.of_nat (Z.to_nat (t - k0))) * c) with (t * c) in Hr by nia.
      rewrite Hr. exists k. split; [exact Hk1|]. split; [lia|].
      cbn [event_widgets with_event_widgets].
      replace (Z.min (24 * 60) (o + k * c)) with (o + k * c) by lia.
      split; [reflexivity|]. apply store_ok_place; try assumption. nia.
    + apply Z.leb_gt in Hcmp.
      assert (Hfree' : overlaps_range dv o (o + t * c) (Some i) None = false).
      { unfold overlaps_range in *. apply overlaps_in_false.
        intros ev Hev Hex. apply (ranges_overlap_sub _ _ o oe); try lia.
        apply (proj1 (overlaps_in_false _ _ _ _ _) Hfree); assumption. }
      change 1000%nat with (S 999).
      rewrite smart_scale_bottom_loop_free; [|nia|nia|exact Hfree'].
      exists t. split; [exact Ht1|]. split; [nia|].
      cbn [event_widgets with_event_widgets].
      replace (Z.min (24 * 60) (o + t * c)) with (o + t * c) by nia.
      split; [reflexivity|]. apply store_ok_place; try assumption. nia.
  - unfold _smart_scale_resize_top. rewrite Hw, Hchunk. fold o oe. rewrite Hk.
    set (mc := Z.max 0 (Z.min m (oe - c))).
    set (steps := (o - mc) / c).
    set (q := oe / c).
    assert (Hq1 : q * c <= oe).
    { subst q. rewrite Z.mul_comm. apply Z.mul_div_le. lia. }
    assert (Hq2 : k0 <= q).
    { subst q. apply Z.div_le_lower_bound; [lia|]. rewrite Z.mul_comm. lia. }
    destruct (smart_scale_target c k0 steps q) as (Hmax & t & Ht1 & Ht2 & Ht & Hdir);
      try lia.
    cbv zeta in Hmax, Ht, Hdir. rewrite Hmax. rewrite Hmax in Ht, Hdir. rewrite Ht.
    destruct (k0 * c <=? t * c) eqn:Hcmp.
    + apply Z.leb_le in Hcmp. rewrite Ht in Hdir. apply Hdir in Hcmp.
      destruct (smart_scale_top_loop_aligned dv i oe c (q * c) k0) with
        (j := Z.to_nat (t - k0)) (fuel := 1000%nat) as (k & Hk1 & Hr & Hrm & Hrf);
        try lia; try nia.
      { replace (oe - k0 * c) with o by lia. exact Hfree. }
      replace ((k0 + Z.of_nat (Z.to_nat (t - k0))) * c) with (t * c) in Hr by nia.
      rewrite Hr. exists k. split; [exact Hk1|]. split; [lia|].
      cbn [event_widgets with_event_widgets].
      replace (Z.max 0 (oe - k * c)) with (oe - k * c) by lia.
      split; [reflexivity|]. apply store_ok_place; try assumption. nia.
    + apply Z.leb_gt in Hcmp.
      assert (Hfree' : overlaps_range dv (oe - t * c) oe (Some i) None = false).
      { unfold overlaps_range in *. apply overlaps_in_false.
        intros ev Hev Hex. apply (ranges_overlap_sub _ _ o oe); try lia.
        apply (proj1 (overlaps_in_false _ _ _ _ _) Hfree); assumption. }
      change 1000%nat with (S 999).
      rewrite smart_scale_top_loop_free; [|nia|nia|exact Hfree'].
      exists t. split; [exact Ht1|]. split; [nia|].
      cbn [event_widgets with_event_widgets].
      replace (Z.max 0 (oe - t * c)) with (oe - t * c) by nia.
      split; [reflexivity|]. apply store_ok_place; try assumption. nia.
Qed.

Lemma smart_scale_aligned_keeps_schedule_witness :
  let dv := day_view example_two_blocks in
  map range_of (event_widgets (_smart_scale_resize_bottom 0 600 dv))
  = [(480, 540); (540, 570)] /\
  store_ok (event_widgets (_smart_scale_resize_bottom 0 600 dv)).
Proof.
  split; [vm_compute; reflexivity|].
  destruct (smart_scale_aligned_keeps_schedule 0 (example_widget 0 480 510 false) 600
              (day_view example_two_blocks)) as [(k & _ & _ & _ & Hb) _].
  - reflexivity.
  - vm_compute. repeat constructor; set_solver.
  - apply store_okb_spec. reflexivity.
  - cbn. lia.
  - cbn. lia.
  - cbn. lia.
  - reflexivity.
  - exists 1. split; [lia|reflexivity].
  - reflexivity.
  - exact Hb.
Defined.

(** ** The log under any sequence of operations *)

(** Applying a snapshot never touches the log. *)
Lemma apply_history_snapshot_ledger (snapshot : HistoryEntry) (mw : MainWindow) :
  let mw' := _apply_history_snapshot snapshot mw in
  _history mw' = _history mw /\ _history_index mw' = _history_index mw /\
  _history_freeze mw' = _history_freeze mw /\ _history_max mw' = _history_max mw /\
  (h_date snapshot = current_date mw -> current_date mw' = current_date mw).
Proof.
  cbv zeta. unfold _apply_history_snapshot.
  destruct (bool_decide (h_date snapshot = "")) eqn:Hk; [repeat split|].
  apply bool_decide_eq_false_1 in Hk.
  destruct (_apply_history_snapshot_spec snapshot mw Hk) as (_ & Hc & Hh & Hi & Hf & Hm).
  unfold _apply_history_snapshot in Hc, Hh, Hi, Hf, Hm.
  rewrite (bool_decide_eq_false_2 _ Hk) in Hc, Hh, Hi, Hf, Hm.
  repeat split; try assumption.
  intros Hd. rewrite Hc. destruct (date_key_is_valid _); auto.
Qed.

Lemma history_ok_cursor (mw' mw : MainWindow) :
  _history mw' = _history mw ->
  0 <= _history_index mw' < Z.of_nat (length (_history mw)) ->
  _history_freeze mw' = false -> _history_max mw' = _history_max mw ->
  current_date mw' = current_date mw ->
  history_ok mw -> history_ok mw'.
Proof.
  intros Hh Hi Hf Hm Hd (_ & Hl & _ & Hmax & Hday).
  unfold history_ok, history_of_day in *. rewrite Hh, Hm, Hd. auto.
Qed.

Lemma history_ok_entry_date (mw : MainWindow) (i : nat) (e : HistoryEntry) :
  history_ok mw -> _history mw !! i = Some e -> h_date e = current_date mw.
Proof.
  intros (_ & _ & _ & _ & Hday) He. unfold history_of_day in Hday.
  rewrite Forall_forall in Hday. apply Hday. eapply list_elem_of_lookup_2; eauto.
Qed.

Lemma record_history_length (mw : MainWindow) :
  _history_freeze mw = false -> history_wf mw -> 1 <= _history_max mw ->
  Z.of_nat (length (_history mw)) <= _history_max mw ->
  Z.of_nat (length (_history (_record_history mw))) <= _history_max mw.
Proof.
  intros Hf Hwf Hmax Hlen.
  destruct (cursor_entry mw) as [e|] eqn:Hc.
  - destruct (decide (h_events e = stored_events mw)) as [He|He].
    + rewrite (_record_history_same mw e); try assumption.
      apply (cursor_entry_none_or_nonneg mw e); assumption.
    + apply _record_history_new_cursor; try assumption.
      intros e' He'. congruence.
  - apply _record_history_new_cursor; try assumption.
    intros e' He'. congruence.
Qed.

Lemma history_ok_on_day_changed (mw : MainWindow) :
  history_ok mw -> history_ok (on_day_changed mw).
Proof.
  intros (Hi & Hl & Hf & Hmax & Hday).
  assert (Hwf : history_wf mw) by (right; exact Hi).
  destruct (on_day_changed_cursor mw Hf Hwf) as (_ & Hi' & Hf' & Hm' & Hd' & Hday' & _);
    [lia|exact Hday|].
  unfold history_ok. rewrite Hm'. repeat split; try assumption; try lia.
  pose proof (record_history_length (save_day (current_date mw) mw)) as Hlen.
  unfold on_day_changed. cbn in Hlen. rewrite Hmax in Hlen.
  assert (H := Hlen Hf Hwf ltac:(lia) ltac:(lia)). lia.
Qed.

Lemma history_ok_jump (mw : MainWindow) (i : Z) (msg : string) :
  history_ok mw -> 0 <= i < Z.of_nat (length (_history mw)) ->
  history_ok
    match py_index (_history mw) i with
    | None => with_history_freeze false
                (with_history_freeze true (with_history (_history mw) i mw))
    | Some snapshot =>
        showMessage msg
          (with_pending_history_action None
             (with_history_freeze false
                (_apply_history_snapshot snapshot
                   (with_history_freeze true (with_history (_history mw) i mw)))))
    end.
Proof.
  intros Hok Hi. rewrite py_index_nonneg by lia.
  destruct (_history mw !! Z.to_nat i) as [e|] eqn:He.
  - pose proof (history_ok_entry_date _ _ _ Hok He) as Hd.
    destruct (apply_history_snapshot_ledger e
                (with_history_freeze true (with_history (_history mw) i mw)))
      as (Hh & Hx & _ & Hm & Hc).
    apply (history_ok_cursor _ mw); window_simpl; try assumption; try reflexivity.
    + rewrite Hx. exact Hi.
    + apply Hc. exact Hd.
  - apply (history_ok_cursor _ mw); window_simpl; auto.
Qed.

Lemma history_ok_reset (q : string) (mw : MainWindow) :
  _history_freeze mw = false -> _history_max mw = 11 -> current_date mw = q ->
  history_ok (_reset_history (Some q) mw).
Proof.
  intros Hf Hm Hd. unfold history_ok, history_of_day, _reset_history, _history_snapshot.
  cbn. repeat split; try lia; try assumption.
  constructor; [cbn; congruence|constructor].
Qed.

Lemma load_day_reset (q : string) (mw : MainWindow) :
  load_day q true mw = _reset_history (Some q) (load_day q false mw).
Proof. reflexivity. Qed.

(** X8: the log stays well formed under everything the user can do to
    it.  After any sequence of committed edits, undos, redos, jumps to an
    entry (whatever the index), clearings and changes of day, the cursor
    points inside the log, the log holds between one and eleven entries, all
    of them of the day on screen, and recording is not left frozen. *)
Theorem history_ok_preserved (ops : list HistoryOp) (mw : MainWindow) :
  history_ok mw -> history_ok (foldl run_history_op mw ops).
Proof.
  revert mw. induction ops as [|op ops IH]; intros mw Hok; [exact Hok|].
  cbn [foldl]. apply IH. clear IH ops.
  destruct op as [dv'| | |index| |selected today]; cbn [run_history_op].
  - apply history_ok_on_day_changed.
    destruct Hok as (Hi & Hl & Hf & Hm & Hday). unfold history_ok, history_of_day in *.
    cbn. auto.
  - unfold perform_undo.
    destruct ((_history_index mw <=? 0) || bool_decide (_history mw = [])) eqn:Hc.
    + apply (history_ok_cursor _ mw); auto; apply Hok.
    + apply orb_false_iff in Hc as (Hc & _). apply Z.leb_gt in Hc.
      cbn [_history _history_index with_history with_history_freeze].
      apply (history_ok_jump mw (_history_index mw - 1) "Undo complete" Hok).
      destruct Hok as (Hi & _). lia.
  - unfold perform_redo.
    destruct (bool_decide (_history mw = [])
              || (Z.of_nat (length (_history mw)) - 1 <=? _history_index mw)) eqn:Hc.
    + apply (history_ok_cursor _ mw); auto; apply Hok.
    + apply orb_false_iff in Hc as (_ & Hc). apply Z.leb_gt in Hc.
      cbn [_history _history_index with_history with_history_freeze].
      apply (history_ok_jump mw (_history_index mw + 1) "Redo complete" Hok).
      destruct Hok as (Hi & _). lia.
  - unfold restore_history_entry.
    destruct ((0 <=? index) && (index <? Z.of_nat (length (_history mw)))) eqn:Hc;
      cbn [negb].
    + apply andb_true_iff in Hc as (H0 & H1).
      apply Z.leb_le in H0. apply Z.ltb_lt in H1.
      pose proof (history_ok_jump mw index
                    ("Restored: " +:+ match py_index (_history mw) index with
                                      | Some s => h_action s
                                      | None => ""
                                      end) Hok (conj H0 H1)) as H.
      destruct (py_index (_history mw) index) as [s|] eqn:Hs.
      * exact H.
      * rewrite py_index_nonneg in Hs by lia.
        apply lookup_ge_None in Hs. lia.
    + apply (history_ok_cursor _ mw); auto; apply Hok.
  - unfold clear_history_entries.
    destruct Hok as (_ & _ & _ & Hm & _).
    match goal with
    | |- history_ok (showMessage _ ?m) =>
        apply (history_ok_cursor _ m); try reflexivity
    end.
    + cbn. lia.
    + apply history_ok_reset; auto.
  - unfold on_calendar_changed, update_now_line.
    destruct Hok as (_ & _ & Hf & Hm & _).
    match goal with
    | |- history_ok (with_day_view _ ?m) =>
        assert (Hok : history_ok m); [|exact Hok]
    end.
    rewrite load_day_reset.
    match goal with
    | |- history_ok (_reset_history _ (load_day ?q false ?m)) =>
        pose proof (same_ledger_load_day_keep q m) as (_ & _ & Hd & _ & _ & Hf' & Hm' & _)
    end.
    apply history_ok_reset.
    + rewrite Hf'. exact Hf.
    + rewrite Hm'. exact Hm.
    + rewrite Hd. reflexivity.
Qed.

Lemma history_ok_preserved_witness :
  history_ok example_two_blocks /\
  history_ok
    (foldl run_history_op example_two_blocks
       [op_edit (example_view 30 [example_widget 0 600 630 false]); op_undo; op_redo;
        op_restore 7; op_switch_day "2026-01-06" "2026-01-05"; op_clear]).
Proof.
  assert (H : history_ok example_two_blocks).
  { unfold history_ok, history_of_day. cbn. repeat split; try lia.
    constructor; [reflexivity|constructor]. }
  split; [exact H|]. apply history_ok_preserved. exact H.
Defined.

(** ** The entries offered by the history dialog *)

Lemma dialog_entries_from_spec (h : list HistoryEntry) :
  forall (idx i : Z) (e : HistoryEntry),
    (i, e) ∈ dialog_entries_from idx h <->
    idx <= i /\ h !! Z.to_nat (i - idx) = Some e /\ h_action e <> "Initial load".
Proof.
  induction h as [|x h IH]; intros idx i e; cbn [dialog_entries_from].
  - split; [intros H; inversion H|intros (_ & H & _); discriminate].
  - assert (Hrest : (i, e) ∈ dialog_entries_from (idx + 1) h <->
                    idx < i /\ (x :: h) !! Z.to_nat (i - idx) = Some e
                    /\ h_action e <> "Initial load").
    { rewrite IH. split.
      - intros (H1 & H2 & H3). split; [lia|]. split; [|exact H3].
        replace (Z.to_nat (i - idx)) with (S (Z.to_nat (i - (idx + 1)))) by lia.
        exact H2.
      - intros (H1 & H2 & H3). split; [lia|]. split; [|exact H3].
        replace (Z.to_nat (i - idx)) with (S (Z.to_nat (i - (idx + 1)))) in H2 by lia.
        exact H2. }
    destruct (bool_decide (h_action x = "Initial load")) eqn:Hx.
    + apply bool_decide_eq_true_1 in Hx. rewrite Hrest. split.
      * intros (H1 & H2 & H3). split; [lia|auto].
      * intros (H1 & H2 & H3). split; [|auto].
        destruct (decide (i = idx)) as [->|]; [|lia].
        rewrite Z.sub_diag in H2. change (Some x = Some e) in H2. congruence.
    + apply bool_decide_eq_false_1 in Hx. rewrite elem_of_cons, Hrest. split.
      * intros [H|(H1 & H2 & H3)].
        -- injection H as -> ->. rewrite Z.sub_diag.
           split; [lia|]. split; [reflexivity|exact Hx].
        -- split; [lia|auto].
      * intros (H1 & H2 & H3).
        destruct (decide (i = idx)) as [->|]; [left|right; split; [lia|auto]].
        rewrite Z.sub_diag in H2. change (Some x = Some e) in H2. congruence.
Qed.

(** X9: the history dialog.  It lists exactly the entries of the log
    that are not an initial load, each with its place in the log; restoring
    a listed entry always succeeds (the message "History entry unavailable"
    cannot appear), puts the cursor on that place, keeps the log and ends
    with the message "Restored: " and the label of the entry; and after the
    log is cleared the dialog has nothing to list. *)
Theorem history_dialog_entries (mw : MainWindow) :
  (forall i e, (i, e) ∈ _history_entries_for_dialog mw <->
     0 <= i /\ _history mw !! Z.to_nat i = Some e /\ h_action e <> "Initial load") /\
  (forall i e, (i, e) ∈ _history_entries_for_dialog mw ->
     let mw' := restore_history_entry i mw in
     _history_index mw' = i /\ _history mw' = _history mw /\
     _history_freeze mw' = false /\
     last (status mw') = Some ("Restored: " +:+ h_action e)) /\
  _history_entries_for_dialog (clear_history_entries mw) = [].
Proof.
  assert (Hspec : forall i e, (i, e) ∈ _history_entries_for_dialog mw <->
            0 <= i /\ _history mw !! Z.to_nat i = Some e /\ h_action e <> "Initial load").
  { intros i e. unfold _history_entries_for_dialog.
    rewrite dialog_entries_from_spec, Z.sub_0_r. reflexivity. }
  split; [exact Hspec|]. split.
  - intros i e Hin. apply Hspec in Hin as (H0 & He & _). cbv zeta.
    assert (Hlt : (Z.to_nat i < length (_history mw))%nat)
      by (eapply lookup_lt_Some; eauto).
    unfold restore_history_entry.
    replace ((0 <=? i) && (i <? Z.of_nat (length (_history mw)))) with true
      by (symmetry; apply andb_true_iff; split; [apply Z.leb_le|apply Z.ltb_lt]; lia).
    cbn [negb]. rewrite py_index_nonneg by lia. rewrite He.
    destruct (apply_history_snapshot_ledger e
                (with_history_freeze true (with_history (_history mw) i mw)))
      as (Hh & Hx & _ & _ & _).
    window_simpl. rewrite Hh, Hx. repeat split. apply last_snoc.
  - reflexivity.
Qed.

(** ** Loading and saving a day *)

Lemma foldl_preserves {A} (P : MainWindow -> Prop) (f : MainWindow -> A -> MainWindow)
    (l : list A) :
  (forall m a, P m -> P (f m a)) -> forall m, P m -> P (foldl f m l).
Proof.
  intros Hf. induction l as [|a l IH]; intros m Hm; [exact Hm|].
  cbn [foldl]. apply IH, Hf, Hm.
Qed.

Lemma add_block_schedule_ok (s d : Z) (t : string) (c : option string) (fr : bool)
    (rid : option string) (l : bool) (img tg : option string) (n : Z) (rec : bool)
    (mw : MainWindow) :
  schedule_ok (day_view mw) ->
  schedule_ok (day_view (add_block s d t c fr rid l img tg n rec mw).1).
Proof.
  intros (H1 & H2 & H3). split; [now apply add_block_store_ok|].
  split; now apply add_block_ids_in_day.
Qed.

Lemma add_item_schedule_ok (m : MainWindow) (it : EventItem) :
  schedule_ok (day_view m) -> schedule_ok (day_view (add_item m it)).
Proof. apply add_block_schedule_ok. Qed.

Lemma add_rule_schedule_ok (m : MainWindow) (r : Rule) :
  schedule_ok (day_view m) -> schedule_ok (day_view (add_rule m r)).
Proof.
  unfold add_rule. destruct (bool_decide _); [apply add_block_schedule_ok|auto].
Qed.

Lemma foldl_length_bound {A} (f : MainWindow -> A -> MainWindow) (l : list A) :
  (forall m a, (length (event_widgets (day_view (f m a)))
                <= S (length (event_widgets (day_view m))))%nat) ->
  forall m, (length (event_widgets (day_view (foldl f m l)))
             <= length (event_widgets (day_view m)) + length l)%nat.
Proof.
  intros Hf. induction l as [|a l IH]; intros m; cbn [foldl length]; [lia|].
  specialize (IH (f m a)). specialize (Hf m a). lia.
Qed.

Lemma load_day_schedule_ok (qdate : string) (reset_history : bool) (mw : MainWindow) :
  schedule_ok (day_view (load_day qdate reset_history mw)).
Proof.
  assert (H : schedule_ok (day_view (load_day qdate false mw))).
  { unfold load_day. cbv zeta.
    apply foldl_preserves; [intros; now apply add_rule_schedule_ok|].
    apply foldl_preserves; [intros; now apply add_item_schedule_ok|].
    unfold schedule_ok, ids_ok, store_ok. cbn [clear_blocks day_view with_day_view
      event_widgets with_event_widgets].
    repeat split; try constructor.
    - intros w Hw. inversion Hw.
    - intros i j a b _ Ha. rewrite lookup_nil in Ha. discriminate.
    - intros w Hw. inversion Hw. }
  destruct reset_history; [rewrite load_day_reset|]; exact H.
Qed.

(** X10: loading a day always shows a valid schedule.  Whatever the
    stored events and the repeat rules are (they may meet each other, be
    empty or lie outside the day), the blocks on screen after [load_day] are
    non-empty ranges inside the day that do not meet, with distinct
    identities; there are at most as many as stored events and rules; and
    loading changes neither the stored events nor the rules. *)
Theorem load_day_valid_store (qdate : string) (reset_history : bool) (mw : MainWindow) :
  let mw' := load_day qdate reset_history mw in
  schedule_ok (day_view mw') /\
  (length (event_widgets (day_view mw'))
   <= length (events_of qdate mw) + length (repeat_rules mw))%nat /\
  events_by_date mw' = events_by_date mw /\ repeat_rules mw' = repeat_rules mw.
Proof.
  cbv zeta. split; [apply load_day_schedule_ok|].
  pose proof (same_ledger_load_day_keep qdate mw) as (He & Hr & _).
  assert (Hlen : (length (event_widgets (day_view (load_day qdate false mw)))
                  <= length (events_of qdate mw) + length (repeat_rules mw))%nat).
  { unfold load_day. cbv zeta.
    pose proof (same_ledger_clear_blocks mw) as (Hev & Hrr & _).
    set (m0 := clear_blocks mw) in *.
    set (items := py_sorted by_start (default [] (events_by_date m0 !! qdate))).
    assert (Hitems : length items = length (events_of qdate mw)).
    { subst items. unfold events_of. rewrite Hev.
      apply Permutation_length, py_sorted_perm. }
    set (m1 := foldl add_item m0 items).
    assert (H1 : (length (event_widgets (day_view m1)) <= length items)%nat).
    { subst m1. pose proof (foldl_length_bound add_item items) as Hb.
      specialize (Hb (fun m a => proj2 (proj2 (add_block_ids_in_day _ _ _ _ _ _ _ _ _ _ _ m)))
                    m0).
      exact Hb. }
    assert (Hr1 : repeat_rules m1 = repeat_rules mw).
    { subst m1.
      destruct (same_ledger_foldl add_item items
                  (fun m a => same_ledger_add_block _ _ _ _ _ _ _ _ _ _ _ m) m0)
        as (_ & Hx & _). congruence. }
    rewrite Hr1.
    pose proof (foldl_length_bound add_rule (repeat_rules mw)) as Hb.
    assert (Hstep : forall m a, (length (event_widgets (day_view (add_rule m a)))
                                 <= S (length (event_widgets (day_view m))))%nat).
    { intros m a. unfold add_rule. destruct (bool_decide _); [|lia].
      apply add_block_ids_in_day. }
    specialize (Hb Hstep m1). lia. }
  destruct reset_history; [rewrite load_day_reset|]; auto.
Qed.

Lemma items_of_store_app (ws ws' : list EventWidget) :
  items_of_store (ws ++ ws') = items_of_store ws ++ items_of_store ws'.
Proof. unfold items_of_store. now rewrite List.filter_app, map_app. Qed.

(** A stored event that fits the day and is free of the blocks on screen
    becomes a block at its own place, with its own data. *)
Lemma add_item_appends (mw : MainWindow) (it : EventItem) :
  0 <= it_start_min it -> it_start_min it < it_end_min it -> it_end_min it <= 24 * 60 ->
  Forall (fun r => ranges_overlap (it_start_min it) (it_end_min it) r.1 r.2 = false)
         (map range_of (event_widgets (day_view mw))) ->
  items_of_store (event_widgets (day_view (add_item mw it)))
  = items_of_store (event_widgets (day_view mw)) ++ [item_as_loaded it].
Proof.
  intros Hs Hse He Hfree. unfold add_item, add_block.
  set (s := it_start_min it) in *. set (e := it_end_min it) in *.
  replace (Z.max 1 (e - s)) with (e - s) by lia.
  assert (Hnone : forall ex, first_conflict (event_widgets (day_view mw)) ex s (e - s) = None).
  { intros ex. apply first_conflict_None. intros ev Hev _.
    rewrite Forall_forall in Hfree.
    replace (s + (e - s)) with e by lia.
    apply (Hfree (range_of ev)). apply (list_elem_of_fmap_2 range_of). exact Hev. }
  assert (Hclamp : clamp_start_to_available (day_view mw) s (e - s) None None 0 = Some s).
  { unfold clamp_start_to_available.
    replace (Z.max 1 (e - s)) with (e - s) by lia.
    replace (Z.max 0 (Z.min s (24 * 60 - (e - s)))) with s by lia.
    apply clamp_loop_free, Hnone. }
  rewrite Hclamp.
  assert (Hov : overlaps_range (day_view mw) s (s + (e - s)) None None = false).
  { apply first_conflict_overlaps_range. apply Hnone. }
  rewrite Hov. cbn [fst day_view with_day_view].
  match goal with
  | |- items_of_store (event_widgets (_refresh_widget_transparency ?d)) = _ =>
      rewrite (proj2 (proj2 (proj2 (forget_flags_views _ _ (refresh_forget d)))))
  end.
  cbn [event_widgets with_event_widgets with_next_wid].
  rewrite items_of_store_app. f_equal.
  unfold items_of_store, set_mouse_transparent, set_box_selected.
  destruct (_ && _);
    cbn [List.filter map from_rule negb EventWidget_init with_box_selected
         with_group_dragging];
    unfold item_of_widget, item_as_loaded;
    cbn [start_min end_min title tag color locked image_rel notify_offset
         EventWidget_init with_box_selected with_group_dragging default];
    fold s e;
    replace (Z.max 0 (Z.min s (24 * 60 - 1))) with s by lia;
    replace (Z.max (s + 1) (Z.min (s + (e - s)) (24 * 60))) with e by lia;
    (destruct (it_locked it =? 0); cbn [negb];
     (destruct (bool_decide (it_image it = "")) eqn:Hi;
      [apply bool_decide_eq_true_1 in Hi; rewrite Hi|]); reflexivity).
Qed.

Lemma foldl_add_item_appends (items : list EventItem) :
  forall mw,
  items_ok items ->
  Forall (fun r => Forall (fun it => ranges_overlap (it_start_min it) (it_end_min it)
                                       r.1 r.2 = false) items)
         (map range_of (event_widgets (day_view mw))) ->
  items_of_store (event_widgets (day_view (foldl add_item mw items)))
  = items_of_store (event_widgets (day_view mw)) ++ map item_as_loaded items.
Proof.
  induction items as [|it items IH]; intros mw Hok Hfree; cbn [foldl map].
  - rewrite app_nil_r. reflexivity.
  - destruct Hok as ((Hs & Hse & He) & Hrest & Hok).
    assert (Hfree1 : Forall (fun r => ranges_overlap (it_start_min it) (it_end_min it)
                                        r.1 r.2 = false)
                       (map range_of (event_widgets (day_view mw)))).
    { eapply Forall_impl; [exact Hfree|]. intros r Hr. apply Forall_cons in Hr as [H _].
      exact H. }
    pose proof (add_item_places mw it Hs Hse He Hfree1) as Hit.
    rewrite IH; [|exact Hok|].
    + rewrite add_item_appends by assumption. now rewrite <- app_assoc.
    + rewrite Hit. apply Forall_app. split.
      * eapply Forall_impl; [exact Hfree|]. intros r Hr.
        apply Forall_cons in Hr as [_ H]. exact H.
      * constructor; [|constructor]. unfold item_range. cbn [fst snd].
        eapply Forall_impl; [exact Hrest|]. intros v Hv. cbn beta in Hv.
        rewrite ranges_overlap_sym. exact Hv.
Qed.

Lemma load_day_rebuilds_items (qdate : string) (mw : MainWindow) :
  repeat_rules mw = [] ->
  items_ok (default [] (events_by_date mw !! qdate)) ->
  items_of_store (event_widgets (day_view (load_day qdate false mw)))
  = map item_as_loaded (py_sorted by_start (default [] (events_by_date mw !! qdate))).
Proof.
  intros Hrules Hok. unfold load_day. cbv zeta.
  pose proof (same_ledger_clear_blocks mw) as (Hev & Hr & _).
  set (m := clear_blocks mw) in *.
  assert (Hempty : event_widgets (day_view m) = []) by reflexivity.
  assert (Hr' : repeat_rules (foldl add_item m
                  (py_sorted by_start (default [] (events_by_date m !! qdate)))) = []).
  { match goal with |- repeat_rules (foldl add_item m ?l) = _ =>
      pose proof (same_ledger_foldl add_item l) as Hl end.
    destruct (Hl (fun m a => same_ledger_add_block _ _ _ _ _ _ _ _ _ _ _ m) m) as (_ & Hrr & _).
    rewrite Hrr, Hr. exact Hrules. }
  rewrite Hr'. cbn [foldl]. rewrite Hev.
  rewrite foldl_add_item_appends.
  - rewrite Hempty. reflexivity.
  - eapply items_ok_perm; [symmetry; apply py_sorted_perm|exact Hok].
  - rewrite Hempty. constructor.
Qed.

Lemma items_ok_of_store (ws : list EventWidget) :
  store_ok ws -> Forall in_day ws -> items_ok (items_of_store ws).
Proof.
  intros Hok Hday. apply store_okb_spec in Hok.
  induction ws as [|w ws IH]; [exact I|].
  cbn [store_okb] in Hok.
  apply andb_true_iff in Hok as (Hok & Hrest).
  apply andb_true_iff in Hok as (Hlt & Hfree).
  apply Z.ltb_lt in Hlt. pose proof (proj1 (forallb_free _ _) Hfree) as Hfree'.
  apply Forall_cons in Hday as ((H0 & H1) & Hday).
  specialize (IH Hrest Hday).
  unfold items_of_store in *. cbn [List.filter].
  destruct (negb (from_rule w)); cbn [map]; [|exact IH].
  cbn [items_ok]. split; [cbn; lia|]. split; [|exact IH].
  apply Forall_forall. intros v Hv.
  apply list_elem_of_fmap in Hv as (u & -> & Hu).
  apply list_elem_of_In, filter_In in Hu as (Hu & _). apply list_elem_of_In in Hu.
  cbn. now apply Hfree'.
Qed.

Lemma item_as_loaded_plain (ws : list EventWidget) :
  Forall plain_block ws ->
  Forall (fun it => item_as_loaded it = it) (items_of_store ws).
Proof.
  intros H. unfold items_of_store. apply Forall_forall. intros it Hit.
  apply list_elem_of_fmap in Hit as (w & -> & Hw).
  apply list_elem_of_In, filter_In in Hw as (Hw & _). apply list_elem_of_In in Hw.
  rewrite Forall_forall in H. destruct (H w Hw) as (Ht & Hn).
  unfold item_as_loaded, item_of_widget.
  cbn [it_start_min it_end_min it_title it_tag it_color it_locked it_image
       it_notify_offset].
  rewrite Ht.
  replace (Z.max 0 (notify_offset w)) with (notify_offset w) by lia.
  destruct (locked w); reflexivity.
Qed.

Lemma map_id_Forall {A} (f : A -> A) (l : list A) :
  Forall (fun x => f x = x) l -> map f l = l.
Proof. induction 1 as [|x l Hx _ IH]; cbn; congruence. Qed.

Lemma load_saved_items (q : string) (m : MainWindow) (items : list EventItem) :
  repeat_rules m = [] -> events_by_date m !! q = Some items ->
  items_ok items -> Forall (fun it => item_as_loaded it = it) items ->
  forall r,
  items_of_store (event_widgets (day_view (load_day q r m))) = py_sorted by_start items /\
  map range_of (event_widgets (day_view (load_day q r m)))
  = map item_range (py_sorted by_start items).
Proof.
  intros Hr Hq Hok Hplain r.
  assert (H : items_of_store (event_widgets (day_view (load_day q false m)))
              = py_sorted by_start items /\
              map range_of (event_widgets (day_view (load_day q false m)))
              = map item_range (py_sorted by_start items)).
  { rewrite load_day_rebuilds_items, load_day_rebuilds_blocks; rewrite ?Hq; try assumption.
    cbn [default]. split; [|reflexivity].
    apply map_id_Forall. apply Forall_forall. intros it Hit.
    rewrite Forall_forall in Hplain. apply Hplain.
    eapply elem_of_Permutation_proper; [symmetry; apply py_sorted_perm|exact Hit]. }
  destruct r; [rewrite load_day_reset|]; exact H.
Qed.

(** X11: saving a day and loading it again loses nothing.  For a valid
    schedule without repeat rules whose blocks have stripped tags and no
    negative notification offset, the blocks after [save_day] and [load_day]
    carry the same events (title, tag, colour, lock, image, notification) at
    the same places, ordered by their starts; saving again stores exactly
    these events. *)
Theorem save_load_round_trip (mw : MainWindow) (reset_history : bool) :
  repeat_rules mw = [] ->
  store_ok (event_widgets (day_view mw)) ->
  Forall in_day (event_widgets (day_view mw)) ->
  Forall plain_block (event_widgets (day_view mw)) ->
  let items := items_of_store (event_widgets (day_view mw)) in
  let mw' := load_day (current_date mw) reset_history (save_day (current_date mw) mw) in
  items_of_store (event_widgets (day_view mw')) = py_sorted by_start items /\
  map range_of (event_widgets (day_view mw')) = map item_range (py_sorted by_start items) /\
  Permutation (items_of_store (event_widgets (day_view mw'))) items /\
  stored_events (save_day (current_date mw') mw') = py_sorted by_start items.
Proof.
  intros Hr Hok Hday Hplain. cbv zeta.
  destruct (load_saved_items (current_date mw) (save_day (current_date mw) mw)
              (items_of_store (event_widgets (day_view mw)))) with (r := reset_history)
    as (H1 & H2).
  - exact Hr.
  - cbn. apply lookup_insert_eq.
  - now apply items_ok_of_store.
  - now apply item_as_loaded_plain.
  - split; [exact H1|]. split; [exact H2|]. split.
    + rewrite H1. apply py_sorted_perm.
    + rewrite stored_events_save_day. exact H1.
Qed.

Lemma save_load_round_trip_witness :
  map item_range
    (stored_events
       (let mw' := load_day example_day true (save_day example_day example_two_blocks) in
        save_day (current_date mw') mw'))
  = [(480, 510); (540, 570)].
Proof.
  assert (H : stored_events
                (let mw' := load_day example_day true
                              (save_day example_day example_two_blocks) in
                 save_day (current_date mw') mw')
              = py_sorted by_start
                  (items_of_store (event_widgets (day_view example_two_blocks)))).
  { refine (proj2 (proj2 (proj2 (save_load_round_trip example_two_blocks true _ _ _ _)))).
    - reflexivity.
    - apply store_okb_spec. reflexivity.
    - repeat constructor; cbn; lia.
    - repeat constructor; cbn; lia. }
  rewrite H. reflexivity.
Defined.

(** ** Jumping in the log shows the snapshot *)

Lemma item_core_as_loaded (it : EventItem) : item_core (item_as_loaded it) = item_core it.
Proof.
  unfold item_core, item_as_loaded.
  cbn [it_start_min it_end_min it_title it_locked it_image it_notify_offset].
  replace (Z.max 0 (Z.max 0 (it_notify_offset it))) with (Z.max 0 (it_notify_offset it))
    by lia.
  destruct (it_locked it =? 0); reflexivity.
Qed.

(** Stored events that fit the day and do not meet come back as blocks at
    their own places, in the order of their starts, whatever their colours
    and tags are. *)
Lemma load_stored_items (q : string) (m : MainWindow) (items : list EventItem) :
  repeat_rules m = [] -> events_by_date m !! q = Some items -> items_ok items ->
  forall r,
  map item_core (items_of_store (event_widgets (day_view (load_day q r m))))
  = map item_core (py_sorted by_start items) /\
  map range_of (event_widgets (day_view (load_day q r m)))
  = map item_range (py_sorted by_start items).
Proof.
  intros Hr Hq Hok r.
  assert (H : map item_core (items_of_store (event_widgets (day_view (load_day q false m))))
              = map item_core (py_sorted by_start items) /\
              map range_of (event_widgets (day_view (load_day q false m)))
              = map item_range (py_sorted by_start items)).
  { rewrite load_day_rebuilds_items, load_day_rebuilds_blocks; rewrite ?Hq; try assumption.
    cbn [default]. split; [|reflexivity].
    rewrite map_map. apply map_ext. intros it. apply item_core_as_loaded. }
  destruct r; [rewrite load_day_reset|]; exact H.
Qed.

Lemma apply_history_snapshot_screen (e : HistoryEntry) (mw : MainWindow) :
  h_date e <> "" -> h_date e = current_date mw ->
  let mw' := _apply_history_snapshot e mw in
  schedule_ok (day_view mw') /\
  (repeat_rules mw = [] -> items_ok (h_events e) ->
   map item_core (items_of_store (event_widgets (day_view mw')))
   = map item_core (py_sorted by_start (h_events e)) /\
   map range_of (event_widgets (day_view mw'))
   = map item_range (py_sorted by_start (h_events e))).
Proof.
  intros Hk Hd. cbv zeta. unfold _apply_history_snapshot.
  rewrite bool_decide_eq_false_2 by exact Hk.
  destruct (date_key_is_valid (h_date e)).
  - split; [apply load_day_schedule_ok|]. intros Hr Hok.
    apply load_stored_items; try assumption. cbn. apply lookup_insert_eq.
  - split; [apply load_day_schedule_ok|]. intros Hr Hok.
    apply load_stored_items; try assumption. cbn. rewrite <- Hd. apply lookup_insert_eq.
Qed.

(** X12: a jump to an entry of the log shows the snapshot.  After
    [restore_history_entry] the screen is a valid schedule and the stored
    events of the day are those of the entry; for a day without repeat rules
    and a snapshot of events that fit the day and do not meet, the blocks on
    screen are these events in the order of their starts: one block for each
    event, with its range, title, lock, image and notification offset (a
    negative offset read as none).  Colours and tags, which the loader takes
    through [QColor] and [strip], are not compared.  Undo is the jump to the
    entry before the cursor and redo the jump to the entry after it: they
    differ from the jump in the status message only. *)
Theorem restore_rebuilds_screen (mw : MainWindow) (index : Z) (e : HistoryEntry) :
  0 <= index -> _history mw !! Z.to_nat index = Some e ->
  h_date e <> "" -> h_date e = current_date mw ->
  let mw' := restore_history_entry index mw in
  schedule_ok (day_view mw') /\ stored_events mw' = h_events e /\
  (repeat_rules mw = [] -> items_ok (h_events e) ->
   map item_core (items_of_store (event_widgets (day_view mw')))
   = map item_core (py_sorted by_start (h_events e)) /\
   map range_of (event_widgets (day_view mw'))
   = map item_range (py_sorted by_start (h_events e))) /\
  (index = _history_index mw - 1 ->
   day_view (perform_undo mw) = day_view mw' /\ same_ledger (perform_undo mw) mw') /\
  (index = _history_index mw + 1 ->
   day_view (perform_redo mw) = day_view mw' /\ same_ledger (perform_redo mw) mw').
Proof.
  intros H0 He Hk Hd. cbv zeta.
  assert (Hlt : (Z.to_nat index < length (_history mw))%nat)
    by (eapply lookup_lt_Some; eauto).
  pose proof (history_nonempty_of_lookup mw _ e He) as Hne.
  destruct (restore_history_entry_spec mw index e H0 He Hk Hd) as (_ & _ & Hst & _).
  unfold restore_history_entry in *.
  replace ((0 <=? index) && (index <? Z.of_nat (length (_history mw)))) with true in *
    by (symmetry; apply andb_true_iff; split; [apply Z.leb_le|apply Z.ltb_lt]; lia).
  cbn [negb] in *. rewrite py_index_nonneg in * by lia. rewrite He in *.
  set (m0 := with_history_freeze true (with_history (_history mw) index mw)) in *.
  destruct (apply_history_snapshot_screen e m0 Hk Hd) as (Hs & Hscreen).
  split; [exact Hs|]. split; [exact Hst|]. split; [exact Hscreen|].
  split.
  - intros Hi. unfold perform_undo. rewrite Hne.
    replace (_history_index mw <=? 0) with false by (symmetry; apply Z.leb_gt; lia).
    cbn [orb _history _history_index with_history with_history_freeze].
    rewrite <- Hi. rewrite py_index_nonneg by lia. rewrite He. fold m0.
    split; [reflexivity|]. unfold same_ledger. repeat split.
  - intros Hi. unfold perform_redo. rewrite Hne.
    replace (Z.of_nat (length (_history mw)) - 1 <=? _history_index mw) with false
      by (symmetry; apply Z.leb_gt; lia).
    cbn [orb _history _history_index with_history with_history_freeze].
    rewrite <- Hi. rewrite py_index_nonneg by lia. rewrite He. fold m0.
    split; [reflexivity|]. unfold same_ledger. repeat split.
Qed.

(** The log of [example_unsorted] holds the empty day and then the two
    events (540,570) and (480,510), in this order.  The jump to the second
    entry shows them by start; undo shows the empty day of the first. *)
Lemma restore_rebuilds_screen_witness :
  map item_core
    (items_of_store (event_widgets (day_view (restore_history_entry 1 example_unsorted))))
  = [(480, 510, "", false, "", 0); (540, 570, "", false, "", 0)] /\
  map range_of (event_widgets (day_view (restore_history_entry 1 example_unsorted)))
  = [(480, 510); (540, 570)] /\
  day_view (perform_undo example_unsorted)
  = day_view (restore_history_entry 0 example_unsorted).
Proof.
  destruct (restore_rebuilds_screen example_unsorted 1
              {| h_date := example_day;
                 h_events := [item_of_widget (example_widget 0 540 570 false);
                              item_of_widget (example_widget 1 480 510 false)];
                 h_action := "Change"; h_timestamp := "2026-01-05T09:00:00" |})
    as (_ & _ & Hscreen & _); [lia|reflexivity|discriminate|reflexivity|].
  destruct (restore_rebuilds_screen example_unsorted 0
              {| h_date := example_day; h_events := []; h_action := "Initial load";
                 h_timestamp := "2026-01-05T09:00:00" |})
    as (_ & _ & _ & Hundo & _); [lia|reflexivity|discriminate|reflexivity|].
  destruct Hscreen as (Hcore & Hranges).
  - reflexivity.
  - cbn. repeat split; try lia; repeat constructor; reflexivity.
  - split; [rewrite Hcore; reflexivity|].
    split; [rewrite Hranges; reflexivity|].
    apply Hundo. reflexivity.
Defined.

(** ** Changing the day and coming back *)

Lemma on_calendar_changed_fields (selected today : string) (mw : MainWindow) :
  let mw' := on_calendar_changed selected today mw in
  current_date mw' = selected /\ repeat_rules mw' = repeat_rules mw /\
  events_by_date mw'
  = <[current_date mw := items_of_store (event_widgets (day_view mw))]> (events_by_date mw) /\
  map h_action (_history mw') = ["Initial load"] /\ _history_index mw' = 0 /\
  event_widgets (day_view mw')
  = event_widgets (day_view (load_day selected false
                               (with_current_date selected
                                  (save_day (current_date mw) mw)))).
Proof.
  cbv zeta. unfold on_calendar_changed, update_now_line.
  cbn [current_date with_current_date]. rewrite load_day_reset.
  match goal with
  | |- context [load_day ?q false ?m] =>
      pose proof (same_ledger_load_day_keep q m) as (He & Hr & Hd & _)
  end.
  cbn in He, Hr, Hd. cbn. rewrite He, Hr, Hd. repeat split.
Qed.

(** X13: changing the day and coming back.  For a valid schedule
    without repeat rules whose blocks are plain, going to another day and
    back shows the same events at the same places, ordered by their starts;
    the stored events of the other days are those that were there (the day
    visited gets what was on screen for it), and the log starts anew with one
    entry, the initial load. *)
Theorem calendar_round_trip (mw : MainWindow) (other today : string) :
  other <> current_date mw ->
  repeat_rules mw = [] ->
  store_ok (event_widgets (day_view mw)) ->
  Forall in_day (event_widgets (day_view mw)) ->
  Forall plain_block (event_widgets (day_view mw)) ->
  let items := items_of_store (event_widgets (day_view mw)) in
  let mw1 := on_calendar_changed other today mw in
  let mw2 := on_calendar_changed (current_date mw) today mw1 in
  current_date mw2 = current_date mw /\
  items_of_store (event_widgets (day_view mw2)) = py_sorted by_start items /\
  map range_of (event_widgets (day_view mw2)) = map item_range (py_sorted by_start items) /\
  stored_events mw2 = items /\
  map h_action (_history mw2) = ["Initial load"] /\ _history_index mw2 = 0.
Proof.
  intros Hne Hr Hok Hday Hplain. cbv zeta.
  destruct (on_calendar_changed_fields other today mw) as (Hd1 & Hr1 & He1 & _ & _ & _).
  cbv zeta in Hd1, Hr1, He1.
  set (mw1 := on_calendar_changed other today mw) in *. clearbody mw1.
  destruct (on_calendar_changed_fields (current_date mw) today mw1)
    as (Hd2 & Hr2 & He2 & Hh2 & Hi2 & Hw2).
  cbv zeta in Hd2, Hr2, He2, Hh2, Hi2, Hw2.
  set (mw2 := on_calendar_changed (current_date mw) today mw1) in *. clearbody mw2.
  assert (Hst : events_by_date mw2 !! current_date mw
                = Some (items_of_store (event_widgets (day_view mw)))).
  { rewrite He2, Hd1, lookup_insert_ne by exact Hne.
    rewrite He1. apply lookup_insert_eq. }
  split; [exact Hd2|].
  rewrite Hw2.
  destruct (load_saved_items (current_date mw)
              (with_current_date (current_date mw) (save_day (current_date mw1) mw1))
              (items_of_store (event_widgets (day_view mw)))) with (r := false)
    as (H1 & H2).
  - cbn. congruence.
  - cbn. rewrite Hd1, lookup_insert_ne by exact Hne. rewrite He1. apply lookup_insert_eq.
  - now apply items_ok_of_store.
  - now apply item_as_loaded_plain.
  - split; [exact H1|]. split; [exact H2|].
    split; [unfold stored_events; now rewrite Hd2, Hst|]. auto.
Qed.

Lemma calendar_round_trip_witness :
  let mw1 := on_calendar_changed "2026-01-06" "2026-01-05" example_two_blocks in
  let mw2 := on_calendar_changed (current_date example_two_blocks) "2026-01-05" mw1 in
  map range_of (event_widgets (day_view mw2)) = [(480, 510); (540, 570)].
Proof.
  cbv zeta.
  rewrite (proj1 (proj2 (proj2
             (calendar_round_trip example_two_blocks "2026-01-06" "2026-01-05"
                ltac:(discriminate) eq_refl
                ltac:(apply store_okb_spec; reflexivity)
                ltac:(repeat constructor; cbn; lia)
                ltac:(repeat constructor; cbn; lia))))).
  reflexivity.
Defined.

(** ** Repeat rules *)

Lemma with_repeat_rules_id (mw : MainWindow) : with_repeat_rules (repeat_rules mw) mw = mw.
Proof. destruct mw; reflexivity. Qed.

Lemma rule_locked_in_absent (rid : string) (rs : list Rule) :
  rid ∉ map r_id rs -> rule_locked_in rid rs = false.
Proof.
  induction rs as [|r rs IH]; [reflexivity|]. cbn [map rule_locked_in]. intros H.
  destruct (bool_decide (r_id r = rid)) eqn:Hr.
  - apply bool_decide_eq_true_1 in Hr. exfalso. apply H. rewrite Hr. apply list_elem_of_here.
  - apply IH. intros Hin. apply H. now apply list_elem_of_further.
Qed.

Lemma update_rule_in_locked (rid : string) (rs : list Rule) (s e : Z) (t c : string)
    (img : option string) (n : Z) (tg : string) :
  rule_locked_in rid rs = true ->
  update_rule_in rid s e t c img n tg rs = (rs, false).
Proof.
  induction rs as [|r rs IH]; [discriminate|].
  cbn [rule_locked_in update_rule_in]. intros Hl.
  destruct (bool_decide (r_id r = rid)); [now rewrite Hl|].
  now rewrite (IH Hl).
Qed.

Lemma delete_rule_in_locked (rid : string) (rs : list Rule) :
  rule_locked_in rid rs = true -> delete_rule_in rid rs = rs.
Proof.
  induction rs as [|r rs IH]; [reflexivity|].
  cbn [rule_locked_in delete_rule_in]. intros Hl.
  destruct (bool_decide (r_id r = rid)); [now rewrite Hl|].
  now rewrite (IH Hl).
Qed.

(** X14: the lock of a repeat rule.  A locked rule is changed neither by
    an update nor by a deletion: both leave the window as it is and the
    update answers False.  Setting the lock of a rule that exists is read
    back by [rule_locked]; it changes the lock of no rule with another
    identity, and nothing but locks. *)
Theorem rule_lock_protects (rid : string) (mw : MainWindow) :
  (rule_locked (Some rid) mw = true ->
   (forall s e t c img n tg,
      update_daily_rule (Some rid) s e t c img n tg mw = (mw, false)) /\
   delete_daily_rule_with_cleanup (Some rid) mw = mw) /\
  (forall b, rid ∈ map r_id (repeat_rules mw) ->
     rule_locked (Some rid) (set_rule_locked (Some rid) b mw) = b) /\
  (forall b rid', rid' <> rid ->
     rule_locked (Some rid') (set_rule_locked (Some rid) b mw)
     = rule_locked (Some rid') mw) /\
  (forall b, map (with_r_locked 0) (repeat_rules (set_rule_locked (Some rid) b mw))
             = map (with_r_locked 0) (repeat_rules mw)).
Proof.
  split; [|split; [|split]].
  - intros Hl. unfold rule_locked in Hl.
    pose proof (fun s e t c img n tg =>
                  update_rule_in_locked rid (repeat_rules mw) s e t c img n tg Hl) as Hu.
    pose proof (delete_rule_in_locked rid (repeat_rules mw) Hl) as Hd.
    split.
    + intros. unfold update_daily_rule. rewrite Hu. cbn [fst snd].
      now rewrite with_repeat_rules_id.
    + unfold delete_daily_rule_with_cleanup. rewrite Hd. apply with_repeat_rules_id.
  - intros b Hin. unfold rule_locked, set_rule_locked. cbn [repeat_rules with_repeat_rules].
    induction (repeat_rules mw) as [|r rs IH]; [inversion Hin|].
    cbn [map set_rule_locked_in rule_locked_in] in *.
    destruct (bool_decide (r_id r = rid)) eqn:Hr.
    + cbn [rule_locked_in r_id with_r_locked]. rewrite Hr. cbn [r_locked].
      destruct b; reflexivity.
    + cbn [rule_locked_in]. rewrite Hr. apply IH.
      apply elem_of_cons in Hin as [Hin|Hin]; [|exact Hin].
      apply bool_decide_eq_false_1 in Hr. congruence.
  - intros b rid' Hne. unfold rule_locked, set_rule_locked.
    cbn [repeat_rules with_repeat_rules].
    induction (repeat_rules mw) as [|r rs IH]; [reflexivity|].
    cbn [set_rule_locked_in rule_locked_in].
    destruct (bool_decide (r_id r = rid)) eqn:Hr.
    + apply bool_decide_eq_true_1 in Hr. cbn [rule_locked_in r_id with_r_locked].
      rewrite !(bool_decide_eq_false_2 (r_id r = rid')) by congruence. reflexivity.
    + cbn [rule_locked_in]. destruct (bool_decide (r_id r = rid')); [reflexivity|exact IH].
  - intros b. unfold set_rule_locked. cbn [repeat_rules with_repeat_rules].
    induction (repeat_rules mw) as [|r rs IH]; [reflexivity|].
    cbn [set_rule_locked_in]. destruct (bool_decide (r_id r = rid)); cbn [map].
    + reflexivity.
    + now rewrite IH.
Qed.

(** X15: an update or a deletion touches one rule.  For a rule that
    exists and is not locked, the update answers True and the deletion
    removes exactly one rule; in both cases the rules with another identity
    are kept as they are and in their order, and an updated rule keeps its
    identity, its type and its lock.  For an identity that no rule has,
    neither changes anything and the update answers False. *)
Theorem rule_edit_touches_one (rid : string) (mw : MainWindow)
    (s e : Z) (t c : string) (img : option string) (n : Z) (tg : string) :
  let other := fun r => negb (bool_decide (r_id r = rid)) in
  let up := update_daily_rule (Some rid) s e t c img n tg mw in
  let del := delete_daily_rule_with_cleanup (Some rid) mw in
  List.filter other (repeat_rules up.1) = List.filter other (repeat_rules mw) /\
  List.filter other (repeat_rules del) = List.filter other (repeat_rules mw) /\
  map (fun r => (r_id r, r_type r, r_locked r)) (repeat_rules up.1)
  = map (fun r => (r_id r, r_type r, r_locked r)) (repeat_rules mw) /\
  (rid ∈ map r_id (repeat_rules mw) -> rule_locked (Some rid) mw = false ->
   up.2 = true /\
   S (length (repeat_rules del)) = length (repeat_rules mw) /\
   exists r, r ∈ repeat_rules up.1 /\ r_id r = rid /\
     r_start_min r = s /\ r_end_min r = e /\ r_title r = t /\ r_color r = c /\
     r_tag r = tg /\ r_notify_offset r = n /\ r_image r = default "" img) /\
  (rid ∉ map r_id (repeat_rules mw) -> up = (mw, false) /\ del = mw).
Proof.
  cbv zeta. unfold update_daily_rule, delete_daily_rule_with_cleanup, rule_locked.
  cbn [fst snd repeat_rules with_repeat_rules].
  split; [|split; [|split; [|split]]].
  - induction (repeat_rules mw) as [|r rs IH]; [reflexivity|].
    cbn [update_rule_in]. destruct (bool_decide (r_id r = rid)) eqn:Hr.
    + destruct (r_locked r =? 1); cbn [fst List.filter r_id]; rewrite ?Hr; reflexivity.
    + cbn [fst List.filter]. rewrite Hr. cbn [negb]. now rewrite IH.
  - induction (repeat_rules mw) as [|r rs IH]; [reflexivity|].
    cbn [delete_rule_in]. destruct (bool_decide (r_id r = rid)) eqn:Hr.
    + destruct (r_locked r =? 1); cbn [List.filter]; rewrite ?Hr; reflexivity.
    + cbn [List.filter]. rewrite Hr. cbn [negb]. now rewrite IH.
  - induction (repeat_rules mw) as [|r rs IH]; [reflexivity|].
    cbn [update_rule_in]. destruct (bool_decide (r_id r = rid)).
    + destruct (r_locked r =? 1); reflexivity.
    + cbn [fst map]. now rewrite IH.
  - intros Hin Hl. induction (repeat_rules mw) as [|r rs IH]; [inversion Hin|].
    cbn [map rule_locked_in update_rule_in delete_rule_in] in *.
    destruct (bool_decide (r_id r = rid)) eqn:Hr.
    + rewrite Hl. cbn [fst snd length]. split; [reflexivity|]. split; [reflexivity|].
      eexists. split; [apply list_elem_of_here|]. cbn.
      apply bool_decide_eq_true_1 in Hr. auto 10.
    + apply bool_decide_eq_false_1 in Hr.
      apply elem_of_cons in Hin as [Hin|Hin]; [congruence|].
      destruct (IH Hin Hl) as (H1 & H2 & r' & H3 & H4).
      cbn [fst snd length]. split; [exact H1|]. split; [now rewrite H2|].
      exists r'. split; [now apply list_elem_of_further|exact H4].
  - intros Hnot.
    assert (Hu : update_rule_in rid s e t c img n tg (repeat_rules mw)
                 = (repeat_rules mw, false)
                 /\ delete_rule_in rid (repeat_rules mw) = repeat_rules mw).
    { induction (repeat_rules mw) as [|r rs IH]; [split; reflexivity|].
      cbn [map update_rule_in delete_rule_in] in *.
      destruct (bool_decide (r_id r = rid)) eqn:Hr.
      - apply bool_decide_eq_true_1 in Hr. exfalso. apply Hnot. rewrite Hr.
        apply list_elem_of_here.
      - destruct IH as (H1 & H2).
        + intros Hin. apply Hnot. now apply list_elem_of_further.
        + rewrite H1, H2. split; reflexivity. }
    destruct Hu as (-> & ->). cbn [fst snd]. now rewrite with_repeat_rules_id.
Qed.

(** ** Adding an event to a date *)

Lemma existsb_overlap_false (s e : Z) (items : list EventItem) :
  existsb (fun it => ranges_overlap s e (it_start_min it) (it_end_min it)) items = false
  <-> forall it, it ∈ items ->
        ranges_overlap s e (it_start_min it) (it_end_min it) = false.
Proof.
  induction items as [|x items IH]; cbn [existsb].
  - split; [intros _ it H; inversion H|reflexivity].
  - rewrite orb_false_iff, IH. split.
    + intros (Hx & Hr) it Hin. apply elem_of_cons in Hin as [->|Hin]; auto.
    + intros H. split; [apply H, list_elem_of_here|].
      intros it Hin. apply H. now apply list_elem_of_further.
Qed.

(** X16: adding an event to a date.  The event is refused, and nothing
    changes, exactly when it meets a stored event of that date; otherwise it
    is appended to the stored events of the date.  The stored events of the
    other dates, the rules and the log are never touched; the day on screen
    is touched only when the date is the current one, and then its invariant
    is kept; and stored events that do not meet each other still do not meet
    afterwards. *)
Theorem add_event_to_date_outcome (qdate : string) (s e : Z) (t c : string)
    (l : bool) (img : option string) (n : Z) (tg : option string) (mw : MainWindow) :
  let r := add_event_to_date qdate s e t c l img n tg mw in
  (r.2 = false <->
   exists it, it ∈ events_of qdate mw /\
     ranges_overlap s e (it_start_min it) (it_end_min it) = true) /\
  (r.2 = false -> r.1 = mw) /\
  (r.2 = true ->
   exists item, events_of qdate r.1 = events_of qdate mw ++ [item] /\
     item_range item = (s, e) /\ it_title item = t /\ it_color item = c /\
     it_locked item = (if l then 1 else 0)) /\
  (forall k, k <> qdate -> events_of k r.1 = events_of k mw) /\
  (forall k, items_disjoint (events_of k mw) -> items_disjoint (events_of k r.1)) /\
  repeat_rules r.1 = repeat_rules mw /\ _history r.1 = _history mw /\
  _history_index r.1 = _history_index mw /\
  (qdate <> current_date mw -> day_view r.1 = day_view mw) /\
  (store_ok (event_widgets (day_view mw)) -> store_ok (event_widgets (day_view r.1))).
Proof.
  cbv zeta. unfold add_event_to_date. fold (events_of qdate mw).
  destruct (existsb _ (events_of qdate mw)) eqn:Hex.
  - cbn [fst snd].
    assert (Hw : exists it, it ∈ events_of qdate mw /\
                   ranges_overlap s e (it_start_min it) (it_end_min it) = true).
    { apply existsb_exists in Hex as (it & Hin & Ho). exists it.
      split; [now apply list_elem_of_In|exact Ho]. }
    split; [split; auto|]. split; [auto|]. split; [discriminate|].
    repeat split; auto; apply H.
  - pose proof (proj1 (existsb_overlap_false _ _ _) Hex) as Hfree.
    set (item := {| it_start_min := s; it_end_min := e; it_title := t;
                    it_tag := default "" tg; it_color := c;
                    it_locked := if l then 1 else 0; it_image := default "" img;
                    it_notify_offset := n |}).
    set (m1 := with_events_by_date
                 (<[qdate := events_of qdate mw ++ [item]]> (events_by_date mw)) mw).
    set (m2 := if bool_decide (qdate = current_date m1)
               then (add_block s (e - s) t (Some c) false None l img
                       (Some (default "" tg)) n false m1).1
               else m1).
    assert (Hled : same_ledger m2 m1).
    { subst m2. destruct (bool_decide _);
        [apply same_ledger_add_block|apply same_ledger_refl]. }
    destruct Hled as (Hev & Hr & Hd & Hh & Hi & _).
    cbn [fst snd].
    assert (Hq : events_of qdate m2 = events_of qdate mw ++ [item]).
    { unfold events_of. rewrite Hev. subst m1. cbn. now rewrite lookup_insert_eq. }
    assert (Hk : forall k, k <> qdate -> events_of k m2 = events_of k mw).
    { intros k Hne. unfold events_of. rewrite Hev. subst m1. cbn.
      now rewrite lookup_insert_ne by congruence. }
    split.
    { split; [discriminate|]. intros (it & Hin & Ho). rewrite (Hfree it Hin) in Ho.
      discriminate. }
    split; [discriminate|].
    split; [intros _; exists item; repeat split; exact Hq|].
    split; [exact Hk|].
    split.
    { intros k Hdis. destruct (decide (k = qdate)) as [->|Hne]; [|now rewrite Hk].
      rewrite Hq. intros i j a b Hij Ha Hb.
      apply lookup_app_Some in Ha as [Ha|(Hla & Ha)];
        apply lookup_app_Some in Hb as [Hb|(Hlb & Hb)].
      - eapply Hdis; eauto.
      - apply list_lookup_singleton_Some in Hb as (_ & <-).
        rewrite ranges_overlap_sym. apply Hfree. eapply list_elem_of_lookup_2; eauto.
      - apply list_lookup_singleton_Some in Ha as (_ & <-).
        apply Hfree. eapply list_elem_of_lookup_2; eauto.
      - apply list_lookup_singleton_Some in Ha as (Hia & _).
        apply list_lookup_singleton_Some in Hb as (Hib & _). lia. }
    split; [now rewrite Hr|]. split; [now rewrite Hh|]. split; [now rewrite Hi|].
    split.
    + intros Hne. subst m2. rewrite bool_decide_eq_false_2 by exact Hne. reflexivity.
    + intros Hok. subst m2. destruct (bool_decide _); [|exact Hok].
      now apply add_block_store_ok.
Qed.

(** ** The toggles of the tool bar *)

Lemma toggle_never_both (op : ToggleOp) (mw : MainWindow) :
  magnetic_mode (day_view (run_toggle mw op))
  && smart_scale_enabled (day_view (run_toggle mw op)) = false.
Proof.
  destruct op as [[]|[]]; cbn [run_toggle];
    unfold on_smart_scale_toggled, on_magnetic_toggled, set_magnetic_mode,
      set_smart_scale_enabled;
    cbn [day_view showMessage with_status with_day_view];
    repeat match goal with
           | |- context [bool_decide ?P] => destruct (bool_decide P) eqn:?
           end;
    cbn [magnetic_mode smart_scale_enabled with_magnetic_mode with_smart_scale_enabled];
    repeat match goal with
           | H : bool_decide _ = true |- _ => apply bool_decide_eq_true_1 in H
           | H : bool_decide _ = false |- _ => apply bool_decide_eq_false_1 in H
           end;
    cbn [magnetic_mode smart_scale_enabled with_magnetic_mode with_smart_scale_enabled]
      in *;
    try reflexivity;
    repeat match goal with
           | H : _ = _ |- _ => rewrite H
           end;
    try reflexivity; try apply andb_false_r;
    try (destruct (magnetic_mode (day_view mw)); destruct (smart_scale_enabled (day_view mw));
         cbn in *; congruence).
Qed.

(** X17: magnetic mode and smart scale exclude each other.  Each toggle
    sets its own mode to the value asked for; switching a mode on switches
    the other one off, switching it off leaves the other one alone; the
    blocks, the stored events and the log are not touched; and after any
    toggle, whatever the modes were before, the two are never on together. *)
Theorem toggles_exclusive (mw : MainWindow) :
  (forall b, let m := on_smart_scale_toggled b mw in
     smart_scale_enabled (day_view m) = b /\
     magnetic_mode (day_view m) = (if b then false else magnetic_mode (day_view mw)) /\
     event_widgets (day_view m) = event_widgets (day_view mw) /\ same_ledger m mw) /\
  (forall b, let m := on_magnetic_toggled b mw in
     magnetic_mode (day_view m) = b /\
     smart_scale_enabled (day_view m)
     = (if b then false else smart_scale_enabled (day_view mw)) /\
     event_widgets (day_view m) = event_widgets (day_view mw) /\ same_ledger m mw) /\
  (forall op ops,
     let m := foldl run_toggle mw (op :: ops) in
     magnetic_mode (day_view m) && smart_scale_enabled (day_view m) = false).
Proof.
  split; [|split].
  - intros b. cbv zeta.
    unfold on_smart_scale_toggled, set_magnetic_mode, set_smart_scale_enabled.
    cbn [day_view showMessage with_status with_day_view].
    destruct b;
      repeat match goal with
             | |- context [bool_decide ?P] => destruct (bool_decide P) eqn:?
             end;
      repeat match goal with
             | H : bool_decide _ = true |- _ => apply bool_decide_eq_true_1 in H
             | H : bool_decide _ = false |- _ => apply bool_decide_eq_false_1 in H
             end;
      cbn [magnetic_mode smart_scale_enabled with_magnetic_mode with_smart_scale_enabled
           event_widgets] in *;
      unfold same_ledger; repeat split; auto.
  - intros b. cbv zeta.
    unfold on_magnetic_toggled, set_magnetic_mode, set_smart_scale_enabled.
    cbn [day_view showMessage with_status with_day_view].
    destruct b;
      repeat match goal with
             | |- context [bool_decide ?P] => destruct (bool_decide P) eqn:?
             end;
      repeat match goal with
             | H : bool_decide _ = true |- _ => apply bool_decide_eq_true_1 in H
             | H : bool_decide _ = false |- _ => apply bool_decide_eq_false_1 in H
             end;
      cbn [magnetic_mode smart_scale_enabled with_magnetic_mode with_smart_scale_enabled
           event_widgets] in *;
      unfold same_ledger; repeat split; auto.
  - intros op ops. cbv zeta. revert mw op.
    induction ops as [|op' ops IH]; intros mw op; cbn [foldl].
    + apply toggle_never_both.
    + apply (IH (run_toggle mw op) op').
Qed.

(** ** Leaving box selection *)

Lemma cancel_group_move_fields (dv : DayView) :
  _group_move_active (_cancel_group_move dv) = false /\
  box_select_mode (_cancel_group_move dv) = box_select_mode dv /\
  _box_selecting (_cancel_group_move dv) = _box_selecting dv /\
  _box_selected_widgets (_cancel_group_move dv) = _box_selected_widgets dv /\
  map forget_flags (event_widgets (_cancel_group_move dv))
  = map forget_flags (event_widgets dv).
Proof.
  unfold _cancel_group_move. destruct (_group_move_active dv) eqn:Ha; cbn [negb].
  - unfold _refresh_widget_transparency.
    cbn [box_select_mode with_group_move].
    destruct (negb (box_select_mode dv)); cbn; repeat split;
      apply map_forget_flags; intros w; unfold set_mouse_transparent;
      try reflexivity; destruct (negb _); reflexivity.
  - repeat split; auto.
Qed.

Lemma update_box_selection_fields (s : gset nat) (m : MainWindow) :
  let dv' := day_view (_update_box_selection s m) in
  box_select_mode dv' = box_select_mode (day_view m) /\
  _group_move_active dv' = _group_move_active (day_view m) /\
  _box_selecting dv' = _box_selecting (day_view m).
Proof.
  cbv zeta. unfold _update_box_selection.
  destruct (bool_decide _); [repeat split|].
  unfold _notify_box_selection_changed. cbn [day_view with_day_view].
  rewrite day_view_on_box_selection_changed. cbn [day_view with_day_view].
  unfold _refresh_widget_transparency.
  destruct (negb _); repeat split.
Qed.

Lemma update_box_selection_flags (s : gset nat) (m : MainWindow) :
  selection_flags_ok (day_view m) ->
  selection_flags_ok (day_view (_update_box_selection s m)).
Proof.
  intros Hok. unfold _update_box_selection.
  destruct (bool_decide _) eqn:Hs; [exact Hok|].
  unfold _notify_box_selection_changed. cbn [day_view with_day_view].
  rewrite day_view_on_box_selection_changed. cbn [day_view with_day_view].
  unfold selection_flags_ok in *. intros w Hw.
  rewrite (proj1 (refresh_fields _)). cbn [_box_selected_widgets with_box_selected_widgets].
  unfold _refresh_widget_transparency in Hw.
  set (old := _box_selected_widgets (day_view m)) in *.
  assert (Hin : exists v, v ∈ event_widgets (day_view m) /\ wid w = wid v /\
                  _box_selected w =
                  _box_selected
                    (if bool_decide (wid v ∈ old ∖ s) then set_box_selected false v
                     else if bool_decide (wid v ∈ s ∖ old) then set_box_selected true v
                     else v)).
  { destruct (negb _); cbn [event_widgets with_event_widgets with_box_selected_widgets] in Hw;
      apply list_elem_of_fmap in Hw as (u & -> & Hu);
      apply list_elem_of_fmap in Hu as (v & -> & Hv); exists v;
      (split; [exact Hv|]);
      unfold set_mouse_transparent, set_box_selected;
      repeat match goal with |- context [if ?c then _ else _] => destruct c end;
      split; reflexivity. }
  destruct Hin as (v & Hv & -> & ->). specialize (Hok v Hv). fold old in Hok.
  unfold set_box_selected.
  destruct (bool_decide (wid v ∈ old ∖ s)) eqn:H1.
  - apply bool_decide_eq_true_1 in H1. cbn. symmetry. apply bool_decide_eq_false_2.
    set_solver.
  - apply bool_decide_eq_false_1 in H1.
    destruct (bool_decide (wid v ∈ s ∖ old)) eqn:H2.
    + apply bool_decide_eq_true_1 in H2. cbn. symmetry. apply bool_decide_eq_true_2.
      set_solver.
    + apply bool_decide_eq_false_1 in H2. rewrite Hok. apply bool_decide_ext.
      destruct (decide (wid v ∈ old)); destruct (decide (wid v ∈ s)); set_solver.
Qed.

(** X18: leaving box selection.  Switching the mode off empties the
    selection, ends a group move in progress and the rubber band, and clears
    the selection flag of every block (when the flags agreed with the
    selection).  The blocks keep their places, also those a group move in
    progress had shifted, and nothing is saved or recorded.  Switching the
    mode to the value it has changes nothing. *)
Theorem leaving_box_select_mode (mw : MainWindow) :
  box_select_mode (day_view mw) = true ->
  let mw' := set_box_select_mode false mw in
  box_select_mode (day_view mw') = false /\
  _box_selected_widgets (day_view mw') = ∅ /\
  _group_move_active (day_view mw') = false /\
  _box_selecting (day_view mw') = false /\
  map forget_flags (event_widgets (day_view mw'))
  = map forget_flags (event_widgets (day_view mw)) /\
  same_ledger mw' mw /\
  (selection_flags_ok (day_view mw) ->
   forall w, w ∈ event_widgets (day_view mw') -> _box_selected w = false) /\
  set_box_select_mode true mw = mw.
Proof.
  intros Hbox. cbv zeta. unfold set_box_select_mode. rewrite Hbox.
  cbn [bool_decide negb]. rewrite !bool_decide_eq_false_2 by discriminate.
  rewrite bool_decide_eq_true_2 by reflexivity.
  cbn [negb day_view with_day_view].
  set (dv1 := _cancel_group_move (with_box_select_mode false (day_view mw))).
  destruct (cancel_group_move_fields (with_box_select_mode false (day_view mw)))
    as (Ha1 & Hb1 & Hs1 & Hsel1 & Hf1). fold dv1 in Ha1, Hb1, Hs1, Hsel1, Hf1.
  cbn in Hb1, Hs1, Hsel1, Hf1.
  set (dv2 := _cancel_box_selection dv1).
  destruct (cancel_group_move_fields (with_box_selecting false dv1))
    as (Ha2 & Hb2 & Hs2 & Hsel2 & Hf2).
  fold (_cancel_box_selection dv1) in Ha2, Hb2, Hs2, Hsel2, Hf2.
  fold dv2 in Ha2, Hb2, Hs2, Hsel2, Hf2. cbn in Hb2, Hs2, Hsel2, Hf2.
  set (m3 := _update_box_selection ∅ (with_day_view dv2 (with_day_view dv1 mw))).
  destruct (update_box_selection_fields ∅ (with_day_view dv2 (with_day_view dv1 mw)))
    as (Hb3 & Ha3 & Hs3).
  cbv zeta in Hb3, Ha3, Hs3. fold m3 in Hb3, Ha3, Hs3. cbn in Hb3, Ha3, Hs3.
  pose proof (update_box_selection_selected ∅ (with_day_view dv2 (with_day_view dv1 mw)))
    as Hsel3. fold m3 in Hsel3.
  pose proof (update_box_selection_forget ∅ (with_day_view dv2 (with_day_view dv1 mw)))
    as Hf3. fold m3 in Hf3. cbn in Hf3.
  destruct (refresh_fields (day_view m3)) as (Hr1 & _ & Hr2 & Hr3 & _).
  split; [rewrite Hr2, Hb3, Hb2, Hb1; reflexivity|].
  split; [rewrite Hr1; exact Hsel3|].
  split; [rewrite Hr3, Ha3; exact Ha2|].
  split.
  { unfold _refresh_widget_transparency. destruct (negb _); cbn; rewrite Hs3; exact Hs2. }
  split; [rewrite refresh_forget, Hf3, Hf2, Hf1; reflexivity|].
  split.
  { eapply same_ledger_trans; [apply same_ledger_with_day_view|].
    eapply same_ledger_trans; [apply same_ledger_update_box_selection|].
    eapply same_ledger_trans; apply same_ledger_with_day_view. }
  split; [|reflexivity].
  intros Hflags w Hw.
  assert (Hok2 : selection_flags_ok dv2).
  { unfold selection_flags_ok in *. intros v Hv. rewrite Hsel2, Hsel1.
    assert (Hx : exists u, u ∈ event_widgets (day_view mw) /\
                   forget_flags v = forget_flags u /\ _box_selected v = _box_selected u).
    { clear -Hv. subst dv2 dv1. unfold _cancel_box_selection, _cancel_group_move in Hv.
      repeat match type of Hv with
             | context [if ?c then _ else _] => destruct c
             end;
        unfold _refresh_widget_transparency in Hv;
        repeat match type of Hv with
               | context [if ?c then _ else _] => destruct c
               end;
        cbn [event_widgets with_event_widgets with_group_move with_box_selecting
             with_box_select_mode] in Hv;
        repeat match type of Hv with
               | _ ∈ map _ _ => apply list_elem_of_fmap in Hv as (? & -> & Hv)
               end;
        eexists; (split; [exact Hv|]);
        unfold set_mouse_transparent;
        repeat match goal with |- context [if ?c then _ else _] => destruct c end;
        split; reflexivity. }
    destruct Hx as (u & Hu & Hfu & ->). rewrite (Hflags u Hu).
    apply bool_decide_ext.
    change (wid v) with (wid (forget_flags v)). rewrite Hfu. reflexivity. }
  pose proof (update_box_selection_flags ∅ (with_day_view dv2 (with_day_view dv1 mw)) Hok2)
    as Hok3. fold m3 in Hok3.
  unfold selection_flags_ok in Hok3. rewrite Hsel3 in Hok3.
  unfold _refresh_widget_transparency in Hw.
  destruct (negb _); cbn [event_widgets with_event_widgets] in Hw;
    apply list_elem_of_fmap in Hw as (u & -> & Hu);
    specialize (Hok3 u Hu); unfold set_mouse_transparent;
    repeat match goal with |- context [if ?c then _ else _] => destruct c end;
    cbn [_box_selected with_group_dragging]; rewrite Hok3;
    apply bool_decide_eq_false_2; set_solver.
Qed.

Lemma leaving_box_select_mode_witness :
  let mw := with_day_view (with_box_select_mode true (day_view example_scenario4))
              example_scenario4 in
  _group_move_active (day_view mw) = true /\
  _group_move_active (day_view (set_box_select_mode false mw)) = false /\
  _box_selected_widgets (day_view (set_box_select_mode false mw)) = ∅.
Proof.
  cbv zeta. split; [reflexivity|].
  destruct (leaving_box_select_mode
              (with_day_view (with_box_select_mode true (day_view example_scenario4))
                 example_scenario4) eq_refl) as (_ & Hs & Ha & _).
  split; [exact Ha|exact Hs].
Defined.

(** ** The next block of the day *)

(** X19: the next upcoming start.  [_next_upcoming_start] answers the
    least start among the blocks that start strictly after the given minute,
    and nothing exactly when no block starts after it. *)
Theorem next_upcoming_start_least (dv : DayView) (now : Z) :
  match _next_upcoming_start dv now with
  | Some n =>
      now < n /\ (exists w, w ∈ event_widgets dv /\ start_min w = n) /\
      forall w, w ∈ event_widgets dv -> now < start_min w -> n <= start_min w
  | None => forall w, w ∈ event_widgets dv -> start_min w <= now
  end.
Proof.
  unfold _next_upcoming_start.
  induction (event_widgets dv) as [|x l IH] using rev_ind; cbn [foldl].
  - intros w H. inversion H.
  - rewrite foldl_app. cbn [foldl].
    destruct (foldl _ None l) as [n|].
    + destruct IH as (Hn & (w & Hw & Hs) & Hmin).
      destruct (now <? start_min x) eqn:Hx.
      * apply Z.ltb_lt in Hx. destruct (start_min x <? n) eqn:Hlt.
        -- apply Z.ltb_lt in Hlt. split; [exact Hx|]. split.
           ++ exists x. split; [apply elem_of_app; right; apply list_elem_of_here|reflexivity].
           ++ intros v Hv Hnow. apply elem_of_app in Hv as [Hv|Hv].
              ** specialize (Hmin v Hv Hnow). lia.
              ** apply list_elem_of_singleton in Hv. subst v. lia.
        -- apply Z.ltb_ge in Hlt. split; [exact Hn|]. split.
           ++ exists w. split; [apply elem_of_app; left; exact Hw|exact Hs].
           ++ intros v Hv Hnow. apply elem_of_app in Hv as [Hv|Hv]; [auto|].
              apply list_elem_of_singleton in Hv. subst v. lia.
      * apply Z.ltb_ge in Hx. split; [exact Hn|]. split.
        -- exists w. split; [apply elem_of_app; left; exact Hw|exact Hs].
        -- intros v Hv Hnow. apply elem_of_app in Hv as [Hv|Hv]; [auto|].
           apply list_elem_of_singleton in Hv. subst v. lia.
    + destruct (now <? start_min x) eqn:Hx.
      * apply Z.ltb_lt in Hx. split; [exact Hx|]. split.
        -- exists x. split; [apply elem_of_app; right; apply list_elem_of_here|reflexivity].
        -- intros v Hv Hnow. apply elem_of_app in Hv as [Hv|Hv].
           ++ specialize (IH v Hv). lia.
           ++ apply list_elem_of_singleton in Hv. subst v. lia.
      * apply Z.ltb_ge in Hx. intros v Hv. apply elem_of_app in Hv as [Hv|Hv]; [auto|].
        apply list_elem_of_singleton in Hv. subst v. lia.
Qed.

(** ** Creating a block with a click *)

Lemma suggest_step_good (dv : DayView) (s d threshold : Z) (P : Z -> Prop)
    (st : Z * option Z) (ev : EventWidget) :
  (end_min ev <= s -> Z.abs (s - end_min ev) <= threshold ->
   end_min ev + d <= 24 * 60 ->
   overlaps_range dv (end_min ev) (end_min ev + d) None None = false ->
   P (end_min ev)) ->
  (0 <= start_min ev - d -> Z.abs (s - (start_min ev - d)) <= threshold ->
   overlaps_range dv (start_min ev - d) (start_min ev - d + d) None None = false ->
   P (start_min ev - d)) ->
  P st.1 -> P (suggest_step dv s d threshold st ev).1.
Proof.
  intros Habove Hbelow Hst. unfold suggest_step.
  assert (Hk : forall st' c diff, P st'.1 -> P c -> P (keep_closer st' c diff).1).
  { intros st' c diff H1 H2. unfold keep_closer.
    destruct st'.2; [destruct (_ <? _)|]; assumption. }
  set (st1 := if (end_min ev <=? s) && (Z.abs (s - end_min ev) <=? threshold)
              then _ else st).
  assert (H1 : P st1.1).
  { subst st1. destruct (_ && _) eqn:Hc; [|exact Hst].
    apply andb_true_iff in Hc as (Hc1 & Hc2).
    apply Z.leb_le in Hc1. apply Z.leb_le in Hc2. cbv zeta.
    destruct ((end_min ev + d <=? 24 * 60) && _) eqn:Hc'; [|exact Hst].
    apply andb_true_iff in Hc' as (Hc3 & Hc4). apply Z.leb_le in Hc3.
    apply negb_true_iff in Hc4. apply Hk; auto. }
  clearbody st1. cbv zeta.
  destruct (_ && _) eqn:Hc; [|exact H1].
  apply andb_true_iff in Hc as (Hc1 & Hc2).
  apply Z.leb_le in Hc1. apply Z.leb_le in Hc2.
  destruct ((start_min ev - d + d <=? start_min ev) && _) eqn:Hc'; [|exact H1].
  apply andb_true_iff in Hc' as (_ & Hc4). apply negb_true_iff in Hc4.
  apply Hk; auto.
Qed.

(** X20: the start suggested for a new block.  Outside magnetic mode the
    suggestion is the request.  In magnetic mode it is the request, or a
    start within the snap threshold of it at which the new block touches a
    neighbour (it begins where the neighbour ends, or ends where the
    neighbour begins) and meets no block. *)
Theorem suggest_start_for_creation_safe (dv : DayView) (s d : Z) :
  let r := _suggest_start_for_creation dv s d in
  (magnetic_mode dv = false -> r = s) /\
  (r = s \/
   (Z.abs (s - r) <= _snap_threshold_minutes dv /\
    overlaps_range dv r (r + d) None None = false /\
    exists ev, ev ∈ event_widgets dv /\
      ((r = end_min ev /\ r <= s /\ r + d <= 24 * 60) \/
       (r + d = start_min ev /\ 0 <= r)))).
Proof.
  cbv zeta. unfold _suggest_start_for_creation.
  destruct (magnetic_mode dv); cbn [negb]; [|split; auto].
  split; [discriminate|].
  set (P := fun (evs : list EventWidget) (r : Z) => r = s \/
    (Z.abs (s - r) <= _snap_threshold_minutes dv /\
     overlaps_range dv r (r + d) None None = false /\
     exists ev, ev ∈ evs /\
       ((r = end_min ev /\ r <= s /\ r + d <= 24 * 60) \/
        (r + d = start_min ev /\ 0 <= r)))).
  assert (Hmono : forall evs x r, P evs r -> P (evs ++ [x]) r).
  { intros evs x r [H|(H1 & H2 & ev & Hev & H3)]; [left; exact H|right].
    split; [exact H1|]. split; [exact H2|]. exists ev.
    split; [apply elem_of_app; left; exact Hev|exact H3]. }
  assert (H : forall evs st,
            P [] st.1 ->
            P evs (foldl (suggest_step dv s d (_snap_threshold_minutes dv)) st evs).1).
  { induction evs as [|x evs IH] using rev_ind; intros st Hst; [exact Hst|].
    rewrite foldl_app. cbn [foldl].
    apply (suggest_step_good dv s d _ (P (evs ++ [x]))).
    - intros H1 H2 H3 H4. right. split; [exact H2|]. split; [exact H4|].
      exists x. split; [apply elem_of_app; right; apply list_elem_of_here|].
      left. auto.
    - intros H1 H2 H4. right. split; [exact H2|]. split; [exact H4|].
      exists x. split; [apply elem_of_app; right; apply list_elem_of_here|].
      right. split; [lia|exact H1].
    - apply Hmono, IH, Hst. }
  apply (H (event_widgets dv) (s, None)). left. reflexivity.
Qed.

Lemma add_block_normal_mode (s d : Z) (t : string) (c : option string) (fr : bool)
    (rid : option string) (l : bool) (img tg : option string) (n : Z) (rec : bool)
    (mw : MainWindow) (i : nat) :
  box_select_mode (day_view mw) = false ->
  (add_block s d t c fr rid l img tg n rec mw).2 = Some i ->
  let mw' := (add_block s d t c fr rid l img tg n rec mw).1 in
  (exists w, event_widgets (day_view mw') = event_widgets (day_view mw) ++ [w]) /\
  i = next_wid (day_view mw) /\
  magnetic_mode (day_view mw') = magnetic_mode (day_view mw).
Proof.
  intros Hbox. unfold add_block.
  destruct (clamp_start_to_available _ _ _ _ _ _) as [p|]; [|discriminate].
  destruct (overlaps_range _ _ _ _ _); [discriminate|].
  cbn [fst snd]. intros Hi. injection Hi as <-.
  match goal with
  | |- context [if rec then note_history_action ?a ?m else ?m'] =>
      destruct (day_view_note_if rec a m) as (Hdv & _)
  end.
  cbv zeta. rewrite Hdv. cbn [day_view with_day_view].
  unfold _refresh_widget_transparency.
  cbn [box_select_mode with_next_wid with_event_widgets]. rewrite Hbox.
  cbn [negb event_widgets with_event_widgets with_next_wid magnetic_mode andb].
  split; [|split; reflexivity].
  eexists. rewrite map_app. cbn [map set_mouse_transparent].
  f_equal. apply map_id.
Qed.

Lemma snap_block_to_neighbors_kept (b : nat) (ws0 : list EventWidget)
    (allow_start allow_end lock_start lock_end : bool) (dv : DayView) :
  NoDup (map wid (event_widgets dv)) /\ store_ok (event_widgets dv) /\
  others_kept b ws0 (event_widgets dv) ->
  let dv' := (snap_block_to_neighbors (Some b) allow_start allow_end lock_start lock_end
                dv).1 in
  NoDup (map wid (event_widgets dv')) /\ store_ok (event_widgets dv') /\
  others_kept b ws0 (event_widgets dv').
Proof.
  intros (Hnd & Hok & Hk). cbv zeta.
  destruct (snap_block_to_neighbors_store_ok (Some b) allow_start allow_end lock_start
              lock_end dv Hnd Hok) as (Hok' & Hw).
  cbv zeta in Hok', Hw.
  split; [now rewrite Hw|]. split; [exact Hok'|].
  eapply others_kept_trans; [exact Hk|apply snap_block_to_neighbors_others].
Qed.

(** X21: a click on empty space, outside box selection.  The click adds
    at most one block; the blocks that were there are not touched, also when
    the new block is aligned to a neighbour in magnetic mode; the invariant
    of the store is kept.  When a block was added, the stored events of the
    day are the blocks on screen; when there was no room, nothing is saved or
    recorded.  A click that Qt delivers to a block changes nothing here. *)
Theorem creation_click_keeps_schedule (e : MouseEvent) (mw : MainWindow) :
  box_select_mode (day_view mw) = false -> button e = LeftButton ->
  schedule_ok (day_view mw) ->
  let mw' := DayView_mousePressEvent e false false mw in
  let ws := event_widgets (day_view mw) in
  let ws' := event_widgets (day_view mw') in
  store_ok ws' /\
  (forall (k : nat) v, ws !! k = Some v -> ws' !! k = Some v) /\
  (length ws' = length ws \/ length ws' = S (length ws)) /\
  (length ws' = S (length ws) -> stored_events mw' = items_of_store ws') /\
  (length ws' = length ws -> same_ledger mw' mw) /\
  DayView_mousePressEvent e false true mw = mw.
Proof.
  intros Hbox Hbtn (Hok & Hids & Hday). cbv zeta.
  unfold DayView_mousePressEvent. rewrite Hbox.
  rewrite (bool_decide_eq_true_2 _ Hbtn). cbv zeta.
  match goal with
  | |- context [add_block ?s ?d "" None false None false None None 0 true mw] =>
      set (s0 := s); set (d0 := d)
  end.
  pose proof (add_block_cases s0 d0 "" None false None false None None 0 true mw) as Hc.
  pose proof (add_block_normal_mode s0 d0 "" None false None false None None 0 true mw)
    as Hn.
  pose proof (same_ledger_add_block s0 d0 "" None false None false None None 0 true mw)
    as Hled.
  pose proof (add_block_store_ok s0 d0 "" None false None false None None 0 true mw Hok)
    as Hok1.
  pose proof (proj1 (add_block_ids_in_day s0 d0 "" None false None false None None 0 true
                       mw) Hids) as Hids1.
  cbv zeta in Hc, Hn, Hids1.
  set (r := add_block s0 d0 "" None false None false None None 0 true mw) in *.
  destruct r.2 as [created|].
  - destruct (Hn created Hbox eq_refl) as ((w & Hws) & Hcr & Hmag).
    set (m1 := r.1) in *. clearbody m1. clear Hc Hn r.
    assert (Hfresh : forall v, v ∈ event_widgets (day_view mw) -> wid v <> created).
    { intros v Hv. destruct Hids as (_ & Hlt). apply Hlt in Hv. lia. }
    set (dv3 := if magnetic_mode (day_view m1) then _ else day_view m1).
    assert (H3 : NoDup (map wid (event_widgets dv3)) /\ store_ok (event_widgets dv3) /\
                 others_kept created (event_widgets (day_view m1)) (event_widgets dv3)).
    { assert (H0 : NoDup (map wid (event_widgets (day_view m1))) /\
                   store_ok (event_widgets (day_view m1)) /\
                   others_kept created (event_widgets (day_view m1))
                     (event_widgets (day_view m1))).
      { split; [apply Hids1|]. split; [exact Hok1|apply others_kept_refl]. }
      subst dv3. destruct (magnetic_mode (day_view m1)); [|exact H0].
      pose proof (snap_block_to_neighbors_kept created _ true false false false _ H0) as H1.
      cbv zeta in H1. destruct (snap_block_to_neighbors _ true false false false _).2;
        [exact H1|].
      pose proof (snap_block_to_neighbors_kept created _ false true false false _ H1) as H2.
      cbv zeta in H2. destruct (snap_block_to_neighbors _ false true false false _).2;
        [exact H2|].
      apply (snap_block_to_neighbors_kept created _ true true false false _ H2). }
    clearbody dv3. destruct H3 as (Hnd3 & Hok3 & (Hw3 & Hk3)).
    unfold on_block_changed. rewrite day_view_on_day_changed.
    cbn [day_view with_day_view].
    assert (Hlen : length (event_widgets dv3) = S (length (event_widgets (day_view mw)))).
    { rewrite <- (length_map wid), Hw3, length_map, Hws, length_app. cbn. lia. }
    split; [exact Hok3|]. split.
    { intros k v Hk. apply Hk3.
      - rewrite Hws. apply lookup_app_l_Some. exact Hk.
      - apply Hfresh. eapply list_elem_of_lookup_2; eauto. }
    split; [right; exact Hlen|]. split.
    { intros _. rewrite stored_events_on_day_changed. reflexivity. }
    split; [intros; lia|reflexivity].
  - destruct Hc as (Hdv & _). rewrite Hdv.
    split; [exact Hok|]. split; [auto|]. split; [left; reflexivity|].
    split; [intros; lia|]. split; [intros _; exact Hled|reflexivity].
Qed.

Lemma creation_click_keeps_schedule_witness :
  let mw' := DayView_mousePressEvent (left_click 1816 1816 1816) false false
               example_magnetic in
  map range_of (event_widgets (day_view mw')) = [(480, 510); (540, 570); (600, 630)] /\
  store_ok (event_widgets (day_view mw')).
Proof.
  split; [vm_compute; reflexivity|].
  refine (proj1 (creation_click_keeps_schedule (left_click 1816 1816 1816)
                   example_magnetic eq_refl eq_refl _)).
  split; [apply store_okb_spec; reflexivity|]. split.
  - split; [vm_compute; repeat constructor; set_solver|].
    intros w Hw. vm_compute in Hw.
    repeat (apply elem_of_cons in Hw as [->|Hw]; [cbn; lia|]). inversion Hw.
  - repeat constructor; cbn; lia.
Defined.

(** ** Rounding, pixels and minutes *)

Lemma Qfloor_bounds (x : Q) :
  (inject_Z (Qfloor x) <= x /\ x < inject_Z (Qfloor x) + 1)%Q.
Proof.
  split; [apply Qfloor_le|].
  pose proof (Qlt_floor x) as H. rewrite inject_Z_plus in H. exact H.
Qed.

(** [round] answers an integer within one half of its argument. *)
Lemma py_round_close (x : Q) :
  (x - (1 # 2) <= inject_Z (py_round x) /\ inject_Z (py_round x) <= x + (1 # 2))%Q.
Proof.
  unfold py_round. destruct (Qfloor_bounds x) as (H1 & H2).
  set (f := Qfloor x) in *.
  destruct (Qcompare_spec (x - inject_Z f) (1 # 2)) as [He|Hl|Hg].
  - destruct (Z.even f); [|rewrite inject_Z_plus; change (inject_Z 1) with 1%Q];
      split; lra.
  - split; lra.
  - rewrite inject_Z_plus. change (inject_Z 1) with 1%Q. split; lra.
Qed.

Lemma py_round_near (x : Q) (m : Z) :
  (inject_Z m - (1 # 2) < x)%Q -> (x <= inject_Z m)%Q -> py_round x = m.
Proof.
  intros Hlo Hhi. unfold py_round. destruct (Qfloor_bounds x) as (H1 & H2).
  set (f := Qfloor x) in *.
  assert (Hf1 : (f <= m)%Z) by (rewrite Zle_Qle; lra).
  assert (Hf2 : (m <= f + 1)%Z).
  { destruct (Z_le_gt_dec m (f + 1)) as [H|H]; [exact H|].
    assert (H' : (f + 2 <= m)%Z) by lia.
    rewrite Zle_Qle in H'. rewrite inject_Z_plus in H'.
    change (inject_Z 2) with 2%Q in H'. lra. }
  destruct (Z.eq_dec f m) as [Hfm|Hfm].
  - rewrite Hfm in *.
    destruct (Qcompare_spec (x - inject_Z m) (1 # 2)) as [He|Hl|Hg]; try lra.
    reflexivity.
  - assert (Hf : f = (m - 1)%Z) by lia.
    assert (Hm : (inject_Z m == inject_Z f + 1)%Q).
    { rewrite Hf. change 1%Q with (inject_Z 1). rewrite <- inject_Z_plus.
      replace (m - 1 + 1)%Z with m by lia. reflexivity. }
    destruct (Qcompare_spec (x - inject_Z f) (1 # 2)) as [He|Hl|Hg]; try lra.
    lia.
Qed.

(** X22: pixels and minutes.  [y_to_minute] always answers a minute of
    the day.  When a minute takes at least two pixels (a zoom of 67 % or
    more), it inverts [minute_to_y]: the pixel row at which a minute is
    drawn is read back as that minute. *)
Theorem y_to_minute_inverts (dv : DayView) (m y : Z) :
  (0 <= y_to_minute dv y <= 24 * 60)%Z /\
  ((2 <= px_per_min dv)%Q -> (0 <= m <= 24 * 60)%Z ->
   y_to_minute dv (minute_to_y dv m) = m).
Proof.
  split; [unfold y_to_minute; lia|].
  intros Hpx Hm. unfold y_to_minute, minute_to_y, top_pad.
  set (px := px_per_min dv) in *.
  assert (Hnn : (0 <= inject_Z m * px)%Q).
  { apply Qmult_le_0_compat; [|lra].
    change 0%Q with (inject_Z 0). rewrite <- Zle_Qle. lia. }
  unfold py_int.
  assert (Hb : Qle_bool 0 (inject_Z m * px) = true) by (apply Qle_bool_iff; exact Hnn).
  rewrite Hb.
  replace (Qfloor (inject_Z m * px) + 16 - 16)%Z with (Qfloor (inject_Z m * px)) by lia.
  destruct (Qfloor_bounds (inject_Z m * px)) as (H1 & H2).
  set (F := Qfloor (inject_Z m * px)) in *.
  rewrite (py_round_near _ m); [lia| |].
  - apply Qlt_shift_div_l; [lra|].
    assert (He : ((inject_Z m - (1 # 2)) * px == inject_Z m * px - px * (1 # 2))%Q) by ring.
    rewrite He. lra.
  - apply Qle_shift_div_r; [lra|]. exact H1.
Qed.

Lemma y_to_minute_inverts_witness :
  (2 <= px_per_min (example_view 30 []))%Q /\ (0 <= 615 <= 24 * 60)%Z /\
  y_to_minute (example_view 30 []) (minute_to_y (example_view 30 []) 615) = 615.
Proof.
  assert (H1 : (2 <= px_per_min (example_view 30 []))%Q) by (vm_compute; discriminate).
  assert (H2 : (0 <= 615 <= 24 * 60)%Z) by lia.
  split; [exact H1|]. split; [exact H2|].
  exact (proj2 (y_to_minute_inverts (example_view 30 []) 615 0) H1 H2).
Defined.

(** X25: the snapped delta of a drag.  [snap_delta] answers a whole
    number of snap steps, and that number of minutes lies within half a step
    of the raw delta. *)
Theorem snap_delta_nearest (dv : DayView) (raw : Q) :
  (0 < snap_step dv)%Z ->
  let r := snap_delta dv raw in
  (exists k, r = k * snap_step dv)%Z /\
  (raw - inject_Z (snap_step dv) * (1 # 2) <= inject_Z r)%Q /\
  (inject_Z r <= raw + inject_Z (snap_step dv) * (1 # 2))%Q.
Proof.
  intros Hs. cbv zeta. unfold snap_delta.
  set (step := snap_step dv) in *.
  destruct (step <=? 1)%Z eqn:H1.
  - apply Z.leb_le in H1. assert (Hone : step = 1%Z) by lia. rewrite Hone.
    split; [exists (py_round raw); lia|].
    destruct (py_round_close raw) as (Ha & Hb).
    change (inject_Z 1) with 1%Q. split; lra.
  - apply Z.leb_gt in H1.
    split; [eexists; reflexivity|].
    assert (Hpos : (0 < inject_Z step)%Q).
    { change 0%Q with (inject_Z 0). rewrite <- Zlt_Qlt. lia. }
    destruct (py_round_close (raw / inject_Z step)) as (Ha & Hb).
    rewrite inject_Z_mult.
    assert (He : (raw == raw / inject_Z step * inject_Z step)%Q).
    { field. lra. }
    set (x := (raw / inject_Z step)%Q) in *.
    set (p := inject_Z (py_round x)) in *.
    split.
    + assert (H : ((x - (1 # 2)) * inject_Z step <= p * inject_Z step)%Q)
        by (apply Qmult_le_compat_r; lra).
      rewrite He at 1.
      assert (Hr : ((x - (1 # 2)) * inject_Z step
                    == x * inject_Z step - inject_Z step * (1 # 2))%Q) by ring.
      rewrite Hr in H. exact H.
    + assert (H : (p * inject_Z step <= (x + (1 # 2)) * inject_Z step)%Q)
        by (apply Qmult_le_compat_r; lra).
      rewrite He at 1.
      assert (Hr : ((x + (1 # 2)) * inject_Z step
                    == x * inject_Z step + inject_Z step * (1 # 2))%Q) by ring.
      rewrite Hr in H. exact H.
Qed.

Lemma snap_delta_nearest_witness :
  (0 < snap_step (example_view 30 []))%Z /\ snap_delta (example_view 30 []) 40 = 30%Z /\
  (inject_Z (snap_delta (example_view 30 []) 40) <= 40 + inject_Z 30 * (1 # 2))%Q.
Proof.
  assert (H : (0 < snap_step (example_view 30 []))%Z) by (cbn; lia).
  split; [exact H|]. split; [vm_compute; reflexivity|].
  exact (proj2 (proj2 (snap_delta_nearest (example_view 30 []) 40 H))).
Defined.

(** ** A click on a block *)

Lemma on_day_changed_same (m : MainWindow) (h : HistoryEntry) :
  _history_freeze m = false -> 0 <= _history_index m -> cursor_entry m = Some h ->
  h_events h = items_of_store (event_widgets (day_view m)) ->
  on_day_changed m = with_pending_history_action None (save_day (current_date m) m).
Proof.
  intros Hf Hi Hc He. unfold on_day_changed.
  apply (_record_history_same _ h); try assumption.
  now rewrite stored_events_save_day.
Qed.

Lemma note_if_fields (b : bool) (a : string) (m : MainWindow) :
  let m' := if b then note_history_action a m else m in
  day_view m' = day_view m /\ _history m' = _history m /\
  _history_index m' = _history_index m /\ _history_freeze m' = _history_freeze m /\
  current_date m' = current_date m.
Proof.
  cbv zeta. destruct b; [|repeat split].
  unfold note_history_action. destruct (bool_decide _); repeat split.
Qed.

Lemma update_widget_range (i : nat) (f : EventWidget -> EventWidget)
    (ws : list EventWidget) :
  (forall w, range_of (f w) = range_of w) ->
  map range_of (update_widget i f ws) = map range_of ws.
Proof.
  intros Hf. unfold update_widget. rewrite map_map. apply map_ext.
  intros w. destruct (Nat.eqb (wid w) i); auto.
Qed.

(** The release of the pointer on a block that did not move. *)
Lemma release_unmoved (i : nat) (e : MouseEvent) (w : EventWidget) (h : HistoryEntry)
    (mw : MainWindow) :
  widget_by_id i (event_widgets (day_view mw)) = Some w ->
  box_select_mode (day_view mw) = false -> locked w = false ->
  (_drag_mode w = Some move ->
   start_min w = _orig_start w /\ end_min w = _orig_end w) ->
  _history_freeze mw = false -> 0 <= _history_index mw -> cursor_entry mw = Some h ->
  h_events h = items_of_store (event_widgets (day_view mw)) ->
  let mw' := EventWidget_mouseReleaseEvent i e mw in
  map range_of (event_widgets (day_view mw')) = map range_of (event_widgets (day_view mw)) /\
  _history mw' = _history mw /\ _history_index mw' = _history_index mw.
Proof.
  intros Hw Hbox Hl Hmove Hf Hi Hc He. cbv zeta.
  unfold EventWidget_mouseReleaseEvent. rewrite Hw, Hbox, Hl. cbn [andb].
  destruct (bool_decide (button e = LeftButton)); [|repeat split].
  assert (Hchanged : forall (b : bool) (a : string),
            let m := on_block_changed (if b then note_history_action a mw else mw) in
            map range_of (event_widgets (day_view (modify_widget i (with_drag_mode None) m)))
            = map range_of (event_widgets (day_view mw)) /\
            _history (modify_widget i (with_drag_mode None) m) = _history mw /\
            _history_index (modify_widget i (with_drag_mode None) m) = _history_index mw).
  { intros b a. cbv zeta.
    destruct (note_if_fields b a mw) as (Hd & Hh & Hx & Hfr & Hcd). cbv zeta in *.
    set (m0 := if b then note_history_action a mw else mw) in *. clearbody m0.
    unfold on_block_changed.
    rewrite (on_day_changed_same m0 h); unfold cursor_entry in *;
      rewrite ?Hd, ?Hh, ?Hx, ?Hfr; try assumption.
    unfold modify_widget. cbn. rewrite Hd, Hh, Hx.
    split; [apply update_widget_range; reflexivity|]. split; reflexivity. }
  destruct (bool_decide (_drag_mode w = Some move)) eqn:Hm.
  - apply bool_decide_eq_true_1 in Hm. destruct (Hmove Hm) as (Hs & Hen).
    rewrite <- Hs, <- Hen, !Z.eqb_refl. cbn [negb orb].
    unfold finalize_single_move. rewrite Hw, !Z.eqb_refl. cbn [andb].
    apply (Hchanged false "").
  - apply Hchanged.
Qed.

(** X23: a click on a block records nothing.  Outside box selection and
    with the log in step with the screen, pressing the left button on an
    unlocked block and releasing it without a move in between leaves every
    block where it is and the log as it is: no entry is added and the cursor
    stays.  This holds on the handles and on the body, in every mode. *)
Theorem click_records_nothing (i : nat) (e1 e2 : MouseEvent) (w : EventWidget)
    (h : HistoryEntry) (mw : MainWindow) :
  widget_by_id i (event_widgets (day_view mw)) = Some w ->
  box_select_mode (day_view mw) = false -> locked w = false ->
  button e1 = LeftButton ->
  _history_freeze mw = false -> 0 <= _history_index mw -> cursor_entry mw = Some h ->
  h_events h = items_of_store (event_widgets (day_view mw)) ->
  let mw' := EventWidget_mouseReleaseEvent i e2 (EventWidget_mousePressEvent i e1 mw) in
  map range_of (event_widgets (day_view mw')) = map range_of (event_widgets (day_view mw)) /\
  _history mw' = _history mw /\ _history_index mw' = _history_index mw.
Proof.
  intros Hw Hbox Hl Hb Hf Hi Hc He. cbv zeta.
  assert (Hpress : exists f,
            (forall v, wid (f v) = wid v /\ range_of (f v) = range_of v /\
                       item_of_widget (f v) = item_of_widget v /\
                       from_rule (f v) = from_rule v /\ locked (f v) = locked v) /\
            (_drag_mode (f w) = Some move ->
             start_min (f w) = _orig_start (f w) /\ end_min (f w) = _orig_end (f w)) /\
            day_view (EventWidget_mousePressEvent i e1 mw)
            = day_view (modify_widget i f mw) /\
            same_ledger (EventWidget_mousePressEvent i e1 mw) mw).
  { unfold EventWidget_mousePressEvent. rewrite Hw, Hbox, Hl.
    rewrite (bool_decide_eq_true_2 _ Hb). cbn [andb].
    destruct (smart_scale_enabled (day_view mw) && _) eqn:Hs.
    - exists (with_drag_mode None). split; [intros v; repeat split|].
      split; [discriminate|]. split; [reflexivity|].
      unfold same_ledger. repeat split.
    - eexists. split; [|split; [|split; [reflexivity|unfold same_ledger; repeat split]]].
      + intros v. repeat split.
      + intros _. split; reflexivity. }
  destruct Hpress as (f & Hfp & Hmove & Hdv & Hled).
  set (mw1 := EventWidget_mousePressEvent i e1 mw) in *. clearbody mw1.
  destruct Hled as (_ & _ & _ & Hh & Hx & Hfr & _).
  assert (Hws1 : event_widgets (day_view mw1)
                 = update_widget i f (event_widgets (day_view mw)))
    by (rewrite Hdv; reflexivity).
  assert (Hw1 : widget_by_id i (event_widgets (day_view mw1)) = Some (f w)).
  { rewrite Hws1, widget_by_id_update by (intros v; apply Hfp). now rewrite Hw. }
  assert (Hr1 : map range_of (event_widgets (day_view mw1))
                = map range_of (event_widgets (day_view mw))).
  { rewrite Hws1. apply update_widget_range. intros v. apply Hfp. }
  assert (Hi1 : items_of_store (event_widgets (day_view mw1))
                = items_of_store (event_widgets (day_view mw))).
  { rewrite Hws1. apply items_of_store_update. intros v. split; apply Hfp. }
  destruct (release_unmoved i e2 (f w) h mw1) as (H1 & H2 & H3); try assumption.
  - rewrite Hdv. exact Hbox.
  - rewrite (proj2 (proj2 (proj2 (proj2 (Hfp w))))). exact Hl.
  - now rewrite Hfr.
  - now rewrite Hx.
  - unfold cursor_entry in *. now rewrite Hh, Hx.
  - now rewrite Hi1.
  - rewrite H1, H2, H3, Hr1, Hh, Hx. repeat split.
Qed.

Lemma click_records_nothing_witness :
  let mw' := EventWidget_mouseReleaseEvent 0 (left_click 45 1000 1500)
               (EventWidget_mousePressEvent 0 (left_click 45 1000 1500)
                  example_two_blocks) in
  map h_action (_history mw') = ["Initial load"].
Proof.
  cbv zeta.
  rewrite (proj1 (proj2
             (click_records_nothing 0 (left_click 45 1000 1500) (left_click 45 1000 1500)
                (example_widget 0 480 510 false)
                {| h_date := example_day;
                   h_events := items_of_store (event_widgets (day_view example_two_blocks));
                   h_action := "Initial load";
                   h_timestamp := "2026-01-05T09:00:00" |}
                example_two_blocks eq_refl eq_refl eq_refl eq_refl eq_refl
                ltac:(cbn; lia) eq_refl eq_refl))).
  reflexivity.
Defined.

(** ** The box selection *)

(** X24: changing the box selection.  [_update_box_selection] makes the
    given set the selection and keeps the flags of the blocks in step with
    it; the blocks keep their places and their data, and nothing is saved or
    recorded.  Asked for the selection that is already there, it does
    nothing at all. *)
Theorem update_box_selection_outcome (s : gset nat) (mw : MainWindow) :
  let mw' := _update_box_selection s mw in
  _box_selected_widgets (day_view mw') = s /\
  map forget_flags (event_widgets (day_view mw'))
  = map forget_flags (event_widgets (day_view mw)) /\
  same_ledger mw' mw /\
  (selection_flags_ok (day_view mw) -> selection_flags_ok (day_view mw')) /\
  (store_ok (event_widgets (day_view mw)) -> store_ok (event_widgets (day_view mw'))) /\
  (s = _box_selected_widgets (day_view mw) -> mw' = mw).
Proof.
  cbv zeta.
  split; [apply update_box_selection_selected|].
  split; [apply update_box_selection_forget|].
  split; [apply same_ledger_update_box_selection|].
  split; [apply update_box_selection_flags|].
  split; [apply store_ok_update_box_selection|].
  intros ->. unfold _update_box_selection.
  now rewrite bool_decide_eq_true_2 by reflexivity.
Qed.

(** ** Deleting the selection *)

Lemma delete_block_removes (b : nat) (mw : MainWindow) :
  (forall w, widget_by_id b (event_widgets (day_view mw)) = Some w -> locked w = false) ->
  let mw' := delete_block b mw in
  map forget_flags (event_widgets (day_view mw'))
  = map forget_flags (remove_widget b (event_widgets (day_view mw))) /\
  (widget_by_id b (event_widgets (day_view mw)) <> None ->
   stored_events mw' = items_of_store (event_widgets (day_view mw'))) /\
  repeat_rules mw' = repeat_rules mw /\ current_date mw' = current_date mw.
Proof.
  intros Hl. cbv zeta. unfold delete_block.
  destruct (widget_by_id b (event_widgets (day_view mw))) as [w|] eqn:Hw.
  2:{ split; [|repeat split; congruence].
      f_equal. symmetry. clear Hl.
      induction (event_widgets (day_view mw)) as [|x l IH]; [reflexivity|].
      cbn [widget_by_id remove_widget] in *.
      destruct (Nat.eqb (wid x) b); [discriminate|]. now rewrite IH. }
  rewrite (Hl w eq_refl).
  set (mw1 := note_history_action "Delete block" mw).
  set (mw2 := if bool_decide (b ∈ _box_selected_widgets (day_view mw1))
              then _update_box_selection (_box_selected_widgets (day_view mw1) ∖ {[ b ]}) mw1
              else mw1).
  assert (Hws2 : map forget_flags (event_widgets (day_view mw2))
                 = map forget_flags (event_widgets (day_view mw))).
  { subst mw2. destruct (bool_decide _); [rewrite update_box_selection_forget|];
      reflexivity. }
  assert (Hled2 : same_ledger mw2 mw).
  { subst mw2. destruct (bool_decide _).
    - eapply same_ledger_trans; [apply same_ledger_update_box_selection|].
      apply same_ledger_note_history_action.
    - apply same_ledger_note_history_action. }
  clearbody mw2. clear mw1.
  set (mw3 := with_day_view
                (with_event_widgets (remove_widget b (event_widgets (day_view mw2)))
                   (day_view mw2)) mw2).
  assert (Hws3 : map forget_flags (event_widgets (day_view mw3))
                 = map forget_flags (remove_widget b (event_widgets (day_view mw)))).
  { subst mw3. cbn [day_view with_day_view event_widgets with_event_widgets].
    now apply remove_widget_forget. }
  cbn [day_view with_day_view].
  unfold on_block_changed. rewrite day_view_on_day_changed.
  split; [now rewrite refresh_forget|].
  destruct Hled2 as (_ & Hr & Hd & _).
  split; [|split].
  - intros _.
    change (stored_events (with_day_view _ (on_day_changed mw3)))
      with (stored_events (on_day_changed mw3)).
    rewrite stored_events_on_day_changed.
    symmetry. apply forget_flags_views. apply refresh_forget.
  - unfold on_day_changed. cbn [repeat_rules with_day_view].
    unfold _record_history.
    repeat match goal with |- context [if ?c then _ else _] => destruct c end;
      cbn; exact Hr.
  - cbn [current_date with_day_view]. unfold on_day_changed.
    rewrite (proj2 (stored_events_record_history _)). cbn. exact Hd.
Qed.

Lemma remove_widget_filter (b : nat) (ws : list EventWidget) :
  NoDup (map wid ws) ->
  remove_widget b ws = List.filter (fun w => negb (Nat.eqb (wid w) b)) ws.
Proof.
  induction ws as [|w ws IH]; [reflexivity|]. cbn [map remove_widget List.filter].
  intros Hnd. apply NoDup_cons in Hnd as (Hw & Hnd).
  destruct (Nat.eqb (wid w) b) eqn:Hb; cbn [negb].
  - apply Nat.eqb_eq in Hb. symmetry.
    rewrite (List.forallb_filter_id _ ws); [reflexivity|].
    apply forallb_forall. intros v Hv. apply negb_true_iff, Nat.eqb_neq.
    intros Hvb. apply Hw. rewrite Hb, <- Hvb.
    apply (list_elem_of_fmap_2 wid). now apply list_elem_of_In.
  - now rewrite IH.
Qed.

Lemma remove_widget_subset (b : nat) (ws : list EventWidget) (v : EventWidget) :
  v ∈ remove_widget b ws -> v ∈ ws.
Proof.
  induction ws as [|w ws IH]; cbn [remove_widget]; [auto|].
  destruct (Nat.eqb (wid w) b).
  - intros H. now apply list_elem_of_further.
  - intros H. apply elem_of_cons in H as [->|H];
      [apply list_elem_of_here|apply list_elem_of_further; auto].
Qed.

Lemma foldl_delete_block (l : list EventWidget) :
  forall mw,
  (forall x, x ∈ map forget_flags (event_widgets (day_view mw)) ->
     (exists v, v ∈ l /\ wid v = wid x) -> locked x = false) ->
  let mw' := foldl (fun m v => delete_block (wid v) m) mw l in
  map forget_flags (event_widgets (day_view mw'))
  = foldl (fun F v => remove_widget (wid v) F)
      (map forget_flags (event_widgets (day_view mw))) l /\
  (stored_events mw = items_of_store (event_widgets (day_view mw)) ->
   stored_events mw' = items_of_store (event_widgets (day_view mw'))) /\
  (store_ok (event_widgets (day_view mw)) -> store_ok (event_widgets (day_view mw'))) /\
  repeat_rules mw' = repeat_rules mw /\ current_date mw' = current_date mw.
Proof.
  induction l as [|v l IH]; intros mw Hl; cbv zeta; cbn [foldl];
    [repeat split; auto; apply H|].
  assert (Hv : forall w, widget_by_id (wid v) (event_widgets (day_view mw)) = Some w ->
                 locked w = false).
  { intros w Hw. apply widget_by_id_Some in Hw as (Hin & Hwid).
    change (locked (forget_flags w) = false). apply Hl.
    - apply (list_elem_of_fmap_2 forget_flags). exact Hin.
    - exists v. split; [apply list_elem_of_here|]. now rewrite <- Hwid. }
  destruct (delete_block_removes (wid v) mw Hv) as (Hf & Hst & Hr & Hd).
  cbv zeta in Hf, Hst, Hr, Hd.
  rewrite <- (remove_widget_map (wid v) forget_flags) in Hf by reflexivity.
  destruct (IH (delete_block (wid v) mw)) as (H1 & H2 & H3 & H4 & H5).
  { intros x Hx (u & Hu & Hux). apply Hl.
    - rewrite Hf in Hx. eapply remove_widget_subset; eauto.
    - exists u. split; [now apply list_elem_of_further|exact Hux]. }
  cbv zeta in H1, H2, H3, H4, H5.
  split; [now rewrite H1, Hf|]. split; [|split; [|split; congruence]].
  - intros Hs. apply H2.
    destruct (widget_by_id (wid v) (event_widgets (day_view mw))) eqn:Hw.
    + apply Hst. discriminate.
    + unfold delete_block. now rewrite Hw.
  - intros Hok. apply H3. now apply delete_block_store_ok.
Qed.

Lemma filter_and {A} (p q : A -> bool) (l : list A) :
  List.filter q (List.filter p l) = List.filter (fun x => p x && q x) l.
Proof.
  induction l as [|x l IH]; [reflexivity|]. cbn [List.filter].
  destruct (p x); cbn [List.filter andb]; [destruct (q x)|]; now rewrite IH.
Qed.

Lemma foldl_remove_filter (l : list EventWidget) :
  forall F, NoDup (map wid F) ->
  foldl (fun F v => remove_widget (wid v) F) F l
  = List.filter (fun x => negb (existsb (fun v => Nat.eqb (wid x) (wid v)) l)) F.
Proof.
  induction l as [|v l IH]; intros F Hnd; cbn [foldl existsb].
  - symmetry. apply List.forallb_filter_id. apply forallb_forall. reflexivity.
  - rewrite remove_widget_filter by exact Hnd. rewrite IH.
    + rewrite filter_and. apply List.filter_ext. intros x.
      now rewrite negb_orb.
    + apply NoDup_ListNoDup. apply NoDup_ListNoDup in Hnd.
      clear IH. induction F as [|x F IHF]; [constructor|].
      cbn [map List.filter] in *. inversion Hnd as [|? ? Hx Hrest]; subst.
      destruct (negb _); cbn [map]; [|auto].
      constructor; [|auto]. intros Hin. apply Hx.
      apply in_map_iff in Hin as (u & Hu & Hin). apply filter_In in Hin as (Hin & _).
      apply in_map_iff. eauto.
Qed.

(** X26: deleting the selection.  When no selected block is locked and
    none comes from a repeat rule, [delete_selected_blocks] removes exactly
    the selected blocks: the others stay as they are and in their order, the
    selection is empty afterwards, the invariant of the store is kept, the
    rules are not touched, stored events in step with the screen stay in
    step, and the status bar ends with the number of deleted events. *)
Theorem delete_selected_blocks_outcome (mw : MainWindow) :
  let sel := _box_selected_widgets (day_view mw) in
  let ws := event_widgets (day_view mw) in
  let members := widgets_of sel ws in
  members <> [] ->
  NoDup (map wid ws) ->
  (forall w, w ∈ members -> locked w = false /\ from_rule w = false) ->
  let mw' := delete_selected_blocks mw in
  let ws' := event_widgets (day_view mw') in
  map forget_flags ws'
  = map forget_flags (List.filter (fun w => negb (bool_decide (wid w ∈ sel))) ws) /\
  _box_selected_widgets (day_view mw') = ∅ /\
  (store_ok ws -> store_ok ws') /\
  (stored_events mw = items_of_store ws -> stored_events mw' = items_of_store ws') /\
  repeat_rules mw' = repeat_rules mw /\
  last (status mw')
  = Some ("Deleted " +:+ pretty (Z.of_nat (length members)) +:+ " event"
          +:+ (if Z.of_nat (length members) =? 1 then "" else "s")).
Proof.
  cbv zeta. intros Hne Hnd Hmem.
  unfold delete_selected_blocks.
  set (sel := _box_selected_widgets (day_view mw)) in *.
  set (ws := event_widgets (day_view mw)) in *.
  assert (Hsel : bool_decide (sel = ∅) = false).
  { apply bool_decide_eq_false_2. intros He. apply Hne. rewrite He.
    unfold widgets_of. clear. induction ws as [|w ws IH]; [reflexivity|].
    cbn [List.filter]. rewrite bool_decide_eq_false_2 by set_solver. exact IH. }
  rewrite Hsel.
  change (day_view (note_history_action "Delete selection" mw)) with (day_view mw).
  fold ws. fold sel.
  set (members := widgets_of sel ws) in *.
  assert (Hlocked : existsb locked members = false).
  { apply not_true_is_false. intros Hx. apply existsb_exists in Hx as (w & Hw & Hl).
    apply list_elem_of_In in Hw. destruct (Hmem w Hw) as (Hl' & _). congruence. }
  rewrite Hlocked.
  assert (Hrules : List.filter from_rule members = []).
  { clear -Hmem. induction members as [|w l IH]; [reflexivity|].
    cbn [List.filter]. destruct (Hmem w (list_elem_of_here _ _)) as (_ & ->).
    apply IH. intros v Hv. apply Hmem. now apply list_elem_of_further. }
  assert (Hregs : List.filter (fun w => negb (from_rule w)) members = members).
  { apply List.forallb_filter_id. apply forallb_forall. intros w Hw.
    apply list_elem_of_In in Hw. destruct (Hmem w Hw) as (_ & ->). reflexivity. }
  rewrite Hrules, Hregs. cbn [length]. rewrite Nat.add_0_r.
  set (mw1 := note_history_action "Delete selection" mw).
  set (mw2 := with_day_view (_cancel_group_move (day_view mw)) mw1).
  destruct (cancel_group_move_fields (day_view mw)) as (_ & _ & _ & _ & Hf2).
  fold ws in Hf2.
  assert (Hws2 : map forget_flags (event_widgets (day_view mw2)) = map forget_flags ws)
    by exact Hf2.
  destruct (foldl_delete_block members mw2) as (H1 & H2 & H3 & H4 & H5).
  { intros x Hx (v & Hv & Hvx). rewrite Hws2 in Hx.
    apply list_elem_of_fmap in Hx as (u & -> & Hu).
    change (locked u = false). apply Hmem.
    unfold members, widgets_of. apply list_elem_of_In, filter_In.
    split; [now apply list_elem_of_In|]. apply bool_decide_eq_true_2.
    unfold members, widgets_of in Hv. apply list_elem_of_In, filter_In in Hv as (_ & Hv).
    apply bool_decide_eq_true_1 in Hv. change (wid (forget_flags u)) with (wid u) in Hvx.
    now rewrite <- Hvx. }
  cbv zeta in H1, H2, H3, H4, H5.
  set (mw3 := foldl (fun m w => delete_block (wid w) m) mw2 members) in *.
  clearbody mw3.
  assert (Hn : (Z.of_nat (length members) =? 0) = false).
  { apply Z.eqb_neq. destruct members; [congruence|cbn; lia]. }
  rewrite Hn.
  assert (Hfinal : map forget_flags (event_widgets (day_view mw3))
                   = map forget_flags
                       (List.filter (fun w => negb (bool_decide (wid w ∈ sel))) ws)).
  { rewrite H1, Hws2, foldl_remove_filter.
    2:{ rewrite map_map. exact Hnd. }
    clear -Hnd. unfold members, widgets_of.
    assert (Hx : forall x, x ∈ ws ->
              existsb (fun v => Nat.eqb (wid x) (wid v))
                (List.filter (fun w => bool_decide (wid w ∈ sel)) ws)
              = bool_decide (wid x ∈ sel)).
    { intros x Hx. destruct (bool_decide (wid x ∈ sel)) eqn:Hs.
      - apply existsb_exists. exists x. split; [|apply Nat.eqb_refl].
        apply filter_In. split; [now apply list_elem_of_In|exact Hs].
      - apply not_true_is_false. intros He. apply existsb_exists in He as (v & Hv & Hxv).
        apply filter_In in Hv as (_ & Hv). apply Nat.eqb_eq in Hxv.
        rewrite <- Hxv in Hv. congruence. }
    revert Hx. generalize (List.filter (fun w => bool_decide (wid w ∈ sel)) ws) as l.
    intros l Hx. clear Hnd. induction ws as [|w ws IH]; [reflexivity|].
    cbn [map List.filter]. change (wid (forget_flags w)) with (wid w).
    rewrite (Hx w (list_elem_of_here _ _)).
    destruct (negb _); cbn [map]; rewrite IH; try reflexivity;
      intros x Hin; apply Hx; now apply list_elem_of_further. }
  unfold flash_status, showMessage.
  cbn [day_view with_status status].
  split; [rewrite update_box_selection_forget; exact Hfinal|].
  split; [apply update_box_selection_selected|].
  split; [intros Hok; apply store_ok_update_box_selection, H3;
          apply (store_ok_ranges ws); [|exact Hok];
          symmetry; apply (forget_flags_views _ _ Hws2)|].
  split.
  { intros Hst.
    destruct (same_ledger_update_box_selection ∅ mw3) as (He & _ & Hd & _).
    unfold stored_events. cbn [events_by_date current_date with_status].
    rewrite He, Hd.
    rewrite (proj2 (proj2 (proj2
               (forget_flags_views _ _ (update_box_selection_forget ∅ mw3))))).
    apply H2.
    change (stored_events mw = items_of_store (event_widgets (day_view mw2))).
    rewrite Hst. symmetry. apply (forget_flags_views _ _ Hws2). }
  split.
  { destruct (same_ledger_update_box_selection ∅ mw3) as (_ & Hr & _).
    cbn [repeat_rules with_status]. rewrite Hr, H4. reflexivity. }
  apply last_snoc.
Qed.

Lemma delete_selected_blocks_outcome_witness :
  map range_of (event_widgets (day_view (delete_selected_blocks example_group)))
  = [(700, 730)].
Proof.
  assert (H : map forget_flags
                (event_widgets (day_view (delete_selected_blocks example_group)))
              = map forget_flags [example_widget 2 700 730 false]).
  { refine (proj1 (delete_selected_blocks_outcome example_group _ _ _)).
    - discriminate.
    - vm_compute. repeat constructor; set_solver.
    - intros w Hw. vm_compute in Hw.
      repeat (apply elem_of_cons in Hw as [->|Hw]; [split; reflexivity|]). inversion Hw. }
  apply forget_flags_views in H. apply H.
Defined.

(** ** Magnetic alignment *)

Lemma keep_best_inv (Q : Z * Z * Z -> Prop) (best : option (Z * Z * Z))
    (c : Z * Z * Z) :
  match best with Some x => Q x | None => True end -> Q c ->
  match keep_best best c with Some x => Q x | None => True end.
Proof.
  intros Hb Hc. unfold keep_best. destruct best as [x|]; [|exact Hc].
  destruct (_ <? _); assumption.
Qed.

Lemma neighbor_step_target (dv : DayView) (blk : EventWidget)
    (allow_start allow_end lock_start lock_end : bool)
    (best : option (Z * Z * Z)) (ev : EventWidget) :
  ev ∈ event_widgets dv ->
  match best with Some x => snap_target dv blk lock_start lock_end x | None => True end ->
  match neighbor_step dv blk allow_start allow_end lock_start lock_end
          (_snap_threshold_minutes dv) (Z.max 1 (end_min blk - start_min blk)) best ev
  with Some x => snap_target dv blk lock_start lock_end x | None => True end.
Proof.
  intros Hev Hb. unfold neighbor_step.
  destruct (Nat.eqb (wid ev) (wid blk)) eqn:Hid; [exact Hb|].
  apply Nat.eqb_neq in Hid. cbv zeta.
  set (duration := Z.max 1 (end_min blk - start_min blk)) in *.
  assert (Hb1 : match neighbor_start dv blk allow_start lock_start lock_end
                        (_snap_threshold_minutes dv) duration best ev
                with Some x => snap_target dv blk lock_start lock_end x | None => True end).
  { unfold neighbor_start. cbv zeta.
    destruct allow_start; [|exact Hb].
    destruct (_ <=? _snap_threshold_minutes dv) eqn:Ht; [|exact Hb].
    apply Z.leb_le in Ht.
    destruct (lock_start && _) eqn:Hls; [exact Hb|].
    destruct (_ <=? 24 * 60) eqn:Hday; cbn [andb]; [|exact Hb].
    apply Z.leb_le in Hday.
    destruct (overlaps_range dv _ _ _ _) eqn:Ho; cbn [negb]; [exact Hb|].
    destruct (negb lock_end || _) eqn:Hle; [|exact Hb].
    apply keep_best_inv; [exact Hb|].
    unfold snap_target. fold duration. cbn [fst snd].
    split; [reflexivity|]. split; [exact Ho|]. split; [|split].
    - intros ->. cbn [andb] in Hls. apply negb_false_iff, Z.eqb_eq in Hls. exact Hls.
    - intros ->. cbn [negb orb] in Hle. apply Z.eqb_eq in Hle. exact Hle.
    - left. exists ev. auto 10. }
  revert Hb1. generalize (neighbor_start dv blk allow_start lock_start lock_end
                            (_snap_threshold_minutes dv) duration best ev).
  intros best1 Hb1. unfold neighbor_end. cbv zeta.
  destruct allow_end; [|exact Hb1].
  destruct (_ <=? _snap_threshold_minutes dv) eqn:Ht; [|exact Hb1].
  apply Z.leb_le in Ht.
  destruct (lock_end && _) eqn:Hle; [exact Hb1|].
  destruct (0 <=? _) eqn:Hday; cbn [andb]; [|exact Hb1].
  apply Z.leb_le in Hday.
  destruct (overlaps_range dv _ _ _ _) eqn:Ho; cbn [negb]; [exact Hb1|].
  destruct (negb lock_start || _) eqn:Hls; [|exact Hb1].
  apply keep_best_inv; [exact Hb1|].
  unfold snap_target. fold duration. cbn [fst snd].
  split; [lia|]. split; [exact Ho|]. split; [|split].
  - intros ->. cbn [negb orb] in Hls. apply Z.eqb_eq in Hls. exact Hls.
  - intros ->. cbn [andb] in Hle. apply negb_false_iff, Z.eqb_eq in Hle. exact Hle.
  - right. left. exists ev. auto 10.
Qed.

Lemma now_line_candidate_target (dv : DayView) (blk : EventWidget)
    (lock_start lock_end : bool) (c : Z * Z * Z) :
  _now_line_snap_candidate dv (start_min blk) (Z.max 1 (end_min blk - start_min blk))
    (Some (wid blk)) = Some c ->
  (lock_start && negb (c.1.1 =? start_min blk)) = false ->
  (lock_end && negb (c.1.2 =? end_min blk)) = false ->
  snap_target dv blk lock_start lock_end c.
Proof.
  unfold _now_line_snap_candidate.
  destruct (negb (magnetic_mode dv && show_now_line dv)) eqn:Hm; [discriminate|].
  apply negb_false_iff, andb_true_iff in Hm as (_ & Hshow).
  unfold _current_time_minute. rewrite Hshow. cbn [negb].
  destruct (_ <? _) eqn:Ht; [discriminate|]. apply Z.ltb_ge in Ht.
  destruct (24 * 60 <? _) eqn:Hday; [discriminate|]. apply Z.ltb_ge in Hday.
  destruct (overlaps_range dv _ _ _ _) eqn:Ho; [discriminate|].
  intros [= <-]. cbn [fst snd]. intros Hls Hle.
  unfold snap_target. cbn [fst snd].
  split; [reflexivity|]. split; [exact Ho|]. split; [|split].
  - intros ->. cbn [andb] in Hls. apply negb_false_iff, Z.eqb_eq in Hls. exact Hls.
  - intros ->. cbn [andb] in Hle. apply negb_false_iff, Z.eqb_eq in Hle. exact Hle.
  - right. right. auto.
Qed.

(** X27: magnetic alignment of a block.  [snap_block_to_neighbors]
    either leaves the day view as it is and answers False, or answers True
    after moving the one block, without changing its duration, onto a free
    range that begins where a neighbour ends, ends where a neighbour begins
    or begins at the now line, within the snap threshold of where the block
    was, with a locked edge kept in place.  No other block is touched and the
    invariant of the store is kept. *)
Theorem snap_block_to_neighbors_outcome (b : nat)
    (allow_start allow_end lock_start lock_end : bool) (dv : DayView) :
  let r := snap_block_to_neighbors (Some b) allow_start allow_end lock_start lock_end dv in
  (r = (dv, false) \/
   (r.2 = true /\ magnetic_mode dv = true /\
    exists blk c, widget_by_id b (event_widgets dv) = Some blk /\
      snap_target dv blk lock_start lock_end c /\
      r.1 = with_event_widgets
              (update_widget b (with_range c.1.1 c.1.2) (event_widgets dv)) dv)) /\
  others_kept b (event_widgets dv) (event_widgets r.1) /\
  (NoDup (map wid (event_widgets dv)) -> store_ok (event_widgets dv) ->
   store_ok (event_widgets r.1)).
Proof.
  cbv zeta. split; [|split].
  2:{ apply snap_block_to_neighbors_others. }
  2:{ intros Hnd Hok. now apply snap_block_to_neighbors_store_ok. }
  unfold snap_block_to_neighbors.
  destruct (magnetic_mode dv); cbn [negb]; [|left; reflexivity].
  destruct (widget_by_id b (event_widgets dv)) as [blk|] eqn:Hb; [|left; reflexivity].
  destruct (widget_by_id_Some _ _ _ Hb) as [_ Hid].
  cbv zeta. rewrite <- Hid.
  set (duration := Z.max 1 (end_min blk - start_min blk)).
  set (best1 := foldl _ None (event_widgets dv)).
  assert (Hfold : match best1 with
                  | Some x => snap_target dv blk lock_start lock_end x
                  | None => True
                  end).
  { assert (Hgen : forall l best,
              (forall ev, ev ∈ l -> ev ∈ event_widgets dv) ->
              match best with
              | Some x => snap_target dv blk lock_start lock_end x
              | None => True
              end ->
              match foldl (neighbor_step dv blk allow_start allow_end lock_start lock_end
                             (_snap_threshold_minutes dv) duration) best l with
              | Some x => snap_target dv blk lock_start lock_end x
              | None => True
              end).
    { induction l as [|ev l IH]; intros best Hl Hbest; cbn [foldl]; [exact Hbest|].
      apply IH; [intros v Hv; apply Hl; now apply list_elem_of_further|].
      apply neighbor_step_target; [apply Hl, list_elem_of_here|exact Hbest]. }
    apply Hgen; [auto|exact I]. }
  clearbody best1.
  set (best2 := if allow_start then _ else best1).
  assert (Hbest : match best2 with
                  | Some x => snap_target dv blk lock_start lock_end x
                  | None => True
                  end).
  { unfold best2. destruct allow_start; [|exact Hfold].
    destruct (_now_line_snap_candidate dv (start_min blk) duration (Some (wid blk)))
      as [c|] eqn:Hc; [|exact Hfold].
    destruct (lock_start && _) eqn:Hls; [exact Hfold|].
    destruct (lock_end && _) eqn:Hle; [exact Hfold|].
    apply keep_best_inv; [exact Hfold|].
    now apply now_line_candidate_target. }
  clearbody best2. destruct best2 as [c|]; [right|left; reflexivity].
  cbn [fst snd]. split; [reflexivity|]. split; [reflexivity|].
  exists blk, c. rewrite Hid. auto.
Qed.
